(** * NJU3711: non-blocking serial-to-parallel driver and 3-digit multiplexer

    A shallow embedding of [NJU3711.cpp], [NJU3711_7Segment.cpp] and
    [NJU3711_7Segment_Multi.cpp].

    Conventions of the embedding:
    - machine integers are [Z]; every place where the C++ code wraps
      ([uint8_t], [int8_t], [unsigned long] of 32 bits) is written out
      with [u8], [s8] and [u32];
    - a method [T C::m(args)] becomes a function taking the object last and
      returning the new object (paired with the result when [T] is not void);
    - [micros()] is sampled once per call of a public method and passed as
      the argument [now];
    - [digitalWrite] is recorded in the [gpio] trace of the object (newest
      write first); the level of a pin is the newest level written to it;
    - the function-local statics [latchStep] and [clearStep] of
      [processStateMachine] are fields of the (single) driver object;
    - objects live in static storage, so members the constructors do not
      assign start zeroed. *)

From Stdlib Require Import ZArith Lia Bool List.
From stdpp Require Import base list.
Import ListNotations.
Open Scope Z_scope.

(** ** Machine words *)

Definition u8 (x : Z) : Z := x mod 256.
Definition s8 (x : Z) : Z := (x + 128) mod 256 - 128.
Definition u32 (x : Z) : Z := x mod 4294967296.

Definition HIGH : bool := true.
Definition LOW : bool := false.

(** Level of pin [p] after the writes in [w] (newest first); [None] when the
    pin was never written. *)
Fixpoint pinLevel (w : list (Z * bool)) (p : Z) : option bool :=
  match w with
  | [] => None
  | (q, v) :: w' => if q =? p then Some v else pinLevel w' p
  end.

(** ** NJU3711.h / NJU3711.cpp *)

Module Driver.

Inductive NJU3711_State : Type :=
  | NJU3711_IDLE
  | NJU3711_SHIFTING
  | NJU3711_LATCHING
  | NJU3711_CLEARING
  | NJU3711_TEST_PATTERN.

Inductive NJU3711_Operation : Type :=
  | NJU3711_OP_WRITE
  | NJU3711_OP_SHIFT_ONLY
  | NJU3711_OP_LATCH_ONLY
  | NJU3711_OP_CLEAR
  | NJU3711_OP_TEST_PATTERN.

Record OperationQueue : Type := Build_OperationQueue {
  operation : NJU3711_Operation;
  data : Z;
  valid : bool
}.

Record NJU3711 : Type := Build_NJU3711 {
  _dataPin : Z;  (* DATA pin *)
  _clockPin : Z;  (* CLK pin *)
  _strobePin : Z;  (* STB pin *)
  _clearPin : Z;  (* CLR pin (255 if hardware strapped HIGH) *)
  _currentData : Z;  (* uint8_t: current data stored in the device *)
  _state : NJU3711_State;
  _currentOperation : NJU3711_Operation;
  _shiftData : Z;  (* uint8_t: data being shifted *)
  _bitIndex : Z;  (* int8_t: current bit being shifted (7 to 0) *)
  _lastUpdateTime : Z;  (* unsigned long *)
  _stepDelay : Z;  (* unsigned long, microseconds *)
  _clockState : bool;
  _testPatternStep : Z;  (* uint8_t *)
  _testPatternType : Z;  (* uint8_t *)
  _testPatternDelay : Z;  (* unsigned long *)
  _operationQueue : list OperationQueue;  (* OperationQueue[8] *)
  _queueHead : Z;  (* uint8_t *)
  _queueTail : Z;  (* uint8_t *)
  _queueSize : Z;  (* uint8_t *)
  latchStep : bool;  (* static local of processStateMachine *)
  clearStep : bool;  (* static local of processStateMachine *)
  gpio : list (Z * bool)  (* levels written by digitalWrite, newest first *)
}.

Definition set_currentData (v : Z) (s : NJU3711) : NJU3711 :=
  Build_NJU3711 (_dataPin s) (_clockPin s) (_strobePin s) (_clearPin s) v (_state s)
    (_currentOperation s) (_shiftData s) (_bitIndex s) (_lastUpdateTime s) (_stepDelay s)
    (_clockState s) (_testPatternStep s) (_testPatternType s) (_testPatternDelay s)
    (_operationQueue s) (_queueHead s) (_queueTail s) (_queueSize s) (latchStep s) (clearStep s)
    (gpio s).
Definition set_state (v : NJU3711_State) (s : NJU3711) : NJU3711 :=
  Build_NJU3711 (_dataPin s) (_clockPin s) (_strobePin s) (_clearPin s) (_currentData s) v
    (_currentOperation s) (_shiftData s) (_bitIndex s) (_lastUpdateTime s) (_stepDelay s)
    (_clockState s) (_testPatternStep s) (_testPatternType s) (_testPatternDelay s)
    (_operationQueue s) (_queueHead s) (_queueTail s) (_queueSize s) (latchStep s) (clearStep s)
    (gpio s).
Definition set_currentOperation (v : NJU3711_Operation) (s : NJU3711) : NJU3711 :=
  Build_NJU3711 (_dataPin s) (_clockPin s) (_strobePin s) (_clearPin s) (_currentData s) (_state
    s) v (_shiftData s) (_bitIndex s) (_lastUpdateTime s) (_stepDelay s) (_clockState s)
    (_testPatternStep s) (_testPatternType s) (_testPatternDelay s) (_operationQueue s)
    (_queueHead s) (_queueTail s) (_queueSize s) (latchStep s) (clearStep s) (gpio s).
Definition set_shiftData (v : Z) (s : NJU3711) : NJU3711 :=
  Build_NJU3711 (_dataPin s) (_clockPin s) (_strobePin s) (_clearPin s) (_currentData s) (_state
    s) (_currentOperation s) v (_bitIndex s) (_lastUpdateTime s) (_stepDelay s) (_clockState s)
    (_testPatternStep s) (_testPatternType s) (_testPatternDelay s) (_operationQueue s)
    (_queueHead s) (_queueTail s) (_queueSize s) (latchStep s) (clearStep s) (gpio s).
Definition set_bitIndex (v : Z) (s : NJU3711) : NJU3711 :=
  Build_NJU3711 (_dataPin s) (_clockPin s) (_strobePin s) (_clearPin s) (_currentData s) (_state
    s) (_currentOperation s) (_shiftData s) v (_lastUpdateTime s) (_stepDelay s) (_clockState s)
    (_testPatternStep s) (_testPatternType s) (_testPatternDelay s) (_operationQueue s)
    (_queueHead s) (_queueTail s) (_queueSize s) (latchStep s) (clearStep s) (gpio s).
Definition set_lastUpdateTime (v : Z) (s : NJU3711) : NJU3711 :=
  Build_NJU3711 (_dataPin s) (_clockPin s) (_strobePin s) (_clearPin s) (_currentData s) (_state
    s) (_currentOperation s) (_shiftData s) (_bitIndex s) v (_stepDelay s) (_clockState s)
    (_testPatternStep s) (_testPatternType s) (_testPatternDelay s) (_operationQueue s)
    (_queueHead s) (_queueTail s) (_queueSize s) (latchStep s) (clearStep s) (gpio s).
Definition set_stepDelay (v : Z) (s : NJU3711) : NJU3711 :=
  Build_NJU3711 (_dataPin s) (_clockPin s) (_strobePin s) (_clearPin s) (_currentData s) (_state
    s) (_currentOperation s) (_shiftData s) (_bitIndex s) (_lastUpdateTime s) v (_clockState s)
    (_testPatternStep s) (_testPatternType s) (_testPatternDelay s) (_operationQueue s)
    (_queueHead s) (_queueTail s) (_queueSize s) (latchStep s) (clearStep s) (gpio s).
Definition set_clockState (v : bool) (s : NJU3711) : NJU3711 :=
  Build_NJU3711 (_dataPin s) (_clockPin s) (_strobePin s) (_clearPin s) (_currentData s) (_state
    s) (_currentOperation s) (_shiftData s) (_bitIndex s) (_lastUpdateTime s) (_stepDelay s) v
    (_testPatternStep s) (_testPatternType s) (_testPatternDelay s) (_operationQueue s)
    (_queueHead s) (_queueTail s) (_queueSize s) (latchStep s) (clearStep s) (gpio s).
Definition set_testPatternStep (v : Z) (s : NJU3711) : NJU3711 :=
  Build_NJU3711 (_dataPin s) (_clockPin s) (_strobePin s) (_clearPin s) (_currentData s) (_state
    s) (_currentOperation s) (_shiftData s) (_bitIndex s) (_lastUpdateTime s) (_stepDelay s)
    (_clockState s) v (_testPatternType s) (_testPatternDelay s) (_operationQueue s) (_queueHead
    s) (_queueTail s) (_queueSize s) (latchStep s) (clearStep s) (gpio s).
Definition set_testPatternType (v : Z) (s : NJU3711) : NJU3711 :=
  Build_NJU3711 (_dataPin s) (_clockPin s) (_strobePin s) (_clearPin s) (_currentData s) (_state
    s) (_currentOperation s) (_shiftData s) (_bitIndex s) (_lastUpdateTime s) (_stepDelay s)
    (_clockState s) (_testPatternStep s) v (_testPatternDelay s) (_operationQueue s) (_queueHead
    s) (_queueTail s) (_queueSize s) (latchStep s) (clearStep s) (gpio s).
Definition set_testPatternDelay (v : Z) (s : NJU3711) : NJU3711 :=
  Build_NJU3711 (_dataPin s) (_clockPin s) (_strobePin s) (_clearPin s) (_currentData s) (_state
    s) (_currentOperation s) (_shiftData s) (_bitIndex s) (_lastUpdateTime s) (_stepDelay s)
    (_clockState s) (_testPatternStep s) (_testPatternType s) v (_operationQueue s) (_queueHead
    s) (_queueTail s) (_queueSize s) (latchStep s) (clearStep s) (gpio s).
Definition set_operationQueue (v : list OperationQueue) (s : NJU3711) : NJU3711 :=
  Build_NJU3711 (_dataPin s) (_clockPin s) (_strobePin s) (_clearPin s) (_currentData s) (_state
    s) (_currentOperation s) (_shiftData s) (_bitIndex s) (_lastUpdateTime s) (_stepDelay s)
    (_clockState s) (_testPatternStep s) (_testPatternType s) (_testPatternDelay s) v
    (_queueHead s) (_queueTail s) (_queueSize s) (latchStep s) (clearStep s) (gpio s).
Definition set_queueHead (v : Z) (s : NJU3711) : NJU3711 :=
  Build_NJU3711 (_dataPin s) (_clockPin s) (_strobePin s) (_clearPin s) (_currentData s) (_state
    s) (_currentOperation s) (_shiftData s) (_bitIndex s) (_lastUpdateTime s) (_stepDelay s)
    (_clockState s) (_testPatternStep s) (_testPatternType s) (_testPatternDelay s)
    (_operationQueue s) v (_queueTail s) (_queueSize s) (latchStep s) (clearStep s) (gpio s).
Definition set_queueTail (v : Z) (s : NJU3711) : NJU3711 :=
  Build_NJU3711 (_dataPin s) (_clockPin s) (_strobePin s) (_clearPin s) (_currentData s) (_state
    s) (_currentOperation s) (_shiftData s) (_bitIndex s) (_lastUpdateTime s) (_stepDelay s)
    (_clockState s) (_testPatternStep s) (_testPatternType s) (_testPatternDelay s)
    (_operationQueue s) (_queueHead s) v (_queueSize s) (latchStep s) (clearStep s) (gpio s).
Definition set_queueSize (v : Z) (s : NJU3711) : NJU3711 :=
  Build_NJU3711 (_dataPin s) (_clockPin s) (_strobePin s) (_clearPin s) (_currentData s) (_state
    s) (_currentOperation s) (_shiftData s) (_bitIndex s) (_lastUpdateTime s) (_stepDelay s)
    (_clockState s) (_testPatternStep s) (_testPatternType s) (_testPatternDelay s)
    (_operationQueue s) (_queueHead s) (_queueTail s) v (latchStep s) (clearStep s) (gpio s).
Definition set_latchStep (v : bool) (s : NJU3711) : NJU3711 :=
  Build_NJU3711 (_dataPin s) (_clockPin s) (_strobePin s) (_clearPin s) (_currentData s) (_state
    s) (_currentOperation s) (_shiftData s) (_bitIndex s) (_lastUpdateTime s) (_stepDelay s)
    (_clockState s) (_testPatternStep s) (_testPatternType s) (_testPatternDelay s)
    (_operationQueue s) (_queueHead s) (_queueTail s) (_queueSize s) v (clearStep s) (gpio s).
Definition set_clearStep (v : bool) (s : NJU3711) : NJU3711 :=
  Build_NJU3711 (_dataPin s) (_clockPin s) (_strobePin s) (_clearPin s) (_currentData s) (_state
    s) (_currentOperation s) (_shiftData s) (_bitIndex s) (_lastUpdateTime s) (_stepDelay s)
    (_clockState s) (_testPatternStep s) (_testPatternType s) (_testPatternDelay s)
    (_operationQueue s) (_queueHead s) (_queueTail s) (_queueSize s) (latchStep s) v (gpio s).
Definition set_gpio (v : list (Z * bool)) (s : NJU3711) : NJU3711 :=
  Build_NJU3711 (_dataPin s) (_clockPin s) (_strobePin s) (_clearPin s) (_currentData s) (_state
    s) (_currentOperation s) (_shiftData s) (_bitIndex s) (_lastUpdateTime s) (_stepDelay s)
    (_clockState s) (_testPatternStep s) (_testPatternType s) (_testPatternDelay s)
    (_operationQueue s) (_queueHead s) (_queueTail s) (_queueSize s) (latchStep s) (clearStep s)
    v.

Definition state_eqb (a b : NJU3711_State) : bool :=
  match a, b with
  | NJU3711_IDLE, NJU3711_IDLE
  | NJU3711_SHIFTING, NJU3711_SHIFTING
  | NJU3711_LATCHING, NJU3711_LATCHING
  | NJU3711_CLEARING, NJU3711_CLEARING
  | NJU3711_TEST_PATTERN, NJU3711_TEST_PATTERN => true
  | _, _ => false
  end.

Definition digitalWrite (pin : Z) (level : bool) (s : NJU3711) : NJU3711 :=
  set_gpio ((pin, level) :: gpio s) s.

Definition zeroEntry : OperationQueue :=
  {| operation := NJU3711_OP_WRITE; data := 0; valid := false |}.

(** [NJU3711::NJU3711(dataPin, clockPin, strobePin, clearPin)] *)
Definition NJU3711_new4 (dataPin clockPin strobePin clearPin : Z) : NJU3711 :=
  {| _dataPin := dataPin;
     _clockPin := clockPin;
     _strobePin := strobePin;
     _clearPin := clearPin;
     _currentData := 0;
     _state := NJU3711_IDLE;
     _currentOperation := NJU3711_OP_WRITE;
     _shiftData := 0;
     _bitIndex := 0;
     _lastUpdateTime := 0;
     _stepDelay := 1;
     _clockState := false;
     _testPatternStep := 0;
     _testPatternType := 0;
     _testPatternDelay := 500000;
     _operationQueue := replicate 8 zeroEntry;
     _queueHead := 0;
     _queueTail := 0;
     _queueSize := 0;
     latchStep := false;
     clearStep := false;
     gpio := [] |}.

(** [NJU3711::NJU3711(dataPin, clockPin, strobePin)]: CLR strapped HIGH. *)
Definition NJU3711_new3 (dataPin clockPin strobePin : Z) : NJU3711 :=
  NJU3711_new4 dataPin clockPin strobePin 255.

Definition isBusy (s : NJU3711) : bool :=
  negb (state_eqb (_state s) NJU3711_IDLE) || (0 <? _queueSize s).

Definition setStepDelay (delayMicros : Z) (s : NJU3711) : NJU3711 :=
  set_stepDelay delayMicros s.

Definition isTimingMet (now : Z) (s : NJU3711) : bool :=
  _stepDelay s <=? u32 (now - _lastUpdateTime s).

Definition updateClock (now : Z) (state : bool) (s : NJU3711) : NJU3711 :=
  if negb (Bool.eqb (_clockState s) state) then
    let s := digitalWrite (_clockPin s) (if state then HIGH else LOW) s in
    let s := set_clockState state s in
    set_lastUpdateTime now s
  else s.

Definition enqueueOperation (op : NJU3711_Operation) (d : Z) (s : NJU3711)
  : bool * NJU3711 :=
  if 8 <=? _queueSize s then (false, s)
  else
    let e := {| operation := op; data := d; valid := true |} in
    let s := set_operationQueue (<[Z.to_nat (_queueTail s) := e]> (_operationQueue s)) s in
    let s := set_queueTail ((_queueTail s + 1) mod 8) s in
    let s := set_queueSize (u8 (_queueSize s + 1)) s in
    (true, s).

Definition dequeueOperation (s : NJU3711)
  : option (NJU3711_Operation * Z * NJU3711) :=
  if _queueSize s =? 0 then None
  else
    match _operationQueue s !! Z.to_nat (_queueHead s) with
    | None => None
    | Some e =>
        let op := operation e in
        let d := data e in
        let e' := {| operation := operation e; data := data e; valid := false |} in
        let s := set_operationQueue (<[Z.to_nat (_queueHead s) := e']> (_operationQueue s)) s in
        let s := set_queueHead ((_queueHead s + 1) mod 8) s in
        let s := set_queueSize (u8 (_queueSize s - 1)) s in
        Some (op, d, s)
    end.

Definition startOperation (op : NJU3711_Operation) (d : Z) (s : NJU3711) : NJU3711 :=
  let s := set_currentOperation op s in
  match op with
  | NJU3711_OP_WRITE | NJU3711_OP_SHIFT_ONLY =>
      let s := set_shiftData d s in
      let s := set_currentData d s in
      let s := set_bitIndex 7 s in
      let s := set_state NJU3711_SHIFTING s in
      digitalWrite (_strobePin s) HIGH s
  | NJU3711_OP_LATCH_ONLY => set_state NJU3711_LATCHING s
  | NJU3711_OP_CLEAR => set_state NJU3711_CLEARING s
  | NJU3711_OP_TEST_PATTERN => s
  end.

Definition stopTestPattern (s : NJU3711) : NJU3711 :=
  if state_eqb (_state s) NJU3711_TEST_PATTERN then set_state NJU3711_IDLE s else s.

Definition write (d : Z) (s : NJU3711) : bool * NJU3711 :=
  let s := if state_eqb (_state s) NJU3711_TEST_PATTERN then stopTestPattern s else s in
  enqueueOperation NJU3711_OP_WRITE d s.

Definition writeImmediate (d : Z) (s : NJU3711) : bool * NJU3711 := write d s.

Definition shift (d : Z) (s : NJU3711) : bool * NJU3711 :=
  let s := if state_eqb (_state s) NJU3711_TEST_PATTERN then stopTestPattern s else s in
  enqueueOperation NJU3711_OP_SHIFT_ONLY d s.

Definition latch (s : NJU3711) : bool * NJU3711 :=
  let s := if state_eqb (_state s) NJU3711_TEST_PATTERN then stopTestPattern s else s in
  enqueueOperation NJU3711_OP_LATCH_ONLY 0 s.

Definition clear (s : NJU3711) : bool * NJU3711 :=
  let s := if state_eqb (_state s) NJU3711_TEST_PATTERN then stopTestPattern s else s in
  enqueueOperation NJU3711_OP_CLEAR 0 s.

Definition setBit (bitPosition : Z) (s : NJU3711) : bool * NJU3711 :=
  if 7 <? bitPosition then (false, s)
  else
    let s := if state_eqb (_state s) NJU3711_TEST_PATTERN then stopTestPattern s else s in
    let newData := u8 (Z.lor (_currentData s) (Z.shiftl 1 bitPosition)) in
    write newData s.

Definition clearBit (bitPosition : Z) (s : NJU3711) : bool * NJU3711 :=
  if 7 <? bitPosition then (false, s)
  else
    let s := if state_eqb (_state s) NJU3711_TEST_PATTERN then stopTestPattern s else s in
    let newData := u8 (Z.land (_currentData s) (Z.lnot (Z.shiftl 1 bitPosition))) in
    write newData s.

Definition toggleBit (bitPosition : Z) (s : NJU3711) : bool * NJU3711 :=
  if 7 <? bitPosition then (false, s)
  else
    let s := if state_eqb (_state s) NJU3711_TEST_PATTERN then stopTestPattern s else s in
    let newData := u8 (Z.lxor (_currentData s) (Z.shiftl 1 bitPosition)) in
    write newData s.

Definition writeBit (bitPosition : Z) (value : bool) (s : NJU3711) : bool * NJU3711 :=
  if value then setBit bitPosition s else clearBit bitPosition s.

Definition getCurrentData (s : NJU3711) : Z := _currentData s.

Definition getQueueSize (s : NJU3711) : Z := _queueSize s.

Definition clearQueue (s : NJU3711) : NJU3711 :=
  let s := set_queueHead 0 s in
  let s := set_queueTail 0 s in
  let s := set_queueSize 0 s in
  set_operationQueue
    (map (fun e => {| operation := operation e; data := data e; valid := false |})
         (_operationQueue s)) s.

Definition startTestPattern (now : Z) (patternType patternDelay : Z) (s : NJU3711)
  : bool * NJU3711 :=
  if isBusy s then (false, s)
  else
    let s := set_testPatternType patternType s in
    let s := set_testPatternDelay patternDelay s in
    let s := set_testPatternStep 0 s in
    let s := set_state NJU3711_TEST_PATTERN s in
    let s := set_lastUpdateTime now s in
    (true, s).

(** [!x] on a [uint8_t], stored back into a [uint8_t]. *)
Definition lognot8 (x : Z) : Z := if x =? 0 then 1 else 0.

Definition processStateMachine (now : Z) (s : NJU3711) : NJU3711 :=
  if negb (isTimingMet now s) then s
  else
    match _state s with
    | NJU3711_IDLE =>
        match dequeueOperation s with
        | Some (nextOp, nextData, s) => startOperation nextOp nextData s
        | None => s
        end
    | NJU3711_SHIFTING =>
        if Bool.eqb (_clockState s) false then
          let bitValue := negb (Z.land (Z.shiftr (_shiftData s) (_bitIndex s)) 1 =? 0) in
          let s := digitalWrite (_dataPin s) (if bitValue then HIGH else LOW) s in
          updateClock now true s
        else
          let s := updateClock now false s in
          let s := set_bitIndex (s8 (_bitIndex s - 1)) s in
          if _bitIndex s <? 0 then
            match _currentOperation s with
            | NJU3711_OP_WRITE => set_state NJU3711_LATCHING s
            | _ => set_state NJU3711_IDLE s
            end
          else s
    | NJU3711_LATCHING =>
        if negb (latchStep s) then
          let s := digitalWrite (_strobePin s) LOW s in
          let s := set_latchStep true s in
          set_lastUpdateTime now s
        else
          let s := digitalWrite (_strobePin s) HIGH s in
          let s := set_latchStep false s in
          set_state NJU3711_IDLE s
    | NJU3711_CLEARING =>
        if negb (_clearPin s =? 255) then
          if negb (clearStep s) then
            let s := digitalWrite (_clearPin s) LOW s in
            let s := set_clearStep true s in
            set_lastUpdateTime now s
          else
            let s := digitalWrite (_clearPin s) HIGH s in
            let s := set_clearStep false s in
            let s := set_currentData 0 s in
            set_state NJU3711_IDLE s
        else
          let '(ok, s) := enqueueOperation NJU3711_OP_WRITE 0 s in
          let s := if ok then set_currentData 0 s else s in
          set_state NJU3711_IDLE s
    | NJU3711_TEST_PATTERN =>
        if _testPatternDelay s <=? u32 (now - _lastUpdateTime s) then
          let s :=
            match _testPatternType s with
            | 1 =>
                let '(_, s') := write (if negb (_testPatternStep s =? 0) then 255 else 0) s in
                set_testPatternStep (lognot8 (_testPatternStep s')) s'
            | 2 =>
                let '(_, s') := write (if negb (_testPatternStep s =? 0) then 170 else 85) s in
                set_testPatternStep (lognot8 (_testPatternStep s')) s'
            | 3 =>
                let '(_, s') := write (u8 (Z.shiftl 1 (_testPatternStep s mod 8))) s in
                set_testPatternStep (u8 (_testPatternStep s' + 1)) s'
            | 4 =>
                let '(_, s') := write (_testPatternStep s) s in
                set_testPatternStep (u8 (_testPatternStep s' + 1)) s'
            | _ => s
            end in
          set_lastUpdateTime now s
        else s
    end.

Definition update (now : Z) (s : NJU3711) : NJU3711 := processStateMachine now s.

(** [NJU3711::begin]; [pinMode] has no effect on the modelled state. *)
Definition begin (now : Z) (s : NJU3711) : NJU3711 :=
  let s := digitalWrite (_dataPin s) LOW s in
  let s := digitalWrite (_clockPin s) LOW s in
  let s := digitalWrite (_strobePin s) HIGH s in
  let s := if negb (_clearPin s =? 255) then digitalWrite (_clearPin s) HIGH s else s in
  let s := set_lastUpdateTime now s in
  let s := set_state NJU3711_IDLE s in
  snd (clear s).

End Driver.

(** ** NJU3711_7Segment.h / NJU3711_7Segment.cpp *)

Module Seg7.

Inductive DisplayMode : Type :=
  | ACTIVE_LOW
  | ACTIVE_HIGH.

Inductive AnimationType : Type :=
  | ANIM_ROTATE_CW
  | ANIM_ROTATE_CCW
  | ANIM_BLINK
  | ANIM_FADE
  | ANIM_CHASE
  | ANIM_LOADING.

Definition SEG_A : Z := 7.
Definition SEG_B : Z := 5.
Definition SEG_C : Z := 2.
Definition SEG_D : Z := 1.
Definition SEG_E : Z := 3.
Definition SEG_F : Z := 6.
Definition SEG_G : Z := 4.
Definition SEG_DP : Z := 0.

Definition DIGIT_PATTERNS : list Z :=
  [ 238; 36; 186; 182; 116; 214; 222; 164; 254; 246 ].

Definition HEX_PATTERNS : list Z :=
  [ 252; 94; 202; 62; 218; 216 ].

Definition CHAR_PATTERNS : list Z :=
  [ 252; 94; 202; 62; 218; 216; 16; 16; 16; 16; 16; 16; 16;
    16; 16; 16; 16; 24; 16; 16; 16; 16; 16; 16; 16; 16 ].

Definition PATTERN_MINUS : Z := 16.
Definition PATTERN_UNDERSCORE : Z := 2.
Definition PATTERN_DEGREE : Z := 240.
Definition PATTERN_BLANK : Z := 0.
Definition PATTERN_ALL : Z := 255.
Definition PATTERN_ERROR : Z := 218.

(** Read of a constant table; the callers guard the index. *)
Definition tableAt (t : list Z) (i : Z) : Z := default 0 (t !! Z.to_nat i).

Record NJU3711_7Segment : Type := Build_NJU3711_7Segment {
  base : Driver.NJU3711;  (* the NJU3711 base-class subobject *)
  _displayMode : DisplayMode;
  _decimalPointState : bool;
  _brightness : Z;  (* uint8_t *)
  _animationActive : bool;
  _currentAnimation : AnimationType;
  _animationDelay : Z;  (* unsigned long *)
  _lastAnimationUpdate : Z;  (* unsigned long *)
  _animationStep : Z;  (* uint8_t *)
  _animationValue : Z  (* uint8_t *)
}.

Definition seg_set_base (v : Driver.NJU3711) (d : NJU3711_7Segment) : NJU3711_7Segment :=
  Build_NJU3711_7Segment v (_displayMode d) (_decimalPointState d) (_brightness d)
    (_animationActive d) (_currentAnimation d) (_animationDelay d) (_lastAnimationUpdate d)
    (_animationStep d) (_animationValue d).
Definition seg_set_displayMode (v : DisplayMode) (d : NJU3711_7Segment) : NJU3711_7Segment :=
  Build_NJU3711_7Segment (base d) v (_decimalPointState d) (_brightness d) (_animationActive d)
    (_currentAnimation d) (_animationDelay d) (_lastAnimationUpdate d) (_animationStep d)
    (_animationValue d).
Definition seg_set_decimalPointState (v : bool) (d : NJU3711_7Segment) : NJU3711_7Segment :=
  Build_NJU3711_7Segment (base d) (_displayMode d) v (_brightness d) (_animationActive d)
    (_currentAnimation d) (_animationDelay d) (_lastAnimationUpdate d) (_animationStep d)
    (_animationValue d).
Definition seg_set_brightness (v : Z) (d : NJU3711_7Segment) : NJU3711_7Segment :=
  Build_NJU3711_7Segment (base d) (_displayMode d) (_decimalPointState d) v (_animationActive d)
    (_currentAnimation d) (_animationDelay d) (_lastAnimationUpdate d) (_animationStep d)
    (_animationValue d).
Definition seg_set_animationActive (v : bool) (d : NJU3711_7Segment) : NJU3711_7Segment :=
  Build_NJU3711_7Segment (base d) (_displayMode d) (_decimalPointState d) (_brightness d) v
    (_currentAnimation d) (_animationDelay d) (_lastAnimationUpdate d) (_animationStep d)
    (_animationValue d).
Definition seg_set_currentAnimation (v : AnimationType) (d : NJU3711_7Segment) : NJU3711_7Segment :=
  Build_NJU3711_7Segment (base d) (_displayMode d) (_decimalPointState d) (_brightness d)
    (_animationActive d) v (_animationDelay d) (_lastAnimationUpdate d) (_animationStep d)
    (_animationValue d).
Definition seg_set_animationDelay (v : Z) (d : NJU3711_7Segment) : NJU3711_7Segment :=
  Build_NJU3711_7Segment (base d) (_displayMode d) (_decimalPointState d) (_brightness d)
    (_animationActive d) (_currentAnimation d) v (_lastAnimationUpdate d) (_animationStep d)
    (_animationValue d).
Definition seg_set_lastAnimationUpdate (v : Z) (d : NJU3711_7Segment) : NJU3711_7Segment :=
  Build_NJU3711_7Segment (base d) (_displayMode d) (_decimalPointState d) (_brightness d)
    (_animationActive d) (_currentAnimation d) (_animationDelay d) v (_animationStep d)
    (_animationValue d).
Definition seg_set_animationStep (v : Z) (d : NJU3711_7Segment) : NJU3711_7Segment :=
  Build_NJU3711_7Segment (base d) (_displayMode d) (_decimalPointState d) (_brightness d)
    (_animationActive d) (_currentAnimation d) (_animationDelay d) (_lastAnimationUpdate d) v
    (_animationValue d).
Definition seg_set_animationValue (v : Z) (d : NJU3711_7Segment) : NJU3711_7Segment :=
  Build_NJU3711_7Segment (base d) (_displayMode d) (_decimalPointState d) (_brightness d)
    (_animationActive d) (_currentAnimation d) (_animationDelay d) (_lastAnimationUpdate d)
    (_animationStep d) v.

Definition mode_eqb (a b : DisplayMode) : bool :=
  match a, b with
  | ACTIVE_LOW, ACTIVE_LOW | ACTIVE_HIGH, ACTIVE_HIGH => true
  | _, _ => false
  end.

Definition NJU3711_7Segment_new3 (dataPin clockPin strobePin : Z) (mode : DisplayMode)
  : NJU3711_7Segment :=
  {| base := Driver.NJU3711_new3 dataPin clockPin strobePin;
     _displayMode := mode;
     _decimalPointState := false;
     _brightness := 255;
     _animationActive := false;
     _currentAnimation := ANIM_ROTATE_CW;
     _animationDelay := 100000;
     _lastAnimationUpdate := 0;
     _animationStep := 0;
     _animationValue := 0 |}.

Definition NJU3711_7Segment_new4 (dataPin clockPin strobePin clearPin : Z)
  (mode : DisplayMode) : NJU3711_7Segment :=
  {| base := Driver.NJU3711_new4 dataPin clockPin strobePin clearPin;
     _displayMode := mode;
     _decimalPointState := false;
     _brightness := 255;
     _animationActive := false;
     _currentAnimation := ANIM_ROTATE_CW;
     _animationDelay := 100000;
     _lastAnimationUpdate := 0;
     _animationStep := 0;
     _animationValue := 0 |}.

(** Inherited [NJU3711::write] called on the derived object. *)
Definition write (v : Z) (d : NJU3711_7Segment) : bool * NJU3711_7Segment :=
  let '(ok, b) := Driver.write v (base d) in (ok, seg_set_base b d).

Definition isBusy (d : NJU3711_7Segment) : bool := Driver.isBusy (base d).

Definition applyDisplayMode (segmentData : Z) (d : NJU3711_7Segment) : Z :=
  if mode_eqb (_displayMode d) ACTIVE_LOW then u8 (Z.lnot segmentData) else segmentData.

Definition getDigitPattern (digit : Z) : Z :=
  if 9 <? digit then PATTERN_BLANK else tableAt DIGIT_PATTERNS digit.

Definition getHexPattern (hexValue : Z) : Z :=
  if hexValue <=? 9 then tableAt DIGIT_PATTERNS hexValue
  else if hexValue <=? 15 then tableAt HEX_PATTERNS (hexValue - 10)
  else PATTERN_BLANK.

(** [character] is the character code. *)
Definition getCharPattern (character : Z) : Z :=
  let character :=
    if (97 <=? character) && (character <=? 122) then character - 97 + 65 else character in
  if (48 <=? character) && (character <=? 57) then getDigitPattern (character - 48)
  else if (65 <=? character) && (character <=? 90) then tableAt CHAR_PATTERNS (character - 65)
  else if character =? 45 then PATTERN_MINUS
  else if character =? 95 then PATTERN_UNDERSCORE
  else PATTERN_BLANK.

Definition getDisplayMode (d : NJU3711_7Segment) : DisplayMode := _displayMode d.

Definition setDisplayMode (mode : DisplayMode) (d : NJU3711_7Segment) : NJU3711_7Segment :=
  seg_set_displayMode mode d.

Definition stopAnimation (d : NJU3711_7Segment) : NJU3711_7Segment :=
  seg_set_animationActive false d.

Definition isAnimating (d : NJU3711_7Segment) : bool := _animationActive d.

Definition startAnimation (now : Z) (type : AnimationType) (animDelay : Z)
  (d : NJU3711_7Segment) : bool * NJU3711_7Segment :=
  if isBusy d then (false, d)
  else
    let d := seg_set_currentAnimation type d in
    let d := seg_set_animationDelay animDelay d in
    let d := seg_set_animationStep 0 d in
    let d := seg_set_animationActive true d in
    let d := seg_set_lastAnimationUpdate now d in
    (true, d).

Definition displayDigit (digit : Z) (showDP : bool) (d : NJU3711_7Segment)
  : bool * NJU3711_7Segment :=
  let d := if _animationActive d then stopAnimation d else d in
  let pattern := getDigitPattern digit in
  let pattern := if showDP then Z.lor pattern (Z.shiftl 1 SEG_DP) else pattern in
  let d := seg_set_decimalPointState showDP d in
  write (applyDisplayMode pattern d) d.

Definition displayRaw (segmentMask : Z) (showDP : bool) (d : NJU3711_7Segment)
  : bool * NJU3711_7Segment :=
  let d := if _animationActive d then stopAnimation d else d in
  let segmentMask := if showDP then Z.lor segmentMask (Z.shiftl 1 SEG_DP) else segmentMask in
  let d := seg_set_decimalPointState showDP d in
  write (applyDisplayMode segmentMask d) d.

Definition displayBlank (d : NJU3711_7Segment) : bool * NJU3711_7Segment :=
  let d := if _animationActive d then stopAnimation d else d in
  let d := seg_set_decimalPointState false d in
  write (applyDisplayMode PATTERN_BLANK d) d.

Definition segmentsCW : list Z := [SEG_A; SEG_B; SEG_C; SEG_D; SEG_E; SEG_F].
Definition segmentsCCW : list Z := [SEG_A; SEG_F; SEG_E; SEG_D; SEG_C; SEG_B].

(** The [for] loop of [ANIM_CHASE]: [i] runs over 0, 1, 2. *)
Definition chasePattern (step : Z) : Z :=
  fold_left (fun pattern i => Z.lor pattern (Z.shiftl 1 (tableAt segmentsCW ((step + i) mod 6))))
            [0; 1; 2] 0.

(** The [for] loop of [ANIM_LOADING]: [i] runs over 0 .. step % 7. *)
Definition loadingPattern (step : Z) : Z :=
  fold_left (fun pattern i =>
               if i <? 6 then Z.lor pattern (Z.shiftl 1 (tableAt segmentsCW i)) else pattern)
            (map Z.of_nat (seq 0 (Z.to_nat (step mod 7 + 1)))) 0.

Definition processAnimation (now : Z) (d : NJU3711_7Segment) : NJU3711_7Segment :=
  if negb (_animationActive d) then d
  else if u32 (now - _lastAnimationUpdate d) <? _animationDelay d then d
  else
    let d :=
      match _currentAnimation d with
      | ANIM_ROTATE_CW =>
          let pattern := Z.shiftl 1 (tableAt segmentsCW (_animationStep d mod 6)) in
          let '(_, d) := write (applyDisplayMode pattern d) d in
          seg_set_animationStep (u8 (_animationStep d + 1)) d
      | ANIM_ROTATE_CCW =>
          let pattern := Z.shiftl 1 (tableAt segmentsCCW (_animationStep d mod 6)) in
          let '(_, d) := write (applyDisplayMode pattern d) d in
          seg_set_animationStep (u8 (_animationStep d + 1)) d
      | ANIM_BLINK =>
          let '(_, d) :=
            if _animationStep d mod 2 =? 0 then displayDigit (_animationValue d) false d
            else displayBlank d in
          seg_set_animationStep (u8 (_animationStep d + 1)) d
      | ANIM_FADE => d
      | ANIM_CHASE =>
          let '(_, d) := write (applyDisplayMode (chasePattern (_animationStep d)) d) d in
          seg_set_animationStep (u8 (_animationStep d + 1)) d
      | ANIM_LOADING =>
          let '(_, d) := write (applyDisplayMode (loadingPattern (_animationStep d)) d) d in
          let d := seg_set_animationStep (u8 (_animationStep d + 1)) d in
          if 12 <=? _animationStep d then seg_set_animationStep 0 d else d
      end in
    seg_set_lastAnimationUpdate now d.

Definition update (now : Z) (d : NJU3711_7Segment) : NJU3711_7Segment :=
  let d := seg_set_base (Driver.update now (base d)) d in
  if _animationActive d then processAnimation now d else d.

(** [begin] is inherited from [NJU3711] unchanged. *)
Definition begin (now : Z) (d : NJU3711_7Segment) : NJU3711_7Segment :=
  seg_set_base (Driver.begin now (base d)) d.

(** Inherited [NJU3711::writeBit] and [NJU3711::toggleBit] called on the
    derived object. *)
Definition writeBit (bitPosition : Z) (value : bool) (d : NJU3711_7Segment)
  : bool * NJU3711_7Segment :=
  let '(ok, b) := Driver.writeBit bitPosition value (base d) in (ok, seg_set_base b d).

Definition toggleBit (bitPosition : Z) (d : NJU3711_7Segment) : bool * NJU3711_7Segment :=
  let '(ok, b) := Driver.toggleBit bitPosition (base d) in (ok, seg_set_base b d).

Definition displayHex (hexValue : Z) (showDP : bool) (d : NJU3711_7Segment)
  : bool * NJU3711_7Segment :=
  let d := if _animationActive d then stopAnimation d else d in
  let pattern := getHexPattern hexValue in
  let pattern := if showDP then Z.lor pattern (Z.shiftl 1 SEG_DP) else pattern in
  let d := seg_set_decimalPointState showDP d in
  write (applyDisplayMode pattern d) d.

Definition displayChar (character : Z) (showDP : bool) (d : NJU3711_7Segment)
  : bool * NJU3711_7Segment :=
  let d := if _animationActive d then stopAnimation d else d in
  let pattern := getCharPattern character in
  let pattern := if showDP then Z.lor pattern (Z.shiftl 1 SEG_DP) else pattern in
  let d := seg_set_decimalPointState showDP d in
  write (applyDisplayMode pattern d) d.

Definition setSegment (segment : Z) (state : bool) (d : NJU3711_7Segment)
  : bool * NJU3711_7Segment :=
  if 7 <? segment then (false, d)
  else
    let d := if _animationActive d then stopAnimation d else d in
    let d := if segment =? SEG_DP then seg_set_decimalPointState state d else d in
    writeBit segment (if mode_eqb (_displayMode d) ACTIVE_LOW then negb state else state) d.

Definition clearSegment (segment : Z) (d : NJU3711_7Segment) : bool * NJU3711_7Segment :=
  setSegment segment false d.

Definition toggleSegment (segment : Z) (d : NJU3711_7Segment) : bool * NJU3711_7Segment :=
  if 7 <? segment then (false, d)
  else
    let d := if _animationActive d then stopAnimation d else d in
    let d :=
      if segment =? SEG_DP
      then seg_set_decimalPointState (negb (_decimalPointState d)) d else d in
    toggleBit segment d.

Definition setDecimalPoint (state : bool) (d : NJU3711_7Segment) : bool * NJU3711_7Segment :=
  setSegment SEG_DP state d.

Definition toggleDecimalPoint (d : NJU3711_7Segment) : bool * NJU3711_7Segment :=
  toggleSegment SEG_DP d.

Definition getDecimalPointState (d : NJU3711_7Segment) : bool := _decimalPointState d.

Definition displayAll (d : NJU3711_7Segment) : bool * NJU3711_7Segment :=
  let d := if _animationActive d then stopAnimation d else d in
  let d := seg_set_decimalPointState true d in
  write (applyDisplayMode PATTERN_ALL d) d.

Definition displayMinus (d : NJU3711_7Segment) : bool * NJU3711_7Segment :=
  let d := if _animationActive d then stopAnimation d else d in
  let d := seg_set_decimalPointState false d in
  write (applyDisplayMode PATTERN_MINUS d) d.

Definition displayUnderscore (d : NJU3711_7Segment) : bool * NJU3711_7Segment :=
  let d := if _animationActive d then stopAnimation d else d in
  let d := seg_set_decimalPointState false d in
  write (applyDisplayMode PATTERN_UNDERSCORE d) d.

Definition displayDegree (d : NJU3711_7Segment) : bool * NJU3711_7Segment :=
  let d := if _animationActive d then stopAnimation d else d in
  let d := seg_set_decimalPointState false d in
  write (applyDisplayMode PATTERN_DEGREE d) d.

Definition displayError (d : NJU3711_7Segment) : bool * NJU3711_7Segment :=
  let d := if _animationActive d then stopAnimation d else d in
  let d := seg_set_decimalPointState false d in
  write (applyDisplayMode PATTERN_ERROR d) d.

(** ['F'] is 70, ['O'] is 79. *)
Definition displayOff (d : NJU3711_7Segment) : bool * NJU3711_7Segment :=
  displayChar 70 false d.

Definition displayOn (d : NJU3711_7Segment) : bool * NJU3711_7Segment :=
  displayChar 79 false d.

Definition test (now : Z) (d : NJU3711_7Segment) : bool * NJU3711_7Segment :=
  if isBusy d then (false, d) else startAnimation now ANIM_LOADING 200000 d.

Definition countdown (from to stepDelay : Z) (d : NJU3711_7Segment)
  : bool * NJU3711_7Segment :=
  displayDigit from false d.

Definition countup (from to stepDelay : Z) (d : NJU3711_7Segment)
  : bool * NJU3711_7Segment :=
  displayDigit from false d.

End Seg7.

(** ** NJU3711_7Segment_Multi.h / NJU3711_7Segment_Multi.cpp *)

Module Multi.

Import Seg7.

Inductive MultiplexState : Type :=
  | MPLEX_IDLE
  | MPLEX_TURN_OFF_DIGITS
  | MPLEX_WAIT_BLANKING
  | MPLEX_WRITE_DATA
  | MPLEX_WAIT_DATA
  | MPLEX_TURN_ON_DIGIT
  | MPLEX_DISPLAY_DIGIT.

Record NJU3711_7Segment_Multi : Type := Build_NJU3711_7Segment_Multi {
  seg : Seg7.NJU3711_7Segment;  (* the NJU3711_7Segment base-class subobject *)
  _digitPins : list Z;  (* uint8_t[3] *)
  _digitData : list Z;  (* uint8_t[3]: segment data for each digit *)
  _digitDP : list bool;  (* bool[3] *)
  _digitEnabled : list bool;  (* bool[3] *)
  _mplexState : MultiplexState;
  _currentDigit : Z;  (* uint8_t: currently active digit (0-2) *)
  _nextDigit : Z;  (* uint8_t: next digit to display *)
  _lastMultiplexTime : Z;  (* unsigned long *)
  _lastStateTime : Z;  (* unsigned long *)
  _multiplexDelay : Z;  (* unsigned long *)
  _blankingTime : Z;  (* unsigned long *)
  _multiplexEnabled : bool;
  _displayValue : Z;  (* uint16_t *)
  _leadingZeros : bool;
  _blankOnZero : bool
}.

Definition mux_set_seg (v : Seg7.NJU3711_7Segment) (m : NJU3711_7Segment_Multi) : NJU3711_7Segment_Multi :=
  Build_NJU3711_7Segment_Multi v (_digitPins m) (_digitData m) (_digitDP m) (_digitEnabled m)
    (_mplexState m) (_currentDigit m) (_nextDigit m) (_lastMultiplexTime m) (_lastStateTime m)
    (_multiplexDelay m) (_blankingTime m) (_multiplexEnabled m) (_displayValue m) (_leadingZeros
    m) (_blankOnZero m).
Definition mux_set_digitPins (v : list Z) (m : NJU3711_7Segment_Multi) : NJU3711_7Segment_Multi :=
  Build_NJU3711_7Segment_Multi (seg m) v (_digitData m) (_digitDP m) (_digitEnabled m)
    (_mplexState m) (_currentDigit m) (_nextDigit m) (_lastMultiplexTime m) (_lastStateTime m)
    (_multiplexDelay m) (_blankingTime m) (_multiplexEnabled m) (_displayValue m) (_leadingZeros
    m) (_blankOnZero m).
Definition mux_set_digitData (v : list Z) (m : NJU3711_7Segment_Multi) : NJU3711_7Segment_Multi :=
  Build_NJU3711_7Segment_Multi (seg m) (_digitPins m) v (_digitDP m) (_digitEnabled m)
    (_mplexState m) (_currentDigit m) (_nextDigit m) (_lastMultiplexTime m) (_lastStateTime m)
    (_multiplexDelay m) (_blankingTime m) (_multiplexEnabled m) (_displayValue m) (_leadingZeros
    m) (_blankOnZero m).
Definition mux_set_digitDP (v : list bool) (m : NJU3711_7Segment_Multi) : NJU3711_7Segment_Multi :=
  Build_NJU3711_7Segment_Multi (seg m) (_digitPins m) (_digitData m) v (_digitEnabled m)
    (_mplexState m) (_currentDigit m) (_nextDigit m) (_lastMultiplexTime m) (_lastStateTime m)
    (_multiplexDelay m) (_blankingTime m) (_multiplexEnabled m) (_displayValue m) (_leadingZeros
    m) (_blankOnZero m).
Definition mux_set_digitEnabled (v : list bool) (m : NJU3711_7Segment_Multi) : NJU3711_7Segment_Multi :=
  Build_NJU3711_7Segment_Multi (seg m) (_digitPins m) (_digitData m) (_digitDP m) v (_mplexState
    m) (_currentDigit m) (_nextDigit m) (_lastMultiplexTime m) (_lastStateTime m)
    (_multiplexDelay m) (_blankingTime m) (_multiplexEnabled m) (_displayValue m) (_leadingZeros
    m) (_blankOnZero m).
Definition mux_set_mplexState (v : MultiplexState) (m : NJU3711_7Segment_Multi) : NJU3711_7Segment_Multi :=
  Build_NJU3711_7Segment_Multi (seg m) (_digitPins m) (_digitData m) (_digitDP m) (_digitEnabled
    m) v (_currentDigit m) (_nextDigit m) (_lastMultiplexTime m) (_lastStateTime m)
    (_multiplexDelay m) (_blankingTime m) (_multiplexEnabled m) (_displayValue m) (_leadingZeros
    m) (_blankOnZero m).
Definition mux_set_currentDigit (v : Z) (m : NJU3711_7Segment_Multi) : NJU3711_7Segment_Multi :=
  Build_NJU3711_7Segment_Multi (seg m) (_digitPins m) (_digitData m) (_digitDP m) (_digitEnabled
    m) (_mplexState m) v (_nextDigit m) (_lastMultiplexTime m) (_lastStateTime m)
    (_multiplexDelay m) (_blankingTime m) (_multiplexEnabled m) (_displayValue m) (_leadingZeros
    m) (_blankOnZero m).
Definition mux_set_nextDigit (v : Z) (m : NJU3711_7Segment_Multi) : NJU3711_7Segment_Multi :=
  Build_NJU3711_7Segment_Multi (seg m) (_digitPins m) (_digitData m) (_digitDP m) (_digitEnabled
    m) (_mplexState m) (_currentDigit m) v (_lastMultiplexTime m) (_lastStateTime m)
    (_multiplexDelay m) (_blankingTime m) (_multiplexEnabled m) (_displayValue m) (_leadingZeros
    m) (_blankOnZero m).
Definition mux_set_lastMultiplexTime (v : Z) (m : NJU3711_7Segment_Multi) : NJU3711_7Segment_Multi :=
  Build_NJU3711_7Segment_Multi (seg m) (_digitPins m) (_digitData m) (_digitDP m) (_digitEnabled
    m) (_mplexState m) (_currentDigit m) (_nextDigit m) v (_lastStateTime m) (_multiplexDelay m)
    (_blankingTime m) (_multiplexEnabled m) (_displayValue m) (_leadingZeros m) (_blankOnZero m).
Definition mux_set_lastStateTime (v : Z) (m : NJU3711_7Segment_Multi) : NJU3711_7Segment_Multi :=
  Build_NJU3711_7Segment_Multi (seg m) (_digitPins m) (_digitData m) (_digitDP m) (_digitEnabled
    m) (_mplexState m) (_currentDigit m) (_nextDigit m) (_lastMultiplexTime m) v
    (_multiplexDelay m) (_blankingTime m) (_multiplexEnabled m) (_displayValue m) (_leadingZeros
    m) (_blankOnZero m).
Definition mux_set_multiplexDelay (v : Z) (m : NJU3711_7Segment_Multi) : NJU3711_7Segment_Multi :=
  Build_NJU3711_7Segment_Multi (seg m) (_digitPins m) (_digitData m) (_digitDP m) (_digitEnabled
    m) (_mplexState m) (_currentDigit m) (_nextDigit m) (_lastMultiplexTime m) (_lastStateTime
    m) v (_blankingTime m) (_multiplexEnabled m) (_displayValue m) (_leadingZeros m)
    (_blankOnZero m).
Definition mux_set_blankingTime (v : Z) (m : NJU3711_7Segment_Multi) : NJU3711_7Segment_Multi :=
  Build_NJU3711_7Segment_Multi (seg m) (_digitPins m) (_digitData m) (_digitDP m) (_digitEnabled
    m) (_mplexState m) (_currentDigit m) (_nextDigit m) (_lastMultiplexTime m) (_lastStateTime
    m) (_multiplexDelay m) v (_multiplexEnabled m) (_displayValue m) (_leadingZeros m)
    (_blankOnZero m).
Definition mux_set_multiplexEnabled (v : bool) (m : NJU3711_7Segment_Multi) : NJU3711_7Segment_Multi :=
  Build_NJU3711_7Segment_Multi (seg m) (_digitPins m) (_digitData m) (_digitDP m) (_digitEnabled
    m) (_mplexState m) (_currentDigit m) (_nextDigit m) (_lastMultiplexTime m) (_lastStateTime
    m) (_multiplexDelay m) (_blankingTime m) v (_displayValue m) (_leadingZeros m) (_blankOnZero
    m).
Definition mux_set_displayValue (v : Z) (m : NJU3711_7Segment_Multi) : NJU3711_7Segment_Multi :=
  Build_NJU3711_7Segment_Multi (seg m) (_digitPins m) (_digitData m) (_digitDP m) (_digitEnabled
    m) (_mplexState m) (_currentDigit m) (_nextDigit m) (_lastMultiplexTime m) (_lastStateTime
    m) (_multiplexDelay m) (_blankingTime m) (_multiplexEnabled m) v (_leadingZeros m)
    (_blankOnZero m).
Definition mux_set_leadingZeros (v : bool) (m : NJU3711_7Segment_Multi) : NJU3711_7Segment_Multi :=
  Build_NJU3711_7Segment_Multi (seg m) (_digitPins m) (_digitData m) (_digitDP m) (_digitEnabled
    m) (_mplexState m) (_currentDigit m) (_nextDigit m) (_lastMultiplexTime m) (_lastStateTime
    m) (_multiplexDelay m) (_blankingTime m) (_multiplexEnabled m) (_displayValue m) v
    (_blankOnZero m).
Definition mux_set_blankOnZero (v : bool) (m : NJU3711_7Segment_Multi) : NJU3711_7Segment_Multi :=
  Build_NJU3711_7Segment_Multi (seg m) (_digitPins m) (_digitData m) (_digitDP m) (_digitEnabled
    m) (_mplexState m) (_currentDigit m) (_nextDigit m) (_lastMultiplexTime m) (_lastStateTime
    m) (_multiplexDelay m) (_blankingTime m) (_multiplexEnabled m) (_displayValue m)
    (_leadingZeros m) v.

(** [a[i]] for the three-element member arrays; every reachable index is
    below 3. *)
Definition at3 {A : Type} (dflt : A) (a : list A) (i : Z) : A :=
  default dflt (a !! Z.to_nat i).

(** [for (int i = 0; i < 3; i++) body(i)] *)
Definition for3 (body : Z -> NJU3711_7Segment_Multi -> NJU3711_7Segment_Multi)
  (m : NJU3711_7Segment_Multi) : NJU3711_7Segment_Multi :=
  fold_left (fun m i => body i m) [0; 1; 2] m.

Definition driver (m : NJU3711_7Segment_Multi) : Driver.NJU3711 := base (seg m).

Definition set_driver (b : Driver.NJU3711) (m : NJU3711_7Segment_Multi)
  : NJU3711_7Segment_Multi :=
  mux_set_seg (seg_set_base b (seg m)) m.

Definition digitalWrite (pin : Z) (level : bool) (m : NJU3711_7Segment_Multi)
  : NJU3711_7Segment_Multi :=
  set_driver (Driver.digitalWrite pin level (driver m)) m.

Definition isBusy (m : NJU3711_7Segment_Multi) : bool := Driver.isBusy (driver m).

Definition NJU3711_7Segment_Multi_init (s : NJU3711_7Segment)
  (digit1Pin digit2Pin digit3Pin : Z) : NJU3711_7Segment_Multi :=
  {| seg := s;
     _digitPins := [digit1Pin; digit2Pin; digit3Pin];
     _digitData := [0; 0; 0];
     _digitDP := [false; false; false];
     _digitEnabled := [true; true; true];
     _mplexState := MPLEX_IDLE;
     _currentDigit := 0;
     _nextDigit := 0;
     _lastMultiplexTime := 0;
     _lastStateTime := 0;
     _multiplexDelay := 2000;
     _blankingTime := 50;
     _multiplexEnabled := true;
     _displayValue := 0;
     _leadingZeros := false;
     _blankOnZero := false |}.

Definition NJU3711_7Segment_Multi_new6 (dataPin clockPin strobePin
  digit1Pin digit2Pin digit3Pin : Z) (mode : DisplayMode) : NJU3711_7Segment_Multi :=
  NJU3711_7Segment_Multi_init (NJU3711_7Segment_new3 dataPin clockPin strobePin mode)
    digit1Pin digit2Pin digit3Pin.

Definition NJU3711_7Segment_Multi_new7 (dataPin clockPin strobePin clearPin
  digit1Pin digit2Pin digit3Pin : Z) (mode : DisplayMode) : NJU3711_7Segment_Multi :=
  NJU3711_7Segment_Multi_init (NJU3711_7Segment_new4 dataPin clockPin strobePin clearPin mode)
    digit1Pin digit2Pin digit3Pin.

Definition selectDigit (digit : Z) (m : NJU3711_7Segment_Multi) : NJU3711_7Segment_Multi :=
  if digit <? 3 then digitalWrite (at3 0 (_digitPins m) digit) LOW m else m.

Definition deselectAllDigits (m : NJU3711_7Segment_Multi) : NJU3711_7Segment_Multi :=
  for3 (fun i m => digitalWrite (at3 0 (_digitPins m) i) HIGH m) m.

Definition begin (now : Z) (m : NJU3711_7Segment_Multi) : NJU3711_7Segment_Multi :=
  let m := mux_set_seg (Seg7.begin now (seg m)) m in
  let m := for3 (fun i m => digitalWrite (at3 0 (_digitPins m) i) HIGH m) m in
  mux_set_lastMultiplexTime now m.

Definition multiplexDisplay (now : Z) (m : NJU3711_7Segment_Multi)
  : NJU3711_7Segment_Multi :=
  let currentTime := now in
  match _mplexState m with
  | MPLEX_IDLE =>
      if _multiplexDelay m <=? u32 (currentTime - _lastMultiplexTime m) then
        let m := mux_set_mplexState MPLEX_TURN_OFF_DIGITS m in
        mux_set_lastStateTime currentTime m
      else m
  | MPLEX_TURN_OFF_DIGITS =>
      let m := deselectAllDigits m in
      let m := mux_set_mplexState MPLEX_WAIT_BLANKING m in
      mux_set_lastStateTime currentTime m
  | MPLEX_WAIT_BLANKING =>
      if _blankingTime m <=? u32 (currentTime - _lastStateTime m) then
        let m := mux_set_nextDigit ((_currentDigit m + 1) mod 3) m in
        mux_set_mplexState MPLEX_WRITE_DATA m
      else m
  | MPLEX_WRITE_DATA =>
      if negb (isBusy m) then
        let pattern :=
          if at3 false (_digitEnabled m) (_nextDigit m) then
            let pattern := at3 0 (_digitData m) (_nextDigit m) in
            if at3 false (_digitDP m) (_nextDigit m) then Z.lor pattern (Z.shiftl 1 0)
            else pattern
          else 0 in
        let pattern :=
          if mode_eqb (getDisplayMode (seg m)) ACTIVE_LOW then u8 (Z.lnot pattern)
          else pattern in
        let m := set_driver (snd (Driver.write pattern (driver m))) m in
        let m := mux_set_mplexState MPLEX_WAIT_DATA m in
        mux_set_lastStateTime currentTime m
      else m
  | MPLEX_WAIT_DATA =>
      if negb (isBusy m) then
        if 10 <=? u32 (currentTime - _lastStateTime m) then
          mux_set_mplexState MPLEX_TURN_ON_DIGIT m
        else m
      else m
  | MPLEX_TURN_ON_DIGIT =>
      let m := selectDigit (_nextDigit m) m in
      let m := mux_set_currentDigit (_nextDigit m) m in
      let m := mux_set_mplexState MPLEX_DISPLAY_DIGIT m in
      mux_set_lastMultiplexTime currentTime m
  | MPLEX_DISPLAY_DIGIT => mux_set_mplexState MPLEX_IDLE m
  end.

Definition update (now : Z) (m : NJU3711_7Segment_Multi) : NJU3711_7Segment_Multi :=
  let m := mux_set_seg (Seg7.update now (seg m)) m in
  if _multiplexEnabled m && negb (isBusy m) then multiplexDisplay now m else m.

Definition setDigit (position value : Z) (showDP : bool) (m : NJU3711_7Segment_Multi)
  : bool * NJU3711_7Segment_Multi :=
  if 3 <=? position then (false, m)
  else
    let m := mux_set_digitData (<[Z.to_nat position := getDigitPattern value]> (_digitData m)) m in
    let m := mux_set_digitDP (<[Z.to_nat position := showDP]> (_digitDP m)) m in
    let m := mux_set_digitEnabled (<[Z.to_nat position := true]> (_digitEnabled m)) m in
    (true, m).

Definition setDigitChar (position character : Z) (showDP : bool)
  (m : NJU3711_7Segment_Multi) : bool * NJU3711_7Segment_Multi :=
  if 3 <=? position then (false, m)
  else
    let m :=
      mux_set_digitData (<[Z.to_nat position := getCharPattern character]> (_digitData m)) m in
    let m := mux_set_digitDP (<[Z.to_nat position := showDP]> (_digitDP m)) m in
    let m := mux_set_digitEnabled (<[Z.to_nat position := true]> (_digitEnabled m)) m in
    (true, m).

Definition setDigitRaw (position segments : Z) (showDP : bool)
  (m : NJU3711_7Segment_Multi) : bool * NJU3711_7Segment_Multi :=
  if 3 <=? position then (false, m)
  else
    let m := mux_set_digitData (<[Z.to_nat position := segments]> (_digitData m)) m in
    let m := mux_set_digitDP (<[Z.to_nat position := showDP]> (_digitDP m)) m in
    let m := mux_set_digitEnabled (<[Z.to_nat position := true]> (_digitEnabled m)) m in
    (true, m).

Definition enableDigit (position : Z) (enable : bool) (m : NJU3711_7Segment_Multi)
  : bool * NJU3711_7Segment_Multi :=
  if 3 <=? position then (false, m)
  else (true, mux_set_digitEnabled (<[Z.to_nat position := enable]> (_digitEnabled m)) m).

Definition disableDigit (position : Z) (m : NJU3711_7Segment_Multi)
  : bool * NJU3711_7Segment_Multi :=
  enableDigit position false m.

Definition enableAllDigits (m : NJU3711_7Segment_Multi) : NJU3711_7Segment_Multi :=
  for3 (fun i m => mux_set_digitEnabled (<[Z.to_nat i := true]> (_digitEnabled m)) m) m.

Definition disableAllDigits (m : NJU3711_7Segment_Multi) : NJU3711_7Segment_Multi :=
  for3 (fun i m => mux_set_digitEnabled (<[Z.to_nat i := false]> (_digitEnabled m)) m) m.

Definition clearDisplay (m : NJU3711_7Segment_Multi) : NJU3711_7Segment_Multi :=
  deselectAllDigits (disableAllDigits m).

Definition displayAll (m : NJU3711_7Segment_Multi) : NJU3711_7Segment_Multi :=
  for3 (fun i m =>
          let m := mux_set_digitData (<[Z.to_nat i := 255]> (_digitData m)) m in
          let m := mux_set_digitDP (<[Z.to_nat i := true]> (_digitDP m)) m in
          mux_set_digitEnabled (<[Z.to_nat i := true]> (_digitEnabled m)) m) m.

Definition setMultiplexDelay (delayMicros : Z) (m : NJU3711_7Segment_Multi)
  : NJU3711_7Segment_Multi :=
  mux_set_multiplexDelay delayMicros m.

Definition setBlankingTime (blankingMicros : Z) (m : NJU3711_7Segment_Multi)
  : NJU3711_7Segment_Multi :=
  mux_set_blankingTime blankingMicros m.

Definition enableMultiplex (enable : bool) (m : NJU3711_7Segment_Multi)
  : NJU3711_7Segment_Multi :=
  let m := mux_set_multiplexEnabled enable m in
  if negb enable then deselectAllDigits m else m.

Definition disableMultiplex (m : NJU3711_7Segment_Multi) : NJU3711_7Segment_Multi :=
  enableMultiplex false m.

Definition isMultiplexing (m : NJU3711_7Segment_Multi) : bool := _multiplexEnabled m.

Definition setDecimalPoint (position : Z) (state : bool) (m : NJU3711_7Segment_Multi)
  : bool * NJU3711_7Segment_Multi :=
  if 3 <=? position then (false, m)
  else (true, mux_set_digitDP (<[Z.to_nat position := state]> (_digitDP m)) m).

Definition clearAllDecimalPoints (m : NJU3711_7Segment_Multi) : NJU3711_7Segment_Multi :=
  for3 (fun i m => mux_set_digitDP (<[Z.to_nat i := false]> (_digitDP m)) m) m.

(** [for (int i = 0; i < 3; i++)] of [updateDigitData]: slot [i] shows
    [digits[i]] or is blanked. *)
Definition updateDigitData (m : NJU3711_7Segment_Multi) : NJU3711_7Segment_Multi :=
  let value := _displayValue m in
  if _blankOnZero m && (value =? 0) then
    for3 (fun i m =>
            let m := mux_set_digitData (<[Z.to_nat i := 0]> (_digitData m)) m in
            mux_set_digitEnabled (<[Z.to_nat i := false]> (_digitEnabled m)) m) m
  else
    let digits := [value mod 10; (value / 10) mod 10; (value / 100) mod 10] in
    let showDigit :=
      if _leadingZeros m then [true; true; true]
      else if 100 <=? value then [true; true; true]
      else if 10 <=? value then [true; true; false]
      else [true; false; false] in
    for3 (fun i m =>
            if at3 false showDigit i then
              let m :=
                mux_set_digitData
                  (<[Z.to_nat i := getDigitPattern (at3 0 digits i)]> (_digitData m)) m in
              mux_set_digitEnabled (<[Z.to_nat i := true]> (_digitEnabled m)) m
            else
              let m := mux_set_digitData (<[Z.to_nat i := 0]> (_digitData m)) m in
              mux_set_digitEnabled (<[Z.to_nat i := false]> (_digitEnabled m)) m) m.

(** [displayNumber(uint16_t number)] *)
Definition displayNumber (number : Z) (m : NJU3711_7Segment_Multi)
  : bool * NJU3711_7Segment_Multi :=
  let number := if 999 <? number then 999 else number in
  let m := mux_set_displayValue number m in
  (true, updateDigitData m).

(** [displayNumber(uint16_t number, uint8_t decimalPosition)] *)
Definition displayNumberDP (number decimalPosition : Z) (m : NJU3711_7Segment_Multi)
  : bool * NJU3711_7Segment_Multi :=
  let '(_, m) := displayNumber number m in
  let m := clearAllDecimalPoints m in
  let m :=
    if (0 <? decimalPosition) && (decimalPosition <=? 3)
    then mux_set_digitDP (<[Z.to_nat (decimalPosition - 1) := true]> (_digitDP m)) m
    else m in
  (true, m).

Definition setLeadingZeros (enable : bool) (m : NJU3711_7Segment_Multi)
  : NJU3711_7Segment_Multi :=
  updateDigitData (mux_set_leadingZeros enable m).

Definition setBlankOnZero (enable : bool) (m : NJU3711_7Segment_Multi)
  : NJU3711_7Segment_Multi :=
  updateDigitData (mux_set_blankOnZero enable m).

(** ['E'] is 69, ['r'] is 114, ['-'] is 45. *)
Definition displayError (m : NJU3711_7Segment_Multi) : bool * NJU3711_7Segment_Multi :=
  let '(_, m) := setDigitChar 2 69 false m in
  let '(_, m) := setDigitChar 1 114 false m in
  let '(_, m) := setDigitChar 0 114 false m in
  (true, m).

Definition displayDashes (m : NJU3711_7Segment_Multi) : bool * NJU3711_7Segment_Multi :=
  (true, for3 (fun i m => snd (setDigitChar i 45 false m)) m).

(** [temp] is an [int16_t]; its division and remainder truncate. *)
Definition displayTemperature (temp : Z) (celsius : bool) (m : NJU3711_7Segment_Multi)
  : bool * NJU3711_7Segment_Multi :=
  let temp := if temp <? -99 then -99 else temp in
  let temp := if 999 <? temp then 999 else temp in
  if temp <? 0 then
    let temp := - temp in
    let '(_, m) := setDigitChar 2 45 false m in
    let '(_, m) := setDigit 1 (Z.rem (Z.quot temp 10) 10) false m in
    let '(_, m) := setDigit 0 (Z.rem temp 10) false m in
    (true, m)
  else
    let '(_, m) := displayNumber temp m in
    (true, m).

Definition getCurrentValue (m : NJU3711_7Segment_Multi) : Z := _displayValue m.

End Multi.

(** ** Vocabulary of the properties *)

Import Driver.

Definition is_u8 (x : Z) : Prop := 0 <= x < 256.
Definition is_u32 (x : Z) : Prop := 0 <= x < 4294967296.

(** Repeated calls of [update], one per sampled time. *)
Fixpoint run (ts : list Z) (s : NJU3711) : NJU3711 :=
  match ts with
  | [] => s
  | t :: ts' => run ts' (update t s)
  end.

(** Every call of the run passes the timing gate of [processStateMachine]. *)
Fixpoint eligible (ts : list Z) (s : NJU3711) : bool :=
  match ts with
  | [] => true
  | t :: ts' => isTimingMet t s && eligible ts' (update t s)
  end.

(** Sample times that do not wrap and lie at least [d] after [prev] and after
    one another. *)
Fixpoint spaced (d prev : Z) (ts : list Z) : bool :=
  match ts with
  | [] => true
  | t :: ts' => (prev + d <=? t) && (t <? 4294967296) && spaced d t ts'
  end.

(** The operations waiting in the ring buffer, oldest first. *)
Definition entryAt (q : list OperationQueue) (i : Z) : NJU3711_Operation * Z :=
  match q !! Z.to_nat (i mod 8) with
  | Some e => (operation e, data e)
  | None => (NJU3711_OP_WRITE, 0)
  end.

Definition pending (s : NJU3711) : list (NJU3711_Operation * Z) :=
  map (fun k => entryAt (_operationQueue s) (_queueHead s + Z.of_nat k))
      (seq 0 (Z.to_nat (_queueSize s))).

(** The guard at the head of the four submit methods. *)
Definition stopIfTesting (s : NJU3711) : NJU3711 :=
  if state_eqb (_state s) NJU3711_TEST_PATTERN then stopTestPattern s else s.

(** The four public submit methods. *)
Inductive Submission : Type :=
  | SubmitWrite (d : Z)
  | SubmitShift (d : Z)
  | SubmitLatch
  | SubmitClear.

Definition submit (c : Submission) (s : NJU3711) : bool * NJU3711 :=
  match c with
  | SubmitWrite d => write d s
  | SubmitShift d => shift d s
  | SubmitLatch => latch s
  | SubmitClear => clear s
  end.

Definition submitted (c : Submission) : NJU3711_Operation * Z :=
  match c with
  | SubmitWrite d => (NJU3711_OP_WRITE, d)
  | SubmitShift d => (NJU3711_OP_SHIFT_ONLY, d)
  | SubmitLatch => (NJU3711_OP_LATCH_ONLY, 0)
  | SubmitClear => (NJU3711_OP_CLEAR, 0)
  end.

Fixpoint submitAll (cs : list Submission) (s : NJU3711) : list bool * NJU3711 :=
  match cs with
  | [] => ([], s)
  | c :: cs' =>
      let '(ok, s1) := submit c s in
      let '(oks, s2) := submitAll cs' s1 in
      (ok :: oks, s2)
  end.

(** States the public interface can produce, by any sequence of calls of
    the public methods in any order.  Arguments range over their C++
    types. *)
Inductive Reachable : NJU3711 -> Prop :=
  | reach_new4 dataPin clockPin strobePin clearPin :
      Reachable (NJU3711_new4 dataPin clockPin strobePin clearPin)
  | reach_new3 dataPin clockPin strobePin :
      Reachable (NJU3711_new3 dataPin clockPin strobePin)
  | reach_begin now s :
      Reachable s -> is_u32 now -> Reachable (begin now s)
  | reach_update now s :
      Reachable s -> is_u32 now -> Reachable (update now s)
  | reach_submit c s :
      Reachable s -> Reachable (snd (submit c s))
  | reach_setBit b s :
      Reachable s -> Reachable (snd (setBit b s))
  | reach_clearBit b s :
      Reachable s -> Reachable (snd (clearBit b s))
  | reach_toggleBit b s :
      Reachable s -> Reachable (snd (toggleBit b s))
  | reach_startTestPattern now ty delay s :
      Reachable s -> is_u32 now -> Reachable (snd (startTestPattern now ty delay s))
  | reach_stopTestPattern s :
      Reachable s -> Reachable (stopTestPattern s)
  | reach_setStepDelay d s :
      Reachable s -> is_u32 d -> Reachable (setStepDelay d s)
  | reach_clearQueue s :
      Reachable s -> Reachable (clearQueue s).

(** Well-formedness of the ring buffer alone. *)
Record QueueInv (s : NJU3711) : Prop := {
  qinv_len : length (_operationQueue s) = 8%nat;
  qinv_head : 0 <= _queueHead s < 8;
  qinv_size : 0 <= _queueSize s <= 8;
  qinv_tail : _queueTail s = (_queueHead s + _queueSize s) mod 8
}.

(** Representation invariant of the driver object. *)
Record Inv (s : NJU3711) : Prop := {
  inv_len : length (_operationQueue s) = 8%nat;
  inv_head : 0 <= _queueHead s < 8;
  inv_size : 0 <= _queueSize s <= 8;
  inv_tail : _queueTail s = (_queueHead s + _queueSize s) mod 8;
  inv_delay : 0 <= _stepDelay s;
  inv_last : is_u32 (_lastUpdateTime s);
  inv_bit : _state s = NJU3711_SHIFTING -> 0 <= _bitIndex s <= 7;
  inv_clear : clearStep s = true -> _clearPin s <> 255;
  inv_test : _state s = NJU3711_TEST_PATTERN -> _queueSize s = 0
}.

(** The phase flags are where completed operations leave them: the clock
    flag is set only in the middle of a bit, the flag of the latch pulse only
    inside that pulse, the flag of the clear pulse only inside that pulse.
    [begin] resets [_state] and none of the three, so a call of [begin] in
    the middle of an operation is what breaks this. *)
Record Settled (s : NJU3711) : Prop := {
  settled_clock : _state s <> NJU3711_SHIFTING -> _clockState s = false;
  settled_latch : latchStep s = true -> _state s = NJU3711_LATCHING;
  settled_clear : clearStep s = true -> _state s = NJU3711_CLEARING
}.

(** Timing-eligible calls of [update] left until the operation in progress
    hands the engine back to [NJU3711_IDLE]. *)
Definition stepsToIdle (s : NJU3711) : Z :=
  match _state s with
  | NJU3711_IDLE => 0
  | NJU3711_SHIFTING =>
      2 * (_bitIndex s + 1) - (if _clockState s then 1 else 0)
      + match _currentOperation s with
        | NJU3711_OP_WRITE => if latchStep s then 1 else 2
        | _ => 0
        end
  | NJU3711_LATCHING => if latchStep s then 1 else 2
  | NJU3711_CLEARING =>
      if _clearPin s =? 255 then 1 else if clearStep s then 1 else 2
  | NJU3711_TEST_PATTERN => 0
  end.

(** *** The bounded FIFO of the specification

    "A fixed-capacity (8-element) ring buffer of Operations, FIFO order":
    enqueue fails when full, dequeue fails when empty. *)









(** The cases of one call of [update] on object [s] at time [now], each with
    its guard and the object it returns. *)
Inductive StepCase (now : Z) (s : NJU3711) : Prop :=
  | step_gate :
      isTimingMet now s = false -> update now s = s -> StepCase now s
  | step_idle_empty :
      _state s = NJU3711_IDLE -> _queueSize s = 0 -> update now s = s -> StepCase now s
  | step_idle_dequeue op d s' :
      isTimingMet now s = true -> _state s = NJU3711_IDLE ->
      dequeueOperation s = Some (op, d, s') ->
      update now s = startOperation op d s' -> StepCase now s
  | step_shift_rise :
      isTimingMet now s = true -> _state s = NJU3711_SHIFTING -> _clockState s = false ->
      update now s =
        set_lastUpdateTime now
          (set_clockState true
             (digitalWrite (_clockPin s) HIGH
                (digitalWrite (_dataPin s)
                   (negb (Z.land (Z.shiftr (_shiftData s) (_bitIndex s)) 1 =? 0)) s))) ->
      StepCase now s
  | step_shift_fall :
      isTimingMet now s = true -> _state s = NJU3711_SHIFTING -> _clockState s = true ->
      update now s =
        (let s1 :=
           set_bitIndex (s8 (_bitIndex s - 1))
             (set_lastUpdateTime now
                (set_clockState false (digitalWrite (_clockPin s) LOW s))) in
         if s8 (_bitIndex s - 1) <? 0 then
           match _currentOperation s with
           | NJU3711_OP_WRITE => set_state NJU3711_LATCHING s1
           | _ => set_state NJU3711_IDLE s1
           end
         else s1) ->
      StepCase now s
  | step_latch_low :
      isTimingMet now s = true -> _state s = NJU3711_LATCHING -> latchStep s = false ->
      update now s =
        set_lastUpdateTime now (set_latchStep true (digitalWrite (_strobePin s) LOW s)) ->
      StepCase now s
  | step_latch_high :
      isTimingMet now s = true -> _state s = NJU3711_LATCHING -> latchStep s = true ->
      update now s =
        set_state NJU3711_IDLE (set_latchStep false (digitalWrite (_strobePin s) HIGH s)) ->
      StepCase now s
  | step_clear_low :
      isTimingMet now s = true -> _state s = NJU3711_CLEARING -> _clearPin s <> 255 ->
      clearStep s = false ->
      update now s =
        set_lastUpdateTime now (set_clearStep true (digitalWrite (_clearPin s) LOW s)) ->
      StepCase now s
  | step_clear_high :
      isTimingMet now s = true -> _state s = NJU3711_CLEARING -> _clearPin s <> 255 ->
      clearStep s = true ->
      update now s =
        set_state NJU3711_IDLE
          (set_currentData 0 (set_clearStep false (digitalWrite (_clearPin s) HIGH s))) ->
      StepCase now s
  | step_clear_soft :
      isTimingMet now s = true -> _state s = NJU3711_CLEARING -> _clearPin s = 255 ->
      update now s =
        set_state NJU3711_IDLE
          (if fst (enqueueOperation NJU3711_OP_WRITE 0 s)
           then set_currentData 0 (snd (enqueueOperation NJU3711_OP_WRITE 0 s))
           else snd (enqueueOperation NJU3711_OP_WRITE 0 s)) ->
      StepCase now s
  | step_test_wait :
      _state s = NJU3711_TEST_PATTERN ->
      (_testPatternDelay s <=? u32 (now - _lastUpdateTime s)) = false ->
      update now s = s -> StepCase now s
  | step_test_emit d v :
      isTimingMet now s = true -> _state s = NJU3711_TEST_PATTERN ->
      1 <= _testPatternType s <= 4 ->
      update now s = set_lastUpdateTime now (set_testPatternStep v (snd (write d s))) ->
      StepCase now s
  | step_test_other :
      isTimingMet now s = true -> _state s = NJU3711_TEST_PATTERN ->
      ~ 1 <= _testPatternType s <= 4 ->
      update now s = set_lastUpdateTime now s -> StepCase now s.

(** The pins the driver writes to. *)
Definition driverPins (s : NJU3711) : list Z :=
  [_dataPin s; _clockPin s; _strobePin s; _clearPin s].

(** The ring-buffer members of the object. *)
Definition queueOf (s : NJU3711) : list OperationQueue * Z * Z * Z :=
  (_operationQueue s, _queueHead s, _queueTail s, _queueSize s).

(** An operation is being bit-banged: shifting or latching. *)
Definition transferring (s : NJU3711) : Prop :=
  _state s = NJU3711_SHIFTING \/ _state s = NJU3711_LATCHING.

(** Sample times [from], [from + step], ... ([n] of them). *)
Definition ticks (n : nat) (from step : Z) : list Z :=
  map (fun i => from + step * Z.of_nat i) (seq 0 n).

(** *** Engines used as examples *)

(** The engine of the counterexample to C7: step delay 10, two writes
    queued, stepped until the strobe is low in the middle of the latch pulse
    of the first write. *)
Definition midLatch : NJU3711 :=
  run (ticks 18 10 10)
    (snd (write 1 (snd (write 182 (setStepDelay 10 (NJU3711_new3 2 3 4)))))).

(** The engine of the witness of C9: a write has just been dequeued. *)
Definition writeStarted : NJU3711 :=
  update 1 (snd (write 182 (NJU3711_new3 2 3 4))).

(** The engine of the witness of C10: a fresh engine in test-pattern mode. *)
Definition testing : NJU3711 :=
  snd (startTestPattern 0 1 500000 (NJU3711_new3 2 3 4)).

(** *** Vocabulary of the multiplexer *)

(** Repeated calls of [NJU3711_7Segment_Multi::update]. *)
Fixpoint multiRun (ts : list Z) (m : Multi.NJU3711_7Segment_Multi)
  : Multi.NJU3711_7Segment_Multi :=
  match ts with
  | [] => m
  | t :: ts' => multiRun ts' (Multi.update t m)
  end.

(** The writes of [s2] are those of [s1] preceded by writes to driver pins
    only. *)
Definition writesDriverPins (s1 s2 : NJU3711) : Prop :=
  exists evs,
    gpio s2 = evs ++ gpio s1 /\ Forall (fun e => In (fst e) (driverPins s1)) evs.

(** The select line of slot [i] is at its active level (LOW switches the PNP
    transistor on). *)
Definition selectActive (m : Multi.NJU3711_7Segment_Multi) (i : Z) : bool :=
  match pinLevel (gpio (Multi.driver m)) (Multi.at3 0 (Multi._digitPins m) i) with
  | Some false => true
  | _ => false
  end.

Definition activeLines (m : Multi.NJU3711_7Segment_Multi) : list Z :=
  List.filter (selectActive m) [0; 1; 2].

(** Slot whose select line is pin [p], if any. *)
Definition slotOfPin (pins : list Z) (p : Z) : option Z :=
  if Multi.at3 0 pins 0 =? p then Some 0
  else if Multi.at3 0 pins 1 =? p then Some 1
  else if Multi.at3 0 pins 2 =? p then Some 2
  else None.

(** The slots selected by a sequence of pin writes (oldest first): every
    write of LOW to a select line. *)
Definition selectEvents (pins : list Z) (w : list (Z * bool)) : list Z :=
  omap (fun e : Z * bool => if snd e then None else slotOfPin pins (fst e)) w.

(** The slots selected since the object was constructed, oldest first. *)
Definition selections (m : Multi.NJU3711_7Segment_Multi) : list Z :=
  selectEvents (Multi._digitPins m) (rev (gpio (Multi.driver m))).

(** [n] slots in round-robin order, starting after slot [c]. *)
Definition roundRobin (c : Z) (n : nat) : list Z :=
  map (fun k => (c + 1 + Z.of_nat k) mod 3) (seq 0 n).

(** The byte written for a blank digit: all segments off in the display
    mode of the object. *)
Definition blankByte (mode : Seg7.DisplayMode) : Z :=
  match mode with
  | Seg7.ACTIVE_LOW => 255
  | Seg7.ACTIVE_HIGH => 0
  end.

(** The select lines are three different pins, none of them a pin of the
    driver. *)
Definition pinsDistinct (m : Multi.NJU3711_7Segment_Multi) : Prop :=
  exists p0 p1 p2,
    Multi._digitPins m = [p0; p1; p2] /\
    NoDup ([p0; p1; p2] ++ driverPins (Multi.driver m)).

Definition inDarkPhase (st : Multi.MultiplexState) : bool :=
  match st with
  | Multi.MPLEX_WAIT_BLANKING | Multi.MPLEX_WRITE_DATA
  | Multi.MPLEX_WAIT_DATA | Multi.MPLEX_TURN_ON_DIGIT => true
  | _ => false
  end.

Definition nextChosen (st : Multi.MultiplexState) : bool :=
  match st with
  | Multi.MPLEX_WRITE_DATA | Multi.MPLEX_WAIT_DATA | Multi.MPLEX_TURN_ON_DIGIT => true
  | _ => false
  end.

(** Invariant of the multiplexer while no animation runs and the phase flags
    of the driver are in order. *)
Record MultiInv (m : Multi.NJU3711_7Segment_Multi) : Prop := {
  minv_driver : Inv (Multi.driver m);
  minv_anim : Seg7._animationActive (Multi.seg m) = false;
  minv_pins : pinsDistinct m;
  minv_current : 0 <= Multi._currentDigit m < 3;
  minv_next : 0 <= Multi._nextDigit m < 3;
  minv_chosen :
    nextChosen (Multi._mplexState m) = true ->
    Multi._nextDigit m = (Multi._currentDigit m + 1) mod 3;
  minv_dark : inDarkPhase (Multi._mplexState m) = true -> activeLines m = [];
  minv_one : (length (activeLines m) <= 1)%nat;
  minv_settled : Settled (Multi.driver m)
}.

(** States of the multiplexer produced by construction with distinct pins,
    [begin] called while the driver is in its idle state, [update] and the
    digit configuration calls. *)
Inductive MultiReachable : Multi.NJU3711_7Segment_Multi -> Prop :=
  | mreach_new6 dataPin clockPin strobePin d1 d2 d3 mode :
      NoDup [d1; d2; d3; dataPin; clockPin; strobePin; 255] ->
      MultiReachable
        (Multi.NJU3711_7Segment_Multi_new6 dataPin clockPin strobePin d1 d2 d3 mode)
  | mreach_new7 dataPin clockPin strobePin clearPin d1 d2 d3 mode :
      NoDup [d1; d2; d3; dataPin; clockPin; strobePin; clearPin] ->
      MultiReachable
        (Multi.NJU3711_7Segment_Multi_new7 dataPin clockPin strobePin clearPin d1 d2 d3 mode)
  | mreach_begin now m :
      MultiReachable m -> is_u32 now -> _state (Multi.driver m) = NJU3711_IDLE ->
      MultiReachable (Multi.begin now m)
  | mreach_update now m :
      MultiReachable m -> is_u32 now -> MultiReachable (Multi.update now m)
  | mreach_setDigitRaw position segments showDP m :
      MultiReachable m -> MultiReachable (snd (Multi.setDigitRaw position segments showDP m))
  | mreach_setDigit position value showDP m :
      MultiReachable m -> MultiReachable (snd (Multi.setDigit position value showDP m))
  | mreach_enableDigit position enable m :
      MultiReachable m -> MultiReachable (snd (Multi.enableDigit position enable m))
  | mreach_enableMultiplex enable m :
      MultiReachable m -> MultiReachable (Multi.enableMultiplex enable m).

(** The display of the examples: pins 2, 3, 4 for the driver, select lines on
    pins 10, 11, 12, the three slots showing the raw patterns 0x12, 0x34 and
    0x56, all enabled. *)
Definition display3 : Multi.NJU3711_7Segment_Multi :=
  snd (Multi.setDigitRaw 2 86 false
    (snd (Multi.setDigitRaw 1 52 false
      (snd (Multi.setDigitRaw 0 18 false
        (Multi.begin 0
          (Multi.NJU3711_7Segment_Multi_new6 2 3 4 10 11 12 Seg7.ACTIVE_LOW))))))).

(** The same display with slot 1 disabled, polled every 2 ms until the
    refresh of slot 1 is about to write its data. *)
Definition slot1Disabled : Multi.NJU3711_7Segment_Multi :=
  multiRun (ticks 23 2000 2000) (snd (Multi.disableDigit 1 display3)).

(** What one call does to the selections: nothing, or the successor of the
    current slot is selected and becomes the current slot, the only one with
    an active select line. *)
Definition stepSelects (m m' : Multi.NJU3711_7Segment_Multi) : Prop :=
  (selections m' = selections m /\ Multi._currentDigit m' = Multi._currentDigit m) \/
  (selections m' = selections m ++ [(Multi._currentDigit m + 1) mod 3] /\
   Multi._currentDigit m' = (Multi._currentDigit m + 1) mod 3 /\
   activeLines m' = [(Multi._currentDigit m + 1) mod 3]).

(** A multiplexer that is enabled, whose delays are all at most [D]. *)
Record Setup (D : Z) (m : Multi.NJU3711_7Segment_Multi) : Prop := {
  setup_inv : MultiInv m;
  setup_enabled : Multi._multiplexEnabled m = true;
  setup_step : _stepDelay (Multi.driver m) <= D;
  setup_mux : Multi._multiplexDelay m <= D;
  setup_blank : Multi._blankingTime m <= D;
  setup_settle : 10 <= D
}.

(** The multiplexer is in phase [st] with the driver free, and every time
    stamp it compares against lies at or before [prev]. *)
Record Phase (D prev : Z) (st : Multi.MultiplexState)
  (m : Multi.NJU3711_7Segment_Multi) : Prop := {
  phase_setup : Setup D m;
  phase_state : Multi._mplexState m = st;
  phase_free : isBusy (Multi.driver m) = false;
  phase_driver : _lastUpdateTime (Multi.driver m) <= prev;
  phase_mux : 0 <= Multi._lastMultiplexTime m <= prev;
  phase_stamp : 0 <= Multi._lastStateTime m <= prev
}.

(** The byte [multiplexDisplay] writes for the next digit. *)
Definition refreshByte (m : Multi.NJU3711_7Segment_Multi) : Z :=
  let pattern :=
    if Multi.at3 false (Multi._digitEnabled m) (Multi._nextDigit m) then
      let pattern := Multi.at3 0 (Multi._digitData m) (Multi._nextDigit m) in
      if Multi.at3 false (Multi._digitDP m) (Multi._nextDigit m)
      then Z.lor pattern (Z.shiftl 1 0) else pattern
    else 0 in
  if Seg7.mode_eqb (Seg7.getDisplayMode (Multi.seg m)) Seg7.ACTIVE_LOW
  then u8 (Z.lnot pattern) else pattern.

(** The display of the examples once the Clear queued by [begin] has run:
    polled every microsecond, too early for the first refresh. *)
Definition idleDisplay : Multi.NJU3711_7Segment_Multi :=
  multiRun (ticks 21 1 1) display3.

(** *** Vocabulary of the wire protocol *)

(** The four lines between the microcontroller and the NJU3711. *)
Record Wiring : Type := {
  w_data : Z;
  w_clock : Z;
  w_strobe : Z;
  w_clear : Z
}.

Definition wiring (s : NJU3711) : Wiring :=
  {| w_data := _dataPin s; w_clock := _clockPin s;
     w_strobe := _strobePin s; w_clear := _clearPin s |}.

(** The pin writes that clock out one bit: the data line is set, then the
    clock is pulsed. *)
Definition bitWave (w : Wiring) (b : bool) : list (Z * bool) :=
  [(w_data w, b); (w_clock w, HIGH); (w_clock w, LOW)].

(** The pin writes that clock out bits [n - 1], ..., 1, 0 of [v], in this
    order. *)
Fixpoint bitsWave (w : Wiring) (v : Z) (n : nat) : list (Z * bool) :=
  match n with
  | O => []
  | S k => bitWave w (Z.testbit v (Z.of_nat k)) ++ bitsWave w v k
  end.

Definition strobePulse (w : Wiring) : list (Z * bool) :=
  [(w_strobe w, LOW); (w_strobe w, HIGH)].

Definition clearPulse (w : Wiring) : list (Z * bool) :=
  [(w_clear w, LOW); (w_clear w, HIGH)].

(** The pin writes of a write: STB is confirmed high, the byte is clocked
    out most significant bit first, STB is pulsed low. *)
Definition writeWave (w : Wiring) (v : Z) : list (Z * bool) :=
  (w_strobe w, HIGH) :: bitsWave w v 8 ++ strobePulse w.

Definition shiftWave (w : Wiring) (v : Z) : list (Z * bool) :=
  (w_strobe w, HIGH) :: bitsWave w v 8.

(** The pin writes of one queued operation, oldest first, on an engine with
    a CLR pin whose phase flags are clear. *)
Definition opWave (w : Wiring) (x : NJU3711_Operation * Z) : list (Z * bool) :=
  match fst x with
  | NJU3711_OP_WRITE => writeWave w (snd x)
  | NJU3711_OP_SHIFT_ONLY => shiftWave w (snd x)
  | NJU3711_OP_LATCH_ONLY => strobePulse w
  | NJU3711_OP_CLEAR => clearPulse w
  | NJU3711_OP_TEST_PATTERN => []
  end.

(** The three phase flags of the engine: the member [_clockState] and the
    function-local statics [latchStep] and [clearStep].  An operation that
    starts does not reset them; it goes on from where they stand. *)
Record Flags : Type := {
  f_clock : bool;
  f_latch : bool;
  f_clear : bool
}.

Definition flags (s : NJU3711) : Flags :=
  {| f_clock := _clockState s; f_latch := latchStep s; f_clear := clearStep s |}.

Definition cleanFlags : Flags :=
  {| f_clock := false; f_latch := false; f_clear := false |}.

(** The pin writes of the eight bits of a shift that starts with clock flag
    [c]: with the flag set, the first call lowers the clock instead of
    presenting bit 7, and only bits 6 to 0 are clocked out. *)
Definition shiftBits (w : Wiring) (c : bool) (v : Z) : list (Z * bool) :=
  if c then (w_clock w, LOW) :: bitsWave w v 7 else bitsWave w v 8.

(** The pin writes of the latch pulse entered with latch flag [l]: with the
    flag set, STB is only raised. *)
Definition strobeRest (w : Wiring) (l : bool) : list (Z * bool) :=
  if l then [(w_strobe w, HIGH)] else strobePulse w.

(** The pin writes of the clear pulse entered with clear flag [c]. *)
Definition clearRest (w : Wiring) (c : bool) : list (Z * bool) :=
  if c then [(w_clear w, HIGH)] else clearPulse w.

(** The pin writes of one queued operation started with phase flags [f], on
    an engine with a CLR pin. *)
Definition opWaveFrom (w : Wiring) (f : Flags) (x : NJU3711_Operation * Z)
  : list (Z * bool) :=
  match fst x with
  | NJU3711_OP_WRITE =>
      (w_strobe w, HIGH) :: shiftBits w (f_clock f) (snd x) ++ strobeRest w (f_latch f)
  | NJU3711_OP_SHIFT_ONLY => (w_strobe w, HIGH) :: shiftBits w (f_clock f) (snd x)
  | NJU3711_OP_LATCH_ONLY => strobeRest w (f_latch f)
  | NJU3711_OP_CLEAR => clearRest w (f_clear f)
  | NJU3711_OP_TEST_PATTERN => []
  end.

(** The phase flags an operation started with flags [f] leaves behind. *)
Definition flagsAfter (f : Flags) (x : NJU3711_Operation * Z) : Flags :=
  match fst x with
  | NJU3711_OP_WRITE =>
      {| f_clock := false; f_latch := false; f_clear := f_clear f |}
  | NJU3711_OP_SHIFT_ONLY =>
      {| f_clock := false; f_latch := f_latch f; f_clear := f_clear f |}
  | NJU3711_OP_LATCH_ONLY =>
      {| f_clock := f_clock f; f_latch := false; f_clear := f_clear f |}
  | NJU3711_OP_CLEAR =>
      {| f_clock := f_clock f; f_latch := f_latch f; f_clear := false |}
  | NJU3711_OP_TEST_PATTERN => f
  end.

(** The pin writes of the operations of a queue, oldest first, the first one
    started with phase flags [f]. *)
Fixpoint queueWave (w : Wiring) (f : Flags) (q : list (NJU3711_Operation * Z))
  : list (Z * bool) :=
  match q with
  | [] => []
  | x :: q' => opWaveFrom w f x ++ queueWave w (flagsAfter f x) q'
  end.

(** The pin writes the operation in progress still has to make. *)
Definition restWave (s : NJU3711) : list (Z * bool) :=
  match _state s with
  | NJU3711_SHIFTING =>
      (if _clockState s
       then (_clockPin s, LOW) :: bitsWave (wiring s) (_shiftData s) (Z.to_nat (_bitIndex s))
       else bitsWave (wiring s) (_shiftData s) (Z.to_nat (_bitIndex s + 1)))
      ++ match _currentOperation s with
         | NJU3711_OP_WRITE => strobeRest (wiring s) (latchStep s)
         | _ => []
         end
  | NJU3711_LATCHING => strobeRest (wiring s) (latchStep s)
  | NJU3711_CLEARING =>
      if _clearPin s =? 255 then [] else clearRest (wiring s) (clearStep s)
  | _ => []
  end.

(** The phase flags as they will stand once the operation in progress has
    handed the engine back to [NJU3711_IDLE]. *)
Definition flagsWhenIdle (s : NJU3711) : Flags :=
  match _state s with
  | NJU3711_SHIFTING =>
      {| f_clock := false;
         f_latch := match _currentOperation s with
                    | NJU3711_OP_WRITE => false
                    | _ => latchStep s
                    end;
         f_clear := clearStep s |}
  | NJU3711_LATCHING =>
      {| f_clock := _clockState s; f_latch := false; f_clear := clearStep s |}
  | NJU3711_CLEARING =>
      {| f_clock := _clockState s; f_latch := latchStep s; f_clear := false |}
  | _ => flags s
  end.

(** All pin writes of the object, past and still to come, oldest first. *)
Definition fullTrace (s : NJU3711) : list (Z * bool) :=
  rev (gpio s) ++ restWave s ++ queueWave (wiring s) (flagsWhenIdle s) (pending s).

(** What an operation leaves in [_currentData] once it has run, on an engine
    with a CLR pin. *)
Definition dataAfter (c : Z) (x : NJU3711_Operation * Z) : Z :=
  match fst x with
  | NJU3711_OP_WRITE | NJU3711_OP_SHIFT_ONLY => snd x
  | NJU3711_OP_CLEAR => 0
  | _ => c
  end.

(** The value [getCurrentData] returns once the queue has drained. *)
Definition eventualData (s : NJU3711) : Z :=
  fold_left dataAfter (pending s)
    (if state_eqb (_state s) NJU3711_CLEARING then 0 else _currentData s).

(** Timing-eligible calls of [update] one queued operation takes, the call
    that dequeues it included, when the phase flags are clear. *)
Definition opSteps (x : NJU3711_Operation * Z) : Z :=
  match fst x with
  | NJU3711_OP_WRITE => 19
  | NJU3711_OP_SHIFT_ONLY => 17
  | NJU3711_OP_LATCH_ONLY => 3
  | NJU3711_OP_CLEAR => 3
  | NJU3711_OP_TEST_PATTERN => 1
  end.

(** The same for an operation started with phase flags [f]. *)
Definition opStepsFrom (f : Flags) (x : NJU3711_Operation * Z) : Z :=
  match fst x with
  | NJU3711_OP_WRITE =>
      1 + (16 - (if f_clock f then 1 else 0)) + (if f_latch f then 1 else 2)
  | NJU3711_OP_SHIFT_ONLY => 1 + (16 - (if f_clock f then 1 else 0))
  | NJU3711_OP_LATCH_ONLY => 1 + (if f_latch f then 1 else 2)
  | NJU3711_OP_CLEAR => 1 + (if f_clear f then 1 else 2)
  | NJU3711_OP_TEST_PATTERN => 1
  end.

Fixpoint queueSteps (f : Flags) (q : list (NJU3711_Operation * Z)) : Z :=
  match q with
  | [] => 0
  | x :: q' => opStepsFrom f x + queueSteps (flagsAfter f x) q'
  end.

(** Timing-eligible calls of [update] until the engine is idle with an empty
    queue. *)
Definition stepsToDrain (s : NJU3711) : Z :=
  stepsToIdle s + queueSteps (flagsWhenIdle s) (pending s).

(** No Clear is, or will be, redirected into a Write: the engine has a CLR
    pin, or no Clear is in progress or waiting. *)
Definition noSoftClear (s : NJU3711) : Prop :=
  _clearPin s <> 255 \/
  (_state s <> NJU3711_CLEARING /\
   Forall (fun x => fst x <> NJU3711_OP_CLEAR) (pending s)).

(** *** More engines used as examples *)


(** An engine on which [begin] was called between the two phases of the
    latch pulse of a write, and which was then polled until the Clear queued
    by [begin] had run: it is at rest, with the latch flag still set. *)
Definition rebegun : NJU3711 :=
  run (ticks 3 20 1)
    (begin 19 (run (ticks 18 1 1) (snd (write 182 (NJU3711_new4 2 3 4 5))))).

(** *** Vocabulary of the single-digit display *)

(** Repeated calls of [NJU3711_7Segment::update]. *)
Fixpoint segRun (ts : list Z) (d : Seg7.NJU3711_7Segment) : Seg7.NJU3711_7Segment :=
  match ts with
  | [] => d
  | t :: ts' => segRun ts' (Seg7.update t d)
  end.

(** The display methods that show one glyph. *)
Inductive Glyph : Type :=
  | GDigit (digit : Z) (showDP : bool)
  | GHex (hexValue : Z) (showDP : bool)
  | GChar (character : Z) (showDP : bool)
  | GRaw (segmentMask : Z) (showDP : bool)
  | GBlank
  | GAll
  | GMinus
  | GUnderscore
  | GDegree
  | GError
  | GOff
  | GOn.

Definition display (g : Glyph) (d : Seg7.NJU3711_7Segment)
  : bool * Seg7.NJU3711_7Segment :=
  match g with
  | GDigit digit showDP => Seg7.displayDigit digit showDP d
  | GHex hexValue showDP => Seg7.displayHex hexValue showDP d
  | GChar character showDP => Seg7.displayChar character showDP d
  | GRaw segmentMask showDP => Seg7.displayRaw segmentMask showDP d
  | GBlank => Seg7.displayBlank d
  | GAll => Seg7.displayAll d
  | GMinus => Seg7.displayMinus d
  | GUnderscore => Seg7.displayUnderscore d
  | GDegree => Seg7.displayDegree d
  | GError => Seg7.displayError d
  | GOff => Seg7.displayOff d
  | GOn => Seg7.displayOn d
  end.

Definition withDP (pattern : Z) (showDP : bool) : Z :=
  if showDP then Z.lor pattern (Z.shiftl 1 Seg7.SEG_DP) else pattern.

(** The segments a glyph lights, one bit per segment. *)
Definition glyphSegments (g : Glyph) : Z :=
  match g with
  | GDigit digit showDP => withDP (Seg7.getDigitPattern digit) showDP
  | GHex hexValue showDP => withDP (Seg7.getHexPattern hexValue) showDP
  | GChar character showDP => withDP (Seg7.getCharPattern character) showDP
  | GRaw segmentMask showDP => withDP segmentMask showDP
  | GBlank => Seg7.PATTERN_BLANK
  | GAll => Seg7.PATTERN_ALL
  | GMinus => Seg7.PATTERN_MINUS
  | GUnderscore => Seg7.PATTERN_UNDERSCORE
  | GDegree => Seg7.PATTERN_DEGREE
  | GError => Seg7.PATTERN_ERROR
  | GOff => Seg7.getCharPattern 70
  | GOn => Seg7.getCharPattern 79
  end.

(** The decimal-point state a display method records. *)
Definition glyphDP (g : Glyph) : bool :=
  match g with
  | GDigit _ showDP | GHex _ showDP | GChar _ showDP | GRaw _ showDP => showDP
  | GAll => true
  | _ => false
  end.

(** The common tail of the display methods: stop the animation, record the
    decimal point, write the pattern in the polarity of the display. *)
Definition emitPattern (pattern : Z) (dp : bool) (d : Seg7.NJU3711_7Segment)
  : bool * Seg7.NJU3711_7Segment :=
  let d := if Seg7._animationActive d then Seg7.stopAnimation d else d in
  let d := Seg7.seg_set_decimalPointState dp d in
  Seg7.write (Seg7.applyDisplayMode pattern d) d.

(** *** Vocabulary of the three-digit display *)

(** The byte [multiplexDisplay] writes when slot [i] is the next digit. *)
Definition slotByte (m : Multi.NJU3711_7Segment_Multi) (i : Z) : Z :=
  refreshByte (Multi.mux_set_nextDigit i m).

(** The member arrays [_digitData], [_digitDP] and [_digitEnabled] have their
    three elements. *)
Definition threeSlots (m : Multi.NJU3711_7Segment_Multi) : Prop :=
  length (Multi._digitData m) = 3%nat /\ length (Multi._digitDP m) = 3%nat /\
  length (Multi._digitEnabled m) = 3%nat.

(** What the refresh reads of the configuration of the slots. *)
Definition slotsOf (m : Multi.NJU3711_7Segment_Multi)
  : list Z * list bool * list bool * Seg7.DisplayMode :=
  (Multi._digitData m, Multi._digitDP m, Multi._digitEnabled m,
   Seg7._displayMode (Multi.seg m)).

(** The multiplexer shows a digit: it is between two refreshes. *)
Definition showingDigit (m : Multi.NJU3711_7Segment_Multi) : Prop :=
  Multi._mplexState m = Multi.MPLEX_IDLE \/
  Multi._mplexState m = Multi.MPLEX_DISPLAY_DIGIT.

(** * Properties of the driver *)

(** ** Arithmetic and small facts *)

Ltac zlia := Z.to_euclidean_division_equations; lia.

Lemma state_eqb_eq a b : state_eqb a b = true <-> a = b.
Proof. destruct a, b; simpl; split; intros H; congruence. Qed.

Lemma state_eqb_refl a : state_eqb a a = true.
Proof. by destruct a. Qed.

Lemma u32_small x : is_u32 x -> u32 x = x.
Proof. unfold is_u32, u32. intros H. apply Z.mod_small. lia. Qed.

(** ** The representation invariant *)

(** Bring the clauses of [Inv s] into the context. *)
Ltac inv_facts H :=
  let s := match type of H with Inv ?s => s end in
  pose proof (inv_len s H) as Ilen; pose proof (inv_head s H) as Ihead;
  pose proof (inv_size s H) as Isize; pose proof (inv_tail s H) as Itail;
  pose proof (inv_delay s H) as Idelay; pose proof (inv_last s H) as Ilast;
  pose proof (inv_bit s H) as Ibit; pose proof (inv_clear s H) as Iclear;
  pose proof (inv_test s H) as Itest.

Lemma Inv_new4 dp cp sp clr : Inv (NJU3711_new4 dp cp sp clr).
Proof.
  constructor; simpl; unfold is_u32; try lia; try congruence; try done.
Qed.

Lemma Inv_enqueue op d s :
  Inv s -> _state s <> NJU3711_TEST_PATTERN -> Inv (snd (enqueueOperation op d s)).
Proof.
  intros H Hne. inv_facts H. unfold enqueueOperation.
  destruct (8 <=? _queueSize s) eqn:Hfull; simpl; [done|].
  apply Z.leb_gt in Hfull.
  constructor; simpl; try done.
  - by rewrite length_insert.
  - unfold u8. zlia.
  - unfold u8. zlia.
Qed.

Lemma Inv_stopTestPattern s : Inv s -> Inv (stopTestPattern s).
Proof.
  intros H. inv_facts H. unfold stopTestPattern.
  destruct (state_eqb (_state s) NJU3711_TEST_PATTERN) eqn:E; [|done].
  apply state_eqb_eq in E.
  constructor; simpl; try done.
Qed.

Lemma stopTestPattern_state s : _state (stopTestPattern s) <> NJU3711_TEST_PATTERN.
Proof.
  unfold stopTestPattern.
  destruct (state_eqb (_state s) NJU3711_TEST_PATTERN) eqn:E; simpl; [done|].
  intros Hs. rewrite Hs in E. done.
Qed.

Lemma stopIfTesting_state s : _state (stopIfTesting s) <> NJU3711_TEST_PATTERN.
Proof.
  unfold stopIfTesting.
  destruct (state_eqb (_state s) NJU3711_TEST_PATTERN) eqn:E.
  - apply stopTestPattern_state.
  - intros Hs. rewrite Hs in E. done.
Qed.

Lemma Inv_stopIfTesting s : Inv s -> Inv (stopIfTesting s).
Proof.
  intros H. unfold stopIfTesting.
  destruct (state_eqb _ _); [by apply Inv_stopTestPattern|done].
Qed.

Lemma submit_unfold c s :
  submit c s = enqueueOperation (fst (submitted c)) (snd (submitted c)) (stopIfTesting s).
Proof. by destruct c. Qed.

Lemma Inv_write d s : Inv s -> Inv (snd (write d s)).
Proof.
  intros H. apply (Inv_enqueue _ _ (stopIfTesting s)).
  - by apply Inv_stopIfTesting.
  - apply stopIfTesting_state.
Qed.

Lemma Inv_submit c s : Inv s -> Inv (snd (submit c s)).
Proof.
  intros H. rewrite submit_unfold. apply Inv_enqueue.
  - by apply Inv_stopIfTesting.
  - apply stopIfTesting_state.
Qed.

Lemma Inv_queue s : Inv s -> QueueInv s.
Proof. intros H. inv_facts H. by constructor. Qed.

(** Bring the clauses of [QueueInv s] into the context. *)
Ltac qinv_facts H :=
  let s := match type of H with QueueInv ?s => s end in
  pose proof (qinv_len s H) as Ilen; pose proof (qinv_head s H) as Ihead;
  pose proof (qinv_size s H) as Isize; pose proof (qinv_tail s H) as Itail.

Lemma dequeue_Some s :
  QueueInv s -> 0 < _queueSize s ->
  exists e,
    _operationQueue s !! Z.to_nat (_queueHead s) = Some e /\
    dequeueOperation s =
      Some (operation e, data e,
            set_queueSize (_queueSize s - 1)
              (set_queueHead ((_queueHead s + 1) mod 8)
                 (set_operationQueue
                    (<[Z.to_nat (_queueHead s) :=
                         {| operation := operation e; data := data e; valid := false |}]>
                       (_operationQueue s)) s))).
Proof.
  intros H Hpos. qinv_facts H. unfold dequeueOperation.
  destruct (_queueSize s =? 0) eqn:E; [apply Z.eqb_eq in E; lia|].
  destruct (_operationQueue s !! Z.to_nat (_queueHead s)) as [e|] eqn:El.
  - exists e. split; [done|]. simpl.
    replace (u8 (_queueSize s - 1)) with (_queueSize s - 1); [done|].
    unfold u8. rewrite Z.mod_small; lia.
  - apply lookup_ge_None in El. lia.
Qed.

Lemma dequeue_None s : _queueSize s = 0 -> dequeueOperation s = None.
Proof. intros E. unfold dequeueOperation. by rewrite E. Qed.

Lemma Inv_dequeue s op d s' :
  Inv s -> dequeueOperation s = Some (op, d, s') ->
  Inv s' /\ _state s' = _state s /\ _queueSize s' = _queueSize s - 1.
Proof.
  intros H Hd. inv_facts H.
  destruct (Z.eq_dec (_queueSize s) 0) as [E|E].
  { rewrite dequeue_None in Hd; done. }
  destruct (dequeue_Some s (Inv_queue s H)) as (e & _ & Hs); [lia|].
  rewrite Hs in Hd. injection Hd as _ _ <-. simpl.
  split; [|done].
  constructor; simpl; try done.
  - by rewrite length_insert.
  - zlia.
  - lia.
  - zlia.
  - intros Ht. apply Itest in Ht. lia.
Qed.

(** Finish the clauses of an [Inv] goal on an updated record. *)
Ltac inv_close :=
  constructor; simpl in *; intros;
  try done; try lia; try congruence; try (unfold is_u32 in *; lia);
  try (match goal with Himp : _ -> ?G |- ?G => apply Himp; congruence end);
  try (repeat match goal with
              | Himp : ?P -> _, Hp : ?P |- _ => specialize (Himp Hp)
              | Hand : _ /\ _ |- _ => destruct Hand
              end; congruence).

(** Bring the clauses of [Settled s] into the context. *)
Ltac settled_facts H :=
  let s := match type of H with Settled ?s => s end in
  pose proof (settled_clock s H) as Sclock; pose proof (settled_latch s H) as Slatch;
  pose proof (settled_clear s H) as Sclear.

Lemma idle_flags s :
  Settled s -> _state s = NJU3711_IDLE ->
  _clockState s = false /\ latchStep s = false /\ clearStep s = false.
Proof.
  intros H Hi. settled_facts H. split_and!.
  - apply Sclock. congruence.
  - destruct (latchStep s); [|done]. specialize (Slatch eq_refl). congruence.
  - destruct (clearStep s); [|done]. specialize (Sclear eq_refl). congruence.
Qed.

Lemma flags_Settled s :
  _state s = NJU3711_IDLE \/ _state s = NJU3711_TEST_PATTERN ->
  _clockState s = false -> latchStep s = false -> clearStep s = false -> Settled s.
Proof. intros Hi Hck Hl Hcl. constructor; intros; congruence. Qed.

Lemma Inv_startOperation op d s :
  Inv s -> _state s = NJU3711_IDLE -> Inv (startOperation op d s).
Proof.
  intros H Hi. inv_facts H.
  destruct op; unfold startOperation; inv_close.
Qed.

Lemma Inv_set_currentData v s : Inv s -> Inv (set_currentData v s).
Proof. intros H. inv_facts H. inv_close. Qed.

Lemma Inv_set_idle s : Inv s -> Inv (set_state NJU3711_IDLE s).
Proof. intros H. inv_facts H. inv_close. Qed.

Lemma enqueue_frame op d s :
  let s' := snd (enqueueOperation op d s) in
  _state s' = _state s /\ _clockState s' = _clockState s /\
  latchStep s' = latchStep s /\ clearStep s' = clearStep s /\
  _currentData s' = _currentData s /\ _stepDelay s' = _stepDelay s /\
  _lastUpdateTime s' = _lastUpdateTime s /\ gpio s' = gpio s.
Proof. unfold enqueueOperation. by destruct (8 <=? _queueSize s). Qed.

Lemma Inv_set_lastUpdateTime now s :
  Inv s -> is_u32 now -> Inv (set_lastUpdateTime now s).
Proof. intros H Hnow. inv_facts H. inv_close. Qed.

Lemma Inv_set_testPatternStep v s : Inv s -> Inv (set_testPatternStep v s).
Proof. intros H. inv_facts H. inv_close. Qed.

Lemma Inv_update now s : Inv s -> is_u32 now -> Inv (update now s).
Proof.
  intros H Hnow. inv_facts H. unfold update, processStateMachine.
  destruct (isTimingMet now s); simpl; [|done].
  destruct (_state s) eqn:Hst.
  - destruct (dequeueOperation s) as [[[op d] s']|] eqn:Hd; [|done].
    destruct (Inv_dequeue _ _ _ _ H Hd) as (H' & Hs' & _).
    apply Inv_startOperation; [done|congruence].
  - specialize (Ibit eq_refl). unfold updateClock.
    destruct (_clockState s) eqn:Hck; simpl; rewrite ?Hck; simpl.
    + assert (s8 (_bitIndex s - 1) = _bitIndex s - 1) as ->.
      { unfold s8. zlia. }
      destruct (_bitIndex s - 1 <? 0) eqn:Hb.
      * destruct (_currentOperation s); inv_close.
      * apply Z.ltb_ge in Hb. inv_close.
    + inv_close.
  - destruct (latchStep s) eqn:Hl; simpl; inv_close.
  - destruct (_clearPin s =? 255) eqn:Hp; simpl.
    + pose proof (Inv_enqueue NJU3711_OP_WRITE 0 s H ltac:(congruence)) as He.
      destruct (enqueueOperation NJU3711_OP_WRITE 0 s) as [ok s'] eqn:Hen. simpl in *.
      destruct ok.
      * by apply Inv_set_idle, Inv_set_currentData.
      * by apply Inv_set_idle.
    + apply Z.eqb_neq in Hp. destruct (clearStep s) eqn:Hcl; simpl; inv_close.
  - specialize (Itest eq_refl).
    destruct (_testPatternDelay s <=? u32 (now - _lastUpdateTime s)); [|done].
    assert (forall d v, Inv (set_lastUpdateTime now (set_testPatternStep v (snd (write d s)))))
      as Hw.
    { intros d v. apply Inv_set_lastUpdateTime; [|done].
      by apply Inv_set_testPatternStep, Inv_write. }
    assert (Inv (set_lastUpdateTime now s)) as Hdef by by apply Inv_set_lastUpdateTime.
    destruct (_testPatternType s) as [|p|p]; try done.
    do 3 (try destruct p as [p|p|]); try done;
      match goal with
      | |- context [write ?d s] =>
          specialize (Hw d); destruct (write d s) as [ok s1]; simpl in *; apply Hw
      end.
Qed.

Lemma setBit_eq pos s :
  setBit pos s =
  if 7 <? pos then (false, s)
  else write (u8 (Z.lor (_currentData (stopIfTesting s)) (Z.shiftl 1 pos)))
             (stopIfTesting s).
Proof. reflexivity. Qed.

Lemma clearBit_eq pos s :
  clearBit pos s =
  if 7 <? pos then (false, s)
  else write (u8 (Z.land (_currentData (stopIfTesting s)) (Z.lnot (Z.shiftl 1 pos))))
             (stopIfTesting s).
Proof. reflexivity. Qed.

Lemma toggleBit_eq pos s :
  toggleBit pos s =
  if 7 <? pos then (false, s)
  else write (u8 (Z.lxor (_currentData (stopIfTesting s)) (Z.shiftl 1 pos)))
             (stopIfTesting s).
Proof. reflexivity. Qed.

Lemma Inv_setBit pos s : Inv s -> Inv (snd (setBit pos s)).
Proof.
  intros H. rewrite setBit_eq. destruct (7 <? pos); [exact H|].
  by apply Inv_write, Inv_stopIfTesting.
Qed.

Lemma Inv_clearBit pos s : Inv s -> Inv (snd (clearBit pos s)).
Proof.
  intros H. rewrite clearBit_eq. destruct (7 <? pos); [exact H|].
  by apply Inv_write, Inv_stopIfTesting.
Qed.

Lemma Inv_toggleBit pos s : Inv s -> Inv (snd (toggleBit pos s)).
Proof.
  intros H. rewrite toggleBit_eq. destruct (7 <? pos); [exact H|].
  by apply Inv_write, Inv_stopIfTesting.
Qed.

Lemma Inv_digitalWrite p v s : Inv s -> Inv (digitalWrite p v s).
Proof. intros H. inv_facts H. inv_close. Qed.

Lemma Inv_begin now s : Inv s -> is_u32 now -> Inv (begin now s).
Proof.
  intros H Hnow. unfold begin. cbv zeta.
  apply (Inv_submit SubmitClear).
  apply Inv_set_idle, Inv_set_lastUpdateTime; [|done].
  destruct (negb _); repeat apply Inv_digitalWrite; done.
Qed.

Lemma Inv_startTestPattern now ty delay s :
  Inv s -> is_u32 now -> Inv (snd (startTestPattern now ty delay s)).
Proof.
  intros H Hnow. inv_facts H. unfold startTestPattern, isBusy.
  destruct (_state s) eqn:Hs; simpl; try done.
  destruct (0 <? _queueSize s) eqn:Hq; simpl; [done|].
  apply Z.ltb_ge in Hq. inv_close.
Qed.

Lemma Inv_setStepDelay d s : Inv s -> is_u32 d -> Inv (setStepDelay d s).
Proof. intros H Hd. inv_facts H. unfold setStepDelay. inv_close. Qed.

Lemma Inv_clearQueue s : Inv s -> Inv (clearQueue s).
Proof.
  intros H. inv_facts H. unfold clearQueue. inv_close.
  by rewrite length_map.
Qed.

(** Every state the public interface produces satisfies the invariant. *)
Lemma Reachable_Inv s : Reachable s -> Inv s.
Proof.
  induction 1.
  - apply Inv_new4.
  - apply Inv_new4.
  - by apply Inv_begin.
  - by apply Inv_update.
  - by apply Inv_submit.
  - by apply Inv_setBit.
  - by apply Inv_clearBit.
  - by apply Inv_toggleBit.
  - by apply Inv_startTestPattern.
  - by apply Inv_stopTestPattern.
  - by apply Inv_setStepDelay.
  - by apply Inv_clearQueue.
Qed.

(** ** The cases of one call of [update] *)

Lemma update_gate now s : isTimingMet now s = false -> update now s = s.
Proof. intros Hg. unfold update, processStateMachine. by rewrite Hg. Qed.

Lemma update_idle_empty now s :
  _state s = NJU3711_IDLE -> _queueSize s = 0 -> update now s = s.
Proof.
  intros Hs Hq. unfold update, processStateMachine.
  destruct (isTimingMet now s); simpl; [|done].
  by rewrite Hs, dequeue_None.
Qed.

Lemma update_idle_dequeue now s op d s' :
  isTimingMet now s = true -> _state s = NJU3711_IDLE ->
  dequeueOperation s = Some (op, d, s') ->
  update now s = startOperation op d s'.
Proof.
  intros Hg Hs Hd. unfold update, processStateMachine. by rewrite Hg, Hs, Hd.
Qed.

Lemma update_shift_rise now s :
  isTimingMet now s = true -> _state s = NJU3711_SHIFTING -> _clockState s = false ->
  update now s =
  set_lastUpdateTime now
    (set_clockState true
       (digitalWrite (_clockPin s) HIGH
          (digitalWrite (_dataPin s)
             (negb (Z.land (Z.shiftr (_shiftData s) (_bitIndex s)) 1 =? 0)) s))).
Proof.
  intros Hg Hs Hc. unfold update, processStateMachine, updateClock.
  rewrite Hg, Hs, Hc. simpl. rewrite Hc. simpl.
  by destruct (negb (Z.land (Z.shiftr (_shiftData s) (_bitIndex s)) 1 =? 0)).
Qed.

Lemma update_shift_fall now s :
  isTimingMet now s = true -> _state s = NJU3711_SHIFTING -> _clockState s = true ->
  update now s =
  let s1 :=
    set_bitIndex (s8 (_bitIndex s - 1))
      (set_lastUpdateTime now
         (set_clockState false (digitalWrite (_clockPin s) LOW s))) in
  if s8 (_bitIndex s - 1) <? 0 then
    match _currentOperation s with
    | NJU3711_OP_WRITE => set_state NJU3711_LATCHING s1
    | _ => set_state NJU3711_IDLE s1
    end
  else s1.
Proof.
  intros Hg Hs Hc. unfold update, processStateMachine, updateClock.
  rewrite Hg, Hs, Hc. reflexivity.
Qed.

Lemma update_latch_low now s :
  isTimingMet now s = true -> _state s = NJU3711_LATCHING -> latchStep s = false ->
  update now s =
  set_lastUpdateTime now (set_latchStep true (digitalWrite (_strobePin s) LOW s)).
Proof.
  intros Hg Hs Hl. unfold update, processStateMachine. by rewrite Hg, Hs, Hl.
Qed.

Lemma update_latch_high now s :
  isTimingMet now s = true -> _state s = NJU3711_LATCHING -> latchStep s = true ->
  update now s =
  set_state NJU3711_IDLE (set_latchStep false (digitalWrite (_strobePin s) HIGH s)).
Proof.
  intros Hg Hs Hl. unfold update, processStateMachine. by rewrite Hg, Hs, Hl.
Qed.

Lemma update_clear_low now s :
  isTimingMet now s = true -> _state s = NJU3711_CLEARING -> _clearPin s <> 255 ->
  clearStep s = false ->
  update now s =
  set_lastUpdateTime now (set_clearStep true (digitalWrite (_clearPin s) LOW s)).
Proof.
  intros Hg Hs Hp Hl. unfold update, processStateMachine. rewrite Hg, Hs, Hl.
  apply Z.eqb_neq in Hp. by rewrite Hp.
Qed.

Lemma update_clear_high now s :
  isTimingMet now s = true -> _state s = NJU3711_CLEARING -> _clearPin s <> 255 ->
  clearStep s = true ->
  update now s =
  set_state NJU3711_IDLE
    (set_currentData 0 (set_clearStep false (digitalWrite (_clearPin s) HIGH s))).
Proof.
  intros Hg Hs Hp Hl. unfold update, processStateMachine. rewrite Hg, Hs, Hl.
  apply Z.eqb_neq in Hp. by rewrite Hp.
Qed.

Lemma update_clear_soft now s :
  isTimingMet now s = true -> _state s = NJU3711_CLEARING -> _clearPin s = 255 ->
  update now s =
  set_state NJU3711_IDLE
    (if fst (enqueueOperation NJU3711_OP_WRITE 0 s)
     then set_currentData 0 (snd (enqueueOperation NJU3711_OP_WRITE 0 s))
     else snd (enqueueOperation NJU3711_OP_WRITE 0 s)).
Proof.
  intros Hg Hs Hp. unfold update, processStateMachine. rewrite Hg, Hs, Hp. simpl.
  by destruct (enqueueOperation NJU3711_OP_WRITE 0 s) as [[] ?].
Qed.

Lemma update_test_wait now s :
  _state s = NJU3711_TEST_PATTERN ->
  (_testPatternDelay s <=? u32 (now - _lastUpdateTime s)) = false ->
  update now s = s.
Proof.
  intros Hs Hd. unfold update, processStateMachine.
  destruct (isTimingMet now s); simpl; [|done]. by rewrite Hs, Hd.
Qed.

Lemma update_test_fire now s :
  isTimingMet now s = true -> _state s = NJU3711_TEST_PATTERN ->
  (_testPatternDelay s <=? u32 (now - _lastUpdateTime s)) = true ->
  (1 <= _testPatternType s <= 4 /\
   exists d v,
     update now s = set_lastUpdateTime now (set_testPatternStep v (snd (write d s)))) \/
  (~ 1 <= _testPatternType s <= 4 /\ update now s = set_lastUpdateTime now s).
Proof.
  intros Hg Hs Hd. unfold update, processStateMachine. rewrite Hg, Hs, Hd. simpl.
  destruct (_testPatternType s) as [|p|p]; [right; split; [lia|done]| |right; split; [lia|done]].
  do 3 (try destruct p as [p|p|]); try (right; split; [lia|done]);
    (left; split; [lia|]);
    match goal with
    | |- context [write ?d s] =>
        destruct (write d s) as [ok s1] eqn:Hw;
        replace s1 with (snd (write d s)) by (by rewrite Hw); eauto
    end.
Qed.

(** Case analysis of a step of an object that satisfies the invariant. *)
Lemma update_cases now s : Inv s -> StepCase now s.
Proof.
  intros H. inv_facts H.
  destruct (isTimingMet now s) eqn:Hg; [|by apply step_gate, update_gate].
  destruct (_state s) eqn:Hs.
  - destruct (Z.eq_dec (_queueSize s) 0) as [Hq|Hq].
    + by apply step_idle_empty, update_idle_empty.
    + destruct (dequeue_Some s (Inv_queue s H)) as (e & _ & Hd); [lia|].
      eapply step_idle_dequeue; eauto using update_idle_dequeue.
  - destruct (_clockState s) eqn:Hc.
    + by apply step_shift_fall, update_shift_fall.
    + by apply step_shift_rise, update_shift_rise.
  - destruct (latchStep s) eqn:Hl.
    + by apply step_latch_high, update_latch_high.
    + by apply step_latch_low, update_latch_low.
  - destruct (Z.eq_dec (_clearPin s) 255) as [Hp|Hp].
    + by apply step_clear_soft, update_clear_soft.
    + destruct (clearStep s) eqn:Hl.
      * by apply step_clear_high, update_clear_high.
      * by apply step_clear_low, update_clear_low.
  - destruct (_testPatternDelay s <=? u32 (now - _lastUpdateTime s)) eqn:Hd.
    + destruct (update_test_fire now s Hg Hs Hd) as [[Hty (d & v & Hu)]|[Hty Hu]].
      * by eapply step_test_emit.
      * by apply step_test_other.
    + by apply step_test_wait, update_test_wait.
Qed.

(** Split on the case of [update now s]; the equation of the case is
    rewritten into the goal. *)
Ltac step_cases now s H :=
  let Hu := fresh "Hu" in
  destruct (update_cases now s H)
    as [Hg Hu|Hst Hq Hu|op d s' Hg Hst Hd Hu|Hg Hst Hck Hu|Hg Hst Hck Hu
       |Hg Hst Hl Hu|Hg Hst Hl Hu|Hg Hst Hp Hl Hu|Hg Hst Hp Hl Hu|Hg Hst Hp Hu
       |Hst Hdl Hu|d v Hg Hst Hty Hu|Hg Hst Hty Hu];
  rewrite Hu; clear Hu.

(** ** What a call leaves alone *)

Lemma write_frame d s :
  let s' := snd (write d s) in
  _stepDelay s' = _stepDelay s /\ _lastUpdateTime s' = _lastUpdateTime s /\
  gpio s' = gpio s /\ driverPins s' = driverPins s /\
  _currentData s' = _currentData s /\ _state s' <> NJU3711_TEST_PATTERN.
Proof.
  change (write d s) with (enqueueOperation NJU3711_OP_WRITE d (stopIfTesting s)).
  pose proof (stopIfTesting_state s) as Hne.
  unfold enqueueOperation.
  destruct (8 <=? _queueSize (stopIfTesting s)); simpl; split_and!; try done;
    unfold stopIfTesting, stopTestPattern; by destruct (state_eqb _ _).
Qed.

Lemma dequeue_frame s op d s' :
  dequeueOperation s = Some (op, d, s') ->
  _stepDelay s' = _stepDelay s /\ _lastUpdateTime s' = _lastUpdateTime s /\
  gpio s' = gpio s /\ driverPins s' = driverPins s /\
  _currentData s' = _currentData s /\ _state s' = _state s /\
  _clockState s' = _clockState s /\ latchStep s' = latchStep s /\
  clearStep s' = clearStep s.
Proof.
  unfold dequeueOperation. destruct (_queueSize s =? 0); [done|].
  destruct (_operationQueue s !! _); [|done]. by intros [= _ _ <-].
Qed.

Lemma update_config now s :
  Inv s ->
  _stepDelay (update now s) = _stepDelay s /\ driverPins (update now s) = driverPins s.
Proof.
  intros H. step_cases now s H; try done.
  - destruct (dequeue_frame _ _ _ _ Hd) as (? & _ & _ & ? & _). by destruct op.
  - simpl. by destruct (_ <? 0), (_currentOperation s).
  - destruct (enqueue_frame NJU3711_OP_WRITE 0 s) as (_ & _ & _ & _ & _ & ? & _).
    unfold enqueueOperation in *. by destruct (8 <=? _queueSize s).
  - by destruct (write_frame d s) as (? & _ & _ & ? & _).
Qed.

Lemma update_last now s :
  Inv s ->
  _lastUpdateTime (update now s) = _lastUpdateTime s \/ _lastUpdateTime (update now s) = now.
Proof.
  intros H. step_cases now s H; try (by left); try (by right).
  - destruct (dequeue_frame _ _ _ _ Hd) as (_ & ? & _). left. by destruct op.
  - right. simpl. by destruct (_ <? 0), (_currentOperation s).
  - left. unfold enqueueOperation. by destruct (8 <=? _queueSize s).
Qed.

Lemma update_keeps_out_of_test now s :
  Inv s -> _state s <> NJU3711_TEST_PATTERN -> _state (update now s) <> NJU3711_TEST_PATTERN.
Proof.
  intros H Hne. step_cases now s H; try done; try congruence.
  - destruct (dequeue_frame _ _ _ _ Hd) as (_ & _ & _ & _ & _ & ? & _).
    destruct op; simpl; congruence.
  - simpl. destruct (_ <? 0); [|simpl; congruence]. by destruct (_currentOperation s).
Qed.

(** ** Runs *)

Lemma run_app ts1 ts2 s : run (ts1 ++ ts2) s = run ts2 (run ts1 s).
Proof. revert s. induction ts1 as [|t ts1 IH]; intros s; [done|]. simpl. apply IH. Qed.

Lemma run_settled ts s :
  _state s = NJU3711_IDLE -> _queueSize s = 0 -> run ts s = s.
Proof.
  intros Hs Hq. induction ts as [|t ts IH]; [done|].
  simpl. by rewrite update_idle_empty.
Qed.

Lemma Inv_run ts s : Inv s -> Forall is_u32 ts -> Inv (run ts s).
Proof.
  revert s. induction ts as [|t ts IH]; intros s H Hts; [done|].
  inversion Hts; subst. simpl. apply IH; [by apply Inv_update|done].
Qed.

Lemma eligible_app ts1 ts2 s :
  eligible (ts1 ++ ts2) s = eligible ts1 s && eligible ts2 (run ts1 s).
Proof.
  revert s. induction ts1 as [|t ts1 IH]; intros s; [done|].
  simpl. by rewrite IH, andb_assoc.
Qed.

Lemma spaced_u32 d prev ts :
  0 <= d -> 0 <= prev -> spaced d prev ts = true -> Forall is_u32 ts.
Proof.
  intros Hd. revert prev. induction ts as [|t ts IH]; intros prev Hp Hsp; [done|].
  simpl in Hsp. apply andb_prop in Hsp as [Hsp Hrest]. apply andb_prop in Hsp as [H1 H2].
  apply Z.leb_le in H1. apply Z.ltb_lt in H2.
  constructor; [unfold is_u32; lia|]. apply (IH t); [lia|done].
Qed.

Lemma last_nonempty (a : Z) l d1 d2 : List.last (a :: l) d1 = List.last (a :: l) d2.
Proof. revert a. induction l as [|b l IH]; intros a; [done|]. apply (IH b). Qed.

Lemma last_cons (t : Z) ts prev : List.last (t :: ts) prev = List.last ts t.
Proof. destruct ts as [|a l]; [done|]. apply (last_nonempty a l). Qed.

Lemma spaced_app d prev ts1 ts2 :
  spaced d prev (ts1 ++ ts2) = spaced d prev ts1 && spaced d (List.last ts1 prev) ts2.
Proof.
  revert prev. induction ts1 as [|t ts1 IH]; intros prev; [done|].
  rewrite last_cons. simpl. by rewrite IH, andb_assoc.
Qed.

Lemma isTimingMet_after s prev t :
  Inv s -> _lastUpdateTime s <= prev -> prev + _stepDelay s <= t -> t < 4294967296 ->
  isTimingMet t s = true.
Proof.
  intros H Hp Ht Hlt. inv_facts H. unfold isTimingMet, is_u32 in *.
  apply Z.leb_le. unfold u32. rewrite Z.mod_small; lia.
Qed.

(** Calls spaced by the step delay all pass the timing gate. *)
Lemma spaced_eligible ts s prev :
  Inv s -> _lastUpdateTime s <= prev -> spaced (_stepDelay s) prev ts = true ->
  eligible ts s = true.
Proof.
  revert s prev. induction ts as [|t ts IH]; intros s prev H Hp Hsp; [done|].
  simpl in *. apply andb_prop in Hsp as [Hsp Hrest]. apply andb_prop in Hsp as [H1 H2].
  apply Z.leb_le in H1. apply Z.ltb_lt in H2.
  inv_facts H.
  rewrite (isTimingMet_after s prev t); try done. simpl.
  apply (IH _ t).
  - apply Inv_update; [done|]. unfold is_u32 in *. lia.
  - destruct (update_last t s H) as [-> | ->]; lia.
  - by destruct (update_config t s H) as [-> _].
Qed.

Lemma last_run ts s prev :
  Inv s -> _lastUpdateTime s <= prev -> spaced (_stepDelay s) prev ts = true ->
  _lastUpdateTime (run ts s) <= List.last ts prev /\
  _stepDelay (run ts s) = _stepDelay s /\ driverPins (run ts s) = driverPins s.
Proof.
  revert s prev. induction ts as [|t ts IH]; intros s prev H Hp Hsp; [done|].
  simpl in Hsp. apply andb_prop in Hsp as [Hsp Hrest]. apply andb_prop in Hsp as [H1 H2].
  apply Z.leb_le in H1. apply Z.ltb_lt in H2. inv_facts H.
  destruct (update_config t s H) as [Hd Hpins].
  assert (_lastUpdateTime (update t s) <= t) as Hle.
  { destruct (update_last t s H) as [-> | ->]; lia. }
  destruct (IH (update t s) t) as (IH1 & IH2 & IH3).
  - apply Inv_update; [done|]. unfold is_u32 in *. lia.
  - done.
  - by rewrite Hd.
  - change (run (t :: ts) s) with (run ts (update t s)).
    rewrite last_cons. split_and!; [done|congruence..].
Qed.

(** ** Progress of the operation in progress *)

Lemma s8_small x : -128 <= x < 128 -> s8 x = x.
Proof. intros Hx. unfold s8. zlia. Qed.

Lemma stepsToIdle_range s :
  Inv s -> _state s <> NJU3711_TEST_PATTERN ->
  0 <= stepsToIdle s <= 18 /\ (stepsToIdle s = 0 <-> _state s = NJU3711_IDLE).
Proof.
  intros H Hne. inv_facts H. unfold stepsToIdle.
  destruct (_state s) eqn:Hs; try done.
  - specialize (Ibit eq_refl).
    destruct (_clockState s), (_currentOperation s), (latchStep s);
      split; try lia; split; (lia || done).
  - destruct (latchStep s); split; try lia; split; (lia || done).
  - destruct (_clearPin s =? 255), (clearStep s); split; try lia; split; (lia || done).
Qed.

(** One timing-eligible call takes exactly one step off the operation in
    progress. *)
Lemma update_progress now s :
  Inv s -> isTimingMet now s = true ->
  _state s <> NJU3711_IDLE -> _state s <> NJU3711_TEST_PATTERN ->
  stepsToIdle (update now s) = stepsToIdle s - 1.
Proof.
  intros H Hgate Hni Hnt. inv_facts H.
  step_cases now s H; try congruence; unfold stepsToIdle; rewrite Hst.
  - simpl. rewrite Hst, Hck. lia.
  - specialize (Ibit Hst). rewrite Hck. cbv zeta. rewrite s8_small by lia.
    destruct (_bitIndex s - 1 <? 0) eqn:Hb.
    + apply Z.ltb_lt in Hb. assert (_bitIndex s = 0) as -> by lia.
      destruct (_currentOperation s); simpl; destruct (latchStep s); lia.
    + apply Z.ltb_ge in Hb. simpl. rewrite Hst.
      destruct (_currentOperation s), (latchStep s); lia.
  - simpl. rewrite Hst, Hl. lia.
  - simpl. rewrite Hl. lia.
  - simpl. apply Z.eqb_neq in Hp. rewrite Hst, Hp, Hl. lia.
  - simpl. apply Z.eqb_neq in Hp. rewrite Hp, Hl. lia.
  - simpl. rewrite Hp. simpl. lia.
Qed.

(** While shifting or latching, a call changes neither the recorded value
    nor the queue, and leaves the engine shifting, latching or idle. *)
Lemma update_transferring now s :
  Inv s -> transferring s ->
  _currentData (update now s) = _currentData s /\
  queueOf (update now s) = queueOf s /\
  (transferring (update now s) \/ _state (update now s) = NJU3711_IDLE) /\
  (_state (update now s) = NJU3711_SHIFTING ->
   _currentOperation (update now s) = _currentOperation s).
Proof.
  intros H Htr. unfold transferring, queueOf in *.
  step_cases now s H; try (destruct Htr; congruence); try (split_and!; by auto).
  cbv zeta. destruct (s8 (_bitIndex s - 1) <? 0).
  - destruct (_currentOperation s); simpl; split_and!; auto; congruence.
  - simpl. split_and!; auto.
Qed.

(** After exactly [stepsToIdle s] timing-eligible calls the engine is idle. *)
Lemma run_to_idle ts s :
  Inv s -> _state s <> NJU3711_TEST_PATTERN -> Forall is_u32 ts ->
  eligible ts s = true -> Z.of_nat (length ts) = stepsToIdle s ->
  _state (run ts s) = NJU3711_IDLE.
Proof.
  revert s. induction ts as [|t ts IH]; intros s H Hnt Hts Hel Hlen.
  - simpl in *. by apply (stepsToIdle_range s H Hnt).
  - inversion Hts; subst. simpl in Hel. apply andb_prop in Hel as [Hg Hel].
    assert (_state s <> NJU3711_IDLE) as Hni.
    { intros Hi. apply (stepsToIdle_range s H Hnt) in Hi. simpl in Hlen. lia. }
    simpl. apply IH; try done.
    + by apply Inv_update.
    + by apply update_keeps_out_of_test.
    + rewrite update_progress by done. simpl in Hlen. lia.
Qed.

(** The same run, for a shift or latch in progress: the recorded value and
    the queue come out as they went in. *)
Lemma run_transfer ts s :
  Inv s -> transferring s -> Forall is_u32 ts ->
  eligible ts s = true -> Z.of_nat (length ts) = stepsToIdle s ->
  _state (run ts s) = NJU3711_IDLE /\
  _currentData (run ts s) = _currentData s /\
  queueOf (run ts s) = queueOf s.
Proof.
  revert s. induction ts as [|t ts IH]; intros s H Htr Hts Hel Hlen.
  - assert (_state s <> NJU3711_TEST_PATTERN) as Hnt by (destruct Htr; congruence).
    simpl in *. split; [|done]. by apply (stepsToIdle_range s H Hnt).
  - inversion Hts; subst. simpl in Hel. apply andb_prop in Hel as [Hg Hel].
    assert (_state s <> NJU3711_TEST_PATTERN) as Hnt by (destruct Htr; congruence).
    assert (_state s <> NJU3711_IDLE) as Hni by (destruct Htr; congruence).
    pose proof (update_progress t s H Hg Hni Hnt) as Hpr.
    destruct (update_transferring t s H Htr) as (Hcd & Hq & Hnext & _).
    assert (Inv (update t s)) as H' by by apply Inv_update.
    simpl. destruct Hnext as [Htr'|Hidle].
    + destruct (IH (update t s)) as (I1 & I2 & I3); try done.
      { simpl in Hlen. lia. }
      split_and!; congruence.
    + assert (stepsToIdle (update t s) = 0) as Hz.
      { apply stepsToIdle_range; [done|congruence|done]. }
      destruct ts; [|simpl in Hlen; lia]. simpl. done.
Qed.

(** ** The ring buffer as a bounded FIFO *)

Lemma pending_length s : length (pending s) = Z.to_nat (_queueSize s).
Proof. unfold pending. by rewrite length_map, length_seq. Qed.

Lemma entryAt_insert_eq q i e :
  length q = 8%nat -> 0 <= i < 8 ->
  entryAt (<[Z.to_nat i := e]> q) i = (operation e, data e).
Proof.
  intros Hl Hi. unfold entryAt. rewrite Z.mod_small by lia.
  rewrite list_lookup_insert_eq; [done|lia].
Qed.

Lemma entryAt_insert_ne q i j e :
  0 <= i < 8 -> i <> j mod 8 -> entryAt (<[Z.to_nat i := e]> q) j = entryAt q j.
Proof.
  intros Hi Hne. unfold entryAt. rewrite list_lookup_insert_ne; [done|].
  assert (0 <= j mod 8 < 8) by (apply Z.mod_pos_bound; lia). lia.
Qed.

Lemma entryAt_invalidate q i j e :
  q !! Z.to_nat i = Some e ->
  entryAt (<[Z.to_nat i := {| operation := operation e; data := data e; valid := false |}]> q) j
  = entryAt q j.
Proof.
  intros He. unfold entryAt.
  destruct (decide (Z.to_nat i = Z.to_nat (j mod 8))) as [E|E].
  - rewrite <- E, He. rewrite list_lookup_insert_eq; [done|].
    by apply lookup_lt_Some in He.
  - by rewrite list_lookup_insert_ne.
Qed.

Lemma entryAt_mod q i : entryAt q (i mod 8) = entryAt q i.
Proof. unfold entryAt. by rewrite Z.mod_mod. Qed.

Lemma enqueue_full op d s : 8 <= _queueSize s -> enqueueOperation op d s = (false, s).
Proof.
  intros Hf. unfold enqueueOperation.
  destruct (8 <=? _queueSize s) eqn:E; [done|]. apply Z.leb_gt in E. lia.
Qed.

Lemma QueueInv_enqueue op d s : QueueInv s -> QueueInv (snd (enqueueOperation op d s)).
Proof.
  intros H. qinv_facts H. unfold enqueueOperation.
  destruct (8 <=? _queueSize s) eqn:Hfull; simpl; [done|].
  apply Z.leb_gt in Hfull.
  constructor; simpl; try done.
  - by rewrite length_insert.
  - unfold u8. zlia.
  - unfold u8. zlia.
Qed.

Lemma QueueInv_dequeue s op d s' :
  QueueInv s -> dequeueOperation s = Some (op, d, s') -> QueueInv s'.
Proof.
  intros H Hd. qinv_facts H.
  destruct (Z.eq_dec (_queueSize s) 0) as [E|E].
  { rewrite dequeue_None in Hd; done. }
  destruct (dequeue_Some s H) as (e & _ & Hs); [lia|].
  rewrite Hs in Hd. injection Hd as _ _ <-.
  constructor; simpl; try done.
  - by rewrite length_insert.
  - zlia.
  - lia.
  - zlia.
Qed.

Lemma enqueue_room op d s :
  QueueInv s -> _queueSize s < 8 ->
  fst (enqueueOperation op d s) = true /\
  pending (snd (enqueueOperation op d s)) = pending s ++ [(op, d)] /\
  _queueSize (snd (enqueueOperation op d s)) = _queueSize s + 1.
Proof.
  intros H Hr. qinv_facts H. unfold enqueueOperation.
  destruct (8 <=? _queueSize s) eqn:E; [apply Z.leb_le in E; lia|]. simpl.
  assert (u8 (_queueSize s + 1) = _queueSize s + 1) as Hu.
  { unfold u8. rewrite Z.mod_small; lia. }
  split; [done|]. split; [|done].
  unfold pending. simpl. rewrite Hu.
  replace (Z.to_nat (_queueSize s + 1)) with (S (Z.to_nat (_queueSize s))) by lia.
  rewrite seq_S, map_app. simpl. f_equal.
  - apply map_ext_in. intros k Hk. apply in_seq in Hk.
    apply entryAt_insert_ne; [zlia|]. rewrite Itail. zlia.
  - f_equal. rewrite Z2Nat.id by lia. rewrite <- entryAt_mod, <- Itail.
    apply entryAt_insert_eq; [done|zlia].
Qed.

Lemma dequeue_head s :
  QueueInv s -> 0 < _queueSize s ->
  exists x rest s',
    pending s = x :: rest /\ dequeueOperation s = Some (fst x, snd x, s') /\
    pending s' = rest /\ _queueSize s' = _queueSize s - 1.
Proof.
  intros H Hpos. qinv_facts H.
  destruct (dequeue_Some s H Hpos) as (e & He & Hd).
  exists (operation e, data e). eexists. eexists. split_and!; [|exact Hd|reflexivity|done].
  unfold pending. simpl.
  replace (Z.to_nat (_queueSize s)) with (S (Z.to_nat (_queueSize s - 1))) by lia.
  rewrite <- cons_seq. simpl. f_equal.
  - unfold entryAt. rewrite Z.add_0_r, Z.mod_small by lia. by rewrite He.
  - rewrite <- seq_shift, map_map. apply map_ext. intros k.
    rewrite entryAt_invalidate by done.
    rewrite <- (entryAt_mod _ ((_queueHead s + 1) mod 8 + _)).
    rewrite <- (entryAt_mod _ (_queueHead s + _)). f_equal. zlia.
Qed.

Lemma pending_empty s : _queueSize s = 0 -> pending s = [].
Proof. intros Hq. unfold pending. by rewrite Hq. Qed.



(** ** Operations run to completion *)

Lemma eligible_take n ts s : eligible ts s = true -> eligible (take n ts) s = true.
Proof.
  intros He. rewrite <- (take_drop n ts), eligible_app in He.
  by apply andb_prop in He as [? _].
Qed.

Lemma Forall_take_u32 n (ts : list Z) : Forall is_u32 ts -> Forall is_u32 (take n ts).
Proof. apply Forall_take. Qed.

(** A shift or latch in progress with nothing queued: any long enough run of
    eligible calls ends idle, with the recorded value untouched. *)
Lemma run_transfer_settles ts s :
  Inv s -> transferring s -> _queueSize s = 0 -> Forall is_u32 ts ->
  eligible ts s = true -> stepsToIdle s <= Z.of_nat (length ts) ->
  _state (run ts s) = NJU3711_IDLE /\
  _currentData (run ts s) = _currentData s /\
  _queueSize (run ts s) = 0.
Proof.
  intros H Htr Hq Hts Hel Hlen.
  assert (_state s <> NJU3711_TEST_PATTERN) as Hnt by (destruct Htr; congruence).
  destruct (stepsToIdle_range s H Hnt) as [Hrange _].
  set (n := Z.to_nat (stepsToIdle s)).
  destruct (run_transfer (take n ts) s) as (H1 & H2 & H3); try done.
  - by apply Forall_take.
  - by apply eligible_take.
  - rewrite length_take. lia.
  - rewrite <- (take_drop n ts), run_app.
    assert (_queueSize (run (take n ts) s) = 0) as Hq'.
    { unfold queueOf in H3. injection H3 as _ _ _ ->. done. }
    rewrite run_settled by done. done.
Qed.

(** A Write or ShiftOnly waiting alone at the head of the queue of an idle
    engine: the dequeue call, sixteen clock edges, and for Write the two
    strobe phases. *)
Lemma run_shift_operation op v ts s :
  Inv s -> _state s = NJU3711_IDLE -> pending s = [(op, v)] ->
  op = NJU3711_OP_WRITE \/ op = NJU3711_OP_SHIFT_ONLY ->
  Forall is_u32 ts -> eligible ts s = true ->
  (match op with NJU3711_OP_WRITE => 19 | _ => 17 end <= length ts)%nat ->
  _state (run ts s) = NJU3711_IDLE /\
  _currentData (run ts s) = v /\
  _queueSize (run ts s) = 0.
Proof.
  intros H Hi Hp Hop Hts Hel Hlen.
  assert (_queueSize s = 1) as Hq.
  { pose proof (pending_length s) as Hl. rewrite Hp in Hl. simpl in Hl.
    pose proof (inv_size s H). lia. }
  destruct ts as [|t ts]; [destruct Hop; subst; simpl in Hlen; lia|].
  inversion Hts; subst. simpl in Hel. apply andb_prop in Hel as [Hg Hel].
  destruct (dequeue_head s (Inv_queue s H)) as (x & rest & s' & Hp' & Hd & Hr & Hq');
    [lia|].
  rewrite Hp in Hp'. injection Hp' as <- <-. simpl in Hd.
  destruct (Inv_dequeue s _ _ _ H Hd) as (H' & Hs' & _).
  pose proof (update_idle_dequeue t s _ _ _ Hg Hi Hd) as Hu.
  simpl. rewrite Hu in *.
  assert (Inv (startOperation op v s')) as Hinv.
  { apply Inv_startOperation; [done|congruence]. }
  assert (transferring (startOperation op v s') /\
          _queueSize (startOperation op v s') = 0 /\
          _currentData (startOperation op v s') = v /\
          stepsToIdle (startOperation op v s') <=
            match op with NJU3711_OP_WRITE => 18 | _ => 16 end) as (Htr & Hq0 & Hcd & Hst).
  { destruct Hop; subst; unfold transferring, stepsToIdle; simpl;
      destruct (_clockState s'), (latchStep s'); split_and!; auto; lia. }
  destruct (run_transfer_settles ts (startOperation op v s')) as (R1 & R2 & R3); try done.
  - destruct Hop; subst; simpl in Hlen; lia.
  - split_and!; congruence.
Qed.

Lemma not_busy s : Inv s -> isBusy s = false -> _state s = NJU3711_IDLE /\ _queueSize s = 0.
Proof.
  intros H Hb. pose proof (inv_size s H). unfold isBusy in Hb.
  apply orb_false_elim in Hb as [Hs Hq]. apply Z.ltb_ge in Hq.
  split; [|lia]. apply negb_false_iff in Hs. by apply state_eqb_eq.
Qed.

Lemma idle_not_busy s : _state s = NJU3711_IDLE -> _queueSize s = 0 -> isBusy s = false.
Proof. intros Hs Hq. unfold isBusy. by rewrite Hs, Hq. Qed.

Lemma stopIfTesting_idle s : _state s = NJU3711_IDLE -> stopIfTesting s = s.
Proof. intros Hs. unfold stopIfTesting. by rewrite Hs. Qed.

(** A submit on an engine that is not busy is accepted and waits alone. *)
Lemma submit_not_busy c s :
  Inv s -> isBusy s = false ->
  fst (submit c s) = true /\ pending (snd (submit c s)) = [submitted c] /\
  _state (snd (submit c s)) = NJU3711_IDLE /\
  _stepDelay (snd (submit c s)) = _stepDelay s /\
  _lastUpdateTime (snd (submit c s)) = _lastUpdateTime s.
Proof.
  intros H Hb. destruct (not_busy s H Hb) as [Hs Hq].
  rewrite submit_unfold, stopIfTesting_idle by done.
  destruct (enqueue_room (fst (submitted c)) (snd (submitted c)) s (Inv_queue s H))
    as (Hok & Hp & _); [lia|].
  destruct (enqueue_frame (fst (submitted c)) (snd (submitted c)) s)
    as (Hst & _ & _ & _ & _ & Hd & Hl & _).
  rewrite Hok, Hp, pending_empty by done. split_and!; try done; try congruence.
  by destruct (submitted c).
Qed.


(** ** The phase flags *)

(** Finish the clauses of a [Settled] goal on an updated record. *)
Ltac settled_close :=
  constructor; simpl in *; intros;
  try done; try congruence;
  try (match goal with Himp : _ -> ?G |- ?G => apply Himp; congruence end);
  try (repeat match goal with
              | Himp : ?P -> _, Hp : ?P |- _ => specialize (Himp Hp)
              end; congruence).

Lemma Settled_new4 dp cp sp clr : Settled (NJU3711_new4 dp cp sp clr).
Proof. constructor; simpl; congruence. Qed.

Lemma Settled_same s1 s2 :
  _state s2 = _state s1 -> _clockState s2 = _clockState s1 ->
  latchStep s2 = latchStep s1 -> clearStep s2 = clearStep s1 ->
  Settled s1 -> Settled s2.
Proof.
  intros Hs Hck Hl Hcl H. settled_facts H.
  constructor; rewrite ?Hs, ?Hck, ?Hl, ?Hcl; done.
Qed.

Lemma Settled_enqueue op d s : Settled s -> Settled (snd (enqueueOperation op d s)).
Proof.
  destruct (enqueue_frame op d s) as (Hs & Hck & Hl & Hcl & _).
  by apply Settled_same.
Qed.

Lemma Settled_stopTestPattern s : Settled s -> Settled (stopTestPattern s).
Proof.
  intros H. settled_facts H. unfold stopTestPattern.
  destruct (state_eqb (_state s) NJU3711_TEST_PATTERN) eqn:E; [|done].
  apply state_eqb_eq in E. settled_close.
Qed.

Lemma Settled_stopIfTesting s : Settled s -> Settled (stopIfTesting s).
Proof.
  intros H. unfold stopIfTesting.
  destruct (state_eqb _ _); [by apply Settled_stopTestPattern|done].
Qed.

Lemma Settled_submit c s : Settled s -> Settled (snd (submit c s)).
Proof.
  intros H. rewrite submit_unfold. by apply Settled_enqueue, Settled_stopIfTesting.
Qed.

Lemma Settled_write d s : Settled s -> Settled (snd (write d s)).
Proof. apply (Settled_submit (SubmitWrite d)). Qed.

Lemma Settled_setBit pos s : Settled s -> Settled (snd (setBit pos s)).
Proof.
  intros H. rewrite setBit_eq. destruct (7 <? pos); [exact H|].
  by apply Settled_write, Settled_stopIfTesting.
Qed.

Lemma Settled_clearBit pos s : Settled s -> Settled (snd (clearBit pos s)).
Proof.
  intros H. rewrite clearBit_eq. destruct (7 <? pos); [exact H|].
  by apply Settled_write, Settled_stopIfTesting.
Qed.

Lemma Settled_toggleBit pos s : Settled s -> Settled (snd (toggleBit pos s)).
Proof.
  intros H. rewrite toggleBit_eq. destruct (7 <? pos); [exact H|].
  by apply Settled_write, Settled_stopIfTesting.
Qed.

Lemma Settled_update now s : Inv s -> Settled s -> Settled (update now s).
Proof.
  intros H S. settled_facts S. inv_facts H.
  step_cases now s H; try done; try solve [settled_close].
  - destruct (dequeue_frame _ _ _ _ Hd) as (_ & _ & _ & _ & _ & Hs' & Hck' & Hl' & Hcl').
    destruct (idle_flags s S Hst) as (F1 & F2 & F3).
    rewrite F1 in Hck'. rewrite F2 in Hl'. rewrite F3 in Hcl'.
    destruct op; unfold startOperation; constructor; simpl; intros; congruence.
  - cbv zeta. destruct (s8 (_bitIndex s - 1) <? 0); [|settled_close].
    destruct (_currentOperation s); settled_close.
  - destruct (enqueue_frame NJU3711_OP_WRITE 0 s) as (Hs0 & Hs1 & Hs2 & Hs3 & _).
    assert (_clockState s = false) as F1 by (apply Sclock; congruence).
    assert (latchStep s = false) as F2.
    { destruct (latchStep s); [|done]. specialize (Slatch eq_refl). congruence. }
    assert (clearStep s = false) as F3.
    { destruct (clearStep s); [|done]. by specialize (Iclear eq_refl). }
    destruct (enqueueOperation NJU3711_OP_WRITE 0 s) as [[] s']; simpl in *;
      apply flags_Settled; simpl; auto; congruence.
  - pose proof (Settled_write d s S) as Sw.
    revert Sw. apply Settled_same; done.
Qed.

Lemma Settled_run ts s : Inv s -> Settled s -> Forall is_u32 ts -> Settled (run ts s).
Proof.
  revert s. induction ts as [|t ts IH]; intros s H S Hts; [done|].
  inversion Hts; subst. simpl.
  apply IH; [by apply Inv_update|by apply Settled_update|done].
Qed.

Lemma Settled_digitalWrite p v s : Settled s -> Settled (digitalWrite p v s).
Proof. by apply Settled_same. Qed.

(** [begin] keeps the flags in order when no operation is in progress. *)
Lemma Settled_begin now s :
  Settled s -> _state s = NJU3711_IDLE \/ _state s = NJU3711_TEST_PATTERN ->
  Settled (begin now s).
Proof.
  intros S Hi. settled_facts S. unfold begin. cbv zeta.
  apply (Settled_submit SubmitClear).
  assert (_clockState s = false) as F1 by (apply Sclock; destruct Hi; congruence).
  assert (latchStep s = false) as F2.
  { destruct (latchStep s); [|done]. specialize (Slatch eq_refl).
    destruct Hi; congruence. }
  assert (clearStep s = false) as F3.
  { destruct (clearStep s); [|done]. specialize (Sclear eq_refl).
    destruct Hi; congruence. }
  apply flags_Settled; [by left|destruct (negb _); simpl; done..].
Qed.

Lemma Settled_startTestPattern now ty delay s :
  Settled s -> Settled (snd (startTestPattern now ty delay s)).
Proof.
  intros S. settled_facts S. unfold startTestPattern, isBusy.
  destruct (_state s) eqn:Hs; simpl; try done.
  destruct (0 <? _queueSize s) eqn:Hq; simpl; [done|].
  settled_close.
Qed.

Lemma Settled_setStepDelay d s : Settled s -> Settled (setStepDelay d s).
Proof. by apply Settled_same. Qed.

Lemma Settled_clearQueue s : Settled s -> Settled (clearQueue s).
Proof. by apply Settled_same. Qed.

Lemma Reachable_run ts s : Reachable s -> Forall is_u32 ts -> Reachable (run ts s).
Proof.
  revert s. induction ts as [|t ts IH]; intros s Hr Hts; [done|].
  inversion Hts; subst. simpl. apply IH; [by apply reach_update|done].
Qed.

(** ** Submitting *)

Lemma QueueInv_stopIfTesting s : QueueInv s -> QueueInv (stopIfTesting s).
Proof.
  intros H. unfold stopIfTesting, stopTestPattern.
  destruct (state_eqb (_state s) NJU3711_TEST_PATTERN); [|done].
  destruct H. by constructor.
Qed.

Lemma stopIfTesting_queue s : queueOf (stopIfTesting s) = queueOf s.
Proof.
  unfold stopIfTesting, stopTestPattern.
  by destruct (state_eqb (_state s) NJU3711_TEST_PATTERN).
Qed.

Lemma pending_queueOf s1 s2 : queueOf s1 = queueOf s2 -> pending s1 = pending s2.
Proof. unfold queueOf, pending. by intros [= -> -> _ ->]. Qed.

Lemma QueueInv_submit c s : QueueInv s -> QueueInv (snd (submit c s)).
Proof.
  intros H. rewrite submit_unfold. by apply QueueInv_enqueue, QueueInv_stopIfTesting.
Qed.

(** Outcome of one submit, by the fill level of the queue. *)
Lemma submit_outcome c s :
  QueueInv s ->
  (_queueSize s = 8 /\ fst (submit c s) = false /\ queueOf (snd (submit c s)) = queueOf s) \/
  (_queueSize s < 8 /\ fst (submit c s) = true /\
   pending (snd (submit c s)) = pending s ++ [submitted c] /\
   _queueSize (snd (submit c s)) = _queueSize s + 1).
Proof.
  intros H. pose proof (qinv_size s H) as Hsz.
  pose proof (stopIfTesting_queue s) as Hq.
  assert (_queueSize (stopIfTesting s) = _queueSize s) as Hsz'.
  { unfold queueOf in Hq. by injection Hq. }
  rewrite submit_unfold.
  destruct (Z.eq_dec (_queueSize s) 8) as [Hfull|Hroom].
  - left. rewrite enqueue_full by lia. done.
  - right.
    destruct (enqueue_room (fst (submitted c)) (snd (submitted c)) (stopIfTesting s))
      as (Hok & Hp & Hn); [by apply QueueInv_stopIfTesting|lia|].
    rewrite Hok, Hp, Hn, (pending_queueOf _ _ Hq), Hsz'.
    split_and!; try done; try lia. by destruct (submitted c).
Qed.

Lemma submitAll_app cs1 cs2 s :
  submitAll (cs1 ++ cs2) s =
  (fst (submitAll cs1 s) ++ fst (submitAll cs2 (snd (submitAll cs1 s))),
   snd (submitAll cs2 (snd (submitAll cs1 s)))).
Proof.
  revert s. induction cs1 as [|c cs1 IH]; intros s; simpl.
  - by destruct (submitAll cs2 s).
  - destruct (submit c s) as [ok s1]. rewrite IH.
    by destruct (submitAll cs1 s1), (submitAll cs2 _).
Qed.

Lemma submitAll_room c n s :
  QueueInv s -> _queueSize s + Z.of_nat n <= 8 ->
  fst (submitAll (replicate n c) s) = replicate n true /\
  _queueSize (snd (submitAll (replicate n c) s)) = _queueSize s + Z.of_nat n /\
  QueueInv (snd (submitAll (replicate n c) s)).
Proof.
  revert s. induction n as [|n IH]; intros s H Hr.
  - simpl. split_and!; [done|lia|done].
  - simpl. destruct (submit_outcome c s H) as [(Hf & _)|(_ & Hok & _ & Hsz)]; [lia|].
    pose proof (QueueInv_submit c s H) as H1.
    destruct (submit c s) as [ok s1]. simpl in *. subst ok.
    destruct (IH s1 H1) as (I1 & I2 & I3); [lia|].
    destruct (submitAll (replicate n c) s1) as [oks s2]. simpl in *.
    split_and!; [by rewrite I1|lia|done].
Qed.

(** ** Test-pattern mode *)

Lemma update_test_idle_type now s :
  _state s = NJU3711_TEST_PATTERN -> ~ 1 <= _testPatternType s <= 4 ->
  _state (update now s) = NJU3711_TEST_PATTERN /\
  _testPatternType (update now s) = _testPatternType s.
Proof.
  intros Hs Hty. unfold update, processStateMachine.
  destruct (isTimingMet now s); simpl; [|done]. rewrite Hs.
  destruct (_testPatternDelay s <=? u32 (now - _lastUpdateTime s)); [|done].
  destruct (_testPatternType s) as [|p|p] eqn:E; try (simpl; by rewrite ?E).
  do 3 (try destruct p as [p|p|]); try (simpl; by rewrite ?E); lia.
Qed.

Lemma run_test_idle_type ts s :
  _state s = NJU3711_TEST_PATTERN -> ~ 1 <= _testPatternType s <= 4 ->
  _state (run ts s) = NJU3711_TEST_PATTERN.
Proof.
  revert s. induction ts as [|t ts IH]; intros s Hs Hty; [done|].
  destruct (update_test_idle_type t s Hs Hty) as [Hs' Hty'].
  simpl. apply IH; [done|]. by rewrite Hty'.
Qed.

Lemma run_keeps_out_of_test ts s :
  Inv s -> Forall is_u32 ts -> _state s <> NJU3711_TEST_PATTERN ->
  _state (run ts s) <> NJU3711_TEST_PATTERN.
Proof.
  revert s. induction ts as [|t ts IH]; intros s H Hts Hne; [done|].
  inversion Hts; subst. simpl. apply IH; [by apply Inv_update|done|].
  by apply update_keeps_out_of_test.
Qed.

(** What a run needs to know about an engine right after a submit that found
    it not busy. *)
Lemma submitted_ready c s ts :
  Inv s -> isBusy s = false ->
  spaced (_stepDelay s) (_lastUpdateTime s) ts = true ->
  fst (submit c s) = true /\ Inv (snd (submit c s)) /\
  _state (snd (submit c s)) = NJU3711_IDLE /\
  pending (snd (submit c s)) = [submitted c] /\
  Forall is_u32 ts /\ eligible ts (snd (submit c s)) = true.
Proof.
  intros H Hb Hsp. pose proof (inv_delay s H) as Hd. pose proof (inv_last s H) as Hl.
  destruct (submit_not_busy c s H Hb) as (Hok & Hp & Hs & Hsd & Hlast).
  pose proof (Inv_submit c s H) as H1.
  split_and!; try done.
  - apply (spaced_u32 (_stepDelay s) (_lastUpdateTime s)); [done|apply Hl|done].
  - apply (spaced_eligible ts _ (_lastUpdateTime s)); [done|lia|by rewrite Hsd].
Qed.

(** ** How long the engine stays busy *)

(** The first call on an idle engine with a Write or ShiftOnly waiting alone
    dequeues it and starts shifting. *)
Lemma start_shift_operation op v t s :
  Inv s -> Settled s -> _state s = NJU3711_IDLE -> pending s = [(op, v)] ->
  op = NJU3711_OP_WRITE \/ op = NJU3711_OP_SHIFT_ONLY ->
  isTimingMet t s = true ->
  Inv (update t s) /\ transferring (update t s) /\ _queueSize (update t s) = 0 /\
  _currentData (update t s) = v /\
  stepsToIdle (update t s) = match op with NJU3711_OP_WRITE => 18 | _ => 16 end.
Proof.
  intros H S Hi Hp Hop Hg.
  assert (_queueSize s = 1) as Hq.
  { pose proof (pending_length s) as Hl. rewrite Hp in Hl. simpl in Hl.
    pose proof (inv_size s H). lia. }
  destruct (dequeue_head s (Inv_queue s H)) as (x & rest & s' & Hp' & Hd & Hr & Hq');
    [lia|].
  rewrite Hp in Hp'. injection Hp' as <- <-. simpl in Hd.
  destruct (Inv_dequeue s _ _ _ H Hd) as (H' & Hs' & _).
  destruct (dequeue_frame _ _ _ _ Hd) as (_ & _ & _ & _ & _ & _ & Hck & Hl & _).
  destruct (idle_flags s S Hi) as (F1 & F2 & _). rewrite F1 in Hck. rewrite F2 in Hl.
  rewrite (update_idle_dequeue t s _ _ _ Hg Hi Hd).
  split; [apply Inv_startOperation; [done|congruence]|].
  destruct Hop; subst; unfold transferring, stepsToIdle; simpl;
    rewrite Hck, ?Hl; split_and!; auto; lia.
Qed.

(** While the operation in progress has steps left, each eligible call takes
    exactly one off. *)
Lemma run_steps_left ts s :
  Inv s -> _state s <> NJU3711_TEST_PATTERN -> Forall is_u32 ts ->
  eligible ts s = true -> Z.of_nat (length ts) <= stepsToIdle s ->
  stepsToIdle (run ts s) = stepsToIdle s - Z.of_nat (length ts) /\
  _state (run ts s) <> NJU3711_TEST_PATTERN /\ Inv (run ts s).
Proof.
  revert s. induction ts as [|t ts IH]; intros s H Hnt Hts Hel Hlen.
  - simpl. split_and!; [lia|done|done].
  - inversion Hts; subst. simpl in Hel. apply andb_prop in Hel as [Hg Hel].
    assert (_state s <> NJU3711_IDLE) as Hni.
    { intros Hi. apply (stepsToIdle_range s H Hnt) in Hi. simpl in Hlen. lia. }
    pose proof (update_progress t s H Hg Hni Hnt) as Hpr.
    destruct (IH (update t s)) as (I1 & I2 & I3); try done.
    + by apply Inv_update.
    + by apply update_keeps_out_of_test.
    + simpl in Hlen. lia.
    + simpl. split_and!; [|done|done]. simpl length. lia.
Qed.

Lemma busy_while_steps_left s :
  Inv s -> _state s <> NJU3711_TEST_PATTERN -> 0 < stepsToIdle s -> isBusy s = true.
Proof.
  intros H Hnt Hpos. unfold isBusy.
  destruct (state_eqb (_state s) NJU3711_IDLE) eqn:E; [|done].
  apply state_eqb_eq in E. apply (stepsToIdle_range s H Hnt) in E. lia.
Qed.

(** The engine is busy after each of the first eighteen calls of a write. *)
Lemma write_busy_prefix v ts s k :
  Inv s -> Settled s -> _state s = NJU3711_IDLE ->
  pending s = [(NJU3711_OP_WRITE, v)] ->
  Forall is_u32 ts -> eligible ts s = true ->
  (1 <= k <= 18)%nat -> (k <= length ts)%nat ->
  isBusy (run (take k ts) s) = true.
Proof.
  intros H S Hi Hp Hts Hel Hk Hlen.
  destruct ts as [|t ts]; [simpl in Hlen; lia|].
  destruct k as [|k]; [lia|].
  inversion Hts; subst. simpl in Hel. apply andb_prop in Hel as [Hg Hel].
  destruct (start_shift_operation NJU3711_OP_WRITE v t s) as (H1 & Htr & _ & _ & Hst);
    auto.
  assert (_state (update t s) <> NJU3711_TEST_PATTERN) as Hnt
    by (destruct Htr; congruence).
  simpl.
  destruct (run_steps_left (take k ts) (update t s)) as (L1 & L2 & L3); try done.
  - by apply Forall_take.
  - by apply eligible_take.
  - rewrite length_take. simpl in Hlen. lia.
  - apply busy_while_steps_left; try done.
    rewrite L1, Hst, length_take. simpl in Hlen. lia.
Qed.

Lemma spaced_weaken d D prev ts : d <= D -> spaced D prev ts = true -> spaced d prev ts = true.
Proof.
  intros Hd. revert prev. induction ts as [|t ts IH]; intros prev Hsp; [done|].
  simpl in *. apply andb_prop in Hsp as [Hsp Hrest]. apply andb_prop in Hsp as [H1 H2].
  apply Z.leb_le in H1. rewrite (IH _ Hrest), H2.
  assert ((prev + d <=? t) = true) as -> by (apply Z.leb_le; lia). done.
Qed.

Lemma spaced_last D prev ts :
  0 <= D -> spaced D prev ts = true ->
  prev <= List.last ts prev /\
  (ts <> [] -> prev + D <= List.last ts prev /\ List.last ts prev < 4294967296).
Proof.
  intros HD. revert prev. induction ts as [|t ts IH]; intros prev Hsp; [done|].
  simpl in Hsp. apply andb_prop in Hsp as [Hsp Hrest]. apply andb_prop in Hsp as [H1 H2].
  apply Z.leb_le in H1. apply Z.ltb_lt in H2.
  destruct (IH t Hrest) as [I1 I2]. rewrite last_cons.
  split; [lia|]. intros _. destruct ts as [|t' ts']; [simpl; lia|].
  destruct I2 as [I2 I3]; [done|]. lia.
Qed.
(** ** The wire protocol of the driver *)

Lemma bit_value v k :
  0 <= k -> negb (Z.land (Z.shiftr v k) 1 =? 0) = Z.testbit v k.
Proof.
  intros Hk. rewrite <- (Z.add_0_l k) at 2. rewrite <- Z.shiftr_spec by lia.
  change 1 with (Z.ones 1). rewrite Z.land_ones by lia. change (2 ^ 1) with 2.
  rewrite <- Z.bit0_mod. by destruct (Z.testbit (Z.shiftr v k) 0).
Qed.

Lemma bitsWave_succ w v k :
  0 <= k ->
  bitsWave w v (Z.to_nat (k + 1)) =
  bitWave w (Z.testbit v k) ++ bitsWave w v (Z.to_nat k).
Proof.
  intros Hk. rewrite Z2Nat.inj_add by lia. rewrite Nat.add_1_r. simpl.
  by rewrite Z2Nat.id by lia.
Qed.

Lemma noSoftClear_state s :
  noSoftClear s -> _state s = NJU3711_CLEARING -> _clearPin s <> 255.
Proof. intros [Hc|[Hs _]] Hst; [done|congruence]. Qed.

Lemma noSoftClear_same s s' :
  noSoftClear s -> _clearPin s' = _clearPin s -> pending s' = pending s ->
  (_state s' = NJU3711_CLEARING -> _state s = NJU3711_CLEARING) ->
  noSoftClear s'.
Proof.
  intros [Hc|[Hs Hp]] Hpin Hpend Hst; [left; congruence|].
  right. rewrite Hpend. split; [|done]. intros Hc. by apply Hs, Hst.
Qed.

Lemma startOperation_pending op d s : pending (startOperation op d s) = pending s.
Proof. apply pending_queueOf. by destruct op. Qed.

Lemma startOperation_wiring op d s : wiring (startOperation op d s) = wiring s.
Proof. by destruct op. Qed.

Lemma wiring_clearPin s s' : wiring s' = wiring s -> _clearPin s' = _clearPin s.
Proof. intros E. exact (f_equal w_clear E). Qed.

Lemma startOperation_clearPin op d s : _clearPin (startOperation op d s) = _clearPin s.
Proof. by destruct op. Qed.

(** *** Clear phase flags *)

Lemma flagsAfter_clean x : flagsAfter cleanFlags x = cleanFlags.
Proof. by destruct x as [[] ?]. Qed.

Lemma opWaveFrom_clean w x : opWaveFrom w cleanFlags x = opWave w x.
Proof. by destruct x as [[] ?]. Qed.

Lemma opStepsFrom_clean x : opStepsFrom cleanFlags x = opSteps x.
Proof. by destruct x as [[] ?]. Qed.

Lemma queueWave_clean w q : queueWave w cleanFlags q = flat_map (opWave w) q.
Proof.
  induction q as [|x q IH]; [done|].
  cbn [queueWave flat_map]. by rewrite flagsAfter_clean, opWaveFrom_clean, IH.
Qed.

Lemma queueSteps_clean q : queueSteps cleanFlags q = fold_right Z.add 0 (map opSteps q).
Proof.
  induction q as [|x q IH]; [done|].
  cbn [queueSteps map fold_right]. by rewrite flagsAfter_clean, opStepsFrom_clean, IH.
Qed.

Lemma opStepsFrom_range f x : 1 <= opStepsFrom f x <= opSteps x.
Proof.
  unfold opStepsFrom, opSteps.
  destruct (fst x), (f_clock f), (f_latch f), (f_clear f); lia.
Qed.

Lemma queueSteps_range f q :
  0 <= queueSteps f q <= fold_right Z.add 0 (map opSteps q) /\
  (queueSteps f q = 0 -> q = []).
Proof.
  revert f. induction q as [|x q IH]; intros f; [done|].
  cbn [queueSteps map fold_right].
  pose proof (opStepsFrom_range f x). destruct (IH (flagsAfter f x)) as [IH1 _].
  split; lia.
Qed.


Lemma flags_clean s :
  _clockState s = false -> latchStep s = false -> clearStep s = false ->
  flags s = cleanFlags.
Proof. unfold flags. by intros -> -> ->. Qed.

(** *** Starting an operation *)

Lemma start_wave op v s :
  _state s = NJU3711_IDLE ->
  _clearPin s <> 255 \/ op <> NJU3711_OP_CLEAR ->
  rev (gpio (startOperation op v s)) ++ restWave (startOperation op v s)
  = rev (gpio s) ++ opWaveFrom (wiring s) (flags s) (op, v).
Proof.
  intros Hst Hclr.
  destruct op; unfold startOperation, restWave, opWaveFrom, shiftBits;
    cbn -[bitsWave Z.to_nat strobeRest clearRest]; rewrite ?Hst;
    cbn -[bitsWave Z.to_nat strobeRest clearRest].
  - change (Z.to_nat (7 + 1)) with 8%nat. change (Z.to_nat 7) with 7%nat.
    rewrite <- app_assoc. by destruct (_clockState s).
  - change (Z.to_nat (7 + 1)) with 8%nat. change (Z.to_nat 7) with 7%nat.
    rewrite app_nil_r, <- app_assoc. by destruct (_clockState s).
  - done.
  - destruct Hclr as [Hclr|Hclr]; [|done].
    apply Z.eqb_neq in Hclr. by rewrite Hclr.
  - done.
Qed.

Lemma start_flags op v s :
  _state s = NJU3711_IDLE ->
  flagsWhenIdle (startOperation op v s) = flagsAfter (flags s) (op, v).
Proof.
  intros Hst. destruct op; unfold startOperation, flagsWhenIdle, flagsAfter, flags;
    cbn; rewrite ?Hst; done.
Qed.

Lemma start_data op v s :
  _state s = NJU3711_IDLE ->
  (if state_eqb (_state (startOperation op v s)) NJU3711_CLEARING
   then 0 else _currentData (startOperation op v s))
  = dataAfter (_currentData s) (op, v).
Proof. intros Hst. destruct op; try done. simpl. by rewrite Hst. Qed.

Lemma start_state op v s :
  _state s = NJU3711_IDLE ->
  _state (startOperation op v s) = NJU3711_CLEARING -> op = NJU3711_OP_CLEAR.
Proof. intros Hst. destruct op; simpl; congruence. Qed.

(** Set up the case of [update_wave] in which the queue is not touched. *)
Ltac same_queue s :=
  match goal with
  | |- fullTrace ?u = _ /\ _ =>
      let Hpe := fresh "Hpe" in
      let Hwi := fresh "Hwi" in
      assert (pending u = pending s) as Hpe by (apply pending_queueOf; reflexivity);
      assert (wiring u = wiring s) as Hwi by reflexivity;
      split_and!;
      [ unfold fullTrace; rewrite Hpe; unfold restWave, flagsWhenIdle; rewrite ?Hwi;
        cbn -[bitsWave Z.to_nat wiring s8 Z.ltb strobeRest clearRest]
      | unfold eventualData; rewrite Hpe; cbn -[s8 Z.ltb]
      | apply (noSoftClear_same s); [done|reflexivity|done|cbn -[s8 Z.ltb]] ]
  end.

(** One call of [update] moves pin writes from the future to the past, and
    changes neither the whole trace nor the value the queue will leave. *)
Lemma update_wave now s :
  Inv s -> _state s <> NJU3711_TEST_PATTERN -> noSoftClear s ->
  fullTrace (update now s) = fullTrace s /\
  eventualData (update now s) = eventualData s /\
  noSoftClear (update now s).
Proof.
  intros H Hnt Hns. pose proof (Inv_queue s H) as Hq'.
  inv_facts H.
  step_cases now s H; try done.
  - (* an operation is dequeued and started *)
    destruct (dequeue_frame s op d s' Hd)
      as (_ & _ & Hgp & Hpins & Hcd & Hst' & Hck' & Hl' & Hc').
    assert (0 < _queueSize s) as Hpos.
    { destruct (Z.eq_dec (_queueSize s) 0) as [E|E]; [|lia].
      rewrite dequeue_None in Hd by done. done. }
    destruct (dequeue_head s Hq' Hpos) as (x & rest & s'' & Hpend & Hd' & Hrest & _).
    rewrite Hd in Hd'. injection Hd' as -> -> <-.
    injection Hpins as Hdp Hcp Hsp Hclr.
    assert (wiring s' = wiring s) as Hw by (unfold wiring; congruence).
    assert (flags s' = flags s) as Hfl by (unfold flags; congruence).
    assert (_clearPin s' <> 255 \/ fst x <> NJU3711_OP_CLEAR) as Hsoft.
    { destruct Hns as [Hp|[_ Hall]]; [left; congruence|right].
      rewrite Hpend in Hall. by inversion Hall. }
    unfold fullTrace, eventualData.
    rewrite startOperation_pending, startOperation_wiring, Hrest, Hpend, Hw.
    rewrite app_assoc, start_wave, start_flags by congruence.
    rewrite start_data by congruence.
    unfold restWave at 1, flagsWhenIdle at 1. rewrite Hst, Hw, Hgp, Hcd, Hfl.
    cbn [queueWave fold_left app].
    rewrite <- surjective_pairing.
    split_and!; [by rewrite <- app_assoc|done|].
    destruct Hns as [Hp|[Hs Hall]]; [left; by rewrite startOperation_clearPin, Hclr|].
    right. rewrite startOperation_pending, Hrest. rewrite Hpend in Hall.
    inversion Hall; subst. split; [|done].
    intros Hcl. by apply start_state in Hcl; [|congruence].
  - (* rising clock edge *)
    specialize (Ibit Hst). same_queue s; [|done|done].
    rewrite Hst, Hck, bitsWave_succ, bit_value by lia.
    unfold bitWave. simpl. by rewrite <- !app_assoc.
  - (* falling clock edge *)
    specialize (Ibit Hst). rewrite s8_small by lia. cbv zeta.
    destruct (_bitIndex s - 1 <? 0) eqn:Hlast.
    + apply Z.ltb_lt in Hlast. assert (_bitIndex s = 0) as Hz by lia.
      destruct (_currentOperation s) eqn:Hop; same_queue s;
        rewrite ?Hst, ?Hck, ?Hz, ?Hop; simpl; rewrite <- ?app_assoc;
        try done; try congruence.
    + apply Z.ltb_ge in Hlast. same_queue s; [|by rewrite Hst|by rewrite Hst].
      rewrite Hst, Hck. replace (_bitIndex s - 1 + 1) with (_bitIndex s) by lia.
      simpl. by rewrite <- !app_assoc.
  - (* strobe low *)
    same_queue s; [|done|by rewrite Hst].
    rewrite Hst. unfold strobeRest. rewrite Hl. simpl. by rewrite <- !app_assoc.
  - (* strobe high *)
    same_queue s; [|by rewrite Hst|done].
    rewrite Hst. unfold strobeRest. rewrite Hl. simpl. by rewrite <- !app_assoc.
  - (* CLR low *)
    apply Z.eqb_neq in Hp.
    same_queue s; [|by rewrite Hst|done].
    rewrite Hst, Hp. unfold clearRest. rewrite Hl. simpl. by rewrite <- !app_assoc.
  - (* CLR high *)
    apply Z.eqb_neq in Hp.
    same_queue s; [|by rewrite Hst|done].
    rewrite Hst, Hp. unfold clearRest. rewrite Hl. simpl. by rewrite <- !app_assoc.
  - (* no redirected clear here *)
    by destruct (noSoftClear_state s Hns Hst).
Qed.

Lemma run_wave ts s :
  Inv s -> _state s <> NJU3711_TEST_PATTERN -> noSoftClear s -> Forall is_u32 ts ->
  fullTrace (run ts s) = fullTrace s /\ eventualData (run ts s) = eventualData s.
Proof.
  revert s. induction ts as [|t ts IH]; intros s H Hnt Hns Hts; [done|].
  inversion Hts; subst. simpl.
  destruct (update_wave t s H Hnt Hns) as (Htr & Hev & Hns').
  destruct (IH (update t s)) as [Htr' Hev']; try done.
  - by apply Inv_update.
  - by apply update_keeps_out_of_test.
  - split; congruence.
Qed.

Lemma not_busy_trace s :
  Inv s -> isBusy s = false ->
  fullTrace s = rev (gpio s) /\ eventualData s = _currentData s.
Proof.
  intros H Hb. destruct (not_busy s H Hb) as [Hst Hq].
  unfold fullTrace, eventualData, restWave.
  rewrite (pending_empty s Hq), Hst. simpl. by rewrite app_nil_r.
Qed.

Lemma opSteps_pos x : 1 <= opSteps x.
Proof. unfold opSteps. destruct (fst x); lia. Qed.

Lemma stepsToDrain_zero s :
  Inv s -> _state s <> NJU3711_TEST_PATTERN ->
  0 <= stepsToDrain s /\ (stepsToDrain s = 0 <-> isBusy s = false).
Proof.
  intros H Hnt. destruct (stepsToIdle_range s H Hnt) as [Hr Hz].
  destruct (queueSteps_range (flagsWhenIdle s) (pending s)) as [Hp Hnil].
  unfold stepsToDrain. split; [lia|]. split.
  - intros Hs. apply idle_not_busy; [apply Hz; lia|].
    assert (pending s = []) as Hpe by (apply Hnil; lia).
    pose proof (pending_length s) as Hlen. rewrite Hpe in Hlen. simpl in Hlen.
    pose proof (inv_size s H). lia.
  - intros Hb. destruct (not_busy s H Hb) as [Hst Hq].
    rewrite (pending_empty s Hq). simpl. apply Hz in Hst. lia.
Qed.

Lemma start_steps op v s :
  _state s = NJU3711_IDLE ->
  _clearPin s <> 255 \/ op <> NJU3711_OP_CLEAR ->
  stepsToIdle (startOperation op v s) = opStepsFrom (flags s) (op, v) - 1.
Proof.
  intros Hst Hclr.
  destruct op; unfold startOperation, stepsToIdle, opStepsFrom, flags; simpl;
    rewrite ?Hst; try done.
  - destruct (_clockState s), (latchStep s); lia.
  - destruct (_clockState s); lia.
  - destruct (latchStep s); lia.
  - destruct Hclr as [Hclr|Hclr]; [|done]. apply Z.eqb_neq in Hclr. rewrite Hclr.
    destruct (clearStep s); lia.
Qed.

Lemma update_pending_busy now s :
  Inv s -> _state s <> NJU3711_IDLE -> _state s <> NJU3711_TEST_PATTERN ->
  noSoftClear s -> pending (update now s) = pending s.
Proof.
  intros H Hni Hnt Hns.
  step_cases now s H; try done; try (apply pending_queueOf; reflexivity).
  - cbv zeta. destruct (_ <? 0); [destruct (_currentOperation s)|];
      apply pending_queueOf; reflexivity.
  - by destruct (noSoftClear_state s Hns Hst).
Qed.

(** A call on an engine that is carrying out an operation leaves the phase
    flags the operation will hand over as they are. *)
Lemma update_flags_busy now s :
  Inv s -> _state s <> NJU3711_IDLE -> _state s <> NJU3711_TEST_PATTERN ->
  noSoftClear s -> flagsWhenIdle (update now s) = flagsWhenIdle s.
Proof.
  intros H Hni Hnt Hns. inv_facts H.
  step_cases now s H; try done; unfold flagsWhenIdle, flags;
    cbn -[s8 Z.ltb]; rewrite ?Hst; try done.
  - destruct (s8 (_bitIndex s - 1) <? 0); [destruct (_currentOperation s) eqn:Hop|];
      cbn; rewrite ?Hst, ?Hop; done.
  - by destruct (noSoftClear_state s Hns Hst).
Qed.

(** Every timing-eligible call on a busy engine is one step of progress. *)
Lemma update_drain now s :
  Inv s -> _state s <> NJU3711_TEST_PATTERN -> noSoftClear s ->
  isTimingMet now s = true -> isBusy s = true ->
  stepsToDrain (update now s) = stepsToDrain s - 1.
Proof.
  intros H Hnt Hns Hg Hb. unfold stepsToDrain.
  destruct (state_eqb (_state s) NJU3711_IDLE) eqn:Hst;
    [apply state_eqb_eq in Hst
    |assert (_state s <> NJU3711_IDLE) by (intros E; by rewrite E in Hst); clear Hst].
  - assert (0 < _queueSize s) as Hpos.
    { unfold isBusy in Hb. rewrite Hst in Hb. simpl in Hb. by apply Z.ltb_lt. }
    destruct (dequeue_head s (Inv_queue s H) Hpos)
      as (x & rest & s' & Hpend & Hd & Hrest & _).
    destruct (dequeue_frame s _ _ s' Hd)
      as (_ & _ & _ & Hpins & _ & Hst' & Hck' & Hl' & Hc').
    injection Hpins as _ _ _ Hclr.
    assert (flags s' = flags s) as Hfl by (unfold flags; congruence).
    rewrite (update_idle_dequeue now s _ _ s' Hg Hst Hd).
    rewrite startOperation_pending, Hrest, Hpend.
    rewrite start_steps, start_flags; try congruence.
    + rewrite <- surjective_pairing, Hfl. unfold stepsToIdle, flagsWhenIdle.
      rewrite Hst. cbn [queueSteps]. lia.
    + destruct Hns as [Hp|[_ Hall]]; [left; congruence|right].
      rewrite Hpend in Hall. by inversion Hall.
  - rewrite update_pending_busy, update_flags_busy, update_progress by done. lia.
Qed.

Lemma run_drain ts s :
  Inv s -> _state s <> NJU3711_TEST_PATTERN -> noSoftClear s -> Forall is_u32 ts ->
  eligible ts s = true -> stepsToDrain s <= Z.of_nat (length ts) ->
  isBusy (run ts s) = false.
Proof.
  revert s. induction ts as [|t ts IH]; intros s H Hnt Hns Hts Hel Hlen.
  - destruct (stepsToDrain_zero s H Hnt) as [Hr Hz]. apply Hz. simpl in Hlen. lia.
  - destruct (isBusy s) eqn:Hb.
    + inversion Hts; subst. simpl in Hel. apply andb_prop in Hel as [Hg Hel].
      simpl. apply IH; try done.
      * by apply Inv_update.
      * by apply update_keeps_out_of_test.
      * by destruct (update_wave t s H Hnt Hns) as (_ & _ & ?).
      * rewrite update_drain by done. simpl length in Hlen. lia.
    + destruct (not_busy s H Hb) as [Hst Hq]. by rewrite run_settled.
Qed.

(** Polled often enough, the engine carries out what is in progress and what
    is queued, in this order, and comes to rest. *)
Lemma run_drained ts s :
  Inv s -> _state s <> NJU3711_TEST_PATTERN -> noSoftClear s ->
  spaced (_stepDelay s) (_lastUpdateTime s) ts = true ->
  stepsToDrain s <= Z.of_nat (length ts) ->
  isBusy (run ts s) = false /\
  gpio (run ts s)
  = rev (restWave s ++ queueWave (wiring s) (flagsWhenIdle s) (pending s)) ++ gpio s /\
  _currentData (run ts s) = eventualData s.
Proof.
  intros H Hnt Hns Hsp Hlen.
  assert (Forall is_u32 ts) as Hts.
  { apply (spaced_u32 (_stepDelay s) (_lastUpdateTime s)); [apply H|apply H|done]. }
  assert (eligible ts s = true) as Hel
    by (apply (spaced_eligible ts s (_lastUpdateTime s)); [done|lia|done]).
  pose proof (run_drain ts s H Hnt Hns Hts Hel Hlen) as Hb.
  destruct (run_wave ts s H Hnt Hns Hts) as [Htr Hev].
  destruct (not_busy_trace (run ts s) (Inv_run ts s H Hts) Hb) as [Htr' Hev'].
  split_and!; [done| |congruence].
  rewrite Htr' in Htr. unfold fullTrace in Htr.
  apply (f_equal (@rev _)) in Htr. rewrite rev_involutive in Htr.
  by rewrite Htr, rev_app_distr, rev_involutive.
Qed.

Lemma submit_idle_frame c s :
  _state s = NJU3711_IDLE ->
  _state (snd (submit c s)) = NJU3711_IDLE /\
  gpio (snd (submit c s)) = gpio s /\ wiring (snd (submit c s)) = wiring s /\
  _stepDelay (snd (submit c s)) = _stepDelay s /\
  _lastUpdateTime (snd (submit c s)) = _lastUpdateTime s /\
  _currentData (snd (submit c s)) = _currentData s /\
  flags (snd (submit c s)) = flags s.
Proof.
  intros Hst. rewrite submit_unfold, stopIfTesting_idle by done.
  unfold enqueueOperation. by destruct (8 <=? _queueSize s).
Qed.

(** Submissions made to an idle engine with room in its queue are all
    accepted, and only the queue changes. *)
Lemma submitAll_accepted cs s :
  Inv s -> _state s = NJU3711_IDLE -> _queueSize s + Z.of_nat (length cs) <= 8 ->
  fst (submitAll cs s) = replicate (length cs) true /\
  pending (snd (submitAll cs s)) = pending s ++ map submitted cs /\
  Inv (snd (submitAll cs s)) /\ _state (snd (submitAll cs s)) = NJU3711_IDLE /\
  gpio (snd (submitAll cs s)) = gpio s /\ wiring (snd (submitAll cs s)) = wiring s /\
  _stepDelay (snd (submitAll cs s)) = _stepDelay s /\
  _lastUpdateTime (snd (submitAll cs s)) = _lastUpdateTime s /\
  _currentData (snd (submitAll cs s)) = _currentData s /\
  flags (snd (submitAll cs s)) = flags s.
Proof.
  revert s. induction cs as [|c cs IH]; intros s H Hst Hroom.
  - simpl. by rewrite app_nil_r.
  - simpl length in Hroom.
    destruct (submit_outcome c s (Inv_queue s H)) as [(Hf & _)|(_ & Hok & Hp & Hsz)]; [lia|].
    destruct (submit_idle_frame c s Hst) as (Hst1 & Hg1 & Hw1 & Hd1 & Hl1 & Hc1 & Hf1).
    destruct (IH (snd (submit c s)))
      as (Hoks & Hpe & HI & Hst2 & Hg2 & Hw2 & Hd2 & Hl2 & Hc2 & Hf2);
      [by apply Inv_submit|done|lia|].
    simpl. destruct (submit c s) as [ok s1] eqn:E1. simpl in *.
    destruct (submitAll cs s1) as [oks s2] eqn:E2. simpl in *.
    subst ok. rewrite Hoks, Hpe, Hp, <- app_assoc. simpl.
    split_and!; try done; congruence.
Qed.

Lemma noSoftClear_submitted cs s :
  _state s = NJU3711_IDLE ->
  _clearPin s <> 255 \/ SubmitClear ∉ cs ->
  pending s = map submitted cs -> noSoftClear s.
Proof.
  intros Hst [Hp|Hcs] Hpe; [by left|right]. split; [congruence|].
  rewrite Hpe. apply Forall_forall. intros x Hx.
  apply list_elem_of_fmap in Hx as (c & -> & Hc).
  by destruct c.
Qed.

(** Submissions made together to an engine at rest are carried out in the
    order made, the first one starting from the phase flags as they stand. *)
Lemma submitted_drained cs ts s :
  Inv s -> isBusy s = false -> (length cs <= 8)%nat ->
  _clearPin s <> 255 \/ SubmitClear ∉ cs ->
  spaced (_stepDelay s) (_lastUpdateTime s) ts = true ->
  fold_right Z.add 0 (map opSteps (map submitted cs)) <= Z.of_nat (length ts) ->
  fst (submitAll cs s) = replicate (length cs) true /\
  isBusy (run ts (snd (submitAll cs s))) = false /\
  gpio (run ts (snd (submitAll cs s)))
  = rev (queueWave (wiring s) (flags s) (map submitted cs)) ++ gpio s /\
  _currentData (run ts (snd (submitAll cs s)))
  = fold_left dataAfter (map submitted cs) (_currentData s).
Proof.
  intros H Hb Hlen Hclr Hsp Hts. destruct (not_busy s H Hb) as [Hst Hq].
  destruct (submitAll_accepted cs s H Hst)
    as (Hoks & Hpe & HI & Hst' & Hg & Hw & Hd & Hl & Hc & Hf); [lia|].
  rewrite (pending_empty s Hq) in Hpe. simpl in Hpe.
  pose proof (wiring_clearPin _ _ Hw) as Hpin.
  destruct (run_drained ts (snd (submitAll cs s))) as (Hb' & Hgp & Hcd); try done.
  - congruence.
  - apply (noSoftClear_submitted cs); [done|by rewrite Hpin|done].
  - by rewrite Hd, Hl.
  - unfold stepsToDrain, stepsToIdle. rewrite Hst', Hpe.
    pose proof (queueSteps_range (flagsWhenIdle (snd (submitAll cs s)))
                  (map submitted cs)). lia.
  - split_and!; [done|done| |].
    + rewrite Hgp. unfold restWave, flagsWhenIdle. rewrite Hst', Hpe, Hw, Hg, Hf. done.
    + rewrite Hcd. unfold eventualData. rewrite Hst', Hpe, Hc. done.
Qed.

Lemma submitAll_one c s : snd (submitAll [c] s) = snd (submit c s).
Proof. simpl. by destruct (submit c s). Qed.

Lemma submitAll_two c1 c2 s :
  snd (submitAll [c1; c2] s) = snd (submit c2 (snd (submit c1 s))).
Proof. simpl. destruct (submit c1 s) as [ok s1]. simpl. by destruct (submit c2 s1). Qed.

Lemma at_least_nat (n : nat) (k : Z) (l : list Z) :
  (n <= length l)%nat -> k = Z.of_nat n -> k <= Z.of_nat (length l).
Proof. lia. Qed.

Lemma spaced_earlier d prev prev' ts :
  prev' <= prev -> spaced d prev ts = true -> spaced d prev' ts = true.
Proof.
  intros Hp. destruct ts as [|t ts]; [done|]. simpl. intros Hsp.
  apply andb_prop in Hsp as [Hsp Hrest]. apply andb_prop in Hsp as [H1 H2].
  apply Z.leb_le in H1. rewrite Hrest, H2, !andb_true_r. apply Z.leb_le. lia.
Qed.

Lemma isTimingMet_same now s s' :
  _stepDelay s' = _stepDelay s -> _lastUpdateTime s' = _lastUpdateTime s ->
  isTimingMet now s' = isTimingMet now s.
Proof. unfold isTimingMet. by intros -> ->. Qed.

(** Without CLR pin a Clear takes two calls of [update]: it is dequeued, then
    replaced by a Write of 0 at the tail of the queue. *)
Lemma soft_clear_head t1 t2 d rest s :
  Inv s -> _state s = NJU3711_IDLE -> _clearPin s = 255 ->
  pending s = (NJU3711_OP_CLEAR, d) :: rest ->
  is_u32 t1 -> is_u32 t2 -> isTimingMet t1 s = true -> isTimingMet t2 s = true ->
  Inv (update t2 (update t1 s)) /\
  _state (update t2 (update t1 s)) = NJU3711_IDLE /\
  pending (update t2 (update t1 s)) = rest ++ [(NJU3711_OP_WRITE, 0)] /\
  gpio (update t2 (update t1 s)) = gpio s /\
  wiring (update t2 (update t1 s)) = wiring s /\
  _stepDelay (update t2 (update t1 s)) = _stepDelay s /\
  _lastUpdateTime (update t2 (update t1 s)) = _lastUpdateTime s /\
  _currentData (update t2 (update t1 s)) = 0 /\
  flags (update t2 (update t1 s)) = flags s.
Proof.
  intros H Hst Hpin Hpend Ht1 Ht2 Hg1 Hg2.
  assert (Inv (update t2 (update t1 s))) as HI
    by (apply Inv_update; [apply Inv_update|]; done).
  split; [done|]. clear HI.
  pose proof (Inv_queue s H) as Hq.
  assert (0 < _queueSize s) as Hpos.
  { pose proof (pending_length s) as Hl. rewrite Hpend in Hl. simpl in Hl.
    pose proof (inv_size s H). lia. }
  destruct (dequeue_head s Hq Hpos) as (x & rest' & s' & Hpend' & Hd & Hrest & Hsz).
  rewrite Hpend in Hpend'. injection Hpend' as <- <-. simpl in Hd.
  destruct (dequeue_frame s _ _ s' Hd)
    as (Hdl & Hlu & Hgp & Hpins & Hcd & Hst' & Hck' & Hl' & Hc').
  injection Hpins as Hdp Hcp Hsp Hclr.
  pose proof (QueueInv_dequeue s _ _ s' Hq Hd) as Hq1.
  rewrite (update_idle_dequeue t1 s _ _ s' Hg1 Hst Hd).
  set (s1 := startOperation NJU3711_OP_CLEAR d s').
  assert (QueueInv s1) as Hq1' by (by destruct Hq1).
  assert (_queueSize s1 < 8) as Hroom.
  { change (_queueSize s1) with (_queueSize s'). pose proof (inv_size s H). lia. }
  assert (isTimingMet t2 s1 = true) as Hg1'.
  { rewrite (isTimingMet_same t2 s s1); [done| |]; subst s1; simpl; congruence. }
  assert (_clearPin s1 = 255) as Hpin1 by (subst s1; simpl; congruence).
  rewrite (update_clear_soft t2 s1 Hg1' eq_refl Hpin1).
  destruct (enqueue_room NJU3711_OP_WRITE 0 s1 Hq1' Hroom) as (Hok & Hp2 & _).
  destruct (enqueue_frame NJU3711_OP_WRITE 0 s1)
    as (Hs2 & Hck2 & Hls2 & Hcs2 & _ & Hd2 & Hl2 & Hg2').
  rewrite Hok.
  assert (wiring (snd (enqueueOperation NJU3711_OP_WRITE 0 s1)) = wiring s) as Hw.
  { unfold enqueueOperation. destruct (8 <=? _queueSize s1); subst s1;
      unfold wiring; simpl; congruence. }
  split_and!; try done.
  - etrans; [|etrans; [exact Hp2|]].
    + apply pending_queueOf. reflexivity.
    + f_equal. subst s1. by rewrite startOperation_pending.
  - simpl. rewrite Hg2'. subst s1. simpl. done.
  - simpl. rewrite Hd2. subst s1. simpl. done.
  - simpl. rewrite Hl2. subst s1. simpl. done.
  - unfold flags. simpl. rewrite Hck2, Hls2, Hcs2. subst s1. simpl. congruence.
Qed.

Lemma fold_dataAfter_write l c v :
  fold_left dataAfter (l ++ [(NJU3711_OP_WRITE, v)]) c = v.
Proof. by rewrite fold_left_app. Qed.

(** On an engine without CLR pin, a Clear at the head of the queue is
    overtaken by everything queued behind it. *)
Lemma soft_clear_drained ts d rest s :
  Inv s -> _state s = NJU3711_IDLE -> _clearPin s = 255 ->
  pending s = (NJU3711_OP_CLEAR, d) :: rest ->
  Forall (fun x => fst x <> NJU3711_OP_CLEAR) rest ->
  spaced (_stepDelay s) (_lastUpdateTime s) ts = true ->
  2 + fold_right Z.add 0 (map opSteps rest) + 19 <= Z.of_nat (length ts) ->
  isBusy (run ts s) = false /\
  gpio (run ts s)
  = rev (queueWave (wiring s) (flags s) (rest ++ [(NJU3711_OP_WRITE, 0)])) ++ gpio s /\
  _currentData (run ts s) = 0.
Proof.
  intros H Hst Hpin Hpend Hrest Hsp Hlen.
  pose proof (inv_delay s H) as Hd0. pose proof (inv_last s H) as Hl0.
  destruct (queueSteps_range cleanFlags rest) as [[Hsum _] _].
  rewrite queueSteps_clean in Hsum.
  destruct ts as [|t1 [|t2 ts]]; [simpl in Hlen; lia|simpl in Hlen; lia|].
  simpl in Hsp.
  apply andb_prop in Hsp as [Hsp Hsp2]. apply andb_prop in Hsp as [Ha1 Hb1].
  apply andb_prop in Hsp2 as [Hsp2 Hsp3]. apply andb_prop in Hsp2 as [Ha2 Hb2].
  apply Z.leb_le in Ha1, Ha2. apply Z.ltb_lt in Hb1, Hb2.
  assert (is_u32 t1 /\ is_u32 t2) as [Ht1 Ht2] by (unfold is_u32 in *; lia).
  destruct (soft_clear_head t1 t2 d rest s H Hst Hpin Hpend Ht1 Ht2)
    as (HI & Hst2 & Hp2 & Hg2 & Hw2 & Hd2 & Hl2 & Hc2 & Hf2).
  { apply (isTimingMet_after s (_lastUpdateTime s)); try done; lia. }
  { apply (isTimingMet_after s (_lastUpdateTime s)); try done; lia. }
  change (run (t1 :: t2 :: ts) s) with (run ts (update t2 (update t1 s))).
  destruct (run_drained ts (update t2 (update t1 s))) as (Hb & Hg & Hc); try done.
  - congruence.
  - right. split; [congruence|]. rewrite Hp2. apply Forall_app. split; [done|].
    by constructor.
  - rewrite Hd2, Hl2. apply (spaced_earlier _ t2); [lia|done].
  - unfold stepsToDrain, stepsToIdle. rewrite Hst2, Hp2.
    pose proof (queueSteps_range (flagsWhenIdle (update t2 (update t1 s)))
                  (rest ++ [(NJU3711_OP_WRITE, 0)])) as [[_ Hle] _].
    rewrite map_app, fold_right_app in Hle. simpl in Hle. simpl length in Hlen.
    assert (forall l a, fold_right Z.add a (map opSteps l)
                        = fold_right Z.add 0 (map opSteps l) + a) as Hadd.
    { induction l as [|y l IHl]; intros a; simpl; [lia|]. rewrite IHl. lia. }
    rewrite Hadd in Hle. change (opSteps (NJU3711_OP_WRITE, 0)) with 19 in Hle. lia.
  - split_and!; [done| |].
    + rewrite Hg. unfold restWave, flagsWhenIdle. rewrite Hst2, Hp2, Hw2, Hg2, Hf2. done.
    + rewrite Hc. unfold eventualData. rewrite Hst2, Hp2. apply fold_dataAfter_write.
Qed.


(** *** Submitting while the engine works *)




(** *** The two clear paths *)




(** * The claims about the protocol engine *)

(** C2.  For every byte [v], a Write(v) submitted to an engine that is idle
    with an empty queue and run to completion by calls of [update] spaced at
    least the step delay apart (nineteen calls are enough, further calls
    change nothing) ends with [getCurrentData] equal to [v] and [isBusy]
    false. *)
Theorem write_runs_to_completion (s : NJU3711) (v : Z) (ts : list Z) :
  Reachable s -> is_u8 v -> isBusy s = false ->
  spaced (_stepDelay s) (_lastUpdateTime s) ts = true ->
  (19 <= length ts)%nat ->
  fst (write v s) = true /\
  getCurrentData (run ts (snd (write v s))) = v /\
  isBusy (run ts (snd (write v s))) = false.
Proof.
  intros Hr _ Hb Hsp Hlen. pose proof (Reachable_Inv s Hr) as H.
  destruct (submitted_ready (SubmitWrite v) s ts H Hb Hsp)
    as (Hok & H1 & Hs1 & Hp1 & Hts & Hel).
  simpl in *. split; [done|].
  destruct (run_shift_operation NJU3711_OP_WRITE v ts (snd (write v s)))
    as (R1 & R2 & R3); auto.
  split; [done|]. by apply idle_not_busy.
Qed.

Lemma write_runs_to_completion_witness :
  getCurrentData (run (ticks 19 1 1) (snd (write 182 (NJU3711_new3 2 3 4)))) = 182 /\
  isBusy (run (ticks 19 1 1) (snd (write 182 (NJU3711_new3 2 3 4)))) = false.
Proof.
  apply (write_runs_to_completion (NJU3711_new3 2 3 4) 182 (ticks 19 1 1)).
  - apply reach_new3.
  - unfold is_u8. lia.
  - reflexivity.
  - vm_compute. reflexivity.
  - simpl. lia.
Defined.

(** C1, as the code has it.  A ShiftOnly(v) submitted to an engine that is
    idle with an empty queue and run to completion (seventeen spaced calls
    are enough) ends with [getCurrentData] equal to the shifted byte [v],
    whatever the value before: [startOperation] records the byte for Write
    and ShiftOnly alike. *)
Theorem shift_only_records_shifted_byte (s : NJU3711) (v : Z) (ts : list Z) :
  Reachable s -> is_u8 v -> isBusy s = false ->
  spaced (_stepDelay s) (_lastUpdateTime s) ts = true ->
  (17 <= length ts)%nat ->
  fst (shift v s) = true /\
  getCurrentData (run ts (snd (shift v s))) = v /\
  isBusy (run ts (snd (shift v s))) = false.
Proof.
  intros Hr _ Hb Hsp Hlen. pose proof (Reachable_Inv s Hr) as H.
  destruct (submitted_ready (SubmitShift v) s ts H Hb Hsp)
    as (Hok & H1 & Hs1 & Hp1 & Hts & Hel).
  simpl in *. split; [done|].
  destruct (run_shift_operation NJU3711_OP_SHIFT_ONLY v ts (snd (shift v s)))
    as (R1 & R2 & R3); auto.
  split; [done|]. by apply idle_not_busy.
Qed.

Lemma shift_only_records_shifted_byte_witness :
  getCurrentData (run (ticks 17 1 1) (snd (shift 165 (NJU3711_new3 2 3 4)))) = 165 /\
  isBusy (run (ticks 17 1 1) (snd (shift 165 (NJU3711_new3 2 3 4)))) = false.
Proof.
  apply (shift_only_records_shifted_byte (NJU3711_new3 2 3 4) 165 (ticks 17 1 1)).
  - apply reach_new3.
  - unfold is_u8. lia.
  - reflexivity.
  - vm_compute. reflexivity.
  - simpl. lia.
Defined.

(** C1 as stated fails: on a fresh engine the value before is 0, and after
    ShiftOnly(0xA5) has run to completion [getCurrentData] is 0xA5. *)
Lemma shift_only_changes_current_value :
  getCurrentData (NJU3711_new3 2 3 4) = 0 /\
  isBusy (run (ticks 17 1 1) (snd (shift 165 (NJU3711_new3 2 3 4)))) = false /\
  getCurrentData (run (ticks 17 1 1) (snd (shift 165 (NJU3711_new3 2 3 4)))) <> 0.
Proof. vm_compute. split_and!; congruence. Qed.




(** C4.  In every state the public interface can produce, a submit (write,
    shift, latch or clear) returns false exactly when [getQueueSize] is 8,
    and then leaves the queue as it was; an accepted submit appends its
    operation.  Nine consecutive Write(0xFF) on an empty queue: eight are
    accepted, the ninth returns false and [getQueueSize] stays at 8. *)
Theorem submit_fails_iff_full (s : NJU3711) (c : Submission) :
  Reachable s ->
  (fst (submit c s) = false <-> getQueueSize s = 8) /\
  (fst (submit c s) = false -> queueOf (snd (submit c s)) = queueOf s) /\
  (fst (submit c s) = true ->
   pending (snd (submit c s)) = pending s ++ [submitted c] /\
   getQueueSize (snd (submit c s)) = getQueueSize s + 1) /\
  (getQueueSize s = 0 ->
   fst (submitAll (replicate 9 (SubmitWrite 255)) s) = replicate 8 true ++ [false] /\
   getQueueSize (snd (submitAll (replicate 9 (SubmitWrite 255)) s)) = 8).
Proof.
  intros Hr. pose proof (Inv_queue s (Reachable_Inv s Hr)) as H. unfold getQueueSize.
  split_and!.
  - destruct (submit_outcome c s H) as [(Hf & Hok & _)|(Hroom & Hok & _)];
      rewrite Hok; split; intros; (done || lia).
  - destruct (submit_outcome c s H) as [(_ & _ & Hq)|(_ & Hok & _)]; [done|].
    rewrite Hok. done.
  - destruct (submit_outcome c s H) as [(_ & Hok & _)|(_ & _ & Hp & Hn)]; [|done].
    rewrite Hok. done.
  - intros Hz. change 9%nat with (8 + 1)%nat. rewrite replicate_add, submitAll_app.
    destruct (submitAll_room (SubmitWrite 255) 8 s H) as (I1 & I2 & I3); [lia|].
    cbn [fst snd]. rewrite I1.
    set (s8 := snd (submitAll (replicate 8 (SubmitWrite 255)) s)) in *.
    destruct (submit_outcome (SubmitWrite 255) s8 I3)
      as [(_ & Hok & Hq)|(Hroom & _)]; [|lia].
    change (replicate 1 (SubmitWrite 255)) with [SubmitWrite 255].
    cbn [submitAll]. destruct (submit (SubmitWrite 255) s8) as [ok s9].
    simpl in *. subst ok. split; [done|].
    unfold queueOf in Hq. injection Hq as _ _ _ ->. lia.
Qed.

Lemma submit_fails_iff_full_witness :
  fst (submitAll (replicate 9 (SubmitWrite 255)) (NJU3711_new3 2 3 4))
    = replicate 8 true ++ [false] /\
  getQueueSize (snd (submitAll (replicate 9 (SubmitWrite 255)) (NJU3711_new3 2 3 4))) = 8.
Proof.
  apply (submit_fails_iff_full (NJU3711_new3 2 3 4) (SubmitWrite 255)).
  - apply reach_new3.
  - reflexivity.
Defined.

(** C7, as the code has it.  For every engine state, a call of [update] made
    before the step delay has elapsed since the recorded time stamp
    [_lastUpdateTime] returns the object unchanged (protocol state, queue,
    current value, pin levels and time stamp), so repeating the call changes
    nothing either.  The stamp is taken on clock edges, on the first phase of
    the latch and clear pulses, by [begin] and by the test pattern. *)
Theorem update_before_step_delay_is_noop (now : Z) (s : NJU3711) :
  u32 (now - _lastUpdateTime s) < _stepDelay s ->
  update now s = s /\ update now (update now s) = update now s.
Proof.
  intros Hlt.
  assert (update now s = s) as Hu.
  { apply update_gate. unfold isTimingMet. by apply Z.leb_gt. }
  by rewrite !Hu.
Qed.

Lemma update_before_step_delay_is_noop_witness :
  update 105 (setStepDelay 10 (begin 100 (NJU3711_new3 2 3 4)))
    = setStepDelay 10 (begin 100 (NJU3711_new3 2 3 4)).
Proof.
  apply (update_before_step_delay_is_noop 105).
  vm_compute. reflexivity.
Defined.

(** C7 as stated fails: the call at time 190 raises the strobe line (a pin
    level changes) without taking a time stamp, and the call at time 191, one
    microsecond later with a step delay of 10, dequeues the next write and
    leaves [NJU3711_IDLE]. *)
Lemma update_soon_after_latch_release_acts :
  pinLevel (gpio midLatch) (_strobePin midLatch) = Some LOW /\
  pinLevel (gpio (update 190 midLatch)) (_strobePin midLatch) = Some HIGH /\
  u32 (191 - 190) < _stepDelay (update 190 midLatch) /\
  _state (update 190 midLatch) = NJU3711_IDLE /\
  _state (update 191 (update 190 midLatch)) = NJU3711_SHIFTING /\
  update 191 (update 190 midLatch) <> update 190 midLatch.
Proof.
  assert (_state (update 190 midLatch) = NJU3711_IDLE) as Hi by (vm_compute; reflexivity).
  assert (_state (update 191 (update 190 midLatch)) = NJU3711_SHIFTING) as Hs
    by (vm_compute; reflexivity).
  split_and!.
  - vm_compute. reflexivity.
  - vm_compute. reflexivity.
  - vm_compute. reflexivity.
  - exact Hi.
  - exact Hs.
  - intros Heq. rewrite Heq in Hs. congruence.
Qed.




(** C9, as the code has it.  From every reachable state outside test-pattern
    mode the operation in progress needs [stepsToIdle] more timing-eligible
    calls of [update], at most 2 x 8 + 2 = 18 (1 + 2 x 8 + 2 counting the call
    that dequeued a write), and after that many eligible calls the engine is
    in [NJU3711_IDLE]. *)
Theorem operation_returns_to_idle (s : NJU3711) (ts : list Z) :
  Reachable s -> _state s <> NJU3711_TEST_PATTERN ->
  Forall is_u32 ts -> eligible ts s = true ->
  Z.of_nat (length ts) = stepsToIdle s ->
  stepsToIdle s <= 2 * 8 + 2 /\ _state (run ts s) = NJU3711_IDLE.
Proof.
  intros Hr Hnt Hts Hel Hlen. pose proof (Reachable_Inv s Hr) as H.
  split.
  - destruct (stepsToIdle_range s H Hnt) as [? _]. lia.
  - by apply run_to_idle.
Qed.

Lemma operation_returns_to_idle_witness :
  stepsToIdle writeStarted <= 2 * 8 + 2 /\
  _state (run (ticks 18 2 1) writeStarted) = NJU3711_IDLE.
Proof.
  apply (operation_returns_to_idle writeStarted (ticks 18 2 1)).
  - apply reach_update; [|unfold is_u32; lia].
    apply (reach_submit (SubmitWrite 182)). apply reach_new3.
  - vm_compute. congruence.
  - unfold ticks. simpl. repeat (constructor; [unfold is_u32; lia|]). constructor.
  - vm_compute. reflexivity.
  - vm_compute. reflexivity.
Defined.

(** C9 as stated fails: an engine put into test-pattern mode with a pattern
    type outside 1..4 is reachable and never returns to [NJU3711_IDLE],
    however long it is stepped. *)
Lemma test_pattern_mode_never_idle :
  Reachable (snd (startTestPattern 0 0 500000 (NJU3711_new3 2 3 4))) /\
  ~ exists ts,
      _state (run ts (snd (startTestPattern 0 0 500000 (NJU3711_new3 2 3 4))))
      = NJU3711_IDLE.
Proof.
  split.
  - apply reach_startTestPattern; [apply reach_new3|unfold is_u32; lia].
  - intros [ts Hts]. rewrite run_test_idle_type in Hts; [congruence|done|].
    vm_compute. intros [Hc _]. by apply Hc.
Qed.

(** C10.  A submit (write, shift, latch or clear) made while the engine is in
    test-pattern mode leaves that mode: the state becomes [NJU3711_IDLE], the
    operation is accepted and is the only one pending, and no later call of
    [update] brings the engine back to [NJU3711_TEST_PATTERN], the only state
    in which pattern writes are made. *)
Theorem submit_stops_test_pattern (s : NJU3711) (c : Submission) :
  Reachable s -> _state s = NJU3711_TEST_PATTERN ->
  fst (submit c s) = true /\
  _state (snd (submit c s)) = NJU3711_IDLE /\
  pending (snd (submit c s)) = [submitted c] /\
  (forall ts, Forall is_u32 ts ->
     _state (run ts (snd (submit c s))) <> NJU3711_TEST_PATTERN).
Proof.
  intros Hr Hs. pose proof (Reachable_Inv s Hr) as H.
  pose proof (inv_test s H Hs) as Hq.
  destruct (submit_outcome c s (Inv_queue s H)) as [(Hf & _)|(_ & Hok & Hp & _)]; [lia|].
  assert (_state (snd (submit c s)) = NJU3711_IDLE) as Hi.
  { rewrite submit_unfold.
    destruct (enqueue_frame (fst (submitted c)) (snd (submitted c)) (stopIfTesting s))
      as (-> & _).
    unfold stopIfTesting, stopTestPattern. by rewrite Hs. }
  split_and!; try done.
  - by rewrite Hp, pending_empty.
  - intros ts Hts. apply run_keeps_out_of_test; [by apply Inv_submit|done|congruence].
Qed.

Lemma submit_stops_test_pattern_witness :
  fst (submit (SubmitWrite 60) testing) = true /\
  _state (snd (submit (SubmitWrite 60) testing)) = NJU3711_IDLE /\
  pending (snd (submit (SubmitWrite 60) testing)) = [(NJU3711_OP_WRITE, 60)] /\
  (forall ts, Forall is_u32 ts ->
     _state (run ts (snd (submit (SubmitWrite 60) testing))) <> NJU3711_TEST_PATTERN).
Proof.
  apply (submit_stops_test_pattern testing (SubmitWrite 60)).
  - apply reach_startTestPattern; [apply reach_new3|unfold is_u32; lia].
  - reflexivity.
Defined.

(** * Properties of the multiplexer *)

(** ** Pin writes of the driver *)

Lemma writesDriverPins_refl s : writesDriverPins s s.
Proof. exists []. by split. Qed.

Lemma writesDriverPins_same s1 s2 : gpio s2 = gpio s1 -> writesDriverPins s1 s2.
Proof. intros Hg. exists []. by split. Qed.

Lemma writesDriverPins_trans s1 s2 s3 :
  driverPins s2 = driverPins s1 ->
  writesDriverPins s1 s2 -> writesDriverPins s2 s3 -> writesDriverPins s1 s3.
Proof.
  intros Hp (e1 & G1 & F1) (e2 & G2 & F2). exists (e2 ++ e1). split.
  - by rewrite G2, G1, app_assoc.
  - apply Forall_app. split; [|done]. by rewrite <- Hp.
Qed.

(** Each listed write is to one of the listed pins. *)
Ltac pins_in := repeat (constructor; [simpl; auto 6|]); constructor.

Lemma update_writes_driver_pins now s : Inv s -> writesDriverPins s (update now s).
Proof.
  intros H. unfold writesDriverPins, driverPins.
  step_cases now s H.
  - exists []. by split.
  - exists []. by split.
  - destruct (dequeue_frame _ _ _ _ Hd) as (_ & _ & Hgp & Hp & _).
    unfold driverPins in Hp. injection Hp as Hdp Hcp Hsp Hclp.
    destruct op; simpl; rewrite ?Hgp, ?Hsp; try (exists []; by split);
      (eexists [_]; split; [reflexivity|]; pins_in).
  - eexists [_; _]. split; [reflexivity|]. pins_in.
  - cbv zeta. destruct (_ <? 0); [destruct (_currentOperation s)|]; simpl;
      (eexists [_]; split; [reflexivity|]; pins_in).
  - eexists [_]. split; [reflexivity|]. pins_in.
  - eexists [_]. split; [reflexivity|]. pins_in.
  - eexists [_]. split; [reflexivity|]. pins_in.
  - eexists [_]. split; [reflexivity|]. pins_in.
  - exists []. split; [|done]. simpl.
    destruct (enqueue_frame NJU3711_OP_WRITE 0 s) as (_ & _ & _ & _ & _ & _ & _ & Hg').
    by destruct (fst _).
  - exists []. by split.
  - exists []. split; [|done]. simpl. by destruct (write_frame d s) as (_ & _ & -> & _).
  - exists []. by split.
Qed.

(** ** Pin levels and selections under further writes *)

Lemma pinLevel_app_other evs w p :
  Forall (fun e : Z * bool => fst e <> p) evs -> pinLevel (evs ++ w) p = pinLevel w p.
Proof.
  induction 1 as [|[q v] evs Hq _ IH]; [done|].
  simpl in *. apply Z.eqb_neq in Hq. by rewrite Hq.
Qed.

Lemma selectEvents_app pins w1 w2 :
  selectEvents pins (w1 ++ w2) = selectEvents pins w1 ++ selectEvents pins w2.
Proof. unfold selectEvents. apply omap_app. Qed.

Lemma selectEvents_none pins evs :
  Forall (fun e : Z * bool => slotOfPin pins (fst e) = None) evs ->
  selectEvents pins evs = [].
Proof.
  induction 1 as [|[q v] evs Hq _ IH]; [done|].
  unfold selectEvents in *. simpl in *.
  destruct v; simpl; [exact IH|]. rewrite Hq. exact IH.
Qed.

Lemma selectEvents_high pins p w :
  selectEvents pins (w ++ [(p, HIGH)]) = selectEvents pins w.
Proof. rewrite selectEvents_app. unfold selectEvents at 2. simpl. apply app_nil_r. Qed.

Lemma three_cases i : 0 <= i < 3 -> i = 0 \/ i = 1 \/ i = 2.
Proof. lia. Qed.

(** Split a [NoDup] hypothesis into its disequalities. *)
Ltac nodup_facts H :=
  repeat (let Hn := fresh "Hn" in apply NoDup_cons in H as [Hn H]);
  repeat match goal with
         | Hn : _ ∉ _ :: _ |- _ =>
             let Hne := fresh "Hne" in apply not_elem_of_cons in Hn as [Hne Hn]
         end.

Lemma slotOfPin_other p0 p1 p2 q :
  q <> p0 -> q <> p1 -> q <> p2 -> slotOfPin [p0; p1; p2] q = None.
Proof.
  intros H0 H1 H2. unfold slotOfPin, Multi.at3. simpl.
  destruct (p0 =? q) eqn:E0; [apply Z.eqb_eq in E0; congruence|].
  destruct (p1 =? q) eqn:E1; [apply Z.eqb_eq in E1; congruence|].
  destruct (p2 =? q) eqn:E2; [apply Z.eqb_eq in E2; congruence|done].
Qed.

Lemma slotOfPin_at p0 p1 p2 i :
  NoDup [p0; p1; p2] -> 0 <= i < 3 ->
  slotOfPin [p0; p1; p2] (Multi.at3 0 [p0; p1; p2] i) = Some i.
Proof.
  intros Hnd Hi. nodup_facts Hnd.
  assert (p0 <> p1 /\ p0 <> p2 /\ p1 <> p2) as (H01 & H02 & H12) by done.
  unfold slotOfPin, Multi.at3.
  assert (i = 0 \/ i = 1 \/ i = 2) as [-> | [-> | ->]] by lia; simpl.
  - by rewrite Z.eqb_refl.
  - apply Z.eqb_neq in H01. by rewrite H01, Z.eqb_refl.
  - apply Z.eqb_neq in H02, H12. by rewrite H02, H12, Z.eqb_refl.
Qed.

(** ** Structure of the multiplexer object *)

Lemma multi_update_unfold now m :
  Seg7._animationActive (Multi.seg m) = false ->
  Multi.update now m =
  if Multi._multiplexEnabled m && negb (isBusy (update now (Multi.driver m)))
  then Multi.multiplexDisplay now (Multi.set_driver (update now (Multi.driver m)) m)
  else Multi.set_driver (update now (Multi.driver m)) m.
Proof.
  intros Ha. unfold Multi.update, Seg7.update. simpl. rewrite Ha. reflexivity.
Qed.

Lemma driver_set_driver b m : Multi.driver (Multi.set_driver b m) = b.
Proof. reflexivity. Qed.

Lemma driver_digitalWrite p v m :
  Multi.driver (Multi.digitalWrite p v m) = digitalWrite p v (Multi.driver m).
Proof. reflexivity. Qed.

Lemma activeLines_unfold m :
  activeLines m =
  (if selectActive m 0 then [0] else []) ++ (if selectActive m 1 then [1] else [])
  ++ (if selectActive m 2 then [2] else []).
Proof.
  unfold activeLines. simpl.
  by destruct (selectActive m 0), (selectActive m 1), (selectActive m 2).
Qed.

Lemma activeLines_ext m1 m2 :
  (forall i, 0 <= i < 3 -> selectActive m1 i = selectActive m2 i) ->
  activeLines m1 = activeLines m2.
Proof.
  intros He. rewrite !activeLines_unfold. by rewrite !He by lia.
Qed.

Lemma activeLines_nil m :
  activeLines m = [] -> forall i, 0 <= i < 3 -> selectActive m i = false.
Proof.
  rewrite activeLines_unfold. intros Hn i Hi.
  destruct (selectActive m 0) eqn:E0; [done|].
  destruct (selectActive m 1) eqn:E1; [done|].
  destruct (selectActive m 2) eqn:E2; [done|].
  assert (i = 0 \/ i = 1 \/ i = 2) as [-> | [-> | ->]] by lia; done.
Qed.

Lemma activeLines_only m i :
  0 <= i < 3 -> (forall j, 0 <= j < 3 -> selectActive m j = (j =? i)) ->
  activeLines m = [i].
Proof.
  intros Hi He. rewrite activeLines_unfold, !He by lia.
  assert (i = 0 \/ i = 1 \/ i = 2) as [-> | [-> | ->]] by lia; done.
Qed.

Lemma activeLines_none m :
  (forall j, 0 <= j < 3 -> selectActive m j = false) -> activeLines m = [].
Proof. intros He. rewrite activeLines_unfold, !He by lia. done. Qed.

(** The select pin of a slot is none of the driver pins and differs from the
    select pins of the other slots. *)
Lemma digit_pin_facts m i :
  pinsDistinct m -> 0 <= i < 3 ->
  ~ In (Multi.at3 0 (Multi._digitPins m) i) (driverPins (Multi.driver m)) /\
  slotOfPin (Multi._digitPins m) (Multi.at3 0 (Multi._digitPins m) i) = Some i /\
  (forall j, 0 <= j < 3 -> j <> i ->
     Multi.at3 0 (Multi._digitPins m) j <> Multi.at3 0 (Multi._digitPins m) i) /\
  (forall q, In q (driverPins (Multi.driver m)) -> slotOfPin (Multi._digitPins m) q = None).
Proof.
  intros (p0 & p1 & p2 & Hpins & Hnd) Hi. rewrite Hpins.
  assert (NoDup [p0; p1; p2]) as Hnd3 by (by apply NoDup_app in Hnd as [? _]).
  pose proof (three_cases i Hi) as Hcases.
  unfold driverPins in *. simpl in Hnd. nodup_facts Hnd.
  split_and!.
  - unfold Multi.at3.
    destruct Hcases as [-> | [-> | ->]]; simpl; intros [?|[?|[?|[?|[]]]]]; congruence.
  - by apply slotOfPin_at.
  - intros j Hj Hji. unfold Multi.at3.
    destruct Hcases as [-> | [-> | ->]];
      destruct (three_cases j Hj) as [-> | [-> | ->]]; simpl; congruence.
  - intros q [?|[?|[?|[?|[]]]]]; subst q; apply slotOfPin_other; congruence.
Qed.

(** Writes of the driver to its own pins change neither the select lines nor
    the selections. *)
Lemma observe_driver_writes m s' :
  pinsDistinct m -> writesDriverPins (Multi.driver m) s' ->
  (forall i, 0 <= i < 3 ->
     selectActive (Multi.set_driver s' m) i = selectActive m i) /\
  selections (Multi.set_driver s' m) = selections m.
Proof.
  intros Hpd (evs & Hg & Hevs). split.
  - intros i Hi. destruct (digit_pin_facts m i Hpd Hi) as (Hnot & _).
    unfold selectActive. rewrite driver_set_driver. simpl.
    rewrite Hg, pinLevel_app_other; [done|].
    eapply Forall_impl; [exact Hevs|]. intros e He Heq. simpl in *. congruence.
  - unfold selections. rewrite driver_set_driver. simpl.
    rewrite Hg, rev_app_distr, selectEvents_app.
    rewrite (selectEvents_none _ (rev evs)); [by rewrite app_nil_r|].
    apply Forall_rev. eapply Forall_impl; [exact Hevs|].
    intros e He. simpl in *. by apply (digit_pin_facts m 0 Hpd).
Qed.

(** A write to the select line of slot [i]. *)
Lemma observe_digit_write m i v :
  pinsDistinct m -> 0 <= i < 3 ->
  (forall j, 0 <= j < 3 ->
     selectActive (Multi.digitalWrite (Multi.at3 0 (Multi._digitPins m) i) v m) j
     = if j =? i then negb v else selectActive m j) /\
  selections (Multi.digitalWrite (Multi.at3 0 (Multi._digitPins m) i) v m)
  = selections m ++ (if v then [] else [i]).
Proof.
  intros Hpd Hi. destruct (digit_pin_facts m i Hpd Hi) as (_ & Hslot & Hother & _). split.
  - intros j Hj. unfold selectActive. rewrite driver_digitalWrite. simpl.
    destruct (j =? i) eqn:E.
    + apply Z.eqb_eq in E. subst j. rewrite Z.eqb_refl. by destruct v.
    + apply Z.eqb_neq in E. specialize (Hother j Hj E).
      assert ((Multi.at3 0 (Multi._digitPins m) i =? Multi.at3 0 (Multi._digitPins m) j)
              = false) as -> by (apply Z.eqb_neq; congruence).
      done.
  - unfold selections. rewrite driver_digitalWrite. simpl.
    rewrite selectEvents_app. f_equal.
    unfold selectEvents. simpl. rewrite Hslot. by destruct v.
Qed.

Lemma selectActive_same m1 m2 i :
  Multi.driver m1 = Multi.driver m2 -> Multi._digitPins m1 = Multi._digitPins m2 ->
  selectActive m1 i = selectActive m2 i.
Proof. unfold selectActive. by intros -> ->. Qed.

Lemma activeLines_same m1 m2 :
  Multi.driver m1 = Multi.driver m2 -> Multi._digitPins m1 = Multi._digitPins m2 ->
  activeLines m1 = activeLines m2.
Proof. intros Hd Hp. apply activeLines_ext. intros i _. by apply selectActive_same. Qed.

Lemma selections_same m1 m2 :
  Multi.driver m1 = Multi.driver m2 -> Multi._digitPins m1 = Multi._digitPins m2 ->
  selections m1 = selections m2.
Proof. unfold selections. by intros -> ->. Qed.

Lemma pinsDistinct_same m1 m2 :
  driverPins (Multi.driver m1) = driverPins (Multi.driver m2) ->
  Multi._digitPins m1 = Multi._digitPins m2 ->
  pinsDistinct m2 -> pinsDistinct m1.
Proof. unfold pinsDistinct. by intros -> ->. Qed.

Lemma pinsDistinct_digitalWrite p v m :
  pinsDistinct m -> pinsDistinct (Multi.digitalWrite p v m).
Proof. by apply pinsDistinct_same. Qed.

(** [deselectAllDigits] is three writes of HIGH, to the three select pins. *)
Lemma deselectAllDigits_eq m :
  Multi.deselectAllDigits m =
  Multi.digitalWrite (Multi.at3 0 (Multi._digitPins m) 2) HIGH
    (Multi.digitalWrite (Multi.at3 0 (Multi._digitPins m) 1) HIGH
       (Multi.digitalWrite (Multi.at3 0 (Multi._digitPins m) 0) HIGH m)).
Proof. reflexivity. Qed.

Lemma deselectAllDigits_observe m :
  pinsDistinct m ->
  activeLines (Multi.deselectAllDigits m) = [] /\
  selections (Multi.deselectAllDigits m) = selections m.
Proof.
  intros Hpd. rewrite deselectAllDigits_eq.
  set (m1 := Multi.digitalWrite (Multi.at3 0 (Multi._digitPins m) 0) HIGH m).
  set (m2 := Multi.digitalWrite (Multi.at3 0 (Multi._digitPins m) 1) HIGH m1).
  assert (pinsDistinct m1) as Hpd1 by by apply pinsDistinct_digitalWrite.
  assert (pinsDistinct m2) as Hpd2 by by apply pinsDistinct_digitalWrite.
  destruct (observe_digit_write m 0 HIGH Hpd) as [A0 S0]; [lia|].
  destruct (observe_digit_write m1 1 HIGH Hpd1) as [A1 S1]; [lia|].
  destruct (observe_digit_write m2 2 HIGH Hpd2) as [A2 S2]; [lia|].
  change (Multi._digitPins m1) with (Multi._digitPins m) in *.
  change (Multi._digitPins m2) with (Multi._digitPins m) in *.
  fold m1 in A0, S0. fold m2 in A1, S1. split.
  - apply activeLines_none. intros j Hj. rewrite A2, A1, A0 by done. simpl.
    destruct (three_cases j Hj) as [-> | [-> | ->]]; done.
  - rewrite S2, S1, S0. simpl. by rewrite !app_nil_r.
Qed.

Lemma selectDigit_observe m i :
  pinsDistinct m -> 0 <= i < 3 -> activeLines m = [] ->
  activeLines (Multi.selectDigit i m) = [i] /\
  selections (Multi.selectDigit i m) = selections m ++ [i].
Proof.
  intros Hpd Hi Hdark. unfold Multi.selectDigit.
  destruct (i <? 3) eqn:E; [|apply Z.ltb_ge in E; lia].
  destruct (observe_digit_write m i LOW Hpd Hi) as [A S]. split; [|done].
  apply activeLines_only; [done|]. intros j Hj. rewrite A by done.
  destruct (j =? i); [done|]. by apply activeLines_nil.
Qed.

(** ** One phase of the multiplexer *)

(** Replace the observations of an object that differs from [m] in control
    members only by those of [m]. *)
Ltac to_world m :=
  repeat match goal with
         | |- context [activeLines ?m'] =>
             lazymatch m' with
             | m => fail
             | _ => change (activeLines m') with (activeLines m)
             end
         | |- context [selections ?m'] =>
             lazymatch m' with
             | m => fail
             | _ => change (selections m') with (selections m)
             end
         end.

Lemma MultiInv_write v m :
  MultiInv m ->
  MultiInv (Multi.set_driver (snd (write v (Multi.driver m))) m) /\
  selections (Multi.set_driver (snd (write v (Multi.driver m))) m) = selections m /\
  activeLines (Multi.set_driver (snd (write v (Multi.driver m))) m) = activeLines m.
Proof.
  intros [Hd Ha Hp Hc Hn Hch Hdk Ho Hs].
  destruct (write_frame v (Multi.driver m)) as (_ & _ & Hg & Hpins & _).
  destruct (observe_driver_writes m (snd (write v (Multi.driver m))) Hp) as [A S].
  { by apply writesDriverPins_same. }
  assert (activeLines (Multi.set_driver (snd (write v (Multi.driver m))) m) = activeLines m)
    as HA by (by apply activeLines_ext).
  split_and!; [|done..].
  constructor; try done.
  - rewrite driver_set_driver. by apply Inv_write.
  - apply (pinsDistinct_same _ m); [|done|done]. by rewrite driver_set_driver.
  - by rewrite HA.
  - by rewrite HA.
  - rewrite driver_set_driver. by apply Settled_write.
Qed.

Lemma multiplexDisplay_step now m :
  MultiInv m ->
  MultiInv (Multi.multiplexDisplay now m) /\ stepSelects m (Multi.multiplexDisplay now m).
Proof.
  intros H. pose proof H as [Hd Ha Hp Hc Hn Hch Hdk Ho Hs].
  unfold Multi.multiplexDisplay, stepSelects. cbv zeta.
  destruct (Multi._mplexState m) eqn:Hst.
  - (* MPLEX_IDLE *)
    destruct (_ <=? _); [|by split; [|left]].
    split; [|by left]. constructor; try done.
  - (* MPLEX_TURN_OFF_DIGITS *)
    destruct (deselectAllDigits_observe m Hp) as [A S].
    split; [|left; split; [|done]].
    + constructor; try done;
        lazymatch goal with
        | |- Inv _ =>
            change (Inv (Multi.driver (Multi.deselectAllDigits m)));
            rewrite deselectAllDigits_eq, !driver_digitalWrite;
            by repeat apply Inv_digitalWrite
        | |- Settled _ =>
            change (Settled (Multi.driver (Multi.deselectAllDigits m)));
            rewrite deselectAllDigits_eq, !driver_digitalWrite;
            by repeat apply Settled_digitalWrite
        | |- pinsDistinct _ => by apply (pinsDistinct_same _ m)
        | |- _ -> activeLines _ = [] =>
            intros _; to_world (Multi.deselectAllDigits m); done
        | |- (length _ <= 1)%nat =>
            to_world (Multi.deselectAllDigits m); rewrite A; simpl; lia
        | |- _ => idtac
        end.
    + to_world (Multi.deselectAllDigits m). done.
  - (* MPLEX_WAIT_BLANKING *)
    destruct (_ <=? _); [|by split; [|left]].
    split; [|by left]. constructor; try done;
      lazymatch goal with
      | |- _ -> activeLines _ = [] => intros _; to_world m; by apply Hdk
      | |- _ <= _ < _ => simpl; zlia
      | |- _ => idtac
      end.
  - (* MPLEX_WRITE_DATA *)
    destruct (negb (Multi.isBusy m)); [|by split; [|left]].
    match goal with
    | |- context [write ?v (Multi.driver m)] =>
        destruct (MultiInv_write v m H) as ([Hd' Ha' Hp' Hc' Hn' Hch' Hdk' Ho' Hs'] & S & A);
        set (m1 := Multi.set_driver (snd (write v (Multi.driver m))) m) in *
    end.
    split; [|left; split; [|done]].
    + constructor; try done;
        lazymatch goal with
        | |- _ -> activeLines _ = [] => intros _; to_world m1; rewrite A; by apply Hdk
        | |- _ -> Multi._nextDigit _ = _ => intros _; by apply Hch
        | |- _ => idtac
        end.
    + to_world m1. done.
  - (* MPLEX_WAIT_DATA *)
    destruct (negb (Multi.isBusy m)); [|by split; [|left]].
    destruct (_ <=? _); [|by split; [|left]].
    split; [|by left]. constructor; try done;
      lazymatch goal with
      | |- _ -> activeLines _ = [] => intros _; to_world m; by apply Hdk
      | |- _ -> Multi._nextDigit _ = _ => intros _; by apply Hch
      | |- _ => idtac
      end.
  - (* MPLEX_TURN_ON_DIGIT *)
    assert (Multi._nextDigit m = (Multi._currentDigit m + 1) mod 3) as Hnext by by apply Hch.
    assert (activeLines m = []) as Hdark by by apply Hdk.
    destruct (selectDigit_observe m (Multi._nextDigit m) Hp Hn Hdark) as [A S].
    assert (Multi.selectDigit (Multi._nextDigit m) m =
            Multi.digitalWrite (Multi.at3 0 (Multi._digitPins m) (Multi._nextDigit m)) LOW m)
      as Hsel.
    { unfold Multi.selectDigit. destruct (_ <? 3) eqn:E; [done|]. apply Z.ltb_ge in E. lia. }
    rewrite Hsel in *.
    set (m1 := Multi.digitalWrite _ LOW m) in *.
    split; [|right].
    + constructor; try done;
        lazymatch goal with
        | |- Inv _ =>
            change (Inv (Multi.driver m1)); subst m1;
            rewrite driver_digitalWrite; by apply Inv_digitalWrite
        | |- Settled _ =>
            change (Settled (Multi.driver m1)); subst m1;
            rewrite driver_digitalWrite; by apply Settled_digitalWrite
        | |- pinsDistinct _ => by apply (pinsDistinct_same _ m)
        | |- (length _ <= 1)%nat => to_world m1; rewrite A; simpl; lia
        | |- _ => idtac
        end.
    + to_world m1. rewrite A, S, <- Hnext. done.
  - (* MPLEX_DISPLAY_DIGIT *)
    split; [|by left]. constructor; try done.
Qed.

(** ** One call of [update] of the multiplexer *)

Lemma driver_step_keeps now m :
  MultiInv m -> is_u32 now ->
  MultiInv (Multi.set_driver (update now (Multi.driver m)) m) /\
  selections (Multi.set_driver (update now (Multi.driver m)) m) = selections m /\
  activeLines (Multi.set_driver (update now (Multi.driver m)) m) = activeLines m.
Proof.
  intros [Hd Ha Hp Hc Hn Hch Hdk Ho Hs] Hnow.
  destruct (update_config now (Multi.driver m) Hd) as [_ Hpins].
  destruct (observe_driver_writes m (update now (Multi.driver m)) Hp) as [A S].
  { by apply update_writes_driver_pins. }
  assert (activeLines (Multi.set_driver (update now (Multi.driver m)) m) = activeLines m)
    as HA by (by apply activeLines_ext).
  split_and!; [|done..].
  constructor; try done;
    lazymatch goal with
    | |- Inv _ => rewrite driver_set_driver; by apply Inv_update
    | |- Settled _ => rewrite driver_set_driver; by apply Settled_update
    | |- pinsDistinct _ =>
        apply (pinsDistinct_same _ m); [by rewrite driver_set_driver|done|done]
    | |- _ -> activeLines _ = [] => by rewrite HA
    | |- (length _ <= 1)%nat => by rewrite HA
    | |- _ => idtac
    end.
Qed.

Lemma stepSelects_after m m1 m2 :
  selections m1 = selections m -> Multi._currentDigit m1 = Multi._currentDigit m ->
  stepSelects m1 m2 -> stepSelects m m2.
Proof. unfold stepSelects. intros -> ->. done. Qed.

Lemma multi_update_step now m :
  MultiInv m -> is_u32 now ->
  MultiInv (Multi.update now m) /\ stepSelects m (Multi.update now m).
Proof.
  intros H Hnow. rewrite multi_update_unfold by apply (minv_anim m H).
  destruct (driver_step_keeps now m H Hnow) as (H1 & S1 & A1).
  destruct (_ && _).
  - destruct (multiplexDisplay_step now _ H1) as [H2 St]. split; [done|].
    by apply (stepSelects_after m _ _ S1).
  - split; [done|]. left. by split.
Qed.

Lemma roundRobin_cons c n :
  (c + 1) mod 3 :: roundRobin ((c + 1) mod 3) n = roundRobin c (S n).
Proof.
  unfold roundRobin. rewrite <- cons_seq. simpl. f_equal.
  - f_equal. lia.
  - rewrite <- seq_shift, map_map. apply map_ext. intros k. zlia.
Qed.

(** Over any run the selections extend in round-robin order, and every state
    on the way satisfies the invariant. *)
Lemma multiRun_round_robin ts m :
  MultiInv m -> Forall is_u32 ts ->
  MultiInv (multiRun ts m) /\
  exists n,
    selections (multiRun ts m) = selections m ++ roundRobin (Multi._currentDigit m) n /\
    Multi._currentDigit (multiRun ts m) = (Multi._currentDigit m + Z.of_nat n) mod 3.
Proof.
  revert m. induction ts as [|t ts IH]; intros m H Hts.
  - split; [done|]. exists 0%nat. simpl. rewrite app_nil_r, Z.add_0_r.
    pose proof (minv_current m H). by rewrite Z.mod_small.
  - inversion Hts as [|? ? Ht Hts']; subst.
    destruct (multi_update_step t m H) as [Hm1 St]; [done|].
    destruct (IH _ Hm1) as (Hm2 & n & Sn & Cn); [done|].
    simpl. split; [done|].
    destruct St as [[S C]|(S & C & _)].
    + exists n. by rewrite Sn, Cn, S, C.
    + exists (Datatypes.S n). rewrite Sn, Cn, S, C, <- roundRobin_cons, <- app_assoc.
      split; [done|]. zlia.
Qed.

Lemma multiRun_app ts1 ts2 m : multiRun (ts1 ++ ts2) m = multiRun ts2 (multiRun ts1 m).
Proof. revert m. induction ts1 as [|t ts1 IH]; intros m; [done|]. simpl. apply IH. Qed.

(** ** Reachable states of the multiplexer *)

Lemma begin_writes_driver_pins now s :
  writesDriverPins s (begin now s) /\ driverPins (begin now s) = driverPins s.
Proof.
  destruct s.
  unfold begin, clear, stopTestPattern, enqueueOperation, writesDriverPins, driverPins.
  simpl.
  destruct (_ =? 255); simpl; destruct (8 <=? _); simpl; (split; [|reflexivity]).
  - eexists [_; _; _]. split; [reflexivity|]. pins_in.
  - eexists [_; _; _]. split; [reflexivity|]. pins_in.
  - eexists [_; _; _; _]. split; [reflexivity|]. pins_in.
  - eexists [_; _; _; _]. split; [reflexivity|]. pins_in.
Qed.

Lemma MultiInv_init s d1 d2 d3 :
  Inv (Seg7.base s) -> Settled (Seg7.base s) ->
  Seg7._animationActive s = false -> gpio (Seg7.base s) = [] ->
  NoDup ([d1; d2; d3] ++ driverPins (Seg7.base s)) ->
  MultiInv (Multi.NJU3711_7Segment_Multi_init s d1 d2 d3).
Proof.
  intros Hi Hs Ha Hg Hnd.
  assert (activeLines (Multi.NJU3711_7Segment_Multi_init s d1 d2 d3) = []) as HA.
  { apply activeLines_none. intros j _. unfold selectActive, Multi.driver. simpl.
    by rewrite Hg. }
  constructor; try done.
  - exists d1, d2, d3. split; [reflexivity|exact Hnd].
  - rewrite HA. simpl. lia.
Qed.

(** A configuration call: only the digit tables change. *)
Lemma MultiInv_configure m m' :
  MultiInv m ->
  Multi.seg m' = Multi.seg m -> Multi._digitPins m' = Multi._digitPins m ->
  Multi._mplexState m' = Multi._mplexState m ->
  Multi._currentDigit m' = Multi._currentDigit m ->
  Multi._nextDigit m' = Multi._nextDigit m ->
  MultiInv m'.
Proof.
  intros [Hd Ha Hp Hc Hn Hch Hdk Ho Hs] Hseg Hpins Hst Hcur Hnext.
  assert (Multi.driver m' = Multi.driver m) as Hdr by (unfold Multi.driver; by rewrite Hseg).
  assert (activeLines m' = activeLines m) as HA by by apply activeLines_same.
  constructor; rewrite ?Hdr, ?Hseg, ?Hst, ?Hcur, ?Hnext, ?HA; try done.
  apply (pinsDistinct_same _ m); [by rewrite Hdr|done|done].
Qed.

Lemma MultiInv_deselectAllDigits m : MultiInv m -> MultiInv (Multi.deselectAllDigits m).
Proof.
  intros [Hd Ha Hp Hc Hn Hch Hdk Ho Hs].
  destruct (deselectAllDigits_observe m Hp) as [A S].
  constructor; try done;
    lazymatch goal with
    | |- Inv _ =>
        rewrite deselectAllDigits_eq, !driver_digitalWrite;
        by repeat apply Inv_digitalWrite
    | |- Settled _ =>
        rewrite deselectAllDigits_eq, !driver_digitalWrite;
        by repeat apply Settled_digitalWrite
    | |- pinsDistinct _ => by apply (pinsDistinct_same _ m)
    | |- (length _ <= 1)%nat => rewrite A; simpl; lia
    | |- _ => idtac
    end.
Qed.

Lemma MultiInv_set_lastMultiplexTime now m :
  MultiInv m -> MultiInv (Multi.mux_set_lastMultiplexTime now m).
Proof. intros H. by apply (MultiInv_configure m). Qed.

Lemma MultiInv_set_multiplexEnabled enable m :
  MultiInv m -> MultiInv (Multi.mux_set_multiplexEnabled enable m).
Proof. intros H. by apply (MultiInv_configure m). Qed.

Lemma multi_begin_eq now m :
  Multi.begin now m =
  Multi.mux_set_lastMultiplexTime now
    (Multi.deselectAllDigits (Multi.set_driver (begin now (Multi.driver m)) m)).
Proof.
  unfold Multi.begin, Multi.deselectAllDigits, Multi.set_driver, Seg7.begin, Multi.driver.
  reflexivity.
Qed.

Lemma MultiInv_begin now m :
  MultiInv m -> is_u32 now -> _state (Multi.driver m) = NJU3711_IDLE ->
  MultiInv (Multi.begin now m).
Proof.
  intros H Hnow Hidle. pose proof H as [Hd Ha Hp Hc Hn Hch Hdk Ho Hs].
  set (m1 := Multi.set_driver (begin now (Multi.driver m)) m).
  destruct (begin_writes_driver_pins now (Multi.driver m)) as [Hw Hpins].
  destruct (observe_driver_writes m (begin now (Multi.driver m)) Hp Hw) as [A S].
  assert (activeLines m1 = activeLines m) as HA by (by apply activeLines_ext).
  assert (MultiInv m1) as H1.
  { constructor; try done;
      lazymatch goal with
      | |- Inv _ => subst m1; rewrite driver_set_driver; by apply Inv_begin
      | |- Settled _ =>
          subst m1; rewrite driver_set_driver; apply Settled_begin; [done|by left]
      | |- pinsDistinct _ =>
          apply (pinsDistinct_same _ m); [by subst m1; rewrite driver_set_driver|done|done]
      | |- _ -> activeLines _ = [] => by rewrite HA
      | |- (length _ <= 1)%nat => by rewrite HA
      | |- _ => idtac
      end. }
  rewrite multi_begin_eq. fold m1.
  by apply MultiInv_set_lastMultiplexTime, MultiInv_deselectAllDigits.
Qed.

Lemma MultiInv_enableMultiplex enable m :
  MultiInv m -> MultiInv (Multi.enableMultiplex enable m).
Proof.
  intros H. unfold Multi.enableMultiplex. cbv zeta.
  pose proof (MultiInv_set_multiplexEnabled enable m H) as H1.
  destruct (negb enable); [|done]. by apply MultiInv_deselectAllDigits.
Qed.

(** Every state of [MultiReachable] satisfies the invariant. *)
Lemma MultiReachable_Inv m : MultiReachable m -> MultiInv m.
Proof.
  induction 1 as [dp cp sp d1 d2 d3 mode Hnd|dp cp sp clr d1 d2 d3 mode Hnd
                 |now m _ IH Hnow Hidle|now m _ IH Hnow
                 |pos sg dpn m _ IH|pos v dpn m _ IH|pos en m _ IH|en m _ IH].
  - apply MultiInv_init; try done; first [apply Inv_new4|apply Settled_new4].
  - apply MultiInv_init; try done; first [apply Inv_new4|apply Settled_new4].
  - by apply MultiInv_begin.
  - by apply multi_update_step.
  - unfold Multi.setDigitRaw. destruct (3 <=? pos); [done|].
    by apply (MultiInv_configure m).
  - unfold Multi.setDigit. destruct (3 <=? pos); [done|].
    by apply (MultiInv_configure m).
  - unfold Multi.enableDigit. destruct (3 <=? pos); [done|].
    by apply (MultiInv_configure m).
  - by apply MultiInv_enableMultiplex.
Qed.

(** ** The phases of one refresh *)

Lemma set_driver_same m : Multi.set_driver (Multi.driver m) m = m.
Proof. destruct m as [[] ]. reflexivity. Qed.

Lemma free_update now m :
  MultiInv m -> Multi._multiplexEnabled m = true -> isBusy (Multi.driver m) = false ->
  Multi.update now m = Multi.multiplexDisplay now m.
Proof.
  intros H He Hb. destruct (not_busy _ (minv_driver m H) Hb) as [Hs Hq].
  rewrite multi_update_unfold by apply (minv_anim m H).
  rewrite update_idle_empty by done. rewrite set_driver_same, He, Hb. done.
Qed.

Lemma busy_update now m :
  MultiInv m -> isBusy (update now (Multi.driver m)) = true ->
  Multi.update now m = Multi.set_driver (update now (Multi.driver m)) m.
Proof.
  intros H Hb. rewrite multi_update_unfold by apply (minv_anim m H).
  by rewrite Hb, andb_false_r.
Qed.

Lemma freed_update now m :
  MultiInv m -> Multi._multiplexEnabled m = true ->
  isBusy (update now (Multi.driver m)) = false ->
  Multi.update now m =
  Multi.multiplexDisplay now (Multi.set_driver (update now (Multi.driver m)) m).
Proof.
  intros H He Hb. rewrite multi_update_unfold by apply (minv_anim m H).
  by rewrite Hb, He.
Qed.

Lemma elapsed stamp prev D delay t :
  0 <= D -> 0 <= stamp <= prev -> prev + D <= t -> t < 4294967296 -> delay <= D ->
  (delay <=? u32 (t - stamp)) = true.
Proof.
  intros HD Hs Ht Hlt Hd. apply Z.leb_le. unfold u32. rewrite Z.mod_small; lia.
Qed.

Lemma multiplex_idle now m :
  Multi._mplexState m = Multi.MPLEX_IDLE ->
  (Multi._multiplexDelay m <=? u32 (now - Multi._lastMultiplexTime m)) = true ->
  Multi.multiplexDisplay now m =
  Multi.mux_set_lastStateTime now (Multi.mux_set_mplexState Multi.MPLEX_TURN_OFF_DIGITS m).
Proof. intros Hst Hc. unfold Multi.multiplexDisplay. by rewrite Hst, Hc. Qed.

Lemma multiplex_turn_off now m :
  Multi._mplexState m = Multi.MPLEX_TURN_OFF_DIGITS ->
  Multi.multiplexDisplay now m =
  Multi.mux_set_lastStateTime now
    (Multi.mux_set_mplexState Multi.MPLEX_WAIT_BLANKING (Multi.deselectAllDigits m)).
Proof. intros Hst. unfold Multi.multiplexDisplay. by rewrite Hst. Qed.

Lemma multiplex_wait_blanking now m :
  Multi._mplexState m = Multi.MPLEX_WAIT_BLANKING ->
  (Multi._blankingTime m <=? u32 (now - Multi._lastStateTime m)) = true ->
  Multi.multiplexDisplay now m =
  Multi.mux_set_mplexState Multi.MPLEX_WRITE_DATA
    (Multi.mux_set_nextDigit ((Multi._currentDigit m + 1) mod 3) m).
Proof. intros Hst Hc. unfold Multi.multiplexDisplay. by rewrite Hst, Hc. Qed.

Lemma multiplex_write_data now m :
  Multi._mplexState m = Multi.MPLEX_WRITE_DATA -> isBusy (Multi.driver m) = false ->
  Multi.multiplexDisplay now m =
  Multi.mux_set_lastStateTime now
    (Multi.mux_set_mplexState Multi.MPLEX_WAIT_DATA
       (Multi.set_driver (snd (write (refreshByte m) (Multi.driver m))) m)).
Proof.
  intros Hst Hb. unfold Multi.multiplexDisplay, Multi.isBusy. by rewrite Hst, Hb.
Qed.

Lemma multiplex_wait_data now m :
  Multi._mplexState m = Multi.MPLEX_WAIT_DATA -> isBusy (Multi.driver m) = false ->
  (10 <=? u32 (now - Multi._lastStateTime m)) = true ->
  Multi.multiplexDisplay now m = Multi.mux_set_mplexState Multi.MPLEX_TURN_ON_DIGIT m.
Proof.
  intros Hst Hb Hc. unfold Multi.multiplexDisplay, Multi.isBusy. by rewrite Hst, Hb, Hc.
Qed.

Lemma selectDigit_eq i m :
  0 <= i < 3 ->
  Multi.selectDigit i m = Multi.digitalWrite (Multi.at3 0 (Multi._digitPins m) i) LOW m.
Proof.
  intros Hi. unfold Multi.selectDigit.
  destruct (i <? 3) eqn:E; [done|]. apply Z.ltb_ge in E. lia.
Qed.

Lemma multiplex_turn_on now m :
  Multi._mplexState m = Multi.MPLEX_TURN_ON_DIGIT -> 0 <= Multi._nextDigit m < 3 ->
  Multi.multiplexDisplay now m =
  Multi.mux_set_lastMultiplexTime now
    (Multi.mux_set_mplexState Multi.MPLEX_DISPLAY_DIGIT
       (Multi.mux_set_currentDigit (Multi._nextDigit m)
          (Multi.selectDigit (Multi._nextDigit m) m))).
Proof.
  intros Hst Hn. unfold Multi.multiplexDisplay. rewrite Hst.
  cbv zeta. by rewrite selectDigit_eq.
Qed.

Lemma multiplex_display now m :
  Multi._mplexState m = Multi.MPLEX_DISPLAY_DIGIT ->
  Multi.multiplexDisplay now m = Multi.mux_set_mplexState Multi.MPLEX_IDLE m.
Proof. intros Hst. unfold Multi.multiplexDisplay. by rewrite Hst. Qed.

Lemma multiplexDisplay_config now m :
  Multi._multiplexEnabled (Multi.multiplexDisplay now m) = Multi._multiplexEnabled m /\
  Multi._multiplexDelay (Multi.multiplexDisplay now m) = Multi._multiplexDelay m /\
  Multi._blankingTime (Multi.multiplexDisplay now m) = Multi._blankingTime m /\
  _stepDelay (Multi.driver (Multi.multiplexDisplay now m)) = _stepDelay (Multi.driver m) /\
  _lastUpdateTime (Multi.driver (Multi.multiplexDisplay now m))
    = _lastUpdateTime (Multi.driver m).
Proof.
  unfold Multi.multiplexDisplay. cbv zeta.
  destruct (Multi._mplexState m).
  - by destruct (_ <=? _).
  - done.
  - by destruct (_ <=? _).
  - destruct (negb _); [|done].
    match goal with
    | |- context [write ?v (Multi.driver m)] =>
        destruct (write_frame v (Multi.driver m)) as (Hsd & Hl & _)
    end.
    split_and!; try done.
  - destruct (negb _); [|done]. by destruct (_ <=? _).
  - unfold Multi.selectDigit. by destruct (_ <? 3).
  - done.
Qed.

Lemma Setup_update D now m : Setup D m -> is_u32 now -> Setup D (Multi.update now m).
Proof.
  intros [H He Hs Hm Hb H10] Hnow.
  destruct (multi_update_step now m H Hnow) as [H' _].
  destruct (update_config now (Multi.driver m) (minv_driver m H)) as [Hsd _].
  rewrite multi_update_unfold in * by apply (minv_anim m H).
  destruct (_ && _).
  - destruct (multiplexDisplay_config now
                (Multi.set_driver (update now (Multi.driver m)) m))
      as (C1 & C2 & C3 & C4 & _).
    constructor; try done.
    + by rewrite C1.
    + rewrite C4, driver_set_driver. lia.
    + by rewrite C2.
    + by rewrite C3.
  - constructor; try done. rewrite driver_set_driver. lia.
Qed.

Lemma Setup_run D ts m : Setup D m -> Forall is_u32 ts -> Setup D (multiRun ts m).
Proof.
  revert m. induction ts as [|t ts IH]; intros m H Hts; [done|].
  inversion Hts; subst. simpl. apply IH; [by apply Setup_update|done].
Qed.

(** Close a time-stamp clause of a [Phase] goal. *)
Ltac phase_arith :=
  unfold Multi.driver in *; simpl; unfold Multi.driver in *; first [lia | done].

(** Time of a call that is [D] after [prev]. *)
Lemma call_time D prev now :
  10 <= D -> 0 <= prev -> prev + D <= now -> now < 4294967296 -> is_u32 now.
Proof. unfold is_u32. lia. Qed.

Lemma phase_idle D prev now m :
  Phase D prev Multi.MPLEX_IDLE m -> prev + D <= now -> now < 4294967296 ->
  Phase D now Multi.MPLEX_TURN_OFF_DIGITS (Multi.update now m) /\
  selections (Multi.update now m) = selections m /\
  Multi._currentDigit (Multi.update now m) = Multi._currentDigit m.
Proof.
  intros [Hs Hst Hf Hd Hm Hp] Hnow Hlt. pose proof Hs as [H He Hsd Hmd Hbt H10].
  assert (is_u32 now) as Hu by (apply (call_time D prev); lia).
  pose proof (Setup_update D now m Hs Hu) as Hs'.
  rewrite free_update in * by done.
  rewrite multiplex_idle in *;
    [|done|apply (elapsed _ prev D); lia|done|apply (elapsed _ prev D); lia].
  split; [|done]. unfold is_u32 in Hu.
  constructor; try done; phase_arith.
Qed.

Lemma phase_turn_off D prev now m :
  Phase D prev Multi.MPLEX_TURN_OFF_DIGITS m -> prev + D <= now -> now < 4294967296 ->
  Phase D now Multi.MPLEX_WAIT_BLANKING (Multi.update now m) /\
  selections (Multi.update now m) = selections m /\
  Multi._currentDigit (Multi.update now m) = Multi._currentDigit m.
Proof.
  intros [Hs Hst Hf Hd Hm Hp] Hnow Hlt. pose proof Hs as [H He Hsd Hmd Hbt H10].
  assert (is_u32 now) as Hu by (apply (call_time D prev); lia).
  pose proof (Setup_update D now m Hs Hu) as Hs'.
  destruct (deselectAllDigits_observe m (minv_pins m H)) as [_ S].
  rewrite free_update in * by done.
  rewrite multiplex_turn_off in * by done.
  split; [|split; [|done]].
  - unfold is_u32 in Hu.
    constructor; try done; phase_arith.
  - to_world (Multi.deselectAllDigits m). done.
Qed.

Lemma phase_wait_blanking D prev now m :
  Phase D prev Multi.MPLEX_WAIT_BLANKING m -> prev + D <= now -> now < 4294967296 ->
  Phase D now Multi.MPLEX_WRITE_DATA (Multi.update now m) /\
  selections (Multi.update now m) = selections m /\
  Multi._currentDigit (Multi.update now m) = Multi._currentDigit m.
Proof.
  intros [Hs Hst Hf Hd Hm Hp] Hnow Hlt. pose proof Hs as [H He Hsd Hmd Hbt H10].
  assert (is_u32 now) as Hu by (apply (call_time D prev); lia).
  pose proof (Setup_update D now m Hs Hu) as Hs'.
  rewrite free_update in * by done.
  rewrite multiplex_wait_blanking in *;
    [|done|apply (elapsed _ prev D); lia|done|apply (elapsed _ prev D); lia].
  split; [|done]. unfold is_u32 in Hu.
  constructor; try done; phase_arith.
Qed.

Lemma phase_turn_on D prev now m :
  Phase D prev Multi.MPLEX_TURN_ON_DIGIT m -> prev + D <= now -> now < 4294967296 ->
  Phase D now Multi.MPLEX_DISPLAY_DIGIT (Multi.update now m) /\
  selections (Multi.update now m)
    = selections m ++ [(Multi._currentDigit m + 1) mod 3] /\
  Multi._currentDigit (Multi.update now m) = (Multi._currentDigit m + 1) mod 3.
Proof.
  intros [Hs Hst Hf Hd Hm Hp] Hnow Hlt. pose proof Hs as [H He Hsd Hmd Hbt H10].
  assert (is_u32 now) as Hu by (apply (call_time D prev); lia).
  pose proof (Setup_update D now m Hs Hu) as Hs'.
  pose proof (minv_next m H) as Hn.
  assert (Multi._nextDigit m = (Multi._currentDigit m + 1) mod 3) as Hnext.
  { apply (minv_chosen m H). by rewrite Hst. }
  assert (activeLines m = []) as Hdark.
  { apply (minv_dark m H). by rewrite Hst. }
  destruct (selectDigit_observe m _ (minv_pins m H) Hn Hdark) as [_ S].
  rewrite free_update in * by done.
  rewrite multiplex_turn_on in * by done.
  rewrite selectDigit_eq in * by done.
  split; [|split].
  - unfold is_u32 in Hu.
    constructor; try done; phase_arith.
  - match goal with
    | |- selections (_ (_ (_ ?m1))) = _ => to_world m1
    end.
    by rewrite S, Hnext.
  - simpl. done.
Qed.

Lemma phase_display D prev now m :
  Phase D prev Multi.MPLEX_DISPLAY_DIGIT m -> prev + D <= now -> now < 4294967296 ->
  Phase D now Multi.MPLEX_IDLE (Multi.update now m) /\
  selections (Multi.update now m) = selections m /\
  Multi._currentDigit (Multi.update now m) = Multi._currentDigit m.
Proof.
  intros [Hs Hst Hf Hd Hm Hp] Hnow Hlt. pose proof Hs as [H He Hsd Hmd Hbt H10].
  assert (is_u32 now) as Hu by (apply (call_time D prev); lia).
  pose proof (Setup_update D now m Hs Hu) as Hs'.
  rewrite free_update in * by done.
  rewrite multiplex_display in * by done.
  split; [|done]. unfold is_u32 in Hu.
  constructor; try done; phase_arith.
Qed.

(** ** The write of one refresh *)

Lemma run_writes_driver_pins ts s :
  Inv s -> Forall is_u32 ts ->
  writesDriverPins s (run ts s) /\ driverPins (run ts s) = driverPins s.
Proof.
  revert s. induction ts as [|t ts IH]; intros s H Hts.
  - split; [apply writesDriverPins_refl|done].
  - inversion Hts; subst.
    destruct (update_config t s H) as [_ Hp].
    destruct (IH (update t s)) as [Hw Hp']; [by apply Inv_update|done|].
    simpl. split; [|congruence].
    apply (writesDriverPins_trans s (update t s)); [done| |done].
    by apply update_writes_driver_pins.
Qed.

Lemma set_driver_set_driver b1 b2 m :
  Multi.set_driver b1 (Multi.set_driver b2 m) = Multi.set_driver b1 m.
Proof. reflexivity. Qed.

(** While the driver stays busy, a call of the multiplexer only steps the
    driver. *)
Lemma multiRun_busy ts m :
  MultiInv m -> Forall is_u32 ts ->
  (forall k, (1 <= k <= length ts)%nat ->
     isBusy (run (take k ts) (Multi.driver m)) = true) ->
  multiRun ts m = Multi.set_driver (run ts (Multi.driver m)) m.
Proof.
  revert m. induction ts as [|t ts IH]; intros m H Hts Hbusy.
  - simpl. by rewrite set_driver_same.
  - inversion Hts; subst.
    assert (isBusy (update t (Multi.driver m)) = true) as Hb1.
    { apply (Hbusy 1%nat). simpl. lia. }
    destruct (driver_step_keeps t m H) as (H1 & _); [done|].
    change (multiRun (t :: ts) m) with (multiRun ts (Multi.update t m)).
    change (run (t :: ts) (Multi.driver m)) with (run ts (update t (Multi.driver m))).
    rewrite (busy_update t m H Hb1).
    rewrite IH; try done.
    intros k Hk. rewrite driver_set_driver. apply (Hbusy (S k)). simpl. lia.
Qed.

(** The phases WRITE_DATA and WAIT_DATA: the call that submits the write and
    the nineteen calls that carry it out; the last of them finds the driver
    free and moves on to TURN_ON_DIGIT. *)
Lemma phase_write D prev t ts m :
  Phase D prev Multi.MPLEX_WRITE_DATA m ->
  spaced D prev (t :: ts) = true -> length ts = 19%nat ->
  Phase D (List.last ts t) Multi.MPLEX_TURN_ON_DIGIT (multiRun (t :: ts) m) /\
  selections (multiRun (t :: ts) m) = selections m /\
  Multi._currentDigit (multiRun (t :: ts) m) = Multi._currentDigit m /\
  _currentData (Multi.driver (multiRun (t :: ts) m)) = refreshByte m.
Proof.
  intros [Hs Hst Hf Hd Hm Hp] Hsp Hlen. pose proof Hs as [H He Hsd Hmd Hbt H10].
  pose proof (minv_driver m H) as Hdrv. pose proof (inv_last _ Hdrv) as Hlast0.
  simpl in Hsp. apply andb_prop in Hsp as [Hsp Hrest]. apply andb_prop in Hsp as [H1 H2].
  apply Z.leb_le in H1. apply Z.ltb_lt in H2.
  assert (is_u32 t) as Hu by (apply (call_time D prev); lia).
  assert (Forall is_u32 ts) as Hts.
  { apply (spaced_u32 D t); [lia|unfold is_u32 in Hu; lia|done]. }
  (* the call that submits the write *)
  set (v := refreshByte m).
  pose proof (Setup_update D t m Hs Hu) as Hs4.
  change (multiRun (t :: ts) m) with (multiRun ts (Multi.update t m)).
  rewrite free_update in * by done.
  rewrite multiplex_write_data in * by done. fold v in Hs4 |- *.
  destruct (submit_not_busy (SubmitWrite v) _ Hdrv Hf) as (Hok & Hpend & Hidle & Hsd4 & Hl4).
  simpl in Hok, Hpend, Hidle, Hsd4, Hl4.
  set (s4 := snd (write v (Multi.driver m))) in *.
  set (m4 := Multi.mux_set_lastStateTime t _) in *.
  assert (Multi.driver m4 = s4) as Hdr4 by done.
  pose proof (setup_inv D m4 Hs4) as H4.
  assert (Inv s4) as Hinv4 by (rewrite <- Hdr4; apply (minv_driver m4 H4)).
  assert (selections m4 = selections m) as Hsel4.
  { destruct (MultiInv_write v m H) as (_ & S & _). exact S. }
  (* the nineteen calls of the driver *)
  assert (eligible ts s4 = true) as Hel.
  { apply (spaced_eligible ts s4 t); [done|lia|].
    apply (spaced_weaken _ D); [lia|done]. }
  destruct (run_shift_operation NJU3711_OP_WRITE v ts s4) as (R1 & R2 & R3);
    auto; [lia|].
  destruct (last_run ts s4 t) as (L1 & L2 & L3); [done|lia| |].
  { apply (spaced_weaken _ D); [lia|done]. }
  destruct (spaced_last D t ts) as [_ Hlastts]; [lia|done|].
  destruct Hlastts as [T1 T2]; [by destruct ts|].
  (* split off the last call *)
  assert (ts = take 18 ts ++ [List.last ts t]) as Hsplit.
  { rewrite <- (take_drop 18 ts) at 1. f_equal.
    do 19 (destruct ts as [|? ts]; [simpl in Hlen; lia|]).
    destruct ts; [reflexivity|simpl in Hlen; lia]. }
  set (tl := List.last ts t) in *.
  assert (multiRun (take 18 ts) m4 = Multi.set_driver (run (take 18 ts) s4) m4) as Hbusy.
  { rewrite <- Hdr4. apply multiRun_busy; [done|by apply Forall_take|].
    intros k Hk. rewrite length_take in Hk. rewrite take_take, Hdr4.
    replace (k `min` 18)%nat with k by lia.
    apply (write_busy_prefix v); try done; try lia.
    rewrite <- Hdr4. apply (minv_settled m4 H4). }
  pose proof (Setup_run D (take 18 ts) m4 Hs4 (Forall_take _ _ _ Hts)) as Hs22.
  pose proof (Setup_run D ts m4 Hs4 Hts) as Hs23.
  rewrite Hsplit, multiRun_app in Hs23 |- *. rewrite Hbusy in *.
  set (m22 := Multi.set_driver (run (take 18 ts) s4) m4) in *.
  assert (update tl (Multi.driver m22) = run ts s4) as Hrun.
  { subst m22. rewrite driver_set_driver. rewrite Hsplit at 2. by rewrite run_app. }
  assert (isBusy (run ts s4) = false) as Hfree by by apply idle_not_busy.
  pose proof (setup_inv D m22 Hs22) as H22.
  simpl multiRun in *.
  rewrite (freed_update tl m22 H22) in *; [|done|by rewrite Hrun|done|by rewrite Hrun].
  rewrite Hrun in *. subst m22. rewrite set_driver_set_driver in *.
  set (m23 := Multi.set_driver (run ts s4) m4) in *.
  assert ((10 <=? u32 (tl - Multi._lastStateTime m23)) = true) as Hsettle.
  { apply (elapsed _ t D); try lia. subst m23 m4. simpl. unfold is_u32 in Hu. lia. }
  rewrite (multiplex_wait_data tl m23) in * by done.
  destruct (run_writes_driver_pins ts s4 Hinv4 Hts) as [Hw _].
  rewrite <- Hdr4 in Hw.
  destruct (observe_driver_writes m4 (run ts s4) (minv_pins m4 H4) Hw) as [_ S23].
  fold m23 in S23.
  split_and!.
  - unfold is_u32 in Hu.
    constructor; try done; subst m23 m4; phase_arith.
  - to_world m23. by rewrite S23.
  - done.
  - done.
Qed.

(** ** One refresh, and one full cycle *)

Lemma spaced_cons D prev t ts :
  spaced D prev (t :: ts) = true ->
  prev + D <= t /\ t < 4294967296 /\ spaced D t ts = true.
Proof.
  simpl. intros Hsp. apply andb_prop in Hsp as [Hsp Hrest].
  apply andb_prop in Hsp as [H1 H2]. apply Z.leb_le in H1. apply Z.ltb_lt in H2. done.
Qed.

(** Twenty-five spaced calls take the multiplexer from MPLEX_IDLE through
    all phases back to MPLEX_IDLE, selecting the successor of the current
    slot. *)
Lemma refresh_one D prev ts m :
  Phase D prev Multi.MPLEX_IDLE m -> spaced D prev ts = true -> length ts = 25%nat ->
  Phase D (List.last ts prev) Multi.MPLEX_IDLE (multiRun ts m) /\
  selections (multiRun ts m) = selections m ++ [(Multi._currentDigit m + 1) mod 3] /\
  Multi._currentDigit (multiRun ts m) = (Multi._currentDigit m + 1) mod 3.
Proof.
  intros Hph Hsp Hlen.
  destruct ts as [|t1 [|t2 [|t3 [|t4 rest]]]]; try (simpl in Hlen; lia).
  assert (length rest = 21%nat) as Hlen' by (simpl in Hlen; lia).
  assert (rest = take 19 rest ++ drop 19 rest) as Hsplit by (by rewrite take_drop).
  destruct (drop 19 rest) as [|t24 [|t25 [|? ?]]] eqn:Hdrop;
    try (apply (f_equal length) in Hdrop; rewrite length_drop in Hdrop;
         simpl in Hdrop; lia).
  set (ts19 := take 19 rest) in *.
  assert (length ts19 = 19%nat) as Hlen19 by (subst ts19; rewrite length_take; lia).
  rewrite Hsplit in *. clear Hsplit Hdrop.
  destruct (spaced_cons _ _ _ _ Hsp) as (A1 & B1 & Hsp1).
  destruct (spaced_cons _ _ _ _ Hsp1) as (A2 & B2 & Hsp2).
  destruct (spaced_cons _ _ _ _ Hsp2) as (A3 & B3 & Hsp3).
  change (t4 :: ts19 ++ [t24; t25]) with ((t4 :: ts19) ++ [t24; t25]) in Hsp3.
  rewrite spaced_app in Hsp3. apply andb_prop in Hsp3 as [Hsp4 Hsp5].
  rewrite last_cons in Hsp5.
  destruct (spaced_cons _ _ _ _ Hsp5) as (A24 & B24 & Hsp6).
  destruct (spaced_cons _ _ _ _ Hsp6) as (A25 & B25 & _).
  destruct (phase_idle D prev t1 m Hph A1 B1) as (P1 & S1 & C1).
  destruct (phase_turn_off D t1 t2 _ P1 A2 B2) as (P2 & S2 & C2).
  destruct (phase_wait_blanking D t2 t3 _ P2 A3 B3) as (P3 & S3 & C3).
  destruct (phase_write D t3 t4 ts19 _ P3 Hsp4 Hlen19) as (P4 & S4 & C4 & _).
  destruct (phase_turn_on D _ t24 _ P4 A24 B24) as (P5 & S5 & C5).
  destruct (phase_display D _ t25 _ P5 A25 B25) as (P6 & S6 & C6).
  assert (multiRun (t1 :: t2 :: t3 :: t4 :: ts19 ++ [t24; t25]) m =
          Multi.update t25 (Multi.update t24
            (multiRun (t4 :: ts19) (Multi.update t3 (Multi.update t2 (Multi.update t1 m))))))
    as ->.
  { change (t1 :: t2 :: t3 :: t4 :: ts19 ++ [t24; t25])
      with ([t1; t2; t3] ++ (t4 :: ts19) ++ [t24; t25]).
    by rewrite !multiRun_app. }
  assert (List.last (t1 :: t2 :: t3 :: t4 :: ts19 ++ [t24; t25]) prev = t25) as ->.
  { rewrite !last_cons. change (ts19 ++ [t24; t25]) with (ts19 ++ [t24] ++ [t25]).
    rewrite app_assoc. apply last_last. }
  split_and!; [done| |].
  - rewrite S6, S5, S4, S3, S2, S1, C4, C3, C2, C1. done.
  - rewrite C6, C5, C4, C3, C2, C1. done.
Qed.

Lemma roundRobin_three c :
  roundRobin c 3 = [(c + 1) mod 3; (c + 2) mod 3; (c + 3) mod 3].
Proof.
  unfold roundRobin. cbn [seq map].
  by rewrite Z.add_0_r, <- !Z.add_assoc.
Qed.

(** Seventy-five spaced calls: three refreshes, each slot selected once. *)
Lemma full_cycle D prev ts m :
  Phase D prev Multi.MPLEX_IDLE m -> spaced D prev ts = true -> length ts = 75%nat ->
  Phase D (List.last ts prev) Multi.MPLEX_IDLE (multiRun ts m) /\
  selections (multiRun ts m) = selections m ++ roundRobin (Multi._currentDigit m) 3.
Proof.
  intros Hph Hsp Hlen.
  rewrite <- (take_drop 25 ts) in Hsp |- *.
  rewrite <- (take_drop 25 (drop 25 ts)) in Hsp |- *.
  set (ts1 := take 25 ts) in *. set (ts2 := take 25 (drop 25 ts)) in *.
  set (ts3 := drop 25 (drop 25 ts)) in *.
  assert (length ts1 = 25%nat /\ length ts2 = 25%nat /\ length ts3 = 25%nat)
    as (L1 & L2 & L3).
  { subst ts1 ts2 ts3. rewrite !length_take, !length_drop. lia. }
  rewrite spaced_app in Hsp. apply andb_prop in Hsp as [Hsp1 Hsp].
  rewrite spaced_app in Hsp. apply andb_prop in Hsp as [Hsp2 Hsp3].
  destruct (refresh_one D prev ts1 m Hph Hsp1 L1) as (P1 & S1 & C1).
  destruct (refresh_one D _ ts2 _ P1 Hsp2 L2) as (P2 & S2 & C2).
  destruct (refresh_one D _ ts3 _ P2 Hsp3 L3) as (P3 & S3 & C3).
  rewrite !multiRun_app.
  assert (List.last (ts1 ++ ts2 ++ ts3) prev
          = List.last ts3 (List.last ts2 (List.last ts1 prev))) as ->.
  { destruct ts3 as [|a3 l3]; [simpl in L3; lia|].
    rewrite !app_assoc, (last_nonempty a3 l3 _ prev).
    change (a3 :: l3) with ([a3] ++ l3). rewrite app_assoc.
    destruct l3 as [|b l3] using rev_ind.
    - rewrite app_nil_r. by rewrite last_last.
    - rewrite !app_assoc. by rewrite !last_last. }
  split; [done|].
  rewrite S3, S2, S1, C2, C1, roundRobin_three, <- !app_assoc. simpl.
  set (c := Multi._currentDigit m).
  replace (((c + 1) mod 3 + 1) mod 3) with ((c + 2) mod 3) by zlia.
  by replace (((c + 2) mod 3 + 1) mod 3) with ((c + 3) mod 3) by zlia.
Qed.

Lemma MultiReachable_run ts m :
  MultiReachable m -> Forall is_u32 ts -> MultiReachable (multiRun ts m).
Proof.
  revert m. induction ts as [|t ts IH]; intros m H Hts; [done|].
  inversion Hts; subst. simpl. apply IH; [by apply mreach_update|done].
Qed.

Lemma Forall_ticks n from step :
  0 <= from -> 0 <= step -> from + step * Z.of_nat n < 4294967296 ->
  Forall is_u32 (ticks n from step).
Proof.
  intros Hf Hs Hn. unfold ticks. apply Forall_forall. intros x Hx.
  apply list_elem_of_In, in_map_iff in Hx as (k & <- & Hk). apply in_seq in Hk.
  assert (step * Z.of_nat k <= step * Z.of_nat n)
    by (apply Z.mul_le_mono_nonneg_l; lia).
  assert (0 <= step * Z.of_nat k) by (apply Z.mul_nonneg_nonneg; lia).
  unfold is_u32. lia.
Qed.

Lemma multiplexDisplay_digitData now m :
  Multi._digitData (Multi.multiplexDisplay now m) = Multi._digitData m.
Proof.
  unfold Multi.multiplexDisplay. cbv zeta.
  destruct (Multi._mplexState m); try done.
  - by destruct (_ <=? _).
  - by destruct (_ <=? _).
  - by destruct (negb _).
  - destruct (negb _); [|done]. by destruct (_ <=? _).
  - unfold Multi.selectDigit. by destruct (_ <? 3).
Qed.

Lemma update_digitData now m :
  Multi._digitData (Multi.update now m) = Multi._digitData m.
Proof.
  unfold Multi.update. cbv zeta. destruct (_ && _); [|done].
  by rewrite multiplexDisplay_digitData.
Qed.

(** ** The multiplexer: the claims *)

(** C5, as the code has it.  In a refresh the next slot is chosen as
    (current + 1) mod 3 when the blanking time has passed, whatever the enable
    flags are.  The write then submitted to the driver, which is idle with an
    empty queue at that point, carries [refreshByte]; for a disabled slot this
    is the blank byte of the display mode: the all-zero pattern 0x00 in
    [ACTIVE_HIGH], its complement 0xFF in [ACTIVE_LOW].  Neither a refresh
    step nor [disableDigit] changes a stored pattern. *)
Theorem refresh_next_slot_and_blank_write (now : Z) (m : Multi.NJU3711_7Segment_Multi) :
  MultiReachable m ->
  (Multi._mplexState m = Multi.MPLEX_WAIT_BLANKING ->
   (Multi._blankingTime m <=? u32 (now - Multi._lastStateTime m)) = true ->
   Multi._nextDigit (Multi.multiplexDisplay now m) = (Multi._currentDigit m + 1) mod 3 /\
   Multi._mplexState (Multi.multiplexDisplay now m) = Multi.MPLEX_WRITE_DATA) /\
  (Multi._mplexState m = Multi.MPLEX_WRITE_DATA ->
   isBusy (Multi.driver m) = false ->
   pending (Multi.driver (Multi.multiplexDisplay now m))
   = [(NJU3711_OP_WRITE, refreshByte m)] /\
   Multi._nextDigit (Multi.multiplexDisplay now m) = (Multi._currentDigit m + 1) mod 3) /\
  (Multi._mplexState m = Multi.MPLEX_WRITE_DATA ->
   isBusy (Multi.driver m) = false ->
   Multi.at3 false (Multi._digitEnabled m) (Multi._nextDigit m) = false ->
   pending (Multi.driver (Multi.multiplexDisplay now m))
   = [(NJU3711_OP_WRITE, blankByte (Seg7.getDisplayMode (Multi.seg m)))]) /\
  Multi._digitData (Multi.multiplexDisplay now m) = Multi._digitData m /\
  Multi._digitData (Multi.update now m) = Multi._digitData m /\
  (forall position,
     Multi._digitData (snd (Multi.disableDigit position m)) = Multi._digitData m).
Proof.
  intros Hr. pose proof (MultiReachable_Inv m Hr) as H.
  assert (Multi._mplexState m = Multi.MPLEX_WRITE_DATA ->
          isBusy (Multi.driver m) = false ->
          pending (Multi.driver (Multi.multiplexDisplay now m))
          = [(NJU3711_OP_WRITE, refreshByte m)]) as Hw.
  { intros Hst Hb. rewrite multiplex_write_data by done.
    change (Multi.driver _) with (snd (write (refreshByte m) (Multi.driver m))).
    by destruct (submit_not_busy (SubmitWrite (refreshByte m)) (Multi.driver m)
                   (minv_driver m H) Hb) as (_ & Hp & _). }
  split_and!.
  - intros Hst Hc. by rewrite multiplex_wait_blanking.
  - intros Hst Hb. split; [by apply Hw|].
    rewrite multiplex_write_data by done.
    apply (minv_chosen m H). by rewrite Hst.
  - intros Hst Hb Hen. rewrite Hw by done. unfold refreshByte. rewrite Hen.
    unfold Seg7.getDisplayMode. by destruct (Seg7._displayMode (Multi.seg m)).
  - apply multiplexDisplay_digitData.
  - apply update_digitData.
  - intros position. unfold Multi.disableDigit, Multi.enableDigit.
    by destruct (3 <=? position).
Qed.

Lemma refresh_next_slot_and_blank_write_witness :
  pending (Multi.driver (Multi.multiplexDisplay 48000 slot1Disabled))
  = [(NJU3711_OP_WRITE, blankByte (Seg7.getDisplayMode (Multi.seg slot1Disabled)))].
Proof.
  assert (MultiReachable slot1Disabled) as Hr.
  { apply MultiReachable_run; [|apply Forall_ticks; lia].
    apply (mreach_enableDigit 1 false).
    do 3 apply mreach_setDigitRaw.
    apply mreach_begin; [|unfold is_u32; lia|reflexivity].
    apply mreach_new6. apply (bool_decide_unpack _). vm_compute. exact I. }
  destruct (refresh_next_slot_and_blank_write 48000 slot1Disabled Hr)
    as (_ & _ & Hblank & _).
  apply Hblank; vm_compute; reflexivity.
Defined.

(** C5 as stated fails in the default display mode: with slot 1 disabled, the
    refresh of slot 1 submits a write of 0xFF, and 0xFF is the value latched. *)
Lemma disabled_slot_write_is_all_ones :
  Multi._mplexState slot1Disabled = Multi.MPLEX_WRITE_DATA /\
  Multi._nextDigit slot1Disabled = 1 /\
  Multi._digitEnabled slot1Disabled = [true; false; true] /\
  pending (Multi.driver (Multi.update 48000 slot1Disabled)) = [(NJU3711_OP_WRITE, 255)] /\
  getCurrentData (Multi.driver (multiRun (ticks 20 48000 2000) slot1Disabled)) = 255.
Proof. vm_compute. by split_and!. Qed.

(** C6, as the code has it.  From every reachable state, after every call of
    [update] at most one select line is at its active level, and the slots
    selected by any number of calls are consecutive in round-robin order,
    starting with the successor of the current slot.  From the idle phase,
    seventy-five calls spaced by the longest delay (three refreshes of
    twenty-five calls) select exactly three slots, each of the three once; as
    the current slot is 0 after construction, the first cycle is 1, 2, 0. *)
Theorem multiplex_round_robin (m : Multi.NJU3711_7Segment_Multi) (ts : list Z) :
  MultiReachable m -> Forall is_u32 ts ->
  (forall k, (length (activeLines (multiRun (take k ts) m)) <= 1)%nat) /\
  (exists n, selections (multiRun ts m)
             = selections m ++ roundRobin (Multi._currentDigit m) n) /\
  (forall D prev,
     Phase D prev Multi.MPLEX_IDLE m -> spaced D prev ts = true ->
     length ts = 75%nat ->
     selections (multiRun ts m) = selections m ++ roundRobin (Multi._currentDigit m) 3 /\
     Permutation (roundRobin (Multi._currentDigit m) 3) [0; 1; 2] /\
     (Multi._currentDigit m = 0 -> roundRobin (Multi._currentDigit m) 3 = [1; 2; 0])).
Proof.
  intros Hr Hts. pose proof (MultiReachable_Inv m Hr) as H.
  split_and!.
  - intros k.
    destruct (multiRun_round_robin (take k ts) m H) as [Hk _]; [by apply Forall_take|].
    apply (minv_one _ Hk).
  - destruct (multiRun_round_robin ts m H Hts) as (_ & n & Hn & _). by exists n.
  - intros D prev Hph Hsp Hlen.
    destruct (full_cycle D prev ts m Hph Hsp Hlen) as [_ Hsel].
    split_and!; [done| |by intros ->].
    destruct (three_cases _ (minv_current m H)) as [->|[->| ->]].
    + apply (Permutation_app_comm [1; 2] [0]).
    + apply (Permutation_app_comm [2] [0; 1]).
    + reflexivity.
Qed.

Lemma multiplex_round_robin_witness :
  selections (multiRun (ticks 75 2021 2000) idleDisplay)
  = selections idleDisplay ++ roundRobin (Multi._currentDigit idleDisplay) 3 /\
  Permutation (roundRobin (Multi._currentDigit idleDisplay) 3) [0; 1; 2] /\
  (Multi._currentDigit idleDisplay = 0 ->
   roundRobin (Multi._currentDigit idleDisplay) 3 = [1; 2; 0]).
Proof.
  assert (MultiReachable idleDisplay) as Hr.
  { apply MultiReachable_run; [|apply Forall_ticks; lia].
    do 3 apply mreach_setDigitRaw.
    apply mreach_begin; [|unfold is_u32; lia|reflexivity].
    apply mreach_new6. apply (bool_decide_unpack _). vm_compute. exact I. }
  assert (Forall is_u32 (ticks 75 2021 2000)) as Hts by (apply Forall_ticks; lia).
  destruct (multiplex_round_robin idleDisplay (ticks 75 2021 2000) Hr Hts)
    as (_ & _ & Hcycle).
  apply (Hcycle 2000 21).
  - constructor.
    + constructor.
      * by apply MultiReachable_Inv.
      * vm_compute. reflexivity.
      * vm_compute. congruence.
      * vm_compute. congruence.
      * vm_compute. congruence.
      * lia.
    + vm_compute. reflexivity.
    + vm_compute. reflexivity.
    + vm_compute. congruence.
    + vm_compute. split; congruence.
    + vm_compute. split; congruence.
  - vm_compute. reflexivity.
  - vm_compute. reflexivity.
Defined.

(** C6 as stated fails on the order: with three distinct patterns and all
    slots enabled, the first slot selected after [begin] is slot 1, and the
    first full cycle selects 1, 2, 0. *)
Lemma first_cycle_starts_at_slot_one :
  Multi._digitData display3 = [18; 52; 86] /\
  Multi._digitEnabled display3 = [true; true; true] /\
  selections display3 = [] /\
  selections (multiRun (ticks 46 2000 2000) display3) = [1] /\
  selections (multiRun (ticks 96 2000 2000) display3) = [1; 2; 0].
Proof. vm_compute. by split_and!. Qed.
(** * Further properties of the driver *)

(** ** The wire protocol *)

Lemma rebegun_reachable : Reachable rebegun.
Proof.
  apply Reachable_run; [|apply (spaced_u32 1 19); [lia|lia|vm_compute; reflexivity]].
  apply reach_begin; [|unfold is_u32; lia].
  apply Reachable_run; [|apply (spaced_u32 1 0); [lia|lia|vm_compute; reflexivity]].
  apply (reach_submit (SubmitWrite 182)), reach_new4.
Qed.

Lemma midLatch_reachable : Reachable midLatch.
Proof.
  apply Reachable_run; [|apply (spaced_u32 10 0); [lia|lia|vm_compute; reflexivity]].
  apply (reach_submit (SubmitWrite 1)), (reach_submit (SubmitWrite 182)).
  apply reach_setStepDelay; [apply reach_new3|unfold is_u32; lia].
Qed.

Lemma not_in_one (c d : Submission) : c <> d -> c ∉ [d].
Proof. intros Hne Hin. by apply list_elem_of_singleton in Hin. Qed.

Lemma not_in_two (c d e : Submission) : c <> d -> c <> e -> c ∉ [d; e].
Proof.
  intros H1 H2 Hin. apply elem_of_cons in Hin as [?|Hin]; [done|].
  by apply list_elem_of_singleton in Hin.
Qed.

(** A write on the wire.  The pin writes of a write accepted by an engine
    at rest are fixed by two phase flags.  With the clock flag and the latch
    flag clear, STB is confirmed high, the eight bits are clocked out most
    significant bit first (the data line is set before each rising edge of
    CLK, and CLK returns low), then STB is pulsed low to latch.  With the
    clock flag left set, the first call lowers CLK and bit 7 is not clocked
    out; with the latch flag left set, STB is only raised, without the low
    pulse.  (The flags are clear on a new engine and after every operation
    that has run to its end; [begin] called in the middle of a shift or
    between the two phases of a latch pulse leaves them set.) *)
Theorem write_clocks_byte_msb_first (s : NJU3711) (v : Z) (ts : list Z) :
  Reachable s -> isBusy s = false ->
  spaced (_stepDelay s) (_lastUpdateTime s) ts = true ->
  (19 <= length ts)%nat ->
  gpio (run ts (snd (write v s)))
  = rev ((_strobePin s, HIGH)
         :: shiftBits (wiring s) (_clockState s) v
         ++ strobeRest (wiring s) (latchStep s))
    ++ gpio s /\
  (_clockState s = false -> latchStep s = false ->
   gpio (run ts (snd (write v s))) = rev (writeWave (wiring s) v) ++ gpio s) /\
  writeWave (wiring s) v
  = (_strobePin s, HIGH)
    :: flat_map (fun k => [(_dataPin s, Z.testbit v k);
                           (_clockPin s, HIGH); (_clockPin s, LOW)])
         [7; 6; 5; 4; 3; 2; 1; 0]
    ++ [(_strobePin s, LOW); (_strobePin s, HIGH)] /\
  shiftBits (wiring s) true v
  = (_clockPin s, LOW)
    :: flat_map (fun k => [(_dataPin s, Z.testbit v k);
                           (_clockPin s, HIGH); (_clockPin s, LOW)])
         [6; 5; 4; 3; 2; 1; 0] /\
  strobeRest (wiring s) true = [(_strobePin s, HIGH)].
Proof.
  intros Hr Hb Hsp Hlen. pose proof (Reachable_Inv s Hr) as H.
  destruct (submitted_drained [SubmitWrite v] ts s H Hb) as (_ & _ & Hg & _);
    try done.
  { simpl. lia. }
  { right. by apply not_in_one. }
  { by apply (at_least_nat 19). }
  rewrite submitAll_one in Hg. change (submit (SubmitWrite v) s) with (write v s) in Hg.
  cbn [map submitted queueWave] in Hg. rewrite app_nil_r in Hg.
  split_and!; [exact Hg| |reflexivity..].
  intros Hck Hl. rewrite Hg. unfold opWaveFrom, flags. cbn [fst snd f_clock f_latch].
  by rewrite Hck, Hl.
Qed.

Lemma write_clocks_byte_msb_first_witness :
  gpio (run (ticks 19 1 1) (snd (write 182 (NJU3711_new3 2 3 4))))
  = rev (writeWave (wiring (NJU3711_new3 2 3 4)) 182) ++ gpio (NJU3711_new3 2 3 4) /\
  latchStep rebegun = true /\
  gpio (run (ticks 19 30 1) (snd (write 165 rebegun)))
  = rev ((_strobePin rebegun, HIGH)
         :: bitsWave (wiring rebegun) 165 8 ++ [(_strobePin rebegun, HIGH)])
    ++ gpio rebegun.
Proof.
  destruct (write_clocks_byte_msb_first (NJU3711_new3 2 3 4) 182 (ticks 19 1 1))
    as (_ & Hclean & _).
  { apply reach_new3. }
  { reflexivity. }
  { vm_compute. reflexivity. }
  { simpl. lia. }
  destruct (write_clocks_byte_msb_first rebegun 165 (ticks 19 30 1)) as (Hg & _).
  { apply rebegun_reachable. }
  { vm_compute. reflexivity. }
  { vm_compute. reflexivity. }
  { simpl. lia. }
  split_and!; [by apply Hclean|vm_compute; reflexivity|].
  rewrite Hg.
  assert (_clockState rebegun = false) as -> by (vm_compute; reflexivity).
  assert (latchStep rebegun = true) as -> by (vm_compute; reflexivity).
  reflexivity.
Defined.

(** Operations submitted together to an engine at rest, eight at most, are
    all accepted and carried out in the order submitted: the pin writes are
    those of the first operation, then those of the second, and so on, each
    operation starting from the phase flags its predecessor leaves, and
    [getCurrentData] ends as the last write, shift or clear leaves it.  With
    the three phase flags clear at the start every operation makes its full
    pin sequence.  (On an engine without CLR pin the list holds no Clear.) *)
Theorem queued_operations_run_in_order (s : NJU3711) (cs : list Submission)
  (ts : list Z) :
  Reachable s -> isBusy s = false -> (length cs <= 8)%nat ->
  _clearPin s <> 255 \/ SubmitClear ∉ cs ->
  spaced (_stepDelay s) (_lastUpdateTime s) ts = true ->
  fold_right Z.add 0 (map opSteps (map submitted cs)) <= Z.of_nat (length ts) ->
  fst (submitAll cs s) = replicate (length cs) true /\
  isBusy (run ts (snd (submitAll cs s))) = false /\
  gpio (run ts (snd (submitAll cs s)))
  = rev (queueWave (wiring s) (flags s) (map submitted cs)) ++ gpio s /\
  (flags s = cleanFlags ->
   gpio (run ts (snd (submitAll cs s)))
   = rev (flat_map (opWave (wiring s)) (map submitted cs)) ++ gpio s) /\
  getCurrentData (run ts (snd (submitAll cs s)))
  = fold_left dataAfter (map submitted cs) (getCurrentData s).
Proof.
  intros Hr Hb Hlen Hclr Hsp Hts.
  destruct (submitted_drained cs ts s (Reachable_Inv s Hr) Hb Hlen Hclr Hsp Hts)
    as (Hoks & Hb' & Hg & Hc).
  split_and!; try done.
  intros Hf. by rewrite Hg, Hf, queueWave_clean.
Qed.

Lemma queued_operations_run_in_order_witness :
  fst (submitAll [SubmitClear; SubmitShift 165; SubmitLatch; SubmitWrite 90]
         (NJU3711_new4 2 3 4 5))
  = replicate 4 true /\
  isBusy (run (ticks 42 1 1)
            (snd (submitAll [SubmitClear; SubmitShift 165; SubmitLatch; SubmitWrite 90]
                    (NJU3711_new4 2 3 4 5)))) = false /\
  gpio (run (ticks 42 1 1)
          (snd (submitAll [SubmitClear; SubmitShift 165; SubmitLatch; SubmitWrite 90]
                  (NJU3711_new4 2 3 4 5))))
  = rev (flat_map (opWave (wiring (NJU3711_new4 2 3 4 5)))
           (map submitted [SubmitClear; SubmitShift 165; SubmitLatch; SubmitWrite 90]))
    ++ gpio (NJU3711_new4 2 3 4 5) /\
  getCurrentData
    (run (ticks 42 1 1)
       (snd (submitAll [SubmitClear; SubmitShift 165; SubmitLatch; SubmitWrite 90]
               (NJU3711_new4 2 3 4 5))))
  = fold_left dataAfter
      (map submitted [SubmitClear; SubmitShift 165; SubmitLatch; SubmitWrite 90])
      (getCurrentData (NJU3711_new4 2 3 4 5)).
Proof.
  destruct (queued_operations_run_in_order (NJU3711_new4 2 3 4 5)
              [SubmitClear; SubmitShift 165; SubmitLatch; SubmitWrite 90] (ticks 42 1 1))
    as (Hoks & Hb & _ & Hg & Hc).
  - apply reach_new4.
  - reflexivity.
  - simpl. lia.
  - left. vm_compute. congruence.
  - vm_compute. reflexivity.
  - vm_compute. congruence.
  - split_and!; [exact Hoks|exact Hb|by apply Hg|exact Hc].
Defined.

(** A shift followed by a latch is a write: submitted together to an engine
    at rest they make the same pin writes as one write of the same byte, and
    leave the same value in [getCurrentData]. *)
Theorem shift_then_latch_is_write (s : NJU3711) (v : Z) (ts ts' : list Z) :
  Reachable s -> isBusy s = false ->
  spaced (_stepDelay s) (_lastUpdateTime s) ts = true -> (20 <= length ts)%nat ->
  spaced (_stepDelay s) (_lastUpdateTime s) ts' = true -> (19 <= length ts')%nat ->
  fst (shift v s) = true /\ fst (latch (snd (shift v s))) = true /\
  gpio (run ts (snd (latch (snd (shift v s))))) = gpio (run ts' (snd (write v s))) /\
  getCurrentData (run ts (snd (latch (snd (shift v s)))))
  = getCurrentData (run ts' (snd (write v s))) /\
  isBusy (run ts (snd (latch (snd (shift v s))))) = false.
Proof.
  intros Hr Hb Hsp Hlen Hsp' Hlen'. pose proof (Reachable_Inv s Hr) as H.
  destruct (submitted_drained [SubmitShift v; SubmitLatch] ts s H Hb)
    as (Hoks & Hb2 & Hg2 & Hc2); try done.
  { simpl. lia. }
  { right. by apply not_in_two. }
  { by apply (at_least_nat 20). }
  destruct (submitted_drained [SubmitWrite v] ts' s H Hb) as (_ & _ & Hg1 & Hc1);
    try done.
  { simpl. lia. }
  { right. by apply not_in_one. }
  { by apply (at_least_nat 19). }
  rewrite submitAll_two in Hb2, Hg2, Hc2. rewrite submitAll_one in Hg1, Hc1.
  change (submit (SubmitShift v) s) with (shift v s) in *.
  change (submit SubmitLatch) with latch in *.
  change (submit (SubmitWrite v) s) with (write v s) in *.
  simpl in Hoks. change (submit (SubmitShift v) s) with (shift v s) in Hoks.
  change (submit SubmitLatch) with latch in Hoks.
  destruct (shift v s) as [ok1 s1]. cbn [fst snd] in *.
  destruct (latch s1) as [ok2 s2]. cbn [fst snd] in *.
  injection Hoks as -> ->.
  split_and!; try done.
  - rewrite Hg2, Hg1. unfold queueWave, opWaveFrom, flagsAfter.
    cbn [map submitted fst snd f_latch]. rewrite !app_nil_r.
    by rewrite <- app_comm_cons.
  - unfold getCurrentData. by rewrite Hc2, Hc1.
Qed.

Lemma shift_then_latch_is_write_witness :
  gpio (run (ticks 20 1 1) (snd (latch (snd (shift 165 (NJU3711_new3 2 3 4))))))
  = gpio (run (ticks 19 1 1) (snd (write 165 (NJU3711_new3 2 3 4)))) /\
  getCurrentData (run (ticks 20 1 1) (snd (latch (snd (shift 165 (NJU3711_new3 2 3 4))))))
  = getCurrentData (run (ticks 19 1 1) (snd (write 165 (NJU3711_new3 2 3 4)))).
Proof.
  destruct (shift_then_latch_is_write (NJU3711_new3 2 3 4) 165
              (ticks 20 1 1) (ticks 19 1 1)) as (_ & _ & Hg & Hc & _).
  - apply reach_new3.
  - reflexivity.
  - vm_compute. reflexivity.
  - simpl. lia.
  - vm_compute. reflexivity.
  - simpl. lia.
  - by split.
Defined.

(** A Clear on the wire, submitted to an engine at rest.  With a CLR pin
    only CLR is touched: it is pulsed low, or only raised when the flag of
    the clear pulse was left set.  Without a CLR pin the Clear makes the pin
    writes of a write of 0, as the clock flag and the latch flag fix
    them. *)
Theorem clear_on_the_wire (s : NJU3711) (ts : list Z) :
  Reachable s -> isBusy s = false ->
  spaced (_stepDelay s) (_lastUpdateTime s) ts = true ->
  (_clearPin s <> 255 -> (3 <= length ts)%nat ->
   gpio (run ts (snd (clear s))) = rev (clearRest (wiring s) (clearStep s)) ++ gpio s /\
   (clearStep s = false ->
    gpio (run ts (snd (clear s))) = rev (clearPulse (wiring s)) ++ gpio s)) /\
  (_clearPin s = 255 -> (21 <= length ts)%nat ->
   gpio (run ts (snd (clear s)))
   = rev ((_strobePin s, HIGH)
          :: shiftBits (wiring s) (_clockState s) 0
          ++ strobeRest (wiring s) (latchStep s))
     ++ gpio s /\
   (_clockState s = false -> latchStep s = false ->
    gpio (run ts (snd (clear s))) = rev (writeWave (wiring s) 0) ++ gpio s)).
Proof.
  intros Hr Hb Hsp. pose proof (Reachable_Inv s Hr) as H.
  destruct (not_busy s H Hb) as [Hst Hq].
  split; intros Hpin Hlen.
  - destruct (submitted_drained [SubmitClear] ts s H Hb) as (_ & _ & Hg & _);
      try done.
    { simpl. lia. }
    { by left. }
    { by apply (at_least_nat 3). }
    rewrite submitAll_one in Hg. change (submit SubmitClear s) with (clear s) in Hg.
    cbn [map submitted queueWave] in Hg. rewrite app_nil_r in Hg.
    split; [exact Hg|]. intros Hcl. rewrite Hg. unfold opWaveFrom, flags.
    cbn [fst f_clear]. by rewrite Hcl.
  - destruct (submitAll_accepted [SubmitClear] s H Hst)
      as (_ & Hpe & HI & Hst' & Hg & Hw & Hd & Hl & _ & Hf); [simpl; lia|].
    rewrite submitAll_one in *. change (submit SubmitClear s) with (clear s) in *.
    rewrite (pending_empty s Hq) in Hpe. simpl in Hpe.
    destruct (soft_clear_drained ts 0 [] (snd (clear s))) as (_ & Hgp & _); try done.
    { rewrite (wiring_clearPin _ _ Hw). congruence. }
    { by rewrite Hd, Hl. }
    { simpl. lia. }
    rewrite Hw, Hg, Hf in Hgp. cbn [app queueWave] in Hgp. rewrite app_nil_r in Hgp.
    split; [exact Hgp|]. intros Hck Hls. rewrite Hgp. unfold opWaveFrom, flags.
    cbn [fst snd f_clock f_latch]. by rewrite Hck, Hls.
Qed.

Lemma clear_on_the_wire_witness :
  gpio (run (ticks 3 1 1) (snd (clear (NJU3711_new4 2 3 4 5))))
  = rev (clearPulse (wiring (NJU3711_new4 2 3 4 5))) ++ gpio (NJU3711_new4 2 3 4 5) /\
  gpio (run (ticks 21 1 1) (snd (clear (NJU3711_new3 2 3 4))))
  = rev (writeWave (wiring (NJU3711_new3 2 3 4)) 0) ++ gpio (NJU3711_new3 2 3 4).
Proof.
  destruct (clear_on_the_wire (NJU3711_new4 2 3 4 5) (ticks 3 1 1)) as [Hhard _].
  { apply reach_new4. }
  { reflexivity. }
  { vm_compute. reflexivity. }
  destruct (clear_on_the_wire (NJU3711_new3 2 3 4) (ticks 21 1 1)) as [_ Hsoft].
  { apply reach_new3. }
  { reflexivity. }
  { vm_compute. reflexivity. }
  split.
  - apply Hhard; [vm_compute; congruence|simpl; lia|reflexivity].
  - apply Hsoft; [reflexivity|simpl; lia|reflexivity|reflexivity].
Defined.

(** A Clear followed by a Write, submitted together to an engine at rest.
    With a CLR pin the Clear is carried out first and [getCurrentData] ends
    as the byte written.  Without one the Clear is replaced by a Write of 0
    that joins the queue behind the Write: the byte is written first, then
    0, and [getCurrentData] ends as 0.  The pin writes are those of the two
    operations in this order, started from the phase flags as they stand;
    with the flags clear they are the full pin sequences. *)
Theorem clear_then_write (s : NJU3711) (v : Z) (ts : list Z) :
  Reachable s -> isBusy s = false ->
  spaced (_stepDelay s) (_lastUpdateTime s) ts = true ->
  (40 <= length ts)%nat ->
  isBusy (run ts (snd (write v (snd (clear s))))) = false /\
  (_clearPin s <> 255 ->
   getCurrentData (run ts (snd (write v (snd (clear s))))) = v /\
   gpio (run ts (snd (write v (snd (clear s)))))
   = rev (queueWave (wiring s) (flags s) [(NJU3711_OP_CLEAR, 0); (NJU3711_OP_WRITE, v)])
     ++ gpio s /\
   (flags s = cleanFlags ->
    gpio (run ts (snd (write v (snd (clear s)))))
    = rev (clearPulse (wiring s) ++ writeWave (wiring s) v) ++ gpio s)) /\
  (_clearPin s = 255 ->
   getCurrentData (run ts (snd (write v (snd (clear s))))) = 0 /\
   gpio (run ts (snd (write v (snd (clear s)))))
   = rev (queueWave (wiring s) (flags s) [(NJU3711_OP_WRITE, v); (NJU3711_OP_WRITE, 0)])
     ++ gpio s /\
   (flags s = cleanFlags ->
    gpio (run ts (snd (write v (snd (clear s)))))
    = rev (writeWave (wiring s) v ++ writeWave (wiring s) 0) ++ gpio s)).
Proof.
  intros Hr Hb Hsp Hlen. pose proof (Reachable_Inv s Hr) as H.
  destruct (not_busy s H Hb) as [Hst Hq].
  pose proof (submitAll_two SubmitClear (SubmitWrite v) s) as Htwo.
  change (submit SubmitClear s) with (clear s) in Htwo.
  change (submit (SubmitWrite v)) with (write v) in Htwo.
  destruct (Z.eq_dec (_clearPin s) 255) as [Hpin|Hpin].
  - destruct (submitAll_accepted [SubmitClear; SubmitWrite v] s H Hst)
      as (_ & Hpe & HI & Hst' & Hg & Hw & Hd & Hl & _ & Hf); [simpl; lia|].
    rewrite Htwo in *.
    rewrite (pending_empty s Hq) in Hpe. simpl in Hpe.
    destruct (soft_clear_drained ts 0 [(NJU3711_OP_WRITE, v)]
                (snd (write v (snd (clear s))))) as (Hb' & Hgp & Hcd); try done.
    { rewrite (wiring_clearPin _ _ Hw). congruence. }
    { by repeat constructor. }
    { by rewrite Hd, Hl. }
    { change (2 + (19 + 0) + 19 <= Z.of_nat (length ts)). lia. }
    rewrite Hw, Hg, Hf in Hgp. cbn [app] in Hgp.
    split_and!; [done|done|]. intros _. split_and!; [done|exact Hgp|].
    intros Hcf. rewrite Hgp, Hcf, queueWave_clean. unfold flat_map, opWave.
    cbn [fst snd]. by rewrite app_nil_r.
  - destruct (submitted_drained [SubmitClear; SubmitWrite v] ts s H Hb)
      as (_ & Hb' & Hg & Hc); try done.
    { simpl. lia. }
    { by left. }
    { change (3 + (19 + 0) <= Z.of_nat (length ts)). lia. }
    rewrite Htwo in *. cbn [map submitted] in Hg.
    split_and!; [done| |done]. intros _. split_and!; [done|exact Hg|].
    intros Hcf. rewrite Hg, Hcf, queueWave_clean. unfold flat_map, opWave.
    cbn [fst snd]. by rewrite app_nil_r.
Qed.

Lemma clear_then_write_witness :
  isBusy (run (ticks 40 1 1) (snd (write 182 (snd (clear (NJU3711_new3 2 3 4)))))) = false /\
  getCurrentData (run (ticks 40 1 1) (snd (write 182 (snd (clear (NJU3711_new3 2 3 4))))))
  = 0 /\
  getCurrentData (run (ticks 40 1 1) (snd (write 182 (snd (clear (NJU3711_new4 2 3 4 5))))))
  = 182.
Proof.
  destruct (clear_then_write (NJU3711_new3 2 3 4) 182 (ticks 40 1 1))
    as (Hb & _ & Hsoft).
  { apply reach_new3. }
  { reflexivity. }
  { vm_compute. reflexivity. }
  { simpl. lia. }
  destruct (clear_then_write (NJU3711_new4 2 3 4 5) 182 (ticks 40 1 1))
    as (_ & Hhard & _).
  { apply reach_new4. }
  { reflexivity. }
  { vm_compute. reflexivity. }
  { simpl. lia. }
  split_and!.
  - exact Hb.
  - apply Hsoft. reflexivity.
  - apply Hhard. vm_compute. congruence.
Defined.

(** ** Bit operations, test patterns, queue management, timing *)

Lemma bit_of_one_shifted p q :
  0 <= p <= 7 -> 0 <= q <= 7 -> Z.testbit (Z.shiftl 1 q) p = (p =? q).
Proof.
  intros Hp Hq.
  assert (p = 0 \/ p = 1 \/ p = 2 \/ p = 3 \/ p = 4 \/ p = 5 \/ p = 6 \/ p = 7)
    as Hpc by lia.
  assert (q = 0 \/ q = 1 \/ q = 2 \/ q = 3 \/ q = 4 \/ q = 5 \/ q = 6 \/ q = 7)
    as Hqc by lia.
  repeat (destruct Hpc as [->|Hpc]); try subst p;
    repeat (destruct Hqc as [->|Hqc]); try subst q; reflexivity.
Qed.

Lemma u8_bit x p : 0 <= p <= 7 -> Z.testbit (u8 x) p = Z.testbit x p.
Proof.
  intros Hp. unfold u8. change 256 with (2 ^ 8). by rewrite Z.mod_pow2_bits_low by lia.
Qed.

Lemma setBit_idle p s :
  _state s = NJU3711_IDLE -> 0 <= p <= 7 ->
  setBit p s = submit (SubmitWrite (u8 (Z.lor (_currentData s) (Z.shiftl 1 p)))) s.
Proof.
  intros Hst Hp. rewrite setBit_eq, stopIfTesting_idle by done.
  destruct (7 <? p) eqn:E; [apply Z.ltb_lt in E; lia|done].
Qed.

(** Bit operations queued together do not accumulate: each computes its byte
    from [getCurrentData] as it is when the call is made, so of two [setBit]
    calls made to an engine at rest the second write replaces the first, and
    the bit of the first call is left as it was. *)
Theorem queued_setBit_calls_do_not_accumulate (s : NJU3711) (p q : Z) (ts : list Z) :
  Reachable s -> isBusy s = false -> 0 <= p <= 7 -> 0 <= q <= 7 ->
  spaced (_stepDelay s) (_lastUpdateTime s) ts = true ->
  (38 <= length ts)%nat ->
  pending (snd (setBit q (snd (setBit p s))))
  = [(NJU3711_OP_WRITE, u8 (Z.lor (getCurrentData s) (Z.shiftl 1 p)));
     (NJU3711_OP_WRITE, u8 (Z.lor (getCurrentData s) (Z.shiftl 1 q)))] /\
  getCurrentData (run ts (snd (setBit q (snd (setBit p s)))))
  = u8 (Z.lor (getCurrentData s) (Z.shiftl 1 q)) /\
  (p <> q ->
   Z.testbit (getCurrentData (run ts (snd (setBit q (snd (setBit p s)))))) p
   = Z.testbit (getCurrentData s) p).
Proof.
  intros Hr Hb Hp Hq Hsp Hlen. pose proof (Reachable_Inv s Hr) as H.
  destruct (not_busy s H Hb) as [Hst Hsz]. unfold getCurrentData.
  destruct (submit_idle_frame
              (SubmitWrite (u8 (Z.lor (_currentData s) (Z.shiftl 1 p)))) s Hst)
    as (Hst1 & _ & _ & _ & _ & Hc1 & _).
  assert (snd (setBit q (snd (setBit p s)))
          = snd (submitAll
                   [SubmitWrite (u8 (Z.lor (_currentData s) (Z.shiftl 1 p)));
                    SubmitWrite (u8 (Z.lor (_currentData s) (Z.shiftl 1 q)))] s)) as ->.
  { rewrite submitAll_two, (setBit_idle p s), (setBit_idle q) by done.
    by rewrite Hc1. }
  clear Hst1 Hc1.
  set (a := u8 (Z.lor (_currentData s) (Z.shiftl 1 p))).
  set (b := u8 (Z.lor (_currentData s) (Z.shiftl 1 q))).
  destruct (submitAll_accepted [SubmitWrite a; SubmitWrite b] s H Hst)
    as (_ & Hpe & _); [simpl; lia|].
  rewrite (pending_empty s Hsz) in Hpe.
  destruct (submitted_drained [SubmitWrite a; SubmitWrite b] ts s H Hb)
    as (_ & _ & _ & Hc); try done.
  { simpl. lia. }
  { right. by apply not_in_two. }
  { change (19 + (19 + 0) <= Z.of_nat (length ts)). lia. }
  split_and!; [done|done|].
  intros Hne. rewrite Hc. cbn [map submitted fold_left dataAfter fst snd].
  subst b. rewrite u8_bit, Z.lor_spec, bit_of_one_shifted by done.
  destruct (p =? q) eqn:E; [apply Z.eqb_eq in E; done|]. apply orb_false_r.
Qed.

Lemma queued_setBit_calls_do_not_accumulate_witness :
  getCurrentData
    (run (ticks 38 1 1) (snd (setBit 1 (snd (setBit 0 (NJU3711_new3 2 3 4))))))
  = u8 (Z.lor (getCurrentData (NJU3711_new3 2 3 4)) (Z.shiftl 1 1)).
Proof.
  destruct (queued_setBit_calls_do_not_accumulate (NJU3711_new3 2 3 4) 0 1
              (ticks 38 1 1)) as (_ & Hc & _).
  - apply reach_new3.
  - reflexivity.
  - lia.
  - lia.
  - vm_compute. reflexivity.
  - simpl. lia.
  - exact Hc.
Defined.

Lemma stopIfTesting_testing s :
  _state s = NJU3711_TEST_PATTERN -> _state (stopIfTesting s) = NJU3711_IDLE.
Proof. intros Hst. unfold stopIfTesting, stopTestPattern. by rewrite Hst. Qed.

Lemma submit_testing c s :
  Inv s -> _state s = NJU3711_TEST_PATTERN ->
  _state (snd (submit c s)) = NJU3711_IDLE /\
  pending (snd (submit c s)) = [submitted c].
Proof.
  intros H Hst. pose proof (inv_test s H Hst) as Hq.
  destruct (submit_outcome c s (Inv_queue s H)) as [(Hf & _)|(_ & _ & Hp & _)]; [lia|].
  rewrite (pending_empty s Hq) in Hp. split; [|done].
  rewrite submit_unfold.
  destruct (enqueue_frame (fst (submitted c)) (snd (submitted c)) (stopIfTesting s))
    as (-> & _). by apply stopIfTesting_testing.
Qed.

(** A test pattern shows its first frame only.  Started on an engine at
    rest, the first call of [update] after the pattern delay queues the
    write of step 0 (0x00, 0x55, 0x01 or 0x00 for types 1 to 4); that write
    goes through [write], which leaves test-pattern mode, and no later call
    of [update] re-enters it. *)
Theorem test_pattern_shows_one_frame (s : NJU3711) (now ty delay t : Z) :
  Reachable s -> isBusy s = false -> 1 <= ty <= 4 -> is_u32 now -> is_u32 t ->
  _stepDelay s <= u32 (t - now) -> delay <= u32 (t - now) ->
  fst (startTestPattern now ty delay s) = true /\
  _state (snd (startTestPattern now ty delay s)) = NJU3711_TEST_PATTERN /\
  _state (update t (snd (startTestPattern now ty delay s))) = NJU3711_IDLE /\
  pending (update t (snd (startTestPattern now ty delay s)))
  = [(NJU3711_OP_WRITE, if ty =? 2 then 85 else if ty =? 3 then 1 else 0)] /\
  (forall ts, Forall is_u32 ts ->
     _state (run ts (update t (snd (startTestPattern now ty delay s))))
     <> NJU3711_TEST_PATTERN).
Proof.
  intros Hr Hb Hty Hnow Ht Hstep Hdelay. pose proof (Reachable_Inv s Hr) as H.
  pose proof (Inv_startTestPattern now ty delay s H Hnow) as H0.
  unfold startTestPattern in *. rewrite Hb in *. cbn [fst snd] in *.
  set (s0 := set_lastUpdateTime now _) in *.
  assert (_state s0 = NJU3711_TEST_PATTERN) as Hst0 by reflexivity.
  apply Z.leb_le in Hstep, Hdelay.
  assert (exists v,
            update t s0
            = set_lastUpdateTime t
                (set_testPatternStep v
                   (snd (submit (SubmitWrite
                                   (if ty =? 2 then 85 else if ty =? 3 then 1 else 0)) s0))))
    as [v Hu].
  { unfold update, processStateMachine, isTimingMet.
    change (_stepDelay s0) with (_stepDelay s).
    change (_lastUpdateTime s0) with now. change (_testPatternDelay s0) with delay.
    rewrite Hstep, Hdelay, Hst0. cbn [negb].
    change (_testPatternType s0) with ty. change (_testPatternStep s0) with 0.
    assert (ty = 1 \/ ty = 2 \/ ty = 3 \/ ty = 4) as [->|[->|[->| ->]]] by lia;
      cbn [Z.eqb Pos.eqb negb Z.modulo Z.div_eucl Z.shiftl Pos.iter u8];
      change (submit (SubmitWrite ?d) s0) with (write d s0);
      destruct (write _ s0) as [ok s1]; eexists; reflexivity. }
  destruct (submit_testing
              (SubmitWrite (if ty =? 2 then 85 else if ty =? 3 then 1 else 0)) s0 H0 Hst0)
    as [Hst1 Hp1].
  assert (_state (update t s0) = NJU3711_IDLE) as Hidle by (by rewrite Hu).
  split_and!; try done.
  - rewrite Hu. etrans; [|exact Hp1]. by apply pending_queueOf.
  - intros ts Hts. apply run_keeps_out_of_test; [by apply Inv_update|done|congruence].
Qed.

Lemma test_pattern_shows_one_frame_witness :
  _state (update 500000 (snd (startTestPattern 0 2 500000 (NJU3711_new3 2 3 4))))
  = NJU3711_IDLE /\
  pending (update 500000 (snd (startTestPattern 0 2 500000 (NJU3711_new3 2 3 4))))
  = [(NJU3711_OP_WRITE, 85)].
Proof.
  destruct (test_pattern_shows_one_frame (NJU3711_new3 2 3 4) 0 2 500000 500000)
    as (_ & _ & Hst & Hp & _).
  - apply reach_new3.
  - reflexivity.
  - lia.
  - unfold is_u32. lia.
  - unfold is_u32. lia.
  - vm_compute. congruence.
  - vm_compute. congruence.
  - by split.
Defined.

(** [clearQueue] drops what is waiting and nothing else: the operation being
    shifted or latched goes on, makes exactly the pin writes it had left, and
    leaves the engine at rest with [getCurrentData] as it was. *)
Theorem clearQueue_keeps_operation_in_progress (s : NJU3711) (ts : list Z) :
  Reachable s -> transferring s ->
  spaced (_stepDelay s) (_lastUpdateTime s) ts = true ->
  stepsToIdle s <= Z.of_nat (length ts) ->
  getQueueSize (clearQueue s) = 0 /\
  pending (clearQueue s) = [] /\
  _state (clearQueue s) = _state s /\
  isBusy (run ts (clearQueue s)) = false /\
  gpio (run ts (clearQueue s)) = rev (restWave s) ++ gpio s /\
  getCurrentData (run ts (clearQueue s)) = getCurrentData s.
Proof.
  intros Hr Htr Hsp Hlen. pose proof (Reachable_Inv s Hr) as H.
  pose proof (Inv_clearQueue s H) as Hc.
  assert (pending (clearQueue s) = []) as Hpe by (by apply pending_empty).
  assert (_state s <> NJU3711_TEST_PATTERN /\ _state s <> NJU3711_CLEARING)
    as [Hnt Hnc] by (destruct Htr as [E|E]; rewrite E; done).
  destruct (run_drained ts (clearQueue s)) as (Hb & Hg & Hd); try done.
  - right. split; [done|]. rewrite Hpe. constructor.
  - unfold stepsToDrain. rewrite Hpe. simpl.
    change (stepsToIdle (clearQueue s)) with (stepsToIdle s). lia.
  - split_and!; try done.
    + rewrite Hg, Hpe. simpl. by rewrite app_nil_r.
    + unfold getCurrentData. rewrite Hd. unfold eventualData. rewrite Hpe. simpl.
      change (_state (clearQueue s)) with (_state s).
      by destruct Htr as [-> | ->].
Qed.

Lemma clearQueue_keeps_operation_in_progress_witness :
  pending (clearQueue midLatch) = [] /\
  isBusy (run (ticks 1 190 10) (clearQueue midLatch)) = false /\
  gpio (run (ticks 1 190 10) (clearQueue midLatch))
  = rev (restWave midLatch) ++ gpio midLatch /\
  getCurrentData (run (ticks 1 190 10) (clearQueue midLatch)) = getCurrentData midLatch.
Proof.
  destruct (clearQueue_keeps_operation_in_progress midLatch (ticks 1 190 10))
    as (_ & Hp & _ & Hb & Hg & Hc).
  - apply midLatch_reachable.
  - right. vm_compute. reflexivity.
  - vm_compute. reflexivity.
  - vm_compute. congruence.
  - by split_and!.
Defined.

(** The step gate measures elapsed time modulo 2^32, so it is not disturbed
    when [micros()] wraps around: [e] microseconds after the last time stamp
    the gate is open exactly when [e] has reached the step delay, and a call
    made earlier changes nothing. *)
Theorem step_gate_survives_clock_wrap (s : NJU3711) (e : Z) :
  Reachable s -> 0 <= e < 4294967296 ->
  isTimingMet (u32 (_lastUpdateTime s + e)) s = (_stepDelay s <=? e) /\
  (e < _stepDelay s -> update (u32 (_lastUpdateTime s + e)) s = s).
Proof.
  intros Hr He. pose proof (Reachable_Inv s Hr) as H.
  assert (isTimingMet (u32 (_lastUpdateTime s + e)) s = (_stepDelay s <=? e)) as Hg.
  { unfold isTimingMet, u32. rewrite Zminus_mod_idemp_l.
    replace (_lastUpdateTime s + e - _lastUpdateTime s) with e by lia.
    by rewrite Z.mod_small by lia. }
  split; [done|]. intros Hlt. apply update_gate. rewrite Hg. by apply Z.leb_gt.
Qed.

Lemma step_gate_survives_clock_wrap_witness :
  isTimingMet (u32 (_lastUpdateTime (begin 4294967290 (NJU3711_new3 2 3 4)) + 10))
    (begin 4294967290 (NJU3711_new3 2 3 4))
  = (_stepDelay (begin 4294967290 (NJU3711_new3 2 3 4)) <=? 10).
Proof.
  apply (step_gate_survives_clock_wrap (begin 4294967290 (NJU3711_new3 2 3 4)) 10).
  - apply reach_begin; [apply reach_new3|unfold is_u32; lia].
  - lia.
Defined.

(** Every state the public interface can produce, by any calls in any
    order, is well formed: the ring buffer has its eight cells, head and tail
    index into it, the size is the number of waiting operations and at most
    eight, the engine is not busy exactly when it is idle with nothing
    waiting, the bit index used for the shift is between 0 and 7 while
    shifting, the flag of the clear pulse is set only on an engine with a CLR
    pin, the step delay is not negative and the time stamp is a 32-bit value,
    and nothing waits while a test pattern runs. *)
Theorem reachable_state_is_well_formed (s : NJU3711) :
  Reachable s ->
  length (_operationQueue s) = 8%nat /\
  0 <= _queueHead s < 8 /\ 0 <= _queueTail s < 8 /\
  0 <= getQueueSize s <= 8 /\
  _queueTail s = (_queueHead s + getQueueSize s) mod 8 /\
  Z.of_nat (length (pending s)) = getQueueSize s /\
  (isBusy s = false <-> _state s = NJU3711_IDLE /\ pending s = []) /\
  (_state s = NJU3711_SHIFTING -> 0 <= _bitIndex s <= 7) /\
  (clearStep s = true -> _clearPin s <> 255) /\
  0 <= _stepDelay s /\ is_u32 (_lastUpdateTime s) /\
  (_state s = NJU3711_TEST_PATTERN -> pending s = []).
Proof.
  intros Hr. pose proof (Reachable_Inv s Hr) as H. inv_facts H.
  unfold getQueueSize.
  assert (Z.of_nat (length (pending s)) = _queueSize s) as Hlen
    by (rewrite pending_length; lia).
  assert (0 <= _queueTail s < 8) as Htail
    by (rewrite Itail; apply Z.mod_pos_bound; lia).
  split_and!; try done; try lia.
  - split.
    + intros Hb. destruct (not_busy s H Hb) as [Hst Hq]. split; [done|].
      by apply pending_empty.
    + intros [Hst Hp]. apply idle_not_busy; [done|].
      rewrite Hp in Hlen. simpl in Hlen. lia.
  - intros Hst. apply pending_empty. by apply Itest.
Qed.

Lemma reachable_state_is_well_formed_witness :
  (isBusy rebegun = false <-> _state rebegun = NJU3711_IDLE /\ pending rebegun = []) /\
  isBusy rebegun = false /\ latchStep rebegun = true /\
  0 <= getQueueSize midLatch <= 8 /\
  Z.of_nat (length (pending midLatch)) = getQueueSize midLatch.
Proof.
  destruct (reachable_state_is_well_formed rebegun)
    as (_ & _ & _ & _ & _ & _ & Hb & _).
  { apply rebegun_reachable. }
  destruct (reachable_state_is_well_formed midLatch)
    as (_ & _ & _ & Hsz & _ & Hlen & _).
  { apply midLatch_reachable. }
  refine (conj Hb (conj _ (conj _ (conj Hsz Hlen)))); vm_compute; reflexivity.
Defined.

Lemma begin_facts now s :
  Inv s -> is_u32 now ->
  Inv (begin now s) /\ _state (begin now s) = NJU3711_IDLE /\
  flags (begin now s) = flags s /\
  gpio (begin now s)
  = (if _clearPin s =? 255 then [] else [(_clearPin s, HIGH)])
    ++ [(_strobePin s, HIGH); (_clockPin s, LOW); (_dataPin s, LOW)] ++ gpio s /\
  wiring (begin now s) = wiring s /\
  _stepDelay (begin now s) = _stepDelay s /\ _lastUpdateTime (begin now s) = now /\
  _currentData (begin now s) = _currentData s /\
  (_queueSize s < 8 -> pending (begin now s) = pending s ++ [(NJU3711_OP_CLEAR, 0)]) /\
  (_queueSize s = 8 -> pending (begin now s) = pending s).
Proof.
  intros H Hnow.
  split; [by apply Inv_begin|].
  unfold begin. cbv zeta. change clear with (submit SubmitClear).
  match goal with
  | |- context [submit SubmitClear ?x] => set (s0 := x)
  end.
  assert (_state s0 = NJU3711_IDLE) as Hst0 by reflexivity.
  assert (_operationQueue s0 = _operationQueue s /\ _queueHead s0 = _queueHead s /\
          _queueTail s0 = _queueTail s /\ _queueSize s0 = _queueSize s)
    as (Hqa & Hqb & Hqc & Hqd) by (unfold s0; by destruct (negb _)).
  assert (QueueInv s0) as Hq0 by (inv_facts H; constructor; congruence).
  assert (pending s0 = pending s) as Hp0.
  { apply pending_queueOf. unfold queueOf. congruence. }
  assert (queueOf s0 = queueOf s) as Hqo by (unfold queueOf; congruence).
  destruct (submit_idle_frame SubmitClear s0 Hst0)
    as (Hst1 & Hg1 & Hw1 & Hd1 & Hl1 & Hc1 & Hf1).
  rewrite Hg1, Hw1, Hd1, Hl1, Hc1, Hf1. split_and!; try done;
    try (unfold s0, flags, wiring; simpl; destruct (_clearPin s =? 255); reflexivity).
  - intros Hroom.
    destruct (submit_outcome SubmitClear s0 Hq0) as [(Hf & _)|(_ & _ & Hp & _)]; [lia|].
    by rewrite Hp, Hp0.
  - intros Hfull.
    destruct (submit_outcome SubmitClear s0 Hq0) as [(_ & _ & Hq)|(Hr & _)]; [|lia].
    rewrite (pending_queueOf _ _ Hq). exact Hp0.
Qed.

(** [begin] can be called at any time.  It drives DATA and CLK low and STB
    high (and CLR high when there is a CLR pin), stamps the time, puts the
    engine in the idle state whatever it was doing, and adds one Clear to the
    queue when there is room; the three phase flags are left as they stand.
    On an engine at rest, polled from then on, the engine carries out the
    Clear - a CLR pulse, or without CLR pin a write of 0, either one as the
    phase flags fix it - and comes to rest with [getCurrentData] 0. *)
Theorem begin_sets_lines_and_clears (s : NJU3711) (now : Z) (ts : list Z) :
  Reachable s -> is_u32 now ->
  _state (begin now s) = NJU3711_IDLE /\
  flags (begin now s) = flags s /\
  gpio (begin now s)
  = (if _clearPin s =? 255 then [] else [(_clearPin s, HIGH)])
    ++ [(_strobePin s, HIGH); (_clockPin s, LOW); (_dataPin s, LOW)] ++ gpio s /\
  _lastUpdateTime (begin now s) = now /\
  (getQueueSize s < 8 -> pending (begin now s) = pending s ++ [(NJU3711_OP_CLEAR, 0)]) /\
  (getQueueSize s = 8 -> pending (begin now s) = pending s) /\
  (isBusy s = false -> spaced (_stepDelay s) now ts = true -> (21 <= length ts)%nat ->
   isBusy (run ts (begin now s)) = false /\
   getCurrentData (run ts (begin now s)) = 0 /\
   gpio (run ts (begin now s))
   = rev (if _clearPin s =? 255
          then (_strobePin s, HIGH)
               :: shiftBits (wiring s) (_clockState s) 0
               ++ strobeRest (wiring s) (latchStep s)
          else clearRest (wiring s) (clearStep s))
     ++ gpio (begin now s) /\
   (flags s = cleanFlags ->
    gpio (run ts (begin now s))
    = rev (if _clearPin s =? 255 then writeWave (wiring s) 0 else clearPulse (wiring s))
      ++ gpio (begin now s))).
Proof.
  intros Hr Hnow. pose proof (Reachable_Inv s Hr) as H.
  destruct (begin_facts now s H Hnow)
    as (HI & Hst & Hf & Hg & Hw & Hd & Hl & Hcd & Hroom & Hfull).
  pose proof (wiring_clearPin _ _ Hw) as Hpin.
  split_and!; [done..|].
  intros Hb Hsp Hlen. destruct (not_busy s H Hb) as [Hst0 Hq0].
  assert (pending (begin now s) = [(NJU3711_OP_CLEAR, 0)]) as Hp.
  { rewrite Hroom by lia. by rewrite (pending_empty s Hq0). }
  assert (gpio (run ts (begin now s))
          = rev (queueWave (wiring s) (flags s)
                   [if _clearPin s =? 255 then (NJU3711_OP_WRITE, 0)
                    else (NJU3711_OP_CLEAR, 0)])
            ++ gpio (begin now s) /\
          isBusy (run ts (begin now s)) = false /\
          _currentData (run ts (begin now s)) = 0) as (Hgp & Hnb & Hzero).
  { destruct (_clearPin s =? 255) eqn:Hclr;
      [apply Z.eqb_eq in Hclr|apply Z.eqb_neq in Hclr].
    - destruct (soft_clear_drained ts 0 [] (begin now s)) as (Hb' & Hg' & Hc');
        [done|done|congruence|done|done|by rewrite Hd, Hl|simpl; lia|].
      rewrite Hw, Hf in Hg'. by split_and!.
    - destruct (run_drained ts (begin now s)) as (Hb' & Hg' & Hc');
        [done|congruence|left; congruence|by rewrite Hd, Hl| |].
      { unfold stepsToDrain, stepsToIdle. rewrite Hst, Hp.
        pose proof (queueSteps_range (flagsWhenIdle (begin now s))
                      [(NJU3711_OP_CLEAR, 0)]) as [[_ Hle] _].
        change (fold_right Z.add 0 (map opSteps [(NJU3711_OP_CLEAR, 0)])) with 3 in Hle.
        lia. }
      split_and!; [|done|].
      + rewrite Hg', Hw, Hp. unfold restWave, flagsWhenIdle. rewrite Hst, Hf. done.
      + rewrite Hc'. unfold eventualData. by rewrite Hst, Hp. }
  split_and!; [done|done| |].
  - rewrite Hgp. destruct (_clearPin s =? 255); cbn [queueWave]; by rewrite app_nil_r.
  - intros Hcf. rewrite Hgp, Hcf, queueWave_clean.
    destruct (_clearPin s =? 255); unfold flat_map, opWave; cbn [fst snd];
      by rewrite app_nil_r.
Qed.

Lemma begin_sets_lines_and_clears_witness :
  pending (begin 100 (NJU3711_new4 2 3 4 5)) = [(NJU3711_OP_CLEAR, 0)] /\
  isBusy (run (ticks 21 101 1) (begin 100 (NJU3711_new4 2 3 4 5))) = false /\
  getCurrentData (run (ticks 21 101 1) (begin 100 (NJU3711_new4 2 3 4 5))) = 0 /\
  _state midLatch = NJU3711_LATCHING /\ latchStep midLatch = true /\
  _state (begin 185 midLatch) = NJU3711_IDLE /\ latchStep (begin 185 midLatch) = true.
Proof.
  destruct (begin_sets_lines_and_clears (NJU3711_new4 2 3 4 5) 100 (ticks 21 101 1))
    as (_ & _ & _ & _ & Hp & _ & Hrun).
  { apply reach_new4. }
  { unfold is_u32. lia. }
  destruct Hrun as (Hb & Hc & _);
    [reflexivity|vm_compute; reflexivity|simpl; lia|].
  destruct (begin_sets_lines_and_clears midLatch 185 []) as (Hst & Hf & _).
  { apply midLatch_reachable. }
  { unfold is_u32. lia. }
  split_and!; [apply Hp; vm_compute; reflexivity|exact Hb|exact Hc
              |vm_compute; reflexivity|vm_compute; reflexivity|exact Hst|].
  change (latchStep (begin 185 midLatch)) with (f_latch (flags (begin 185 midLatch))).
  rewrite Hf. vm_compute. reflexivity.
Defined.

Lemma stopIfTesting_currentData s : _currentData (stopIfTesting s) = _currentData s.
Proof.
  unfold stopIfTesting, stopTestPattern.
  by destruct (state_eqb (_state s) NJU3711_TEST_PATTERN).
Qed.

Lemma write_room w s :
  Inv s -> _queueSize s < 8 ->
  fst (write w (stopIfTesting s)) = true /\
  pending (snd (write w (stopIfTesting s))) = pending s ++ [(NJU3711_OP_WRITE, w)].
Proof.
  intros H Hroom.
  pose proof (QueueInv_stopIfTesting s (Inv_queue s H)) as Hq.
  pose proof (stopIfTesting_queue s) as Hqo.
  destruct (submit_outcome (SubmitWrite w) (stopIfTesting s) Hq)
    as [(Hf & _)|(_ & Hok & Hp & _)].
  - unfold queueOf in Hqo. injection Hqo as _ _ _ Hsz. lia.
  - split; [done|]. simpl in Hp. by rewrite Hp, (pending_queueOf _ s).
Qed.

(** The bytes the three bit operations queue. *)
Lemma bit_operations_spec s p :
  Inv s -> 0 <= p <= 7 -> _queueSize s < 8 ->
  exists ws wc wt,
    fst (setBit p s) = true /\
    pending (snd (setBit p s)) = pending s ++ [(NJU3711_OP_WRITE, ws)] /\
    fst (clearBit p s) = true /\
    pending (snd (clearBit p s)) = pending s ++ [(NJU3711_OP_WRITE, wc)] /\
    fst (toggleBit p s) = true /\
    pending (snd (toggleBit p s)) = pending s ++ [(NJU3711_OP_WRITE, wt)] /\
    is_u8 ws /\ is_u8 wc /\ is_u8 wt /\
    forall j, 0 <= j <= 7 ->
      Z.testbit ws j = (if j =? p then true else Z.testbit (_currentData s) j) /\
      Z.testbit wc j = (if j =? p then false else Z.testbit (_currentData s) j) /\
      Z.testbit wt j
      = (if j =? p then negb (Z.testbit (_currentData s) j)
         else Z.testbit (_currentData s) j).
Proof.
  intros H Hp Hroom.
  rewrite setBit_eq, clearBit_eq, toggleBit_eq, stopIfTesting_currentData.
  destruct (7 <? p) eqn:E; [apply Z.ltb_lt in E; lia|].
  eexists _, _, _.
  split_and!; try (by apply write_room); try (apply Z.mod_pos_bound; lia).
  intros j Hj.
  rewrite !u8_bit, Z.lor_spec, Z.land_spec, Z.lxor_spec, Z.lnot_spec by lia.
  rewrite bit_of_one_shifted by lia.
  destruct (j =? p); destruct (Z.testbit (_currentData s) j); done.
Qed.

(** [setBit], [clearBit] and [toggleBit] refuse a bit position above 7 and
    change nothing then.  Otherwise, with room in the queue, they queue one
    write whose byte is [getCurrentData] with the addressed bit set, cleared
    or inverted and every other bit as it is. *)
Theorem bit_operations_change_one_bit (s : NJU3711) (p : Z) :
  Reachable s ->
  (7 < p -> setBit p s = (false, s) /\ clearBit p s = (false, s) /\
            toggleBit p s = (false, s)) /\
  (0 <= p <= 7 -> getQueueSize s < 8 ->
   exists ws wc wt,
     fst (setBit p s) = true /\
     pending (snd (setBit p s)) = pending s ++ [(NJU3711_OP_WRITE, ws)] /\
     fst (clearBit p s) = true /\
     pending (snd (clearBit p s)) = pending s ++ [(NJU3711_OP_WRITE, wc)] /\
     fst (toggleBit p s) = true /\
     pending (snd (toggleBit p s)) = pending s ++ [(NJU3711_OP_WRITE, wt)] /\
     is_u8 ws /\ is_u8 wc /\ is_u8 wt /\
     forall j, 0 <= j <= 7 ->
       Z.testbit ws j = (if j =? p then true else Z.testbit (getCurrentData s) j) /\
       Z.testbit wc j = (if j =? p then false else Z.testbit (getCurrentData s) j) /\
       Z.testbit wt j
       = (if j =? p then negb (Z.testbit (getCurrentData s) j)
          else Z.testbit (getCurrentData s) j)).
Proof.
  intros Hr. pose proof (Reachable_Inv s Hr) as H. split.
  - intros Hp. apply Z.ltb_lt in Hp. unfold setBit, clearBit, toggleBit. by rewrite Hp.
  - intros Hp Hroom. by apply bit_operations_spec.
Qed.

Lemma bit_operations_change_one_bit_witness :
  (setBit 8 writeStarted = (false, writeStarted) /\
   clearBit 8 writeStarted = (false, writeStarted) /\
   toggleBit 8 writeStarted = (false, writeStarted)) /\
  fst (setBit 3 writeStarted) = true.
Proof.
  destruct (bit_operations_change_one_bit writeStarted 8) as [Hhigh _].
  { apply reach_update; [|unfold is_u32; lia].
    apply (reach_submit (SubmitWrite 182)). apply reach_new3. }
  destruct (bit_operations_change_one_bit writeStarted 3) as [_ Hlow].
  { apply reach_update; [|unfold is_u32; lia].
    apply (reach_submit (SubmitWrite 182)). apply reach_new3. }
  split.
  - apply Hhigh. lia.
  - destruct Hlow as (ws & wc & wt & Hs & _); [lia|vm_compute; reflexivity|exact Hs].
Defined.

(** ** The phase flags *)

Lemma midLatch_settled : Settled midLatch.
Proof.
  assert (Forall is_u32 (ticks 18 10 10)) as Hts
    by (apply (spaced_u32 10 0); [lia|lia|vm_compute; reflexivity]).
  assert (Inv (setStepDelay 10 (NJU3711_new3 2 3 4))) as H0.
  { apply Inv_setStepDelay; [apply Inv_new4|unfold is_u32; lia]. }
  apply Settled_run; [by do 2 apply Inv_write| |done].
  do 2 apply Settled_write. apply Settled_setStepDelay, Settled_new4.
Qed.

Lemma begin_state_flags now s :
  _state (begin now s) = NJU3711_IDLE /\ flags (begin now s) = flags s.
Proof.
  unfold begin. cbv zeta. change clear with (submit SubmitClear).
  match goal with
  | |- context [submit SubmitClear ?x] => set (s0 := x)
  end.
  destruct (submit_idle_frame SubmitClear s0 eq_refl) as (Hst & _ & _ & _ & _ & _ & Hf).
  split; [done|]. rewrite Hf. unfold s0, flags. simpl.
  by destruct (_clearPin s =? 255).
Qed.

(** The phase flags keep their discipline - the clock flag set only in the
    middle of a bit, the latch flag only inside the latch pulse, the clear
    flag only inside the clear pulse - under every public call except
    [begin] made while an operation is in progress.  A new engine has them
    in order; while they are in order all three are clear whenever the
    engine is not busy; and [begin] on an engine that has one of them set
    puts them out of order, since it makes the engine idle and leaves the
    flag set. *)
Theorem phase_flags_in_order_unless_begin_interrupts (s : NJU3711) :
  Reachable s -> Settled s ->
  (forall now, is_u32 now -> Settled (update now s)) /\
  (forall ts, Forall is_u32 ts -> Settled (run ts s)) /\
  (forall c, Settled (snd (submit c s))) /\
  (forall b, Settled (snd (setBit b s)) /\ Settled (snd (clearBit b s)) /\
             Settled (snd (toggleBit b s))) /\
  (forall now ty delay, Settled (snd (startTestPattern now ty delay s))) /\
  Settled (stopTestPattern s) /\
  (forall d, Settled (setStepDelay d s)) /\
  Settled (clearQueue s) /\
  (forall now,
     _state s = NJU3711_IDLE \/ _state s = NJU3711_TEST_PATTERN ->
     Settled (begin now s)) /\
  (forall now,
     _clockState s = true \/ latchStep s = true \/ clearStep s = true ->
     ~ Settled (begin now s)) /\
  (isBusy s = false -> flags s = cleanFlags) /\
  (forall dataPin clockPin strobePin clearPin,
     Settled (NJU3711_new4 dataPin clockPin strobePin clearPin) /\
     Settled (NJU3711_new3 dataPin clockPin strobePin)).
Proof.
  intros Hr S. pose proof (Reachable_Inv s Hr) as H. split_and!.
  - intros now _. by apply Settled_update.
  - intros ts Hts. by apply Settled_run.
  - intros c. by apply Settled_submit.
  - intros b. split_and!;
      [by apply Settled_setBit|by apply Settled_clearBit|by apply Settled_toggleBit].
  - intros now ty delay. by apply Settled_startTestPattern.
  - by apply Settled_stopTestPattern.
  - intros d. by apply Settled_setStepDelay.
  - by apply Settled_clearQueue.
  - intros now Hi. by apply Settled_begin.
  - intros now Hset S'.
    destruct (begin_state_flags now s) as [Hst Hf].
    destruct (idle_flags _ S' Hst) as (F1 & F2 & F3).
    assert (flags (begin now s) = cleanFlags) as Hc by (by apply flags_clean).
    rewrite Hf in Hc. unfold flags, cleanFlags in Hc. injection Hc as E1 E2 E3.
    destruct Hset as [?|[?|?]]; congruence.
  - intros Hb. destruct (not_busy s H Hb) as [Hst _].
    destruct (idle_flags s S Hst) as (F1 & F2 & F3). by apply flags_clean.
  - intros dp cp sp clr. split; apply Settled_new4.
Qed.

Lemma phase_flags_in_order_unless_begin_interrupts_witness :
  Settled (update 190 midLatch) /\
  latchStep midLatch = true /\ ~ Settled (begin 185 midLatch).
Proof.
  destruct (phase_flags_in_order_unless_begin_interrupts midLatch)
    as (Hu & _ & _ & _ & _ & _ & _ & _ & _ & Hbreak & _).
  - apply midLatch_reachable.
  - apply midLatch_settled.
  - split_and!.
    + apply Hu. unfold is_u32. lia.
    + vm_compute. reflexivity.
    + apply Hbreak. right. left. vm_compute. reflexivity.
Defined.

(** ** The single-digit display *)

Lemma display_emit g d : display g d = emitPattern (glyphSegments g) (glyphDP g) d.
Proof. by destruct g. Qed.

Lemma seg_write_eq v d :
  Seg7.write v d = (fst (write v (Seg7.base d)),
                    Seg7.seg_set_base (snd (write v (Seg7.base d))) d).
Proof. unfold Seg7.write. by destruct (write v (Seg7.base d)). Qed.

Lemma emitPattern_eq pattern dp d :
  emitPattern pattern dp d
  = (fst (write (Seg7.applyDisplayMode pattern d) (Seg7.base d)),
     Seg7.seg_set_base (snd (write (Seg7.applyDisplayMode pattern d) (Seg7.base d)))
       (Seg7.seg_set_decimalPointState dp (Seg7.seg_set_animationActive false d))).
Proof.
  unfold emitPattern. cbv zeta. rewrite seg_write_eq.
  unfold Seg7.stopAnimation, Seg7.applyDisplayMode.
  destruct (Seg7._animationActive d) eqn:E; simpl; [done|].
  destruct d; simpl in *. by subst.
Qed.

Lemma applyDisplayMode_bit x d j :
  0 <= j <= 7 ->
  Z.testbit (Seg7.applyDisplayMode x d) j
  = (if Seg7.mode_eqb (Seg7.getDisplayMode d) Seg7.ACTIVE_LOW
     then negb (Z.testbit x j) else Z.testbit x j).
Proof.
  intros Hj. unfold Seg7.applyDisplayMode, Seg7.getDisplayMode.
  destruct (Seg7.mode_eqb _ _); [|done]. by rewrite u8_bit, Z.lnot_spec by lia.
Qed.

(** Bytes with the same eight bits are equal. *)
Lemma u8_ext x y :
  is_u8 x -> is_u8 y -> (forall j, 0 <= j <= 7 -> Z.testbit x j = Z.testbit y j) -> x = y.
Proof.
  intros Hx Hy Hbits. apply Z.bits_inj'. intros j Hj.
  destruct (Z_le_gt_dec j 7) as [Hle|Hgt]; [apply Hbits; lia|].
  unfold is_u8 in *.
  rewrite !Z.bits_above_log2; try done; try lia.
  - destruct (Z.eq_dec y 0) as [->|Hne]; [simpl; lia|].
    apply Z.log2_lt_pow2; [lia|]. apply Z.lt_le_trans with (2 ^ 8); [simpl; lia|].
    apply Z.pow_le_mono_r; lia.
  - destruct (Z.eq_dec x 0) as [->|Hne]; [simpl; lia|].
    apply Z.log2_lt_pow2; [lia|]. apply Z.lt_le_trans with (2 ^ 8); [simpl; lia|].
    apply Z.pow_le_mono_r; lia.
Qed.

Lemma applyDisplayMode_u8 x d : is_u8 x -> is_u8 (Seg7.applyDisplayMode x d).
Proof.
  intros Hx. unfold Seg7.applyDisplayMode. destruct (Seg7.mode_eqb _ _); [|done].
  apply Z.mod_pos_bound. lia.
Qed.

(** The polarity of the display is applied by complementing the byte: doing
    it twice gives the byte back, and in active-low mode an output bit is 0
    exactly where the segment is lit. *)
Theorem applyDisplayMode_is_an_involution (x : Z) (d : Seg7.NJU3711_7Segment) :
  is_u8 x ->
  is_u8 (Seg7.applyDisplayMode x d) /\
  Seg7.applyDisplayMode (Seg7.applyDisplayMode x d) d = x /\
  (Seg7.getDisplayMode d = Seg7.ACTIVE_LOW -> Seg7.applyDisplayMode x d = 255 - x) /\
  (Seg7.getDisplayMode d = Seg7.ACTIVE_HIGH -> Seg7.applyDisplayMode x d = x) /\
  (forall j, 0 <= j <= 7 ->
     Z.testbit (Seg7.applyDisplayMode x d) j
     = (if Seg7.mode_eqb (Seg7.getDisplayMode d) Seg7.ACTIVE_LOW
        then negb (Z.testbit x j) else Z.testbit x j)).
Proof.
  intros Hx. pose proof (applyDisplayMode_u8 x d Hx) as Hy.
  split_and!; [done| | | |].
  - apply u8_ext; [by apply applyDisplayMode_u8|done|]. intros j Hj.
    rewrite !applyDisplayMode_bit by done.
    destruct (Seg7.mode_eqb _ _); [apply negb_involutive|done].
  - unfold Seg7.getDisplayMode, Seg7.applyDisplayMode. intros ->. simpl.
    unfold u8, Z.lnot, is_u8 in *.
    replace (Z.pred (- x)) with (255 - x + -1 * 256) by lia.
    rewrite Z.mod_add by lia. apply Z.mod_small. lia.
  - unfold Seg7.getDisplayMode, Seg7.applyDisplayMode. by intros ->.
  - intros j Hj. by apply applyDisplayMode_bit.
Qed.

Lemma applyDisplayMode_is_an_involution_witness :
  Seg7.applyDisplayMode
    (Seg7.applyDisplayMode 182 (Seg7.NJU3711_7Segment_new3 2 3 4 Seg7.ACTIVE_LOW))
    (Seg7.NJU3711_7Segment_new3 2 3 4 Seg7.ACTIVE_LOW) = 182.
Proof.
  apply (applyDisplayMode_is_an_involution 182
           (Seg7.NJU3711_7Segment_new3 2 3 4 Seg7.ACTIVE_LOW)).
  unfold is_u8. lia.
Defined.

Lemma seg_update_inactive now d :
  Seg7._animationActive d = false ->
  Seg7.update now d = Seg7.seg_set_base (update now (Seg7.base d)) d.
Proof. intros Ha. unfold Seg7.update. cbv zeta. simpl. by rewrite Ha. Qed.

(** While no animation runs, the display object is its driver. *)
Lemma segRun_inactive ts d :
  Seg7._animationActive d = false ->
  segRun ts d = Seg7.seg_set_base (run ts (Seg7.base d)) d.
Proof.
  revert d. induction ts as [|t ts IH]; intros d Ha.
  - simpl. by destruct d.
  - simpl. rewrite seg_update_inactive by done. by rewrite IH.
Qed.

(** What the display methods do at once: the animation is stopped and the
    decimal-point state recorded whether or not the write is accepted; the
    write is refused exactly when the queue is full; when accepted, it is a
    write of the segments of the glyph in the polarity of the display. *)
Theorem display_queues_glyph (g : Glyph) (d : Seg7.NJU3711_7Segment) :
  Reachable (Seg7.base d) ->
  Seg7.isAnimating (snd (display g d)) = false /\
  Seg7.getDecimalPointState (snd (display g d)) = glyphDP g /\
  Seg7.getDisplayMode (snd (display g d)) = Seg7.getDisplayMode d /\
  (fst (display g d) = false <-> getQueueSize (Seg7.base d) = 8) /\
  (fst (display g d) = false ->
   pending (Seg7.base (snd (display g d))) = pending (Seg7.base d)) /\
  (fst (display g d) = true ->
   pending (Seg7.base (snd (display g d)))
   = pending (Seg7.base d)
     ++ [(NJU3711_OP_WRITE, Seg7.applyDisplayMode (glyphSegments g) d)]).
Proof.
  intros Hr. pose proof (Reachable_Inv _ Hr) as H.
  rewrite display_emit, emitPattern_eq. cbn [fst snd].
  change (write ?w (Seg7.base d)) with (submit (SubmitWrite w) (Seg7.base d)).
  unfold getQueueSize.
  destruct (submit_outcome (SubmitWrite (Seg7.applyDisplayMode (glyphSegments g) d))
              (Seg7.base d) (Inv_queue _ H))
    as [(Hsz & Hf & Hq)|(Hsz & Hok & Hp & _)].
  - split_and!; try done.
    + intros _. by apply pending_queueOf.
    + rewrite Hf. done.
  - split_and!; try done.
    + rewrite Hok. split; [done|lia].
    + rewrite Hok. done.
Qed.

Lemma display_queues_glyph_witness :
  fst (display (GDigit 7 true) (Seg7.NJU3711_7Segment_new3 2 3 4 Seg7.ACTIVE_LOW)) = true /\
  pending (Seg7.base (snd (display (GDigit 7 true)
                             (Seg7.NJU3711_7Segment_new3 2 3 4 Seg7.ACTIVE_LOW))))
  = [(NJU3711_OP_WRITE, 90)].
Proof.
  destruct (display_queues_glyph (GDigit 7 true)
              (Seg7.NJU3711_7Segment_new3 2 3 4 Seg7.ACTIVE_LOW))
    as (_ & _ & _ & _ & _ & Hp).
  - apply reach_new3.
  - split; [reflexivity|]. apply Hp. reflexivity.
Defined.

(** A glyph displayed on a display at rest reaches the driver: polled at
    the step delay, after nineteen calls the engine is at rest again and
    [getCurrentData] is the byte of the glyph: in active-low mode bit [j] is
    0 exactly when segment [j] of the glyph is lit.  The pin writes are those
    of one write of that byte as the clock flag and the latch flag of the
    driver fix them; with both flags clear the byte is clocked out most
    significant bit first and latched by a low pulse on STB. *)
Theorem displayed_glyph_reaches_outputs (g : Glyph) (d : Seg7.NJU3711_7Segment)
  (ts : list Z) :
  Reachable (Seg7.base d) -> Seg7.isBusy d = false ->
  spaced (_stepDelay (Seg7.base d)) (_lastUpdateTime (Seg7.base d)) ts = true ->
  (19 <= length ts)%nat ->
  fst (display g d) = true /\
  Seg7.isBusy (segRun ts (snd (display g d))) = false /\
  getCurrentData (Seg7.base (segRun ts (snd (display g d))))
  = Seg7.applyDisplayMode (glyphSegments g) d /\
  gpio (Seg7.base (segRun ts (snd (display g d))))
  = rev ((_strobePin (Seg7.base d), HIGH)
         :: shiftBits (wiring (Seg7.base d)) (_clockState (Seg7.base d))
              (Seg7.applyDisplayMode (glyphSegments g) d)
         ++ strobeRest (wiring (Seg7.base d)) (latchStep (Seg7.base d)))
    ++ gpio (Seg7.base d) /\
  (_clockState (Seg7.base d) = false -> latchStep (Seg7.base d) = false ->
   gpio (Seg7.base (segRun ts (snd (display g d))))
   = rev (writeWave (wiring (Seg7.base d)) (Seg7.applyDisplayMode (glyphSegments g) d))
     ++ gpio (Seg7.base d)) /\
  (forall j, 0 <= j <= 7 ->
     Z.testbit (getCurrentData (Seg7.base (segRun ts (snd (display g d))))) j
     = (if Seg7.mode_eqb (Seg7.getDisplayMode d) Seg7.ACTIVE_LOW
        then negb (Z.testbit (glyphSegments g) j)
        else Z.testbit (glyphSegments g) j)).
Proof.
  intros Hr Hb Hsp Hlen. pose proof (Reachable_Inv _ Hr) as H.
  unfold Seg7.isBusy in *.
  rewrite display_emit, emitPattern_eq. cbn [fst snd].
  rewrite segRun_inactive by reflexivity. cbn [Seg7.base Seg7.seg_set_base].
  set (w := Seg7.applyDisplayMode (glyphSegments g) d).
  destruct (submitted_drained [SubmitWrite w] ts (Seg7.base d) H Hb)
    as (Hok & Hb' & Hg & Hc); try done.
  { simpl. lia. }
  { right. by apply not_in_one. }
  { by apply (at_least_nat 19). }
  rewrite submitAll_one in Hb', Hg, Hc.
  change (submit (SubmitWrite w)) with (write w) in *.
  simpl in Hok. change (submit (SubmitWrite w)) with (write w) in Hok.
  destruct (write w (Seg7.base d)) as [ok b] eqn:Ew. cbn [fst snd] in *.
  injection Hok as ->.
  assert (getCurrentData (run ts b) = w) as Hcd by (unfold getCurrentData; by rewrite Hc).
  cbn [map submitted queueWave] in Hg. rewrite app_nil_r in Hg.
  split_and!; [done|done|done|exact Hg| |].
  - intros Hck Hl. rewrite Hg. unfold opWaveFrom, flags. cbn [fst snd f_clock f_latch].
    by rewrite Hck, Hl.
  - intros j Hj. rewrite Hcd. by apply applyDisplayMode_bit.
Qed.

Lemma displayed_glyph_reaches_outputs_witness :
  getCurrentData
    (Seg7.base (segRun (ticks 19 1 1)
                  (snd (display (GHex 11 false)
                          (Seg7.NJU3711_7Segment_new3 2 3 4 Seg7.ACTIVE_LOW)))))
  = Seg7.applyDisplayMode (glyphSegments (GHex 11 false))
      (Seg7.NJU3711_7Segment_new3 2 3 4 Seg7.ACTIVE_LOW) /\
  gpio
    (Seg7.base (segRun (ticks 19 1 1)
                  (snd (display (GHex 11 false)
                          (Seg7.NJU3711_7Segment_new3 2 3 4 Seg7.ACTIVE_LOW)))))
  = rev (writeWave (wiring (NJU3711_new3 2 3 4)) 161).
Proof.
  destruct (displayed_glyph_reaches_outputs (GHex 11 false)
              (Seg7.NJU3711_7Segment_new3 2 3 4 Seg7.ACTIVE_LOW) (ticks 19 1 1))
    as (_ & _ & Hc & _ & Hg & _).
  - apply reach_new3.
  - reflexivity.
  - vm_compute. reflexivity.
  - simpl. lia.
  - split; [exact Hc|]. rewrite Hg by reflexivity. vm_compute. reflexivity.
Defined.

(** ** Glyph tables *)

(** A property checked on every element of a range holds on the range. *)
Lemma range_check (f : Z -> bool) (lo : Z) (n : nat) :
  forallb f (map (fun k => lo + Z.of_nat k) (seq 0 n)) = true ->
  forall c, lo <= c < lo + Z.of_nat n -> f c = true.
Proof.
  intros Hall c Hc. rewrite forallb_forall in Hall. apply Hall.
  apply in_map_iff. exists (Z.to_nat (c - lo)). split; [lia|].
  apply in_seq. lia.
Qed.

(** The sixteen hexadecimal glyphs are pairwise different, none is blank,
    none uses the decimal-point bit, and the first ten are the decimal
    digits; values out of range show blank. *)
Theorem hex_glyphs_are_distinct (h k : Z) :
  0 <= h <= 15 -> 0 <= k <= 15 ->
  (Seg7.getHexPattern h = Seg7.getHexPattern k -> h = k) /\
  Seg7.getHexPattern h <> Seg7.PATTERN_BLANK /\
  is_u8 (Seg7.getHexPattern h) /\
  Z.testbit (Seg7.getHexPattern h) Seg7.SEG_DP = false /\
  (h <= 9 -> Seg7.getDigitPattern h = Seg7.getHexPattern h) /\
  (forall x, 15 < x -> Seg7.getHexPattern x = Seg7.PATTERN_BLANK) /\
  (forall x, 9 < x -> Seg7.getDigitPattern x = Seg7.PATTERN_BLANK).
Proof.
  intros Hh Hk. split_and!.
  - intros E. apply Z.eqb_eq.
    assert (forallb (fun k => implb (Seg7.getHexPattern h =? Seg7.getHexPattern k)
                                    (h =? k))
                    (map (fun i => 0 + Z.of_nat i) (seq 0 16)) = true) as Hrow.
    { apply (range_check
               (fun h => forallb (fun k => implb (Seg7.getHexPattern h
                                                  =? Seg7.getHexPattern k) (h =? k))
                                 (map (fun i => 0 + Z.of_nat i) (seq 0 16))) 0 16);
        [vm_compute; reflexivity|lia]. }
    assert (implb (Seg7.getHexPattern h =? Seg7.getHexPattern k) (h =? k) = true) as Hi
      by (apply (range_check _ 0 16 Hrow); lia).
    apply Z.eqb_eq in E. by rewrite E in Hi.
  - apply Z.eqb_neq, negb_true_iff.
    apply (range_check (fun h => negb (Seg7.getHexPattern h =? Seg7.PATTERN_BLANK)) 0 16);
      [vm_compute; reflexivity|lia].
  - unfold is_u8.
    assert ((0 <=? Seg7.getHexPattern h) && (Seg7.getHexPattern h <? 256) = true) as Hb.
    { apply (range_check (fun h => (0 <=? Seg7.getHexPattern h)
                                   && (Seg7.getHexPattern h <? 256)) 0 16);
        [vm_compute; reflexivity|lia]. }
    apply andb_prop in Hb as [H1 H2]. apply Z.leb_le in H1. apply Z.ltb_lt in H2. lia.
  - apply negb_true_iff.
    apply (range_check (fun h => negb (Z.testbit (Seg7.getHexPattern h) Seg7.SEG_DP)) 0 16);
      [vm_compute; reflexivity|lia].
  - intros H9. unfold Seg7.getDigitPattern, Seg7.getHexPattern.
    destruct (Z.ltb_spec 9 h); [lia|]. destruct (Z.leb_spec h 9); [done|lia].
  - intros x Hx. unfold Seg7.getHexPattern.
    destruct (Z.leb_spec x 9); [lia|]. destruct (Z.leb_spec x 15); [lia|done].
  - intros x Hx. unfold Seg7.getDigitPattern. destruct (Z.ltb_spec 9 x); [done|lia].
Qed.

Lemma hex_glyphs_are_distinct_witness :
  (Seg7.getHexPattern 11 = Seg7.getHexPattern 6 -> 11 = 6) /\
  Seg7.getHexPattern 11 <> Seg7.PATTERN_BLANK.
Proof.
  destruct (hex_glyphs_are_distinct 11 6) as (Hinj & Hnb & _).
  - lia.
  - lia.
  - by split.
Defined.

(** The character table.  Lower-case letters show as their capitals, digit
    characters as the digits, the letters A to F as the hexadecimal glyphs;
    every letter from G to Z except R shows the single bar that [-] shows,
    and every character that is neither a letter, a digit, [-] nor [_] shows
    blank. *)
Theorem char_glyphs (c : Z) :
  (97 <= c <= 122 -> Seg7.getCharPattern c = Seg7.getCharPattern (c - 32)) /\
  (48 <= c <= 57 -> Seg7.getCharPattern c = Seg7.getDigitPattern (c - 48)) /\
  (65 <= c <= 70 -> Seg7.getCharPattern c = Seg7.getHexPattern (c - 55)) /\
  (71 <= c <= 90 -> c <> 82 ->
   Seg7.getCharPattern c = Seg7.PATTERN_MINUS /\
   Seg7.getCharPattern c = Seg7.getCharPattern 45) /\
  Seg7.getCharPattern 95 = Seg7.PATTERN_UNDERSCORE /\
  (c < 45 \/ 45 < c < 48 \/ 57 < c < 65 \/ 90 < c < 95 \/ c = 96 \/ 122 < c ->
   Seg7.getCharPattern c = Seg7.PATTERN_BLANK).
Proof.
  split_and!.
  - intros Hc. apply Z.eqb_eq.
    apply (range_check
             (fun c => Seg7.getCharPattern c =? Seg7.getCharPattern (c - 32)) 97 26);
      [vm_compute; reflexivity|lia].
  - intros Hc. apply Z.eqb_eq.
    apply (range_check
             (fun c => Seg7.getCharPattern c =? Seg7.getDigitPattern (c - 48)) 48 10);
      [vm_compute; reflexivity|lia].
  - intros Hc. apply Z.eqb_eq.
    apply (range_check
             (fun c => Seg7.getCharPattern c =? Seg7.getHexPattern (c - 55)) 65 6);
      [vm_compute; reflexivity|lia].
  - intros Hc Hr.
    assert (Seg7.getCharPattern c = Seg7.PATTERN_MINUS) as E.
    { apply Z.eqb_eq.
      assert (((c =? 82) || (Seg7.getCharPattern c =? Seg7.PATTERN_MINUS)) = true) as Ho.
      { apply (range_check
                 (fun c => (c =? 82) || (Seg7.getCharPattern c =? Seg7.PATTERN_MINUS))
                 71 20); [vm_compute; reflexivity|lia]. }
      apply orb_prop in Ho as [Ho|Ho]; [apply Z.eqb_eq in Ho; lia|done]. }
    by rewrite E.
  - reflexivity.
  - intros Hc. unfold Seg7.getCharPattern. cbv zeta.
    repeat match goal with
           | |- context [?a <=? ?b] => destruct (Z.leb_spec a b)
           | |- context [?a =? ?b] => destruct (Z.eqb_spec a b)
           end; simpl in *; try done; lia.
Qed.

(** ** Segments and animations *)

Lemma seg_writeBit_eq p v d :
  Seg7.writeBit p v d
  = (fst (if v then setBit p (Seg7.base d) else clearBit p (Seg7.base d)),
     Seg7.seg_set_base
       (snd (if v then setBit p (Seg7.base d) else clearBit p (Seg7.base d))) d).
Proof.
  unfold Seg7.writeBit, writeBit.
  by destruct v; [destruct (setBit p (Seg7.base d))|destruct (clearBit p (Seg7.base d))].
Qed.

Lemma seg_toggleBit_eq p d :
  Seg7.toggleBit p d
  = (fst (toggleBit p (Seg7.base d)),
     Seg7.seg_set_base (snd (toggleBit p (Seg7.base d))) d).
Proof. unfold Seg7.toggleBit. by destruct (toggleBit p (Seg7.base d)). Qed.

(** [setSegment] and [toggleSegment] refuse a segment number above 7 and
    change nothing then.  Otherwise, with room in the queue, they queue one
    write that differs from [getCurrentData] in the bit of the segment only:
    [setSegment] makes that output 0 to light the segment of an active-low
    display (1 on an active-high one), [toggleSegment] inverts it; the
    animation is stopped, and the recorded decimal-point state follows when
    the segment is the decimal point. *)
Theorem setSegment_drives_one_output (segment : Z) (state : bool)
  (d : Seg7.NJU3711_7Segment) :
  Reachable (Seg7.base d) ->
  (7 < segment ->
   Seg7.setSegment segment state d = (false, d) /\
   Seg7.toggleSegment segment d = (false, d)) /\
  (0 <= segment <= 7 -> getQueueSize (Seg7.base d) < 8 ->
   exists ws wt,
     fst (Seg7.setSegment segment state d) = true /\
     pending (Seg7.base (snd (Seg7.setSegment segment state d)))
     = pending (Seg7.base d) ++ [(NJU3711_OP_WRITE, ws)] /\
     fst (Seg7.toggleSegment segment d) = true /\
     pending (Seg7.base (snd (Seg7.toggleSegment segment d)))
     = pending (Seg7.base d) ++ [(NJU3711_OP_WRITE, wt)] /\
     (forall j, 0 <= j <= 7 ->
        Z.testbit ws j
        = (if j =? segment
           then (if Seg7.mode_eqb (Seg7.getDisplayMode d) Seg7.ACTIVE_LOW
                 then negb state else state)
           else Z.testbit (getCurrentData (Seg7.base d)) j) /\
        Z.testbit wt j
        = (if j =? segment then negb (Z.testbit (getCurrentData (Seg7.base d)) j)
           else Z.testbit (getCurrentData (Seg7.base d)) j)) /\
     Seg7.getDecimalPointState (snd (Seg7.setSegment segment state d))
     = (if segment =? Seg7.SEG_DP then state else Seg7.getDecimalPointState d) /\
     Seg7.getDecimalPointState (snd (Seg7.toggleSegment segment d))
     = (if segment =? Seg7.SEG_DP then negb (Seg7.getDecimalPointState d)
        else Seg7.getDecimalPointState d) /\
     Seg7.isAnimating (snd (Seg7.setSegment segment state d)) = false /\
     Seg7.isAnimating (snd (Seg7.toggleSegment segment d)) = false).
Proof.
  intros Hr. pose proof (Reachable_Inv _ Hr) as H. split.
  - intros Hs. apply Z.ltb_lt in Hs. unfold Seg7.setSegment, Seg7.toggleSegment.
    by rewrite Hs.
  - intros Hs Hroom. unfold getQueueSize, getCurrentData in *.
    destruct (bit_operations_spec (Seg7.base d) segment H Hs Hroom)
      as (ws & wc & wt & Hs1 & Hs2 & Hc1 & Hc2 & Ht1 & Ht2 & _ & _ & _ & Hbits).
    unfold Seg7.setSegment, Seg7.toggleSegment.
    destruct (7 <? segment) eqn:E; [apply Z.ltb_lt in E; lia|]. cbv zeta.
    rewrite seg_writeBit_eq, seg_toggleBit_eq. unfold Seg7.getDisplayMode.
    assert (forall (b : bool) (x y : Seg7.NJU3711_7Segment),
              Seg7.base x = Seg7.base d -> Seg7.base y = Seg7.base d ->
              Seg7.base (if b then x else y) = Seg7.base d) as Hif
      by (by intros []).
    assert (forall (b : bool) (x y : Seg7.NJU3711_7Segment),
              Seg7._displayMode x = Seg7._displayMode d ->
              Seg7._displayMode y = Seg7._displayMode d ->
              Seg7._displayMode (if b then x else y) = Seg7._displayMode d) as Hif'
      by (by intros []).
    rewrite !Hif, !Hif' by (try apply Hif; try apply Hif'; done).
    exists (if (if Seg7.mode_eqb (Seg7._displayMode d) Seg7.ACTIVE_LOW
                then negb state else state) then ws else wc), wt.
    cbn [fst snd Seg7.base Seg7.seg_set_base].
    split_and!.
    + by destruct (if Seg7.mode_eqb _ _ then negb state else state).
    + by destruct (if Seg7.mode_eqb _ _ then negb state else state).
    + done.
    + done.
    + intros j Hj. destruct (Hbits j Hj) as (Hb1 & Hb2 & Hb3). split; [|done].
      destruct (if Seg7.mode_eqb _ _ then negb state else state); done.
    + unfold Seg7.getDecimalPointState, Seg7.stopAnimation.
      destruct (segment =? Seg7.SEG_DP), (Seg7._animationActive d);
        by destruct (if Seg7.mode_eqb _ _ then negb state else state).
    + unfold Seg7.getDecimalPointState, Seg7.stopAnimation.
      by destruct (segment =? Seg7.SEG_DP), (Seg7._animationActive d).
    + unfold Seg7.isAnimating, Seg7.stopAnimation.
      destruct (segment =? Seg7.SEG_DP), (Seg7._animationActive d) eqn:Ea;
        by destruct (if Seg7.mode_eqb _ _ then negb state else state).
    + unfold Seg7.isAnimating, Seg7.stopAnimation.
      by destruct (segment =? Seg7.SEG_DP), (Seg7._animationActive d) eqn:Ea.
Qed.

Lemma setSegment_drives_one_output_witness :
  (Seg7.setSegment 8 true (Seg7.NJU3711_7Segment_new3 2 3 4 Seg7.ACTIVE_LOW)
   = (false, Seg7.NJU3711_7Segment_new3 2 3 4 Seg7.ACTIVE_LOW)) /\
  fst (Seg7.setSegment 4 true (Seg7.NJU3711_7Segment_new3 2 3 4 Seg7.ACTIVE_LOW)) = true.
Proof.
  destruct (setSegment_drives_one_output 8 true
              (Seg7.NJU3711_7Segment_new3 2 3 4 Seg7.ACTIVE_LOW)) as [Hhigh _].
  { apply reach_new3. }
  destruct (setSegment_drives_one_output 4 true
              (Seg7.NJU3711_7Segment_new3 2 3 4 Seg7.ACTIVE_LOW)) as [_ Hlow].
  { apply reach_new3. }
  split.
  - apply Hhigh. lia.
  - destruct Hlow as (ws & wt & Hs & _); [lia|vm_compute; reflexivity|exact Hs].
Defined.

Lemma startAnimation_eq now type delay d :
  Seg7.isBusy d = false ->
  Seg7.startAnimation now type delay d
  = (true,
     Seg7.seg_set_lastAnimationUpdate now
       (Seg7.seg_set_animationActive true
          (Seg7.seg_set_animationStep 0
             (Seg7.seg_set_animationDelay delay
                (Seg7.seg_set_currentAnimation type d))))).
Proof. intros Hb. unfold Seg7.startAnimation. by rewrite Hb. Qed.

(** The blink animation does not blink.  Its first frame is shown through
    [displayDigit], which stops the running animation: after the first call
    of [update] past the animation delay the digit is queued once and no
    animation is active any more. *)
Theorem blink_animation_stops_itself (d : Seg7.NJU3711_7Segment) (now delay t : Z)
  (ts : list Z) :
  Reachable (Seg7.base d) -> Seg7.isBusy d = false ->
  delay <= u32 (t - now) ->
  fst (Seg7.startAnimation now Seg7.ANIM_BLINK delay d) = true /\
  Seg7.isAnimating (snd (Seg7.startAnimation now Seg7.ANIM_BLINK delay d)) = true /\
  Seg7.isAnimating
    (Seg7.update t (snd (Seg7.startAnimation now Seg7.ANIM_BLINK delay d))) = false /\
  pending (Seg7.base
             (Seg7.update t (snd (Seg7.startAnimation now Seg7.ANIM_BLINK delay d))))
  = [(NJU3711_OP_WRITE,
      Seg7.applyDisplayMode (Seg7.getDigitPattern (Seg7._animationValue d)) d)] /\
  Seg7.isAnimating
    (segRun ts (Seg7.update t (snd (Seg7.startAnimation now Seg7.ANIM_BLINK delay d))))
  = false.
Proof.
  intros Hr Hb Hdelay. pose proof (Reachable_Inv _ Hr) as H.
  rewrite startAnimation_eq by done. cbn [fst snd].
  unfold Seg7.isBusy in Hb. destruct (not_busy _ H Hb) as [Hst Hq].
  set (d0 := Seg7.seg_set_lastAnimationUpdate now _).
  assert (Seg7.update t d0
          = Seg7.seg_set_lastAnimationUpdate t
              (Seg7.seg_set_animationStep 1
                 (snd (display (GDigit (Seg7._animationValue d) false) d0)))) as Hu.
  { unfold Seg7.update. cbv zeta.
    change (Seg7.base d0) with (Seg7.base d). rewrite update_idle_empty by done.
    change (Seg7._animationActive (Seg7.seg_set_base (Seg7.base d) d0)) with true.
    cbv iota. unfold Seg7.processAnimation.
    change (Seg7._animationActive (Seg7.seg_set_base (Seg7.base d) d0)) with true.
    change (Seg7._lastAnimationUpdate (Seg7.seg_set_base (Seg7.base d) d0)) with now.
    change (Seg7._animationDelay (Seg7.seg_set_base (Seg7.base d) d0)) with delay.
    destruct (Z.ltb_spec (u32 (t - now)) delay) as [Hlt|_]; [lia|].
    cbn [negb].
    change (Seg7._currentAnimation (Seg7.seg_set_base (Seg7.base d) d0))
      with Seg7.ANIM_BLINK.
    cbv iota.
    change (Seg7._animationStep (Seg7.seg_set_base (Seg7.base d) d0)) with 0.
    change (0 mod 2 =? 0) with true. cbv iota.
    change (Seg7._animationValue (Seg7.seg_set_base (Seg7.base d) d0))
      with (Seg7._animationValue d).
    assert (Seg7.seg_set_base (Seg7.base d) d0 = d0) as -> by reflexivity.
    change (Seg7.displayDigit ?x false d0) with (display (GDigit x false) d0).
    destruct (display _ d0) as [ok d1] eqn:Ed. cbn [snd].
    do 2 f_equal. rewrite display_emit, emitPattern_eq in Ed. by injection Ed as _ <-. }
  pose proof (emitPattern_eq (glyphSegments (GDigit (Seg7._animationValue d) false))
                false d0) as He.
  rewrite <- display_emit in He.
  assert (Seg7.isAnimating (Seg7.update t d0) = false) as Hoff
    by (rewrite Hu, He; reflexivity).
  split_and!; [done|done|done| |].
  - rewrite Hu, He. cbn [snd Seg7.base Seg7.seg_set_base Seg7.seg_set_animationStep
                          Seg7.seg_set_lastAnimationUpdate].
    change (Seg7.base d0) with (Seg7.base d).
    destruct (submit_not_busy
                (SubmitWrite (Seg7.applyDisplayMode
                                (glyphSegments (GDigit (Seg7._animationValue d) false)) d0))
                (Seg7.base d) H Hb) as (_ & Hp & _).
    exact Hp.
  - rewrite segRun_inactive by done. exact Hoff.
Qed.

Lemma blink_animation_stops_itself_witness :
  Seg7.isAnimating
    (Seg7.update 100000
       (snd (Seg7.startAnimation 0 Seg7.ANIM_BLINK 100000
               (Seg7.NJU3711_7Segment_new3 2 3 4 Seg7.ACTIVE_LOW)))) = false.
Proof.
  destruct (blink_animation_stops_itself
              (Seg7.NJU3711_7Segment_new3 2 3 4 Seg7.ACTIVE_LOW) 0 100000 100000 [])
    as (_ & _ & Hoff & _).
  - apply reach_new3.
  - reflexivity.
  - vm_compute. congruence.
  - exact Hoff.
Defined.

Lemma fade_step t x :
  _state (Seg7.base x) = NJU3711_IDLE -> _queueSize (Seg7.base x) = 0 ->
  Seg7._animationActive x = true -> Seg7._currentAnimation x = Seg7.ANIM_FADE ->
  Seg7.base (Seg7.update t x) = Seg7.base x /\
  Seg7._animationActive (Seg7.update t x) = true /\
  Seg7._currentAnimation (Seg7.update t x) = Seg7.ANIM_FADE.
Proof.
  intros Hst Hq Ha Hc. unfold Seg7.update. cbv zeta.
  rewrite update_idle_empty by done.
  assert (Seg7.seg_set_base (Seg7.base x) x = x) as -> by (by destruct x).
  rewrite Ha. unfold Seg7.processAnimation. rewrite Ha, Hc. cbn [negb].
  by destruct (_ <? _).
Qed.

(** The fade animation is declared but has no frames: once started it stays
    active for ever and never writes to the driver. *)
Theorem fade_animation_shows_nothing (d : Seg7.NJU3711_7Segment) (now delay : Z)
  (ts : list Z) :
  Reachable (Seg7.base d) -> Seg7.isBusy d = false ->
  fst (Seg7.startAnimation now Seg7.ANIM_FADE delay d) = true /\
  Seg7.base (segRun ts (snd (Seg7.startAnimation now Seg7.ANIM_FADE delay d)))
  = Seg7.base d /\
  Seg7.isAnimating (segRun ts (snd (Seg7.startAnimation now Seg7.ANIM_FADE delay d)))
  = true.
Proof.
  intros Hr Hb. pose proof (Reachable_Inv _ Hr) as H.
  rewrite startAnimation_eq by done. cbn [fst snd].
  unfold Seg7.isBusy in Hb. destruct (not_busy _ H Hb) as [Hst Hq].
  split; [done|].
  set (d0 := Seg7.seg_set_lastAnimationUpdate now _).
  assert (Seg7.base d0 = Seg7.base d /\ Seg7._animationActive d0 = true /\
          Seg7._currentAnimation d0 = Seg7.ANIM_FADE) as Hinv by done.
  clearbody d0. revert d0 Hinv.
  induction ts as [|t ts IH]; intros x (Hbx & Hax & Hcx); [done|].
  simpl. destruct (fade_step t x) as (Hb1 & Ha1 & Hc1); try done; try congruence.
  apply IH. split_and!; congruence.
Qed.

Lemma fade_animation_shows_nothing_witness :
  Seg7.base (segRun (ticks 50 100000 100000)
               (snd (Seg7.startAnimation 0 Seg7.ANIM_FADE 100000
                       (Seg7.NJU3711_7Segment_new3 2 3 4 Seg7.ACTIVE_LOW))))
  = Seg7.base (Seg7.NJU3711_7Segment_new3 2 3 4 Seg7.ACTIVE_LOW).
Proof.
  destruct (fade_animation_shows_nothing
              (Seg7.NJU3711_7Segment_new3 2 3 4 Seg7.ACTIVE_LOW) 0 100000
              (ticks 50 100000 100000)) as (_ & Hbase & _).
  - apply reach_new3.
  - reflexivity.
  - exact Hbase.
Defined.

(** ** The three-digit display: numbers and slots *)

Lemma three_elements {A : Type} (l : list A) :
  length l = 3%nat -> exists a b c, l = [a; b; c].
Proof.
  destruct l as [|a [|b [|c [|? ?]]]]; try done. intros _. by exists a, b, c.
Qed.

(** The loops of [updateDigitData] carried out. *)
Lemma updateDigitData_closed m :
  threeSlots m ->
  Multi.updateDigitData m
  = if Multi._blankOnZero m && (Multi._displayValue m =? 0)
    then Multi.mux_set_digitEnabled [false; false; false]
           (Multi.mux_set_digitData [0; 0; 0] m)
    else
      Multi.mux_set_digitEnabled
        [true; Multi._leadingZeros m || (10 <=? Multi._displayValue m);
         Multi._leadingZeros m || (100 <=? Multi._displayValue m)]
        (Multi.mux_set_digitData
           [Seg7.getDigitPattern (Multi._displayValue m mod 10);
            if Multi._leadingZeros m || (10 <=? Multi._displayValue m)
            then Seg7.getDigitPattern ((Multi._displayValue m / 10) mod 10) else 0;
            if Multi._leadingZeros m || (100 <=? Multi._displayValue m)
            then Seg7.getDigitPattern ((Multi._displayValue m / 100) mod 10) else 0] m).
Proof.
  intros (Hd & Hp & He).
  destruct (three_elements _ Hd) as (a0 & a1 & a2 & Ea).
  destruct (three_elements _ He) as (e0 & e1 & e2 & Ee).
  unfold Multi.updateDigitData. cbv zeta.
  destruct m as [sg pins data dps en st cur nxt lm ls md bt me dv lz bz].
  simpl in *. subst data en.
  destruct (bz && (dv =? 0)); [reflexivity|].
  destruct lz; [reflexivity|]. cbn [orb].
  destruct (Z.leb_spec 100 dv) as [G100|L100].
  - assert ((10 <=? dv) = true) as -> by (apply Z.leb_le; lia). reflexivity.
  - destruct (10 <=? dv); reflexivity.
Qed.

(** [displayNumber] shows a number in decimal: the value is clamped to 999,
    slot 0 shows the ones, slot 1 the tens and slot 2 the hundreds; without
    leading zeros the slots above the highest digit are disabled and blank;
    with blank-on-zero a zero disables all three; decimal points are not
    touched. *)
Theorem displayNumber_shows_decimal_digits (number : Z)
  (m : Multi.NJU3711_7Segment_Multi) :
  threeSlots m -> 0 <= number ->
  fst (Multi.displayNumber number m) = true /\
  Multi.getCurrentValue (snd (Multi.displayNumber number m)) = Z.min number 999 /\
  Multi._digitDP (snd (Multi.displayNumber number m)) = Multi._digitDP m /\
  (Multi._blankOnZero m = true -> number = 0 ->
   Multi._digitData (snd (Multi.displayNumber number m)) = [0; 0; 0] /\
   Multi._digitEnabled (snd (Multi.displayNumber number m)) = [false; false; false]) /\
  (Multi._blankOnZero m = false \/ 0 < number ->
   Multi._digitData (snd (Multi.displayNumber number m))
   = [Seg7.getDigitPattern (Z.min number 999 mod 10);
      if Multi._leadingZeros m || (10 <=? number)
      then Seg7.getDigitPattern ((Z.min number 999 / 10) mod 10) else 0;
      if Multi._leadingZeros m || (100 <=? number)
      then Seg7.getDigitPattern (Z.min number 999 / 100) else 0] /\
   Multi._digitEnabled (snd (Multi.displayNumber number m))
   = [true; Multi._leadingZeros m || (10 <=? number);
      Multi._leadingZeros m || (100 <=? number)]) /\
  Z.min number 999
  = Z.min number 999 mod 10 + 10 * ((Z.min number 999 / 10) mod 10)
    + 100 * (Z.min number 999 / 100).
Proof.
  intros Hs Hn.
  unfold Multi.displayNumber, Multi.getCurrentValue. cbv zeta. cbn [fst snd].
  assert ((if 999 <? number then 999 else number) = Z.min number 999) as ->
    by (destruct (Z.ltb_spec 999 number); lia).
  rewrite updateDigitData_closed by done.
  cbn [Multi._displayValue Multi._blankOnZero Multi._leadingZeros
       Multi.mux_set_displayValue].
  set (v := Z.min number 999).
  assert (0 <= v <= 999) as Hv by (subst v; lia).
  assert ((v / 100) mod 10 = v / 100) as Hh.
  { apply Z.mod_small. split; [apply Z.div_pos; lia|].
    apply Z.div_lt_upper_bound; lia. }
  assert ((v =? 0) = (number =? 0)) as Hz
    by (subst v; destruct (Z.eqb_spec number 0), (Z.eqb_spec (Z.min number 999) 0); lia).
  assert ((10 <=? v) = (10 <=? number)) as H10
    by (subst v; destruct (Z.leb_spec 10 number), (Z.leb_spec 10 (Z.min number 999)); lia).
  assert ((100 <=? v) = (100 <=? number)) as H100
    by (subst v; destruct (Z.leb_spec 100 number), (Z.leb_spec 100 (Z.min number 999)); lia).
  rewrite Hz, H10, H100, Hh.
  split_and!.
  - done.
  - by destruct (Multi._blankOnZero m && (number =? 0)).
  - by destruct (Multi._blankOnZero m && (number =? 0)).
  - by intros -> ->.
  - intros Hnz.
    assert (Multi._blankOnZero m && (number =? 0) = false) as ->; [|done].
    destruct Hnz as [->|Hpos]; [done|].
    destruct (Z.eqb_spec number 0); [lia|apply andb_false_r].
  - pose proof (Z.div_mod v 10 ltac:(lia)) as E1.
    pose proof (Z.div_mod (v / 10) 10 ltac:(lia)) as E2.
    rewrite Z.div_div in E2 by lia. change (10 * 10) with 100 in E2. lia.
Qed.

Lemma displayNumber_shows_decimal_digits_witness :
  Multi._digitData (snd (Multi.displayNumber 42 display3))
  = [Seg7.getDigitPattern (Z.min 42 999 mod 10);
     if Multi._leadingZeros display3 || (10 <=? 42)
     then Seg7.getDigitPattern ((Z.min 42 999 / 10) mod 10) else 0;
     if Multi._leadingZeros display3 || (100 <=? 42)
     then Seg7.getDigitPattern (Z.min 42 999 / 100) else 0] /\
  Multi._digitEnabled (snd (Multi.displayNumber 42 display3))
  = [true; Multi._leadingZeros display3 || (10 <=? 42);
     Multi._leadingZeros display3 || (100 <=? 42)].
Proof.
  destruct (displayNumber_shows_decimal_digits 42 display3) as (_ & _ & _ & _ & Hd & _).
  - by split_and!.
  - lia.
  - apply Hd. left. reflexivity.
Defined.

Lemma threeSlots_same m m' :
  threeSlots m -> length (Multi._digitData m') = length (Multi._digitData m) ->
  length (Multi._digitDP m') = length (Multi._digitDP m) ->
  length (Multi._digitEnabled m') = length (Multi._digitEnabled m) ->
  threeSlots m'.
Proof. unfold threeSlots. intros (? & ? & ?) ? ? ?. split_and!; congruence. Qed.

Lemma threeSlots_updateDigitData m : threeSlots m -> threeSlots (Multi.updateDigitData m).
Proof.
  intros Hs. rewrite updateDigitData_closed by done. destruct Hs as (Hd & Hp & He).
  by destruct (_ && _).
Qed.

Lemma threeSlots_displayNumber number m :
  threeSlots m -> threeSlots (snd (Multi.displayNumber number m)).
Proof. intros Hs. by apply threeSlots_updateDigitData. Qed.

(** [displayNumber] with a decimal position shows the same digits and lights
    exactly the decimal point of slot [decimalPosition - 1]; a position of 0
    or above 3 lights none. *)
Theorem displayNumber_places_decimal_point (number decimalPosition : Z)
  (m : Multi.NJU3711_7Segment_Multi) :
  threeSlots m ->
  fst (Multi.displayNumberDP number decimalPosition m) = true /\
  Multi._digitDP (snd (Multi.displayNumberDP number decimalPosition m))
  = [decimalPosition =? 1; decimalPosition =? 2; decimalPosition =? 3] /\
  Multi._digitData (snd (Multi.displayNumberDP number decimalPosition m))
  = Multi._digitData (snd (Multi.displayNumber number m)) /\
  Multi._digitEnabled (snd (Multi.displayNumberDP number decimalPosition m))
  = Multi._digitEnabled (snd (Multi.displayNumber number m)) /\
  Multi.getCurrentValue (snd (Multi.displayNumberDP number decimalPosition m))
  = Multi.getCurrentValue (snd (Multi.displayNumber number m)).
Proof.
  intros Hs. pose proof (threeSlots_displayNumber number m Hs) as (_ & Hp & _).
  unfold Multi.displayNumberDP. destruct (Multi.displayNumber number m) as [ok m1].
  cbn [fst snd] in *. destruct (three_elements _ Hp) as (p0 & p1 & p2 & Ep).
  assert (Multi._digitDP (Multi.clearAllDecimalPoints m1) = [false; false; false]) as Hc.
  { unfold Multi.clearAllDecimalPoints, Multi.for3. simpl. by rewrite Ep. }
  destruct ((0 <? decimalPosition) && (decimalPosition <=? 3)) eqn:Hr.
  - apply andb_prop in Hr as [H0 H3]. apply Z.ltb_lt in H0. apply Z.leb_le in H3.
    split_and!; try done. cbn [snd Multi._digitDP Multi.mux_set_digitDP]. rewrite Hc.
    assert (decimalPosition = 1 \/ decimalPosition = 2 \/ decimalPosition = 3)
      as [->|[->| ->]] by lia; reflexivity.
  - split_and!; try done. cbn [snd]. rewrite Hc.
    apply andb_false_iff in Hr as [H0|H3]; [apply Z.ltb_ge in H0|apply Z.leb_gt in H3].
    + by destruct (Z.eqb_spec decimalPosition 1), (Z.eqb_spec decimalPosition 2),
        (Z.eqb_spec decimalPosition 3); try lia.
    + by destruct (Z.eqb_spec decimalPosition 1), (Z.eqb_spec decimalPosition 2),
        (Z.eqb_spec decimalPosition 3); try lia.
Qed.

Lemma displayNumber_places_decimal_point_witness :
  Multi._digitDP (snd (Multi.displayNumberDP 123 2 display3)) = [2 =? 1; 2 =? 2; 2 =? 3].
Proof.
  destruct (displayNumber_places_decimal_point 123 2 display3) as (_ & Hdp & _).
  - by split_and!.
  - exact Hdp.
Defined.

(** The leading-zero and blank-on-zero setters render the stored number
    again: they give what [displayNumber] of the current value gives under
    the new flag, and so overwrite whatever the slots showed, raw patterns
    included. *)
Theorem display_flags_render_the_number_again (enable : bool)
  (position segments : Z) (showDP : bool) (m : Multi.NJU3711_7Segment_Multi) :
  threeSlots m -> 0 <= Multi.getCurrentValue m <= 999 ->
  Multi.setLeadingZeros enable m
  = snd (Multi.displayNumber (Multi.getCurrentValue m)
          (Multi.mux_set_leadingZeros enable m)) /\
  Multi.setBlankOnZero enable m
  = snd (Multi.displayNumber (Multi.getCurrentValue m)
          (Multi.mux_set_blankOnZero enable m)) /\
  Multi._digitData
    (Multi.setLeadingZeros enable (snd (Multi.setDigitRaw position segments showDP m)))
  = Multi._digitData (Multi.setLeadingZeros enable m) /\
  Multi._digitEnabled
    (Multi.setLeadingZeros enable (snd (Multi.setDigitRaw position segments showDP m)))
  = Multi._digitEnabled (Multi.setLeadingZeros enable m).
Proof.
  intros Hs Hv. unfold Multi.getCurrentValue in *.
  assert (forall m0, Multi._displayValue m0 = Multi._displayValue m ->
            snd (Multi.displayNumber (Multi._displayValue m) m0) = Multi.updateDigitData m0)
    as Hsame.
  { intros m0 E. unfold Multi.displayNumber. cbv zeta. cbn [snd].
    destruct (Z.ltb_spec 999 (Multi._displayValue m)); [lia|].
    f_equal. rewrite <- E. by destruct m0. }
  split_and!.
  - by rewrite Hsame.
  - by rewrite Hsame.
  - unfold Multi.setLeadingZeros, Multi.setDigitRaw.
    destruct (3 <=? position); [done|]. cbn [snd].
    rewrite !updateDigitData_closed.
    + by destruct (_ && _).
    + done.
    + destruct Hs as (Hd & Hp & He). unfold threeSlots. simpl.
      by rewrite !length_insert.
  - unfold Multi.setLeadingZeros, Multi.setDigitRaw.
    destruct (3 <=? position); [done|]. cbn [snd].
    rewrite !updateDigitData_closed.
    + by destruct (_ && _).
    + done.
    + destruct Hs as (Hd & Hp & He). unfold threeSlots. simpl.
      by rewrite !length_insert.
Qed.

Lemma display_flags_render_the_number_again_witness :
  Multi._digitData
    (Multi.setLeadingZeros true (snd (Multi.setDigitRaw 1 255 false display3)))
  = Multi._digitData (Multi.setLeadingZeros true display3).
Proof.
  destruct (display_flags_render_the_number_again true 1 255 false display3)
    as (_ & _ & Hd & _).
  - by split_and!.
  - vm_compute. split; congruence.
  - exact Hd.
Defined.

Lemma clamp_temperature temp :
  (if 999 <? (if temp <? -99 then -99 else temp) then 999
   else if temp <? -99 then -99 else temp)
  = Z.min (Z.max temp (-99)) 999.
Proof.
  destruct (Z.ltb_spec temp (-99)).
  - destruct (Z.ltb_spec 999 (-99)); lia.
  - destruct (Z.ltb_spec 999 temp); lia.
Qed.

(** [displayTemperature] clamps to -99 .. 999.  A temperature of 0 or more is
    shown as [displayNumber] shows it.  A negative one shows a minus sign in
    slot 2 and the two digits of its magnitude in slots 1 and 0, tens digit
    always shown, all decimal points off, and leaves [getCurrentValue] as it
    was.  The unit argument is not used. *)
Theorem displayTemperature_shows_sign_and_magnitude (temp : Z) (celsius : bool)
  (m : Multi.NJU3711_7Segment_Multi) :
  threeSlots m -> -32768 <= temp <= 32767 ->
  fst (Multi.displayTemperature temp celsius m) = true /\
  (0 <= temp ->
   snd (Multi.displayTemperature temp celsius m) = snd (Multi.displayNumber temp m)) /\
  (temp < 0 ->
   Multi._digitData (snd (Multi.displayTemperature temp celsius m))
   = [Seg7.getDigitPattern (Z.min (- temp) 99 mod 10);
      Seg7.getDigitPattern (Z.min (- temp) 99 / 10);
      Seg7.PATTERN_MINUS] /\
   Multi._digitEnabled (snd (Multi.displayTemperature temp celsius m))
   = [true; true; true] /\
   Multi._digitDP (snd (Multi.displayTemperature temp celsius m))
   = [false; false; false] /\
   Multi.getCurrentValue (snd (Multi.displayTemperature temp celsius m))
   = Multi.getCurrentValue m).
Proof.
  intros (Hd & Hp & He) Ht.
  destruct (three_elements _ Hd) as (a0 & a1 & a2 & Ea).
  destruct (three_elements _ Hp) as (p0 & p1 & p2 & Ep).
  destruct (three_elements _ He) as (e0 & e1 & e2 & Ee).
  unfold Multi.displayTemperature. cbv zeta.
  rewrite clamp_temperature.
  set (t2 := Z.min (Z.max temp (-99)) 999).
  destruct (Z.ltb_spec t2 0) as [Hneg|Hpos].
  - assert (temp < 0) as Hlt by (subst t2; lia).
    assert (- t2 = Z.min (- temp) 99) as Hm by (subst t2; lia).
    rewrite Hm. set (v := Z.min (- temp) 99). assert (0 <= v <= 99) as Hv by (subst v; lia).
    assert (0 <= v / 10) as Hq by (apply Z.div_pos; lia).
    rewrite Z.quot_div_nonneg by lia. rewrite !Z.rem_mod_nonneg by lia.
    assert ((v / 10) mod 10 = v / 10) as ->.
    { apply Z.mod_small. split; [apply Z.div_pos; lia|].
      apply Z.div_lt_upper_bound; lia. }
    split_and!; [done|lia|]. intros _.
    unfold Multi.getCurrentValue, Multi.setDigitChar, Multi.setDigit. simpl.
    by rewrite Ea, Ep, Ee.
  - assert (0 <= temp) as Hge by (subst t2; lia).
    split_and!; [by destruct (Multi.displayNumber t2 m)| |lia]. intros _.
    assert (snd (Multi.displayNumber t2 m) = snd (Multi.displayNumber temp m)) as <-.
    { unfold Multi.displayNumber. cbv zeta. cbn [snd]. do 2 f_equal.
      subst t2. destruct (Z.ltb_spec 999 temp), (Z.ltb_spec 999 (Z.min (Z.max temp (-99)) 999));
        lia. }
    by destruct (Multi.displayNumber t2 m).
Qed.

Lemma displayTemperature_shows_sign_and_magnitude_witness :
  Multi._digitData (snd (Multi.displayTemperature (-7) true display3))
  = [Seg7.getDigitPattern (Z.min (- -7) 99 mod 10);
     Seg7.getDigitPattern (Z.min (- -7) 99 / 10);
     Seg7.PATTERN_MINUS].
Proof.
  destruct (displayTemperature_shows_sign_and_magnitude (-7) true display3)
    as (_ & _ & Hneg).
  - by split_and!.
  - lia.
  - destruct Hneg as (Hd & _); [lia|exact Hd].
Defined.

(** The slot setters.  A position of 3 or more is refused and nothing
    changes.  Otherwise [setDigitRaw] stores the pattern and the decimal
    point of that one slot and enables it, leaving the other two slots as
    they are; [setDigit] and [setDigitChar] are [setDigitRaw] of the digit
    and character patterns. *)
Theorem slot_setters_change_one_slot (position segments : Z) (showDP enable : bool)
  (m : Multi.NJU3711_7Segment_Multi) :
  threeSlots m ->
  (3 <= position ->
   Multi.setDigitRaw position segments showDP m = (false, m) /\
   Multi.enableDigit position enable m = (false, m) /\
   Multi.setDecimalPoint position enable m = (false, m)) /\
  (0 <= position < 3 ->
   fst (Multi.setDigitRaw position segments showDP m) = true /\
   fst (Multi.enableDigit position enable m) = true /\
   fst (Multi.setDecimalPoint position enable m) = true /\
   forall i, 0 <= i < 3 ->
     Multi.at3 0 (Multi._digitData (snd (Multi.setDigitRaw position segments showDP m))) i
     = (if i =? position then segments else Multi.at3 0 (Multi._digitData m) i) /\
     Multi.at3 false (Multi._digitDP (snd (Multi.setDigitRaw position segments showDP m))) i
     = (if i =? position then showDP else Multi.at3 false (Multi._digitDP m) i) /\
     Multi.at3 false
       (Multi._digitEnabled (snd (Multi.setDigitRaw position segments showDP m))) i
     = (if i =? position then true else Multi.at3 false (Multi._digitEnabled m) i) /\
     Multi.at3 false (Multi._digitEnabled (snd (Multi.enableDigit position enable m))) i
     = (if i =? position then enable else Multi.at3 false (Multi._digitEnabled m) i) /\
     Multi.at3 false (Multi._digitDP (snd (Multi.setDecimalPoint position enable m))) i
     = (if i =? position then enable else Multi.at3 false (Multi._digitDP m) i)) /\
  (forall value,
     Multi.setDigit position value showDP m
     = Multi.setDigitRaw position (Seg7.getDigitPattern value) showDP m) /\
  (forall character,
     Multi.setDigitChar position character showDP m
     = Multi.setDigitRaw position (Seg7.getCharPattern character) showDP m).
Proof.
  intros (Hd & Hp & He).
  destruct (three_elements _ Hd) as (a0 & a1 & a2 & Ea).
  destruct (three_elements _ Hp) as (p0 & p1 & p2 & Ep).
  destruct (three_elements _ He) as (e0 & e1 & e2 & Ee).
  unfold Multi.setDigitRaw, Multi.enableDigit, Multi.setDecimalPoint,
    Multi.setDigit, Multi.setDigitChar.
  split_and!; try done.
  - intros Hpos. apply Z.leb_le in Hpos. by rewrite Hpos.
  - intros Hpos. destruct (Z.leb_spec 3 position); [lia|].
    split_and!; try done. intros i Hi. cbn [snd]. simpl. rewrite Ea, Ep, Ee.
    destruct (three_cases _ Hpos) as [->|[->| ->]];
      destruct (three_cases _ Hi) as [->|[->| ->]]; done.
Qed.

Lemma slot_setters_change_one_slot_witness :
  Multi.setDigitRaw 3 255 true display3 = (false, display3) /\
  fst (Multi.setDigitRaw 2 255 true display3) = true.
Proof.
  destruct (slot_setters_change_one_slot 3 255 true true display3) as (Hhigh & _).
  { by split_and!. }
  destruct (slot_setters_change_one_slot 2 255 true true display3) as (_ & Hlow & _).
  { by split_and!. }
  split.
  - destruct Hhigh as (Hr & _); [lia|exact Hr].
  - destruct Hlow as (Hr & _); [lia|exact Hr].
Defined.

(** ** The three-digit display: refresh *)

Lemma multiplexDisplay_slots now m :
  slotsOf (Multi.multiplexDisplay now m) = slotsOf m.
Proof.
  unfold Multi.multiplexDisplay. cbv zeta.
  destruct (Multi._mplexState m); try done.
  - by destruct (_ <=? _).
  - by destruct (_ <=? _).
  - by destruct (negb _).
  - destruct (negb _); [|done]. by destruct (_ <=? _).
  - unfold Multi.selectDigit. by destruct (_ <? 3).
Qed.

Lemma update_slots now m : MultiInv m -> slotsOf (Multi.update now m) = slotsOf m.
Proof.
  intros H. rewrite multi_update_unfold by apply (minv_anim m H).
  destruct (_ && _); [|done]. by rewrite multiplexDisplay_slots.
Qed.

Lemma multiRun_slots ts m :
  MultiInv m -> Forall is_u32 ts -> slotsOf (multiRun ts m) = slotsOf m.
Proof.
  revert m. induction ts as [|t ts IH]; intros m H Hts; [done|].
  inversion Hts; subst. simpl. rewrite IH; [by apply update_slots| |done].
  by apply multi_update_step.
Qed.

Lemma refreshByte_slots m1 m2 :
  slotsOf m1 = slotsOf m2 -> refreshByte m1 = slotByte m2 (Multi._nextDigit m1).
Proof.
  unfold slotsOf, slotByte, refreshByte, Seg7.getDisplayMode. intros [= Hd Hp He Hm].
  simpl. by rewrite Hd, Hp, He, Hm.
Qed.

Lemma turn_on_shows D prev now m :
  Phase D prev Multi.MPLEX_TURN_ON_DIGIT m -> prev + D <= now -> now < 4294967296 ->
  activeLines (Multi.update now m) = [(Multi._currentDigit m + 1) mod 3] /\
  _currentData (Multi.driver (Multi.update now m)) = _currentData (Multi.driver m).
Proof.
  intros [Hs Hst Hf Hd Hm Hp] Hnow Hlt. pose proof Hs as [H He Hsd Hmd Hbt H10].
  pose proof (minv_next m H) as Hn.
  assert (Multi._nextDigit m = (Multi._currentDigit m + 1) mod 3) as Hnext.
  { apply (minv_chosen m H). by rewrite Hst. }
  assert (activeLines m = []) as Hdark.
  { apply (minv_dark m H). by rewrite Hst. }
  destruct (selectDigit_observe m _ (minv_pins m H) Hn Hdark) as [A _].
  rewrite free_update by done. rewrite multiplex_turn_on by done.
  rewrite selectDigit_eq in * by done. split.
  - match goal with
    | |- activeLines (_ (_ (_ ?m1))) = _ => to_world m1
    end.
    by rewrite A, Hnext.
  - reflexivity.
Qed.

Lemma display_keeps D prev now m :
  Phase D prev Multi.MPLEX_DISPLAY_DIGIT m ->
  activeLines (Multi.update now m) = activeLines m /\
  _currentData (Multi.driver (Multi.update now m)) = _currentData (Multi.driver m).
Proof.
  intros [Hs Hst Hf Hd Hm Hp]. pose proof Hs as [H He Hsd Hmd Hbt H10].
  rewrite free_update by done. by rewrite multiplex_display by done.
Qed.

(** One refresh of the multiplexer, from the idle phase, twenty-five calls
    of [update] spaced by the longest delay: at its end the select line of
    the next slot, and no other, is active, the driver is at rest, and the
    byte it has latched is the byte of that slot: its pattern with its
    decimal point in the polarity of the display, or the blank byte if the
    slot is disabled. *)
Theorem refresh_shows_next_slot (D prev : Z) (ts : list Z)
  (m : Multi.NJU3711_7Segment_Multi) :
  Phase D prev Multi.MPLEX_IDLE m -> spaced D prev ts = true -> length ts = 25%nat ->
  activeLines (multiRun ts m) = [(Multi._currentDigit m + 1) mod 3] /\
  getCurrentData (Multi.driver (multiRun ts m))
  = slotByte m ((Multi._currentDigit m + 1) mod 3) /\
  Multi.isBusy (multiRun ts m) = false /\
  Multi._currentDigit (multiRun ts m) = (Multi._currentDigit m + 1) mod 3.
Proof.
  intros Hph Hsp Hlen.
  destruct (refresh_one D prev ts m Hph Hsp Hlen) as (Pend & _ & Cend).
  split_and!; [| |apply (phase_free _ _ _ _ Pend)|done].
  all: destruct ts as [|t1 [|t2 [|t3 [|t4 rest]]]]; try (simpl in Hlen; lia).
  all: assert (length rest = 21%nat) as Hlen' by (simpl in Hlen; lia).
  all: assert (rest = take 19 rest ++ drop 19 rest) as Hsplit by (by rewrite take_drop).
  all: destruct (drop 19 rest) as [|t24 [|t25 [|? ?]]] eqn:Hdrop;
    try (apply (f_equal length) in Hdrop; rewrite length_drop in Hdrop;
         simpl in Hdrop; lia).
  all: set (ts19 := take 19 rest) in *.
  all: assert (length ts19 = 19%nat) as Hlen19 by (subst ts19; rewrite length_take; lia).
  all: rewrite Hsplit in *; clear Hsplit Hdrop Pend Cend.
  all: destruct (spaced_cons _ _ _ _ Hsp) as (A1 & B1 & Hsp1).
  all: destruct (spaced_cons _ _ _ _ Hsp1) as (A2 & B2 & Hsp2).
  all: destruct (spaced_cons _ _ _ _ Hsp2) as (A3 & B3 & Hsp3).
  all: change (t4 :: ts19 ++ [t24; t25]) with ((t4 :: ts19) ++ [t24; t25]) in Hsp3.
  all: rewrite spaced_app in Hsp3; apply andb_prop in Hsp3 as [Hsp4 Hsp5].
  all: rewrite last_cons in Hsp5.
  all: destruct (spaced_cons _ _ _ _ Hsp5) as (A24 & B24 & Hsp6).
  all: destruct (spaced_cons _ _ _ _ Hsp6) as (A25 & B25 & _).
  all: destruct (phase_idle D prev t1 m Hph A1 B1) as (P1 & _ & C1).
  all: destruct (phase_turn_off D t1 t2 _ P1 A2 B2) as (P2 & _ & C2).
  all: destruct (phase_wait_blanking D t2 t3 _ P2 A3 B3) as (P3 & _ & C3).
  all: destruct (phase_write D t3 t4 ts19 _ P3 Hsp4 Hlen19) as (P4 & _ & C4 & W4).
  all: destruct (turn_on_shows D _ t24 _ P4 A24 B24) as (L5 & W5).
  all: destruct (phase_turn_on D _ t24 _ P4 A24 B24) as (P5 & _ & C5).
  all: destruct (display_keeps D _ t25 _ P5) as (L6 & W6).
  all: assert (multiRun (t1 :: t2 :: t3 :: t4 :: ts19 ++ [t24; t25]) m =
          Multi.update t25 (Multi.update t24
            (multiRun (t4 :: ts19) (Multi.update t3 (Multi.update t2 (Multi.update t1 m))))))
    as -> by (change (t1 :: t2 :: t3 :: t4 :: ts19 ++ [t24; t25])
                with ([t1; t2; t3] ++ (t4 :: ts19) ++ [t24; t25]);
              by rewrite !multiRun_app).
  - rewrite L6, L5, C4, C3, C2, C1. done.
  - unfold getCurrentData. rewrite W6, W5, W4.
    pose proof (phase_setup _ _ _ _ Hph) as [H0 _ _ _ _ _].
    pose proof (phase_setup _ _ _ _ P1) as [H1 _ _ _ _ _].
    pose proof (phase_setup _ _ _ _ P2) as [H2 _ _ _ _ _].
    pose proof (phase_setup _ _ _ _ P3) as [H3 _ _ _ _ _].
    assert (Multi._nextDigit (Multi.update t3 (Multi.update t2 (Multi.update t1 m)))
            = (Multi._currentDigit m + 1) mod 3) as Hn.
    { rewrite (minv_chosen _ H3); [by rewrite C3, C2, C1|].
      by rewrite (phase_state _ _ _ _ P3). }
    rewrite <- Hn. apply refreshByte_slots.
    rewrite !update_slots; done.
Qed.

Lemma refresh_shows_next_slot_witness :
  activeLines (multiRun (ticks 25 2021 2000) idleDisplay)
  = [(Multi._currentDigit idleDisplay + 1) mod 3] /\
  getCurrentData (Multi.driver (multiRun (ticks 25 2021 2000) idleDisplay))
  = slotByte idleDisplay ((Multi._currentDigit idleDisplay + 1) mod 3).
Proof.
  destruct (refresh_shows_next_slot 2000 21 (ticks 25 2021 2000) idleDisplay)
    as (Ha & Hc & _).
  - constructor.
    + constructor.
      * apply MultiReachable_Inv.
        apply MultiReachable_run; [|apply Forall_ticks; lia].
        do 3 apply mreach_setDigitRaw.
        apply mreach_begin; [|unfold is_u32; lia|reflexivity].
        apply mreach_new6. apply (bool_decide_unpack _). vm_compute. exact I.
      * vm_compute. reflexivity.
      * vm_compute. congruence.
      * vm_compute. congruence.
      * vm_compute. congruence.
      * lia.
    + vm_compute. reflexivity.
    + vm_compute. reflexivity.
    + vm_compute. congruence.
    + vm_compute. split; congruence.
    + vm_compute. split; congruence.
  - vm_compute. reflexivity.
  - vm_compute. reflexivity.
  - by split.
Defined.

(** While multiplexing is disabled, [update] only runs the driver. *)
Lemma disabled_run ts m :
  MultiInv m -> Multi._multiplexEnabled m = false -> Forall is_u32 ts ->
  multiRun ts m = Multi.set_driver (run ts (Multi.driver m)) m.
Proof.
  revert m. induction ts as [|t ts IH]; intros m H He Hts.
  - simpl. by rewrite set_driver_same.
  - inversion Hts; subst. simpl.
    rewrite multi_update_unfold by apply (minv_anim m H). rewrite He. cbn [andb].
    destruct (driver_step_keeps t m H) as (H' & _); [done|].
    rewrite IH by done. by rewrite driver_set_driver, set_driver_set_driver.
Qed.

(** With multiplexing disabled the display is dark and stays dark: all
    select lines are inactive after [disableMultiplex] and after any number
    of calls of [update], no slot is selected, and the driver goes on running
    its own queue. *)
Theorem disabled_multiplexer_stays_dark (m : Multi.NJU3711_7Segment_Multi)
  (ts : list Z) :
  MultiReachable m -> Forall is_u32 ts ->
  Multi.isMultiplexing (multiRun ts (Multi.disableMultiplex m)) = false /\
  activeLines (multiRun ts (Multi.disableMultiplex m)) = [] /\
  selections (multiRun ts (Multi.disableMultiplex m)) = selections m /\
  Multi.driver (multiRun ts (Multi.disableMultiplex m))
  = run ts (Multi.driver (Multi.disableMultiplex m)).
Proof.
  intros Hr Hts. pose proof (MultiReachable_Inv m Hr) as H.
  pose proof (MultiInv_enableMultiplex false m H) as H0.
  change (Multi.enableMultiplex false m) with (Multi.disableMultiplex m) in H0.
  assert (Multi._multiplexEnabled (Multi.disableMultiplex m) = false) as He.
  { unfold Multi.disableMultiplex, Multi.enableMultiplex. cbv zeta. cbn [negb].
    by rewrite deselectAllDigits_eq. }
  destruct (deselectAllDigits_observe (Multi.mux_set_multiplexEnabled false m))
    as [A0 S0]; [apply (MultiInv_set_multiplexEnabled false m H)|].
  change (Multi.deselectAllDigits (Multi.mux_set_multiplexEnabled false m))
    with (Multi.disableMultiplex m) in A0, S0.
  change (selections (Multi.mux_set_multiplexEnabled false m)) with (selections m) in S0.
  rewrite disabled_run by done.
  destruct (run_writes_driver_pins ts (Multi.driver (Multi.disableMultiplex m)))
    as [Hw _]; [apply H0|done|].
  destruct (observe_driver_writes (Multi.disableMultiplex m) _ (minv_pins _ H0) Hw)
    as [A S].
  split_and!.
  - exact He.
  - rewrite <- A0. by apply activeLines_ext.
  - by rewrite S.
  - by rewrite driver_set_driver.
Qed.

Lemma disabled_multiplexer_stays_dark_witness :
  activeLines (multiRun (ticks 100 50000 2000)
                 (Multi.disableMultiplex (multiRun (ticks 46 2000 2000) display3))) = [] /\
  activeLines (multiRun (ticks 46 2000 2000) display3) = [1].
Proof.
  destruct (disabled_multiplexer_stays_dark (multiRun (ticks 46 2000 2000) display3)
              (ticks 100 50000 2000)) as (_ & Hdark & _).
  - apply MultiReachable_run; [|apply Forall_ticks; lia].
    do 3 apply mreach_setDigitRaw.
    apply mreach_begin; [|unfold is_u32; lia|reflexivity].
    apply mreach_new6. apply (bool_decide_unpack _). vm_compute. exact I.
  - apply Forall_ticks; lia.
  - split; [exact Hdark|vm_compute; reflexivity].
Defined.

Lemma multiplex_idle_wait now m :
  Multi._mplexState m = Multi.MPLEX_IDLE ->
  u32 (now - Multi._lastMultiplexTime m) < Multi._multiplexDelay m ->
  Multi.multiplexDisplay now m = m.
Proof.
  intros Hst Hlt. unfold Multi.multiplexDisplay. rewrite Hst. cbv zeta.
  destruct (Z.leb_spec (Multi._multiplexDelay m) (u32 (now - Multi._lastMultiplexTime m)));
    [lia|done].
Qed.

Lemma showing_step now m :
  MultiInv m -> showingDigit m -> is_u32 now ->
  u32 (now - Multi._lastMultiplexTime m) < Multi._multiplexDelay m ->
  MultiInv (Multi.update now m) /\ showingDigit (Multi.update now m) /\
  Multi._lastMultiplexTime (Multi.update now m) = Multi._lastMultiplexTime m /\
  Multi._multiplexDelay (Multi.update now m) = Multi._multiplexDelay m /\
  activeLines (Multi.update now m) = activeLines m /\
  selections (Multi.update now m) = selections m /\
  Multi._currentDigit (Multi.update now m) = Multi._currentDigit m.
Proof.
  intros H Hsh Hnow Hlt.
  destruct (multi_update_step now m H Hnow) as [H' _]. split; [done|]. clear H'.
  destruct (driver_step_keeps now m H Hnow) as (_ & S & A).
  rewrite multi_update_unfold by apply (minv_anim m H).
  set (m1 := Multi.set_driver (update now (Multi.driver m)) m) in *.
  destruct (_ && _); [|done].
  destruct Hsh as [Hst|Hst].
  - rewrite multiplex_idle_wait; [by split_and!; try left|done|done].
  - rewrite multiplex_display by done. split_and!; try done. by left.
Qed.

(** A digit stays lit for the multiplex delay: between two refreshes, calls
    of [update] made before the multiplex delay has passed since the digit
    was selected change no select line, select nothing and leave the current
    slot as it is. *)
Theorem digit_stays_lit_for_multiplex_delay (m : Multi.NJU3711_7Segment_Multi)
  (ts : list Z) :
  MultiReachable m -> showingDigit m ->
  Forall (fun t => is_u32 t /\
                   u32 (t - Multi._lastMultiplexTime m) < Multi._multiplexDelay m) ts ->
  showingDigit (multiRun ts m) /\
  activeLines (multiRun ts m) = activeLines m /\
  selections (multiRun ts m) = selections m /\
  Multi._currentDigit (multiRun ts m) = Multi._currentDigit m.
Proof.
  intros Hr. pose proof (MultiReachable_Inv m Hr) as H. clear Hr.
  revert m H. induction ts as [|t ts IH]; intros m H Hsh Hts; [done|].
  inversion Hts as [|? ? [Ht Hlt] Hrest]; subst.
  destruct (showing_step t m H Hsh Ht Hlt) as (H1 & Hsh1 & Hl1 & Hd1 & A1 & S1 & C1).
  simpl. destruct (IH (Multi.update t m) H1 Hsh1) as (Hsh2 & A2 & S2 & C2).
  - rewrite Hl1, Hd1. done.
  - split_and!; congruence.
Qed.

Lemma digit_stays_lit_for_multiplex_delay_witness :
  activeLines (multiRun (ticks 19 88010 100) (multiRun (ticks 44 2000 2000) display3))
  = activeLines (multiRun (ticks 44 2000 2000) display3) /\
  activeLines (multiRun (ticks 44 2000 2000) display3) = [1].
Proof.
  destruct (digit_stays_lit_for_multiplex_delay (multiRun (ticks 44 2000 2000) display3)
              (ticks 19 88010 100)) as (_ & Hlit & _).
  - apply MultiReachable_run; [|apply Forall_ticks; lia].
    do 3 apply mreach_setDigitRaw.
    apply mreach_begin; [|unfold is_u32; lia|reflexivity].
    apply mreach_new6. apply (bool_decide_unpack _). vm_compute. exact I.
  - vm_compute. by right.
  - assert (Multi._lastMultiplexTime (multiRun (ticks 44 2000 2000) display3) = 88000)
      as -> by (vm_compute; reflexivity).
    assert (Multi._multiplexDelay (multiRun (ticks 44 2000 2000) display3) = 2000)
      as -> by (vm_compute; reflexivity).
    let l := eval vm_compute in (ticks 19 88010 100) in
    change (ticks 19 88010 100) with l.
    repeat (constructor; [split; [unfold is_u32; lia|vm_compute; reflexivity]|]).
    constructor.
  - split; [exact Hlit|vm_compute; reflexivity].
Defined.
